(* ===== verification/_CoqProject ===== *)
-Q . S2P
Prelude.v
Random.v
Torus.v
Rules.v
Floats64.v
Engine.v
EngineInv.v
EngineStep.v
Extension2.v
Construction.v
Peaks.v
V45.v
V55.v
Placement.v
V55Run.v
Scenarios.v
Refinement.v
