(* ===== verification/Prelude.v ===== *)
(** * A verification development for the civil-unrest grid simulation

    The repository (Mirrorgo/netlogo-a2) is a Python re-implementation of
    the NetLogo "Rebellion" model (Epstein's civil violence model): agents
    on a 40x40 torus become active (rebel) or stay quiet, cops patrol and
    jail active agents.  It exists as several near-identical scripts:

    - [src/scripts/extension1/extension1.py]: grid-backed single-occupancy
      engine, random processing order, random jail terms, and hardship
      adjusted by the neighbours' hardship (the "neighbour influence"
      extension);
    - [src/scripts/replication/rep2.py]: the same engine with a fixed jail
      term of 1000 ticks and a decaying government legitimacy;
    - [src/scripts/extension2/extension2.py]: the same engine with a fixed
      jail term, a cop count column, and one cop removed every tick;
    - [src/src/model_v4_lc_extension2.py]: an earlier copy of extension1;
    - [src/src/model_v5.5_lwz copy.py]: a variant whose grid holds two
      boolean flags per cell instead of a reference to the occupant;
    - [src/src/model_v4.5_lwz.py]: a variant with no grid at all, which
      scans the entity list and moves by rejection sampling.

    The parts of the program and how they interact:
    the spatial index ([compute_neighborhoods], [is_neighbor]) is read by
    every operation; the entity store ([Turtle] objects, the [entities]
    list and the [grid], which holds references to the same objects) is
    mutated by the step engine ([step], [move_agent], [determine_behavior],
    [enforce], [compute_adjusted_hardship]); the behaviour rules (grievance,
    arrest probability, the activation threshold) are pure arithmetic; the
    random source (CPython's [random.choice], [random.randint],
    [random.shuffle]) is threaded through all of them; the statistics sink
    is the [data] dictionary of three lists.

    Files of this development, in dependency order:

    - [Prelude] (this file): the Python exception values, the
      state-and-exception monad [ST] with its [let*] notation in
      [st_scope], the loop combinator [st_iter] with its invariant and
      progress lemmas, the tactics [st_inv] and [st_run], and the hint
      database [unrest].
    - [Random]: the random source as a type class ([RandomSource]) whose
      only primitive is CPython's [_randbelow]; [choice], [randint] and
      [shuffle] are translated from CPython's [random.py] (they are library
      code the repository calls, modelled from its documented algorithm).
      Theorems: [shuffle] returns a permutation of its input and never
      fails under the class law; [choice] returns a member.  A second
      class [Genrand] gives the 32-bit outputs of the Mersenne Twister,
      from which [random_bits] builds [random.random()] as CPython does
      ([(a >> 5) * 2^26 + (b >> 6)] over [2^53]); its result is below
      [2^53].  [sample1] is [random.sample] of one element, which
      raises [ValueError] on an empty population.
    - [Torus]: the spatial index.  [neighborhood] is one cell's list of
      [compute_neighborhoods] (Euclidean disk, toroidal wrap with Python's
      floored [%], which is [Z.modulo]); [compute_neighborhoods] builds the
      whole table; [is_neighbor] is the Chebyshev test of model_v4.5.
      Theorems: every neighbour is in bounds; a cell is its own neighbour;
      membership characterisation and symmetry; the table agrees with
      [neighborhood]; the disk is included in the Chebyshev box and, for
      [1 <= vision] and [2*vision] below both sides, misses its diagonal
      corner [(x - vision, y - vision)]; no duplicates when [2*vision] is
      below both sides, and duplicates whenever [width <= 2*vision] (the
      code never checks this).
    - [Rules]: the behaviour rules over an abstract floating-point
      interface [Arith] (the operations the Python code applies to floats),
      with its real-number instance [R_arith].  Theorems on the real
      instance: the floor in the arrest probability (the spec's boundary
      cases), range and monotonicity of the probability, the activation
      threshold, the weights of the adjusted hardship ([p = 0] keeps the
      agent's hardship, [p = 1] takes the neighbours' average, monotone in
      both for [0 <= p <= 1]), the legitimacy decay of rep2 going below
      zero.  [ntrunc]
      is Python's [int()] of a float, which raises on nan and infinity.
    - [Floats64]: the [Arith] instance [F_arith] on Rocq's primitive
      binary64 floats, which are CPython's floats; [math.exp] is exact at
      0 and a parameter elsewhere; [float_trunc] is [int()] on the bits
      of the float.  Theorem: rep2's legitimacy after 200
      and 201 decays, bit for bit as Python computes it.
    - [Engine]: the grid-backed engine of extension1/rep2/extension2 as a
      state-passing program over [World] (the [Model] fields plus the
      generator state).  The heap [turtles] maps an [agent_id] to its
      [Turtle] record, [entities] and [grid] hold ids, which models the
      aliasing of the Python object references.  Its methods are
      [move_agent], [estimate_arrest_probability], [determine_behavior],
      [enforce], [act] (one turn of the loop body) and
      [compute_adjusted_hardship]; the scripts' differences are the fields
      of a [Variant] (jail term policy, hardship source).
    - [EngineInv]: the well-formedness invariant [wf] (positions in
      bounds, no cop active or jailed, no jailed agent active, every grid
      entry names an entity standing there) and one specification lemma
      per method: from a well-formed state it does not raise and keeps
      [wf].  The method contracts: a free entity's move lands on a cell of
      its neighbourhood that is empty or holds only jailed entities, and
      when the mover's old cell showed another (jailed) entity, that entity
      is no longer on the grid; [enforce] jails an active agent in view and
      moves the cop onto it, and raises [ValueError] when an agent is in
      view and [max_jail_term] is negative; the hardships averaged for an
      agent include its own.
    - [EngineStep]: [count_states], the shuffled loop of turns and the
      [step] of extension1 and rep2.  Theorems: a tick never raises on a
      well-formed state and ends in one; its appended counts add up to the
      number of agents; a jailed agent's term drops by exactly one.
    - [Extension2]: the [step] of extension2.py, which removes the first
      cop of [entities] each tick.  Theorem: after [n] ticks the agents are
      unchanged, there are [n] fewer cops, and the cop series receives the
      counts before each removal.
    - [V45] (Module [V45]): model_v4.5, with an entity list and no grid.
      Theorems: the counts of a tick add up to the number of agents; a
      returning move never stays in place; with vision 0 the move never
      returns; a concrete tick counts an agent active and then jails it.
    - [V55] (Module [V55]): model_v5.5, whose grid holds two flags per
      cell.  Theorems: the contract of [enforce] (it takes any entity of
      [entities[:num_agents]] on a flagged cell) and the characterisation
      of the entities it collects; [determine_behavior]
      never clears a flag; a concrete tick re-arrests a jailed agent.
    - [Construction]: the three [Model.__init__] (density check raising
      [ValueError] above 100%, [int(density / 100 * 1600)] counts,
      [create_entities] drawing [random.random()] twice per agent, and the
      rejection loop of [place_entity_randomly], whose
      [self.grid[x][y]] is Python's list indexing: a negative index counts
      from the end and one out of range raises [IndexError]) and the
      module-level
      drivers of extension1, rep2 and extension2.  Theorems: a successful
      construction of extension1 builds a well-formed model with the
      requested numbers of agents and cops, each on its own cell; it
      raises only [ValueError] on the densities or [LoopBound] in the
      placement loop; densities that fill the grid leave the loop without
      an exit; the experiment of extension1 in binary64 runs its 200
      ticks with every count adding up to 1120.
    - [Peaks]: the driver of model_v4_lc_extension2 (500 ticks per run,
      [analyze_peaks], the sweep over eleven influence values threading
      one generator) and the peak scan [_local_maxima_1d] of scipy's
      [find_peaks], library code modelled from its source.  Theorems: the
      scan terminates within its fuel and equals a declarative reference
      (plateaus between a strict rise and a strict fall, by midpoint); the
      sweep in binary64 either raises [LoopBound] because a construction's
      placement loop never exits, or returns, for each influence value, the
      mean peak height of a 500-tick run of the experiment.
    - [Placement]: the constructors of model_v4.5 and model_v5.5, whose
      [place_entities_randomly] samples without replacement
      ([random.sample(positions, 1)[0]], then [positions.remove]) through
      the shared loop [place_all], and model_v4.5's module-level run.
      Theorems: the positions list enumerates the grid by [x * H + y]
      (round trip); when the counts fit in the 1600 cells the
      constructors return the agents then the cops, typed as the methods
      read them, quiet, on distinct cells, with model_v5.5's flag grid in
      step with its cops; model_v5.5's constructor raises exactly the
      check's and [int()]'s exceptions, or [ValueError] from
      [random.sample] when the counts exceed the grid.
    - [V55Run]: the script of model_v5.5 ([Model(70, 3, 7, 2.3, 0.3,
      30)], then 200 calls of [step]) and the invariant [ok55] that rules
      out the five raise sites of a tick (a cell missing from the
      neighbourhood table or from the flag grid, a [None] grievance or
      risk aversion, a negative bound for [randint]).  Theorems: each
      method keeps [ok55]; a tick from [ok55] returns and appends one
      count per series; the constructor builds an [ok55] state; so the
      script returns for every generator and every [math.exp], with 1168
      entities and 201 counts in each of the three series it plots,
      every quiet/jailed/active triple adding up to the 1120 agents.
    - [Scenarios]: concrete states of the grid engine on a 5x5 torus, the
      witnesses of the engine's theorems, and the runs that show the
      occupancy desynchronisation (a released agent erases the cop standing
      on its cell) and the [ValueError] of a negative [max_jail_term].
    - [Refinement]: the per-agent status machine of the spec as a step
      relation on the map of statuses ([turn_step]: a jailed entity serves
      one tick, a free agent decides, a cop arrests at most one active
      entity for at most [max_jail_term] ticks) and [tick_steps], the turns
      of a list of entities in order.  Theorem: a tick of extension1 from a
      well-formed state returns, and there is a permutation of the entity
      list whose turns in the machine take the statuses before the tick to
      the statuses after it.

    Numbers.  Cell coordinates and the wrap-around are [Z] with
    [Z.modulo] (Python's [%] floors like [Z.modulo]).  Counters and jail
    terms are [nat]: the code only decrements a jail term when it is
    positive and only draws it from [randint(0, max)]; [max_jail_term]
    itself is a [Z], and a negative one makes [randint] raise.  Python
    floats appear only through the [Arith] interface; the engine's
    theorems hold for every instance, the arithmetic theorems are proved
    for the real numbers, which is the reading of the spec, and the
    concrete runs of [V45], [V55] and [Floats64] use binary64.

    Randomness.  The generator is a state [G] of a [RandomSource]; all
    draws go through [_randbelow], so a run is a function of the initial
    generator state (the reproducibility the spec asks for holds by
    construction).  Concrete runs use the [Tape] generator, which replays
    a list of draws.

    Fuel.  The only unbounded loop is the [while True] rejection loop of
    model_v4.5's [move_agent]; it runs at most [move_fuel] rounds (a
    section variable) and raises [LoopBound] after that.  The theorems
    hold for every fuel: the move that returns never stays in place, and
    at vision 0 it raises [LoopBound] for every fuel, which is the loop
    not terminating.  The driver loop [for _ in range(n)] is [run_ticks n].
    The [while True] loop of [place_entity_randomly] runs at most
    [place_fuel] rounds; when the grid is full it raises [LoopBound] for
    every fuel, which is the loop not terminating, and otherwise the
    theorems state their result for every fuel with [LoopBound] as the
    one other outcome.  The two [while] loops of the peak scan get the
    fuel [len(x)]: each round advances an index below [len(x) - 1], so
    that fuel is never exhausted (proved).  model_v5.5 has no unbounded loop:
    its move draws once with [random.choice], and its script terminates
    without exception (proved in [V55Run]).

    Not modelled (see PROJECT.json): plotting and CSV export (pure I/O,
    which only reads the series), and the Mersenne Twister update behind
    the two generator classes, which is library code: every theorem
    holds for any generator.  The [Model]
    class of model_v4_lc_extension2 is extension1's (it differs in
    comments and indentation only) and is modelled once, by [Engine],
    [EngineStep] and [Construction].  Likewise the methods that rep2.py
    and extension2.py copy from extension1 ([compute_neighborhoods],
    [move_agent], [estimate_arrest_probability], [determine_behavior],
    [enforce]) are the one [Engine] definition each, with the jail term
    and the hardship read as fields of the [Variant].

    Plan for the next versions: the refinement of model_v5.5's flag
    engine against the status machine of [Refinement], and the run of
    model_v4.5's script, whose rejection-sampling move needs a bound on
    the occupied cells of a neighbourhood to return within its fuel. *)

From Stdlib Require Export ZArith List Lia Permutation Finite.
From stdpp Require Export base list gmap fin_maps.

Create HintDb unrest.
Create Rewrite HintDb unrest_rw.

(** ** Python exceptions *)

(** The exceptions the modelled code can raise.  Two are not Python
    exceptions: [DanglingRef] is the result of following an id that the
    heap does not hold, which the Python code cannot do (an object
    reference never dangles) and which the invariant of [Engine] excludes;
    [LoopBound] is the result of a [while True] loop of the source that
    has not exited after the number of iterations the model allows, i.e.
    a loop the Python program would still be running; [OverflowError]
    is [int()] of an infinite float. *)
Inductive PyError :=
| ValueError
| IndexError
| TypeError
| DanglingRef
| LoopBound
| OverflowError.

#[export] Instance PyError_eq_dec : EqDecision PyError.
Proof. solve_decision. Defined.

(** The result of running a piece of code: a value or a raised exception. *)
Inductive outcome (A : Type) :=
| Ok (v : A)
| Exc (e : PyError).
Arguments Ok {A} v.
Arguments Exc {A} e.

(** ** The state-and-exception monad *)

Definition ST (S A : Type) : Type := S -> outcome (A * S).

Definition st_ret {S A} (a : A) : ST S A := fun s => Ok (a, s).

Definition st_bind {S A B} (m : ST S A) (k : A -> ST S B) : ST S B :=
  fun s => match m s with
           | Ok (a, s1) => k a s1
           | Exc e => Exc e
           end.

Definition st_raise {S A} (e : PyError) : ST S A := fun _ => Exc e.
Definition st_get {S} : ST S S := fun s => Ok (s, s).
Definition st_gets {S A} (f : S -> A) : ST S A := fun s => Ok (f s, s).
Definition st_modify {S} (f : S -> S) : ST S unit := fun s => Ok (tt, f s).

(** A lookup that raises [e] when it finds nothing. *)
Definition st_lift {S A} (e : PyError) (o : option A) : ST S A :=
  fun s => match o with Some a => Ok (a, s) | None => Exc e end.

(** A value of [outcome], raised when it is an exception. *)
Definition of_outcome {S X} (o : outcome X) : ST S X :=
  fun s => match o with Ok x => Ok (x, s) | Exc e => Exc e end.

Declare Scope st_scope.
Delimit Scope st_scope with st.
Notation "'let*' x ':=' m 'in' k" := (st_bind m (fun x => k))
  (at level 100, x name, m at level 99, right associativity) : st_scope.
Notation "'ret' a" := (st_ret a) (at level 10) : st_scope.
Open Scope st_scope.

(** The loop [for x in l: f(x)]. *)
Fixpoint st_iter {S X} (f : X -> ST S unit) (l : list X) : ST S unit :=
  match l with
  | [] => ret tt
  | x :: l' => let* _ := f x in st_iter f l'
  end.

(** The loop [for x in l: acc = f(x, acc)], threading an accumulator. *)
Fixpoint st_fold {S X B} (f : X -> B -> ST S B) (l : list X) (b : B) : ST S B :=
  match l with
  | [] => ret b
  | x :: l' => let* b' := f x b in st_fold f l' b'
  end.

(** The state after a run, or the given one after an exception: how a
    concrete run names its final state. *)
Definition after {S X} (o : outcome (X * S)) (s : S) : S :=
  match o with Ok (_, s') => s' | Exc _ => s end.

(** Whether a run returned. *)
Definition is_ok {X} (o : outcome X) : bool := match o with Ok _ => true | Exc _ => false end.

Lemma is_ok_Ok {X} (o : outcome X) (d : X) :
  is_ok o = true -> o = Ok (match o with Ok x => x | Exc _ => d end).
Proof. destruct o; [reflexivity | discriminate]. Qed.

(** A run of a statement that returned ends in the state [after] names:
    a concrete run is checked by computing [is_ok], without writing out
    the state it reaches. *)
Lemma ok_after {S} (o : outcome (unit * S)) s : is_ok o = true -> o = Ok (tt, after o s).
Proof. destruct o as [[[] s']|e]; [reflexivity | discriminate]. Qed.

(** The driver loop of the scripts: [for _ in range(n): model.step()]. *)
Fixpoint run_ticks {S} (step : ST S unit) (n : nat) : ST S unit :=
  match n with
  | 0 => ret tt
  | S n' => let* _ := step in run_ticks step n'
  end.

(** Inversion of a successful bind. *)
Lemma st_bind_Ok {S A B} (m : ST S A) (k : A -> ST S B) s r :
  st_bind m k s = Ok r <-> exists a s1, m s = Ok (a, s1) /\ k a s1 = Ok r.
Proof.
  unfold st_bind. split.
  - destruct (m s) as [[a s1]|e]; [eauto | discriminate].
  - intros (a & s1 & -> & H). exact H.
Qed.

Lemma st_bind_of_Ok {S A B} (m : ST S A) (k : A -> ST S B) s a s1 :
  m s = Ok (a, s1) -> st_bind m k s = k a s1.
Proof. unfold st_bind. intros ->. reflexivity. Qed.

Lemma st_bind_Exc {S X Y} (m : ST S X) (k : X -> ST S Y) s e :
  m s = Exc e -> st_bind m k s = Exc e.
Proof. unfold st_bind. intros ->. reflexivity. Qed.

(** Inversion of a bind that raised: the first program raised, or it
    returned and the continuation raised. *)
Lemma st_bind_Exc_inv {S A B} (m : ST S A) (k : A -> ST S B) s e :
  st_bind m k s = Exc e ->
  m s = Exc e \/ exists a s1, m s = Ok (a, s1) /\ k a s1 = Exc e.
Proof. unfold st_bind. destruct (m s) as [[a s1]|e']; intros H; [eauto | left; congruence]. Qed.

(** Destructs every successful bind among the hypotheses. *)
Ltac st_inv :=
  repeat match goal with
  | H : st_bind _ _ _ = Ok _ |- _ =>
      apply st_bind_Ok in H; destruct H as (? & ? & ? & H)
  | H : st_ret _ _ = Ok _ |- _ =>
      unfold st_ret in H; first [injection H as <- <- | injection H as <-]
  | H : st_gets _ _ = Ok _ |- _ => unfold st_gets in H; injection H as <- <-
  | H : st_get _ = Ok _ |- _ => unfold st_get in H; injection H as <- <-
  | H : st_modify _ _ = Ok _ |- _ =>
      unfold st_modify in H; first [injection H as <- <- | injection H as <-]
  | H : st_raise _ _ = Ok _ |- _ => discriminate H
  | u : unit |- _ => destruct u
  | H : st_lift _ ?o _ = Ok _ |- _ =>
      let E := fresh "E" in
      unfold st_lift in H; destruct o eqn:E; [injection H as <- <- | discriminate H]
  | H : of_outcome ?o _ = Ok _ |- _ =>
      let E := fresh "E" in
      unfold of_outcome in H; destruct o eqn:E; [injection H as <- <- | discriminate H]
  end.

(** Runs the successful binds of the goal forward. *)
Ltac st_run :=
  repeat match goal with
  | H : ?m ?s = Ok (?a, ?s1) |- context [st_bind ?m _ ?s] =>
      rewrite (st_bind_of_Ok _ _ _ _ _ H)
  end.

Section Iter.
Context {S X : Type} (f : X -> ST S unit) (P : S -> Prop).

(** An invariant kept by every iteration is kept by the loop. *)
Lemma st_iter_inv (l : list X) :
  (forall x s s', In x l -> P s -> f x s = Ok (tt, s') -> P s') ->
  forall s s', P s -> st_iter f l s = Ok (tt, s') -> P s'.
Proof.
  induction l as [|x l IH]; simpl; intros Hf s s' Hs Hrun.
  - unfold st_ret in Hrun. congruence.
  - st_inv.
    eapply IH; [intros; eapply Hf; eauto | eapply Hf; eauto | eauto].
Qed.

(** If every iteration succeeds from a state of [P] and stays in [P],
    the loop succeeds. *)
Lemma st_iter_progress (l : list X) :
  (forall x s, In x l -> P s -> exists s', f x s = Ok (tt, s') /\ P s') ->
  forall s, P s -> exists s', st_iter f l s = Ok (tt, s') /\ P s'.
Proof.
  induction l as [|x l IH]; simpl; intros Hf s Hs.
  - exists s. split; [reflexivity | exact Hs].
  - destruct (Hf x s (or_introl eq_refl) Hs) as (s1 & H1 & HP1).
    rewrite (st_bind_of_Ok _ _ _ _ _ H1).
    apply IH; [intros; apply Hf; auto | exact HP1].
Qed.

(** The exceptions a loop raises are those its iterations raise from a
    state of the invariant. *)
Lemma st_iter_Exc (E : PyError -> Prop) (l : list X) :
  (forall x s s', In x l -> P s -> f x s = Ok (tt, s') -> P s') ->
  (forall x s e, In x l -> P s -> f x s = Exc e -> E e) ->
  forall s e, P s -> st_iter f l s = Exc e -> E e.
Proof.
  induction l as [|x l IH]; simpl; intros Hf HE s e Hs Hrun; [discriminate|].
  apply st_bind_Exc_inv in Hrun as [Hx | ([] & s1 & Hx & Hrun)]; [eauto|].
  eapply IH; [intros; eapply Hf; eauto | intros; eapply HE; eauto | eapply Hf; eauto | exact Hrun].
Qed.
End Iter.

(** A loop over [range(a, a + len)] with an invariant indexed by the
    loop counter: [P i] holds before iteration [i]. *)
Section IterSeq.
Context {St : Type} (f : nat -> ST St unit) (P : nat -> St -> Prop).

Lemma st_iter_seq_inv a len :
  (forall i s s', a <= i < a + len -> P i s -> f i s = Ok (tt, s') -> P (S i) s') ->
  forall s s', P a s -> st_iter f (seq a len) s = Ok (tt, s') -> P (a + len) s'.
Proof.
  revert a. induction len as [|len IH]; simpl; intros a Hf s s' Hs Hrun.
  - unfold st_ret in Hrun. injection Hrun as <-. by rewrite Nat.add_0_r.
  - st_inv. rewrite <- Nat.add_succ_comm.
    eapply (IH (S a)); [intros i s2 s3 Hi; exact (Hf i s2 s3 ltac:(lia)) |
                       eapply Hf; eauto; lia | exact Hrun].
Qed.

Lemma st_iter_seq_Exc (E : PyError -> Prop) a len :
  (forall i s s', a <= i < a + len -> P i s -> f i s = Ok (tt, s') -> P (S i) s') ->
  (forall i s e, a <= i < a + len -> P i s -> f i s = Exc e -> E e) ->
  forall s e, P a s -> st_iter f (seq a len) s = Exc e -> E e.
Proof.
  revert a. induction len as [|len IH]; simpl; intros a Hf HE s e Hs Hrun; [discriminate|].
  apply st_bind_Exc_inv in Hrun as [Hx | ([] & s1 & Hx & Hrun)]; [exact (HE a s e ltac:(lia) Hs Hx)|].
  eapply (IH (S a)); [intros i s2 s3 Hi; exact (Hf i s2 s3 ltac:(lia)) |
              intros i s2 e2 Hi; exact (HE i s2 e2 ltac:(lia)) |
              exact (Hf a s s1 ltac:(lia) Hs Hx) | exact Hrun].
Qed.
End IterSeq.

(** A loop over [l1 ++ l2] runs the loop over [l1], then over [l2]. *)
Lemma st_iter_app {S X} (f : X -> ST S unit) l1 l2 s :
  st_iter f (l1 ++ l2) s = st_bind (st_iter f l1) (fun _ => st_iter f l2) s.
Proof.
  revert s. induction l1 as [|x l1 IH]; intros s; simpl; [reflexivity|].
  unfold st_bind in *. destruct (f x s) as [[[] s1]|e]; [apply IH | reflexivity].
Qed.

(** ** Counting *)

(** [sum(1 for x in l if p(x))]. *)
Definition count_if {A} (p : A -> bool) (l : list A) : nat := length (List.filter p l).

Lemma count_if_cons {A} (p : A -> bool) x l :
  count_if p (x :: l) = (if p x then 1 else 0) + count_if p l.
Proof. unfold count_if. simpl. destruct (p x); reflexivity. Qed.

Lemma count_if_le {A} (p : A -> bool) l : count_if p l <= length l.
Proof. unfold count_if. apply List.filter_length_le. Qed.

Lemma count_if_ext {A} (p q : A -> bool) l :
  (forall x, In x l -> p x = q x) -> count_if p l = count_if q l.
Proof.
  intros H. unfold count_if. f_equal. apply List.filter_ext_in. exact H.
Qed.

Lemma count_if_map {A B} (p : B -> bool) (f : A -> B) l :
  count_if p (map f l) = count_if (fun x => p (f x)) l.
Proof. induction l as [|x l IH]; [reflexivity|]. simpl. rewrite !count_if_cons, IH. reflexivity. Qed.

Lemma count_if_app {A} (p : A -> bool) l1 l2 :
  count_if p (l1 ++ l2) = count_if p l1 + count_if p l2.
Proof. unfold count_if. by rewrite List.filter_app, length_app. Qed.

Lemma count_if_all {A} (p : A -> bool) l :
  (forall x, In x l -> p x = true) -> count_if p l = length l.
Proof.
  induction l as [|x l IH]; intros Hp; [reflexivity|].
  rewrite count_if_cons, (Hp x (or_introl eq_refl)), IH by (intros; apply Hp; right; done).
  reflexivity.
Qed.

Lemma count_if_none {A} (p : A -> bool) l :
  (forall x, In x l -> p x = false) -> count_if p l = 0.
Proof.
  induction l as [|x l IH]; intros Hp; [reflexivity|].
  rewrite count_if_cons, (Hp x (or_introl eq_refl)), IH by (intros; apply Hp; right; done).
  reflexivity.
Qed.

(** The indices [0 .. a+b-1] split at [a]. *)
Lemma count_if_seq_split (p : nat -> bool) a b :
  (forall i, i < a + b -> p i = (i <? a)) ->
  count_if p (seq 0 (a + b)) = a /\ count_if (fun i => negb (p i)) (seq 0 (a + b)) = b.
Proof.
  intros Hp. rewrite seq_app, !count_if_app.
  rewrite (count_if_all p (seq 0 a)), (count_if_none p (seq (0 + a) b)),
    (count_if_none (fun i => negb (p i)) (seq 0 a)),
    (count_if_all (fun i => negb (p i)) (seq (0 + a) b)), !length_seq; [lia|..];
    intros i Hi%in_seq; rewrite Hp by lia;
    first [apply Nat.ltb_lt; lia | apply Nat.ltb_ge; lia
          | rewrite (proj2 (Nat.ltb_lt _ _)) by lia; reflexivity
          | rewrite (proj2 (Nat.ltb_ge _ _)) by lia; reflexivity].
Qed.

(** Counting over the indices of a list is counting over the list. *)
Lemma count_if_seq_lookup {A} (p : A -> bool) (l : list A) :
  count_if (fun i => match l !! i with Some x => p x | None => false end)
    (seq 0 (length l)) = count_if p l.
Proof.
  induction l as [|x l IH]; [reflexivity|]. simpl length. cbn [seq].
  rewrite <- seq_shift, !count_if_cons, count_if_map, <- IH. reflexivity.
Qed.

#[export] Hint Resolve count_if_le : unrest.
#[export] Hint Rewrite @count_if_cons : unrest_rw.

(** ** Generic list facts *)

Lemma nth_error_In' {A} (l : list A) i x : nth_error l i = Some x -> In x l.
Proof. apply nth_error_In. Qed.

#[export] Hint Resolve nth_error_In' : unrest.
