(* ===== verification/Random.v ===== *)
(** * The random source: CPython's [random] module as the code uses it

    All the randomness of the simulation goes through the module-level
    functions of Python's [random]: [random.choice] (movement target,
    arrest target), [random.randint] (jail term), [random.shuffle]
    (processing order).  CPython implements the three on one primitive,
    [Random._randbelow(n)], which returns an integer of [0, n).  This file
    takes [_randbelow] as the single operation of a type class over a
    generator state [G], and translates [choice], [randrange]/[randint] and
    [shuffle] from CPython's [Lib/random.py] (library code the repository
    calls, modelled from its documented algorithm).  The operations run in
    the monad [ST G].  [random.random()], used by the constructors, is
    built by CPython from two 32-bit outputs of the Mersenne Twister; the
    class [Genrand] gives those outputs and [random_bits] combines them.
    [random.sample(positions, 1)], used by the constructors of model_v4.5
    and model_v5.5, is [sample1]: one [_randbelow] draw. *)

From S2P Require Import Prelude.

(** ** The generator interface *)

(** [randbelow n g] is [_randbelow(n)] drawn from state [g]. *)
Class RandomSource (G : Type) := randbelow : nat -> G -> nat * G.

(** The contract of [_randbelow]: for [n > 0] the result is below [n]. *)
Class RandomSourceOk (G : Type) `{RandomSource G} :=
  randbelow_lt : forall n g, 0 < n -> fst (randbelow n g) < n.

(** [genrand_uint32(g)]: one 32-bit output of the Mersenne Twister, the
    primitive under [random.random()]. *)
Class Genrand (G : Type) := genrand_uint32 : G -> Z * G.

Class GenrandOk (G : Type) `{Genrand G} :=
  genrand_uint32_range : forall g, (0 <= fst (genrand_uint32 g) < 2 ^ 32)%Z.

(** [random.random()] (CPython's [random_random]): [a = genrand >> 5]
    and [b = genrand >> 6] give the 53-bit integer [a * 2^26 + b]; the
    float returned is that integer times [2^-53], which every step of the
    C code computes exactly.  This definition returns the integer; the
    float is [nlit (k # 2^53)]. *)
Definition random_bits {G} `{Genrand G} : ST G Z :=
  fun g =>
    let '(a, g1) := genrand_uint32 g in
    let '(b, g2) := genrand_uint32 g1 in
    Ok ((Z.shiftr a 5 * 67108864 + Z.shiftr b 6)%Z, g2).

Section Random.
Context {G : Type} `{RandomSource G}.

Definition _randbelow (n : nat) : ST G nat :=
  fun g => let '(r, g') := randbelow n g in Ok (r, g').

(** [choice(seq)]: [IndexError] on an empty sequence, otherwise
    [seq[_randbelow(len(seq))]]. *)
Definition choice {A} (seq : list A) : ST G A :=
  match seq with
  | [] => st_raise IndexError
  | _ =>
      let* i := _randbelow (length seq) in
      match nth_error seq i with
      | Some x => ret x
      | None => st_raise IndexError
      end
  end.

(** [random.sample(population, 1)]: [ValueError] when the sample is
    larger than the population; otherwise both branches of CPython's
    [sample] draw [j = _randbelow(n)] once and return [[population[j]]]
    (the pool branch reads [pool[j]] of a fresh copy, the set branch
    [population[j]]). *)
Definition sample1 {A} (population : list A) : ST G (list A) :=
  let n := length population in
  if n <? 1 then st_raise ValueError
  else
    let* j := _randbelow n in
    match nth_error population j with
    | Some x => ret [x]
    | None => st_raise IndexError
    end.

(** [randrange(start, stop)]: [ValueError] on an empty range. *)
Definition randrange (start stop : Z) : ST G Z :=
  let width := (stop - start)%Z in
  if (0 <? width)%Z then
    let* r := _randbelow (Z.to_nat width) in ret (start + Z.of_nat r)%Z
  else st_raise ValueError.

(** [randint(a, b) = randrange(a, b + 1)]. *)
Definition randint (a b : Z) : ST G Z := randrange a (b + 1).

(** The tuple assignment [x[i], x[j] = x[j], x[i]]: both reads first
    ([IndexError] out of range), then [x[i]] is written, then [x[j]]. *)
Definition swap {A} (i j : nat) (x : list A) : option (list A) :=
  match x !! i, x !! j with
  | Some xi, Some xj => Some (<[j := xi]> (<[i := xj]> x))
  | _, _ => None
  end.

(** The loop of [shuffle] for [i] in [i0, i0-1, ..., 1]. *)
Fixpoint shuffle_down {A} (i : nat) (x : list A) : ST G (list A) :=
  match i with
  | 0 => ret x
  | S p =>
      let* j := _randbelow (S i) in
      match swap i j x with
      | Some x' => shuffle_down p x'
      | None => st_raise IndexError
      end
  end.

(** [shuffle(x)]: [for i in reversed(range(1, len(x)))]; the list is
    shuffled in place in Python, here the shuffled list is returned. *)
Definition shuffle {A} (x : list A) : ST G (list A) :=
  shuffle_down (length x - 1) x.
End Random.

(** ** Lemmas *)

(** Writing [y] over the [z] at index [i] trades [z] for [y]. *)
Lemma insert_Permutation {A} (l : list A) i z y :
  l !! i = Some z -> y :: l ≡ₚ z :: <[i := y]> l.
Proof.
  revert i. induction l as [|w l IH]; intros [|i] Hi; simplify_eq/=.
  - by constructor.
  - rewrite Permutation_swap. rewrite (IH i Hi). by constructor.
Qed.

Lemma swap_Permutation {A} (i j : nat) (x x' : list A) :
  swap i j x = Some x' -> x ≡ₚ x'.
Proof.
  unfold swap. destruct (x !! i) as [a|] eqn:Hi, (x !! j) as [b|] eqn:Hj;
    intros Hs; simplify_eq.
  assert (Hj' : <[i:=b]> x !! j = Some b).
  { destruct (decide (i = j)) as [->|Hne].
    - apply list_lookup_insert_eq. eapply lookup_lt_Some; eauto.
    - by rewrite list_lookup_insert_ne. }
  apply (Permutation_cons_inv (a := b)).
  rewrite (insert_Permutation x i a b Hi).
  by rewrite (insert_Permutation _ j b a Hj').
Qed.

Lemma swap_length {A} (i j : nat) (x x' : list A) :
  swap i j x = Some x' -> length x' = length x.
Proof. intros Hs. apply swap_Permutation in Hs. by rewrite Hs. Qed.

Section RandomLaws.
Context {G : Type} `{RandomSource G}.

Lemma _randbelow_spec n g r g' :
  _randbelow n g = Ok (r, g') -> randbelow n g = (r, g').
Proof.
  unfold _randbelow. destruct (randbelow n g). congruence.
Qed.

(** The element returned by [choice] is a member of the sequence. *)
Lemma choice_In {A} (l0 : list A) g x g' :
  choice l0 g = Ok (x, g') -> In x l0.
Proof.
  unfold choice. intros Hc. destruct l0 as [|a l]; st_inv.
  destruct (nth_error _ _) eqn:E; st_inv.
  eauto with unrest.
Qed.

Lemma choice_nil {A} g : choice (@nil A) g = Exc IndexError.
Proof. reflexivity. Qed.

(** The sample of one is one member of the population. *)
Lemma sample1_In {A} (l0 : list A) g s g' :
  sample1 l0 g = Ok (s, g') -> exists x, s = [x] /\ In x l0.
Proof.
  unfold sample1. intros Hs. destruct (length l0 <? 1); st_inv.
  destruct (nth_error _ _) eqn:E; st_inv. eauto with unrest.
Qed.

Lemma sample1_nil {A} g : sample1 (@nil A) g = Exc ValueError.
Proof. reflexivity. Qed.

(** [shuffle] only exchanges elements: its result is a permutation. *)
Lemma shuffle_down_Permutation {A} i (x : list A) g x' g' :
  shuffle_down i x g = Ok (x', g') -> x ≡ₚ x'.
Proof.
  revert x g. induction i as [|p IH]; simpl; intros x g Hs.
  - by st_inv.
  - st_inv. destruct (swap _ _ x) as [xs|] eqn:Hsw; [|discriminate].
    rewrite (swap_Permutation _ _ _ _ Hsw). eauto.
Qed.

Lemma shuffle_Permutation {A} (x : list A) g x' g' :
  shuffle x g = Ok (x', g') -> x ≡ₚ x'.
Proof. apply shuffle_down_Permutation. Qed.

Context `{!RandomSourceOk G}.

Lemma _randbelow_lt n g r g' :
  0 < n -> _randbelow n g = Ok (r, g') -> r < n.
Proof.
  intros Hn Hr. apply _randbelow_spec in Hr.
  pose proof (randbelow_lt n g Hn) as Hlt. rewrite Hr in Hlt. exact Hlt.
Qed.

Lemma randint_range a b g z g' :
  randint a b g = Ok (z, g') -> (a <= z <= b)%Z.
Proof.
  unfold randint, randrange. destruct (Z.ltb_spec 0 (b + 1 - a)); intros Hr;
    st_inv.
  match goal with H : _randbelow _ _ = Ok _ |- _ => apply _randbelow_lt in H end;
    lia.
Qed.

(** [randint(a, b)] with [a <= b] never raises and stays in [[a, b]]. *)
Lemma randint_Ok a b g :
  (a <= b)%Z -> exists z g', randint a b g = Ok (z, g') /\ (a <= z <= b)%Z.
Proof.
  intros Hab. unfold randint, randrange.
  destruct (Z.ltb_spec 0 (b + 1 - a)) as [_|]; [|lia].
  unfold st_bind, _randbelow. destruct (randbelow _ g) as [r g1] eqn:E.
  eexists _, g1. split; [reflexivity|].
  pose proof (randbelow_lt (Z.to_nat (b + 1 - a)) g ltac:(lia)) as Hlt.
  rewrite E in Hlt. simpl in Hlt. lia.
Qed.

(** [choice] of a non-empty sequence never raises. *)
Lemma choice_Ok {A} (l0 : list A) g :
  l0 <> [] -> exists x g', choice l0 g = Ok (x, g').
Proof.
  intros Hne. unfold choice, _randbelow, st_bind.
  destruct l0 as [|a l]; [congruence|].
  pose proof (randbelow_lt (length (a :: l)) g ltac:(simpl; lia)) as Hlt.
  destruct (randbelow _ g) as [r g1]. simpl in Hlt.
  destruct (nth_error (a :: l) r) eqn:E.
  - eauto.
  - apply nth_error_None in E. simpl in E. lia.
Qed.

(** [sample] of one from a non-empty population never raises. *)
Lemma sample1_Ok {A} (l0 : list A) g :
  l0 <> [] -> exists x g', sample1 l0 g = Ok ([x], g') /\ In x l0.
Proof.
  intros Hne. destruct l0 as [|a l]; [congruence|]. unfold sample1.
  rewrite (proj2 (Nat.ltb_ge _ _)) by (simpl; lia). unfold _randbelow, st_bind.
  pose proof (randbelow_lt (length (a :: l)) g ltac:(simpl; lia)) as Hlt.
  destruct (randbelow _ g) as [r g1]. simpl in Hlt.
  destruct (nth_error (a :: l) r) eqn:E.
  - exists a0, g1. split; [reflexivity|]. eauto with unrest.
  - apply nth_error_None in E. simpl in E. lia.
Qed.

(** [shuffle] never raises. *)
Lemma shuffle_down_Ok {A} i (x : list A) g :
  i < length x \/ i = 0 -> exists x' g', shuffle_down i x g = Ok (x', g').
Proof.
  revert x g. induction i as [|p IH]; simpl; intros x g Hi.
  - eauto.
  - unfold st_bind, _randbelow.
    pose proof (randbelow_lt (S (S p)) g ltac:(lia)) as Hlt.
    destruct (randbelow _ g) as [j g1]. simpl in Hlt.
    destruct Hi as [Hi|]; [|lia].
    unfold swap.
    destruct (lookup_lt_is_Some_2 x (S p) Hi) as [xi ->].
    destruct (lookup_lt_is_Some_2 x j ltac:(lia)) as [xj ->].
    apply IH. left. rewrite length_insert, length_insert. lia.
Qed.

Lemma shuffle_Ok {A} (x : list A) g :
  exists x' g', shuffle x g = Ok (x', g').
Proof. apply shuffle_down_Ok. destruct x; simpl; lia. Qed.
End RandomLaws.

(** The 53-bit integer of [random()] is below [2^53]: the float
    [k * 2^-53] lies in [[0, 1)]. *)
Lemma random_bits_range {G} `{GenrandOk G} g k g' :
  random_bits g = Ok (k, g') -> (0 <= k < 2 ^ 53)%Z.
Proof.
  unfold random_bits. pose proof (genrand_uint32_range g) as Ha.
  destruct (genrand_uint32 g) as [a g1] eqn:E1.
  pose proof (genrand_uint32_range g1) as Hb.
  destruct (genrand_uint32 g1) as [b g2]. simpl in *. intros Hk. injection Hk as <- _.
  rewrite !Z.shiftr_div_pow2 by lia.
  assert (0 <= a / 2 ^ 5 < 2 ^ 27)%Z by (split; [apply Z.div_pos | apply Z.div_lt_upper_bound]; lia).
  assert (0 <= b / 2 ^ 6 < 2 ^ 26)%Z by (split; [apply Z.div_pos | apply Z.div_lt_upper_bound]; lia).
  lia.
Qed.


(** ** A replayable generator *)

(** A generator that replays a list of draws, reduced modulo the bound,
    then draws 0: it makes concrete runs of the model computable. *)
Definition Tape : Type := list nat.

#[export] Instance tape_source : RandomSource Tape := fun n g =>
  match g with
  | [] => (0, [])
  | x :: g' => (Nat.modulo x n, g')
  end.

#[export] Instance tape_source_ok : RandomSourceOk Tape.
Proof. intros n [|x g] Hn; simpl; [lia | apply Nat.mod_upper_bound; lia]. Qed.

(** The same tape read as 32-bit outputs. *)
#[export] Instance tape_genrand : Genrand Tape := fun g =>
  match g with
  | [] => (0%Z, [])
  | x :: g' => ((Z.of_nat x mod 2 ^ 32)%Z, g')
  end.

#[export] Instance tape_genrand_ok : GenrandOk Tape.
Proof. intros [|x g]; simpl; [lia | apply Z.mod_pos_bound; lia]. Qed.
