(* ===== verification/Torus.v ===== *)
(** * The spatial index: toroidal neighbourhoods

    [compute_neighborhoods] of extension1.py (lines 49-60; identical in
    rep2.py, extension2.py and the two [src/src] copies) precomputes, for
    each cell [(x, y)] of the [width] x [height] torus, the list of cells
    [((x + dx) % width, (y + dy) % height)] for the offsets of the square
    [-vision..vision] that lie in the Euclidean disk [dx**2 + dy**2 <=
    vision**2], in the order of the two nested loops.  [neighborhood] is
    that list for one cell, [compute_neighborhoods] the table.  Python's
    [%] on integers rounds the quotient down, as [Z.modulo] does.
    [is_neighbor] is the Chebyshev test with toroidal distance of
    model_v4.5 (lines 119-124). *)

From S2P Require Import Prelude.

Definition cell : Type := (Z * Z)%type.

Local Open Scope Z_scope.

(** [range(a, b)] of Python. *)
Definition py_range (a b : Z) : list Z :=
  map (fun i => a + Z.of_nat i) (seq 0 (Z.to_nat (b - a))).

(** The neighbourhood list of one cell: the body of the two inner loops
    of [compute_neighborhoods]. *)
Definition neighborhood (width height vision : Z) (c : cell) : list cell :=
  let '(x, y) := c in
  flat_map (fun dx =>
    flat_map (fun dy =>
      if dx ^ 2 + dy ^ 2 <=? vision ^ 2
      then [((x + dx) mod width, (y + dy) mod height)]
      else [])
      (py_range (- vision) (vision + 1)))
    (py_range (- vision) (vision + 1)).

(** The table [self.neighborhoods[x][y]], as a finite map from cells:
    the outer loops over [x in range(width)] and [y in range(height)]. *)
Definition compute_neighborhoods (width height vision : Z) : gmap cell (list cell) :=
  fold_left (fun m x =>
    fold_left (fun m y => <[(x, y) := neighborhood width height vision (x, y)]> m)
      (py_range 0 height) m)
    (py_range 0 width) ∅.

(** [is_neighbor(x, y, j, k)] of model_v4.5. *)
Definition is_neighbor (width height vision x y j k : Z) : bool :=
  let dx := Z.abs (x - j) in
  let dy := Z.abs (y - k) in
  let distance_x := Z.min dx (width - dx) in
  let distance_y := Z.min dy (height - dy) in
  (distance_x <=? vision) && (distance_y <=? vision).

(** A cell of the grid: the valid indices of [grid[x][y]]. *)
Definition in_bounds (width height : Z) (c : cell) : Prop :=
  0 <= c.1 < width /\ 0 <= c.2 < height.

#[export] Instance in_bounds_dec width height c : Decision (in_bounds width height c).
Proof. unfold in_bounds. solve_decision. Defined.

(** ** Generic lemmas *)

Lemma In_py_range a b z : In z (py_range a b) <-> a <= z < b.
Proof.
  unfold py_range. rewrite in_map_iff. split.
  - intros (i & <- & Hi). apply in_seq in Hi. lia.
  - intros Hz. exists (Z.to_nat (z - a)). rewrite in_seq. lia.
Qed.

Lemma py_range_NoDup a b : NoDup (py_range a b).
Proof.
  unfold py_range. apply NoDup_ListNoDup, Finite.Injective_map_NoDup; [|apply seq_NoDup].
  intros i j Hij. lia.
Qed.

Lemma NoDup_flat_map {A B} (f : A -> list B) (l : list A) :
  NoDup l ->
  (forall a, In a l -> NoDup (f a)) ->
  (forall a a' b, In a l -> In a' l -> In b (f a) -> In b (f a') -> a = a') ->
  NoDup (flat_map f l).
Proof.
  induction l as [|a l IH]; simpl; intros Hl Hf Hdis; [constructor|].
  apply NoDup_cons in Hl as [Ha Hl].
  apply NoDup_app. repeat split.
  - apply Hf. auto.
  - intros b Hb Hb'. apply list_elem_of_In, in_flat_map in Hb'.
    destruct Hb' as (a' & Ha' & Hb'). apply list_elem_of_In in Hb.
    assert (a = a') as -> by (eapply Hdis; eauto). by apply Ha, list_elem_of_In.
  - apply IH; auto. intros; eapply Hdis; eauto.
Qed.

(** [x mod w] is the unique representative of [x] in [0, w). *)
Lemma mod_shift_inj w x a b :
  0 < w -> Z.abs (a - b) < w -> (x + a) mod w = (x + b) mod w -> a = b.
Proof.
  intros Hw Hab Heq.
  pose proof (Z.div_mod (x + a) w ltac:(lia)) as Ea.
  pose proof (Z.div_mod (x + b) w ltac:(lia)) as Eb.
  assert (a - b = w * ((x + a) / w - (x + b) / w)) as Hk by lia.
  remember ((x + a) / w - (x + b) / w) as k.
  destruct (Z.lt_trichotomy k 0) as [Hk'|[Hk'|Hk']]; [nia| nia | nia].
Qed.

(** ** Membership *)

(** A cell is in the neighbourhood of [(x, y)] exactly when it is the
    wrapped image of an offset of the disk. *)
Lemma neighborhood_spec width height vision x y c :
  In c (neighborhood width height vision (x, y)) <->
  exists dx dy, - vision <= dx <= vision /\ - vision <= dy <= vision /\
    dx ^ 2 + dy ^ 2 <= vision ^ 2 /\
    c = ((x + dx) mod width, (y + dy) mod height).
Proof.
  simpl. rewrite in_flat_map. split.
  - intros (dx & Hdx & Hin). apply in_flat_map in Hin as (dy & Hdy & Hin).
    apply In_py_range in Hdx, Hdy.
    destruct (Z.leb_spec (dx ^ 2 + dy ^ 2) (vision ^ 2)); [|contradiction].
    destruct Hin as [<-|[]]. exists dx, dy. repeat split; lia.
  - intros (dx & dy & Hdx & Hdy & Hd & ->). exists dx.
    split; [apply In_py_range; lia|]. apply in_flat_map. exists dy.
    split; [apply In_py_range; lia|].
    destruct (Z.leb_spec (dx ^ 2 + dy ^ 2) (vision ^ 2)); [now left | lia].
Qed.

Section Grid.
Context (width height vision : Z).
Context (Hw : 0 < width) (Hh : 0 < height).

Lemma mod_in_bounds a b : in_bounds width height (a mod width, b mod height).
Proof.
  unfold in_bounds; simpl.
  pose proof (Z.mod_pos_bound a width Hw). pose proof (Z.mod_pos_bound b height Hh).
  lia.
Qed.

(** Every cell of a neighbourhood is a valid grid index. *)
Lemma neighborhood_in_bounds c c' :
  In c' (neighborhood width height vision c) -> in_bounds width height c'.
Proof.
  destruct c as [x y]. intros Hin.
  apply neighborhood_spec in Hin as (dx & dy & _ & _ & _ & ->).
  apply mod_in_bounds.
Qed.

(** A cell is in its own neighbourhood. *)
Lemma neighborhood_self c :
  0 <= vision -> in_bounds width height c ->
  In c (neighborhood width height vision c).
Proof.
  destruct c as [x y]. intros Hv [Hx Hy]; simpl in Hx, Hy.
  apply neighborhood_spec. exists 0, 0. repeat split; try lia.
  rewrite !Z.add_0_r, !Z.mod_small by lia. reflexivity.
Qed.

(** Seeing is symmetric: a cell of the grid is in the
    neighbourhood of another cell of the grid exactly when that one is in
    its neighbourhood. *)
Lemma neighborhood_sym c c' :
  in_bounds width height c -> in_bounds width height c' ->
  In c' (neighborhood width height vision c) ->
  In c (neighborhood width height vision c').
Proof.
  destruct c as [x y], c' as [x' y']. intros [Hx Hy] [Hx' Hy'] Hin.
  simpl in *. apply neighborhood_spec in Hin as (dx & dy & Hdx & Hdy & Hd & Heq).
  injection Heq as -> ->.
  apply neighborhood_spec. exists (- dx), (- dy). repeat split; try lia.
  rewrite Zplus_mod_idemp_l, Zplus_mod_idemp_l.
  replace (x + dx + - dx) with x by ring. replace (y + dy + - dy) with y by ring.
  rewrite !Z.mod_small by lia. reflexivity.
Qed.

(** When the vision is below half the grid, the wrapped offsets are
    distinct: no cell is listed twice. *)
Lemma neighborhood_NoDup c :
  2 * vision < width -> 2 * vision < height ->
  NoDup (neighborhood width height vision c).
Proof.
  destruct c as [x y]. intros Hvw Hvh. simpl.
  apply NoDup_flat_map; [apply py_range_NoDup| |].
  - intros dx _. apply NoDup_flat_map; [apply py_range_NoDup| |].
    + intros dy _. destruct (_ <=? _); [apply NoDup_singleton | apply NoDup_nil_2].
    + intros dy dy' b Hdy Hdy' Hb Hb'. apply In_py_range in Hdy, Hdy'.
      destruct (_ <=? _ ) in Hb; [|destruct Hb].
      destruct (_ <=? _ ) in Hb'; [|destruct Hb'].
      destruct Hb as [<-|[]]. destruct Hb' as [Hb'|[]]. apply (f_equal snd) in Hb'; simpl in Hb'.
      apply (mod_shift_inj height y); [lia|lia|symmetry; exact Hb'].
  - intros dx dx' b Hdx Hdx' Hb Hb'. apply In_py_range in Hdx, Hdx'.
    apply in_flat_map in Hb as (dy & _ & Hb). apply in_flat_map in Hb' as (dy' & _ & Hb').
    destruct (_ <=? _ ) in Hb; [|destruct Hb].
    destruct (_ <=? _ ) in Hb'; [|destruct Hb'].
    destruct Hb as [<-|[]]. destruct Hb' as [Hb'|[]]. apply (f_equal fst) in Hb'; simpl in Hb'.
    apply (mod_shift_inj width x); [lia|lia|symmetry; exact Hb'].
Qed.

(** The disk is inside the Chebyshev box of [is_neighbor]. *)
Lemma neighborhood_is_neighbor x y j k :
  in_bounds width height (x, y) ->
  In (j, k) (neighborhood width height vision (x, y)) ->
  is_neighbor width height vision x y j k = true.
Proof.
  intros [Hx Hy] Hin. simpl in Hx, Hy.
  apply neighborhood_spec in Hin as (dx & dy & Hdx & Hdy & _ & Heq).
  injection Heq as Hj Hk. unfold is_neighbor.
  apply andb_true_intro. split; apply Z.leb_le.
  - pose proof (Z.div_mod (x + dx) width ltac:(lia)).
    pose proof (Z.mod_pos_bound (x + dx) width Hw). subst j.
    remember ((x + dx) / width) as q.
    destruct (Z_le_gt_dec width vision); [lia|].
    assert (-1 <= q <= 1) by nia.
    destruct (Z.eq_dec q 0); [|destruct (Z.eq_dec q 1)]; subst; nia.
  - pose proof (Z.div_mod (y + dy) height ltac:(lia)).
    pose proof (Z.mod_pos_bound (y + dy) height Hh). subst k.
    remember ((y + dy) / height) as q.
    destruct (Z_le_gt_dec height vision); [lia|].
    assert (-1 <= q <= 1) by nia.
    destruct (Z.eq_dec q 0); [|destruct (Z.eq_dec q 1)]; subst; nia.
Qed.
End Grid.

(** ** The precomputed table *)

Lemma fold_insert_lookup {K V} `{Countable K} (f : K -> V) (l : list K)
    (m : gmap K V) k :
  fold_left (fun m k' => <[k' := f k']> m) l m !! k =
  if bool_decide (k ∈ l) then Some (f k) else m !! k.
Proof.
  revert m. induction l as [|k' l IH]; intros m; simpl.
  - reflexivity.
  - rewrite IH. destruct (decide (k' = k)) as [->|Hne].
    + rewrite lookup_insert_eq.
      repeat case_bool_decide; first [reflexivity | set_solver].
    + rewrite lookup_insert_ne by done.
      repeat case_bool_decide; first [reflexivity | set_solver].
Qed.

(** The table agrees with [neighborhood] on the grid, and has no entry
    elsewhere (where Python would raise [IndexError] or wrap a negative
    index; no position ever reaches there). *)
Lemma compute_neighborhoods_lookup width height vision c :
  compute_neighborhoods width height vision !! c =
  if bool_decide (in_bounds width height c)
  then Some (neighborhood width height vision c) else None.
Proof.
  unfold compute_neighborhoods.
  set (f := neighborhood width height vision).
  assert (Hnest : forall xs (m : gmap cell (list cell)),
    fold_left (fun m x => fold_left (fun m y => <[(x, y) := f (x, y)]> m)
       (py_range 0 height) m) xs m =
    fold_left (fun m k => <[k := f k]> m)
       (flat_map (fun x => map (fun y => (x, y)) (py_range 0 height)) xs) m).
  { induction xs as [|x xs IH]; intros m; simpl; [reflexivity|].
    rewrite fold_left_app, IH. f_equal.
    generalize (py_range 0 height) m. clear. intros ys.
    induction ys as [|y ys IH]; intros m; simpl; auto. }
  rewrite Hnest, fold_insert_lookup, lookup_empty.
  destruct c as [x y].
  assert (Hiff : (x, y) ∈ flat_map (fun x => map (fun y => (x, y)) (py_range 0 height))
                   (py_range 0 width) <-> in_bounds width height (x, y)).
  { unfold in_bounds; simpl. rewrite list_elem_of_In, in_flat_map. split.
    - intros (x' & Hx & Hy). apply in_map_iff in Hy as (y' & Heq & Hy).
      injection Heq as -> ->. apply In_py_range in Hx, Hy. lia.
    - intros [Hx Hy]. exists x. split; [apply In_py_range; lia|].
      apply in_map_iff. exists y. split; [reflexivity | apply In_py_range; lia]. }
  repeat case_bool_decide; naive_solver.
Qed.

(** ** Wrap-around *)

Lemma mod_minus_one w : 0 < w -> (-1) mod w = w - 1.
Proof. intros Hw. symmetry. apply (Z.mod_unique_pos (-1) w (-1) (w - 1)); lia. Qed.

(** The wrap-around example of the spec: from [(0, 0)]
    the opposite corner [(width - 1, height - 1)] is seen, for a vision of
    at least 2. *)
Lemma neighborhood_wraps width height vision :
  0 < width -> 0 < height -> 2 <= vision ->
  In (width - 1, height - 1) (neighborhood width height vision (0, 0)).
Proof.
  intros Hw Hh Hv. apply neighborhood_spec. exists (-1), (-1).
  repeat split; try lia.
  simpl. rewrite !mod_minus_one by lia. reflexivity.
Qed.

(** C36 The neighbourhood is the Euclidean disk of the code, not the
    Chebyshev box: when [1 <= vision] and the vision is below half of
    each side, the diagonal corner [((x - vision) mod width,
    (y - vision) mod height)] of the box is never listed.  At vision 1 the
    neighbourhood of [(0, 0)] on the 40x40 grid therefore misses
    [(39, 39)], which the spec's wrap-around example requires. *)
Theorem neighborhood_misses_diagonal width height vision x y :
  0 < width -> 0 < height -> 1 <= vision -> 2 * vision < width -> 2 * vision < height ->
  ~ In ((x - vision) mod width, (y - vision) mod height) (neighborhood width height vision (x, y)).
Proof.
  intros Hw Hh Hv Hvw Hvh (dx & dy & Hdx & Hdy & Hd & Heq)%neighborhood_spec.
  injection Heq as Hx Hy.
  apply (mod_shift_inj width x (- vision) dx) in Hx; [|lia|lia].
  apply (mod_shift_inj height y (- vision) dy) in Hy; [|lia|lia].
  subst dx dy. nia.
Qed.

(** The Chebyshev test of model_v4.5 sees the corner for
    every vision of at least 1. *)
Lemma is_neighbor_wraps width height vision :
  1 <= width -> 1 <= height -> 1 <= vision ->
  is_neighbor width height vision 0 0 (width - 1) (height - 1) = true.
Proof.
  intros Hw Hh Hv. unfold is_neighbor.
  apply andb_true_intro. split; apply Z.leb_le; lia.
Qed.

(** Two distinct offsets that list the same cell make the list repeat it. *)
Lemma flat_map_shared_not_NoDup {A B} (f : A -> list B) (l : list A) a a' b :
  In a l -> In a' l -> a <> a' -> In b (f a) -> In b (f a') -> ~ NoDup (flat_map f l).
Proof.
  induction l as [|x l IH]; simpl; [tauto|]. intros Ha Ha' Hne Hb Hb' Hnd.
  apply NoDup_app in Hnd as (_ & Hdis & Hnd).
  destruct Ha as [->|Ha], Ha' as [->|Ha']; [congruence | | | exact (IH Ha Ha' Hne Hb Hb' Hnd)].
  - apply (Hdis b); apply list_elem_of_In; [exact Hb|]. apply in_flat_map. eauto.
  - apply (Hdis b); apply list_elem_of_In; [exact Hb'|]. apply in_flat_map. eauto.
Qed.

(** C37 When the vision reaches half the width, the offsets [-vision]
    and [width - vision] of the disk wrap to the same column: the
    neighbourhood lists a cell twice, and the engine counts its occupant
    twice.  The constructors accept any vision; the spec asks them to
    refuse [vision >= min(width, height) / 2]. *)
Theorem neighborhood_duplicates width height vision c :
  0 < width -> width <= 2 * vision -> ~ NoDup (neighborhood width height vision c).
Proof.
  destruct c as [x y]. intros Hw Hv. simpl.
  apply (flat_map_shared_not_NoDup _ _ (- vision) (width - vision)
           ((x + - vision) mod width, (y + 0) mod height));
    [apply In_py_range; lia | apply In_py_range; lia | lia | |];
    apply in_flat_map; exists 0; (split; [apply In_py_range; lia|]).
  - destruct (Z.leb_spec ((- vision) ^ 2 + 0 ^ 2) (vision ^ 2)); [now left | nia].
  - destruct (Z.leb_spec ((width - vision) ^ 2 + 0 ^ 2) (vision ^ 2)); [left | nia].
    replace (x + (width - vision)) with (x + - vision + 1 * width) by ring.
    by rewrite Z_mod_plus_full.
Qed.


(** ** The precomputed table *)

(** C35 On a grid whose vision is below half of each side
    (the scripts use vision 7 on 40x40), [compute_neighborhoods] gives
    every cell of the grid a list of neighbours that are cells of the
    grid, that contains the cell itself, and that lists no cell twice. *)
Theorem compute_neighborhoods_table width height vision c :
  0 < width -> 0 < height -> 0 <= vision ->
  2 * vision < width -> 2 * vision < height -> in_bounds width height c ->
  exists nb, compute_neighborhoods width height vision !! c = Some nb /\
    (forall c', In c' nb -> in_bounds width height c') /\ In c nb /\ NoDup nb.
Proof.
  intros Hw Hh Hv Hvw Hvh Hc. exists (neighborhood width height vision c).
  rewrite compute_neighborhoods_lookup, bool_decide_eq_true_2 by exact Hc.
  split; [reflexivity|]. split; [|split].
  - apply neighborhood_in_bounds; assumption.
  - apply neighborhood_self; assumption.
  - apply neighborhood_NoDup; assumption.
Qed.

(** ** The theorems on the grid of the scripts (40x40) *)

Lemma neighborhood_sym_witness :
  In (39, 0) (neighborhood 40 40 1 (0, 0)) /\ In (0, 0) (neighborhood 40 40 1 (39, 0)).
Proof.
  assert (H : In (39, 0) (neighborhood 40 40 1 (0, 0))) by (vm_compute; tauto).
  split; [exact H|].
  apply (neighborhood_sym 40 40 1); [| |exact H];
    apply (bool_decide_eq_true_1 _); vm_compute; reflexivity.
Defined.

Lemma compute_neighborhoods_table_witness :
  exists nb, compute_neighborhoods 40 40 7 !! (3, 5) = Some nb /\
    (forall c', In c' nb -> in_bounds 40 40 c') /\ In (3, 5) nb /\ NoDup nb.
Proof.
  apply (compute_neighborhoods_table 40 40 7); try lia.
  apply (bool_decide_eq_true_1 _); vm_compute; reflexivity.
Defined.

Lemma neighborhood_misses_diagonal_witness :
  ~ In ((0 - 1) mod 40, (0 - 1) mod 40) (neighborhood 40 40 1 (0, 0)).
Proof. apply neighborhood_misses_diagonal; lia. Defined.

Lemma neighborhood_duplicates_witness :
  0 < 40 /\ 40 <= 2 * 20 /\ ~ NoDup (neighborhood 40 40 20 (0, 0)).
Proof. split; [lia | split; [lia | apply neighborhood_duplicates; lia]]. Defined.
