(* ===== verification/Rules.v ===== *)
(** * The behaviour rules: grievance, arrest probability, activation

    The arithmetic the Python code performs on floats, in
    [determine_behavior], [estimate_arrest_probability],
    [compute_adjusted_hardship] (extension1.py) and the legitimacy decay of
    [step] (rep2.py).  The operations on floats are those of the class
    [Arith]; the rules are generic in it, and the engine of [Engine] uses
    them through it.  [R_arith] interprets floats as real numbers and
    [math.exp] as the real exponential; the theorems of this file are
    stated on it.  A Python float literal such as [0.1] is given by the
    rational it denotes ([nlit]); the floor of the ratio of two
    non-negative integers is the integer division [Nat.div]; it agrees with
    the floor of Python's rounded float quotient for integers below 2^26,
    and the counts are at most the number of cells, 1600.  [ntrunc] is
    [int()] of a float, used by the constructors for the entity counts;
    on the reals it truncates toward zero and never raises. *)

From S2P Require Import Prelude.
From Stdlib Require Import QArith Reals Lra.

(** ** The float interface *)

Class Arith := {
  num : Type;
  nlit : Q -> num;              (** a float literal *)
  nofnat : nat -> num;          (** an [int] operand converted to float *)
  nadd : num -> num -> num;
  nsub : num -> num -> num;
  nmul : num -> num -> num;
  ndiv : num -> num -> num;
  nopp : num -> num;
  nexp : num -> num;            (** [math.exp] *)
  nltb : num -> num -> bool;    (** [<] *)
  ntrunc : num -> outcome Z     (** [int(x)]: truncation toward zero *)
}.

Section Rules.
Context {A : Arith}.

(** [grievance = hardship * (1 - self.gov_legitimacy)]. *)
Definition grievance (hardship gov_legitimacy : num) : num :=
  nmul hardship (nsub (nofnat 1) gov_legitimacy).

(** [math.floor(cops_count / (active_agents_count + 1))]. *)
Definition arrest_ratio (cops_count active_agents_count : nat) : nat :=
  Nat.div cops_count (active_agents_count + 1).

(** [1 - math.exp(-self.k * math.floor(...))]. *)
Definition arrest_probability (k : num) (cops_count active_agents_count : nat) : num :=
  nsub (nofnat 1)
    (nexp (nmul (nopp k) (nofnat (arrest_ratio cops_count active_agents_count)))).

(** [grievance - (agent.risk_aversion * arrest_probability) > 0.1]. *)
Definition activates (grievance risk_aversion arrest_prob : num) : bool :=
  nltb (nlit (1 # 10)) (nsub grievance (nmul risk_aversion arrest_prob)).

(** [average_hardship * p + agent.hardship * (1 - p)]. *)
Definition adjusted_hardship_of (average_hardship hardship p : num) : num :=
  nadd (nmul average_hardship p) (nmul hardship (nsub (nofnat 1) p)).

(** [if self.gov_legitimacy > 0: self.gov_legitimacy -= 0.0045]. *)
Definition legitimacy_decay (gov_legitimacy : num) : num :=
  if nltb (nofnat 0) gov_legitimacy
  then nsub gov_legitimacy (nlit (45 # 10000))
  else gov_legitimacy.
End Rules.

(** ** Floats as real numbers *)

Definition Rltb (a b : R) : bool := if Rlt_dec a b then true else false.

(** [int(x)] of a real: [Int_part] is the floor, mirrored below zero. *)
Definition Rtrunc (r : R) : Z :=
  if Rle_dec 0 r then Int_part r else (- Int_part (- r))%Z.

#[export] Instance R_arith : Arith := {|
  num := R;
  nlit := Q2R;
  nofnat := INR;
  nadd := Rplus;
  nsub := Rminus;
  nmul := Rmult;
  ndiv := Rdiv;
  nopp := Ropp;
  nexp := exp;
  nltb := Rltb;
  ntrunc r := Ok (Rtrunc r)
|}.

Local Open Scope R_scope.

Lemma Rltb_true a b : Rltb a b = true <-> a < b.
Proof. unfold Rltb. destruct (Rlt_dec a b); split; congruence || tauto. Qed.

Lemma Rltb_false a b : Rltb a b = false <-> b <= a.
Proof.
  unfold Rltb. destruct (Rlt_dec a b); split; intros; try congruence; lra.
Qed.

#[export] Hint Rewrite Rltb_true Rltb_false : unrest_rw.

Lemma Q2R_tenth : Q2R (1 # 10) = / 10.
Proof. unfold Q2R; simpl. lra. Qed.

(** [1 - exp(-k * m)] on the reals. *)
Lemma arrest_probability_R (k : R) c a :
  @arrest_probability R_arith k c a = 1 - exp (- k * INR (arrest_ratio c a)).
Proof. reflexivity. Qed.

Lemma exp_neg_le_1 x : 0 <= x -> exp (- x) <= 1.
Proof.
  intros Hx. rewrite <- exp_0. destruct (Req_dec x 0) as [->|Hne].
  - rewrite Ropp_0. lra.
  - left. apply exp_increasing. lra.
Qed.

Lemma exp_le_mono x y : x <= y -> exp x <= exp y.
Proof.
  intros [Hlt| ->]; [left; apply exp_increasing; exact Hlt | right; reflexivity].
Qed.

Lemma arrest_ratio_zero c a : (c <= a)%nat -> arrest_ratio c a = 0%nat.
Proof. intros H. unfold arrest_ratio. apply Nat.div_small. lia. Qed.

Lemma arrest_ratio_mono c c' a a' :
  (c <= c')%nat -> (a' <= a)%nat -> (arrest_ratio c a <= arrest_ratio c' a')%nat.
Proof.
  intros Hc Ha. unfold arrest_ratio. transitivity (Nat.div c' (a + 1)).
  - apply Nat.Div0.div_le_mono. exact Hc.
  - apply Nat.div_le_compat_l. lia.
Qed.

Section ArrestProbability.
Context (k : R) (Hk : 0 <= k).

(** The probability depends on the ratio through [1 - exp(-k m)],
    which grows with [m]. *)
Lemma arrest_probability_ratio_mono c a c' a' :
  (arrest_ratio c a <= arrest_ratio c' a')%nat ->
  @arrest_probability R_arith k c a <= @arrest_probability R_arith k c' a'.
Proof.
  intros Hm. rewrite !arrest_probability_R.
  apply le_INR in Hm.
  assert (exp (- k * INR (arrest_ratio c' a')) <= exp (- k * INR (arrest_ratio c a)))
    by (apply exp_le_mono; nra).
  lra.
Qed.
End ArrestProbability.

(** ** The rules on the reals *)

(** Whenever the cops in view do not outnumber the active
    agents plus one (in particular when no cop is in view), the floor of
    the ratio is 0 and the estimated arrest probability is exactly 0,
    whatever [k] is. *)
Theorem arrest_probability_zero (k : R) (cops active : nat) :
  (cops <= active)%nat -> @arrest_probability R_arith k cops active = 0.
Proof.
  intros H. rewrite arrest_probability_R, arrest_ratio_zero by exact H.
  simpl. rewrite Rmult_0_r, exp_0. ring.
Qed.

(** The floor-division boundary cases of the spec:
    one cop against two active agents gives ratio [floor(1/3) = 0] and
    probability 0; three cops against two give [floor(3/3) = 1] and
    probability [1 - exp(-k)]. *)
Theorem arrest_probability_boundary (k : R) :
  @arrest_probability R_arith k 1 2 = 0 /\
  @arrest_probability R_arith k 3 2 = 1 - exp (- k).
Proof.
  split; rewrite arrest_probability_R; vm_compute (arrest_ratio _ _); simpl.
  - rewrite Rmult_0_r, exp_0. ring.
  - rewrite Rmult_1_r. reflexivity.
Qed.

(** C30 For [k >= 0] the estimated arrest probability lies in
    [0, 1], and it is exactly 0 whenever the cops in view do not
    outnumber the active agents plus one (the floor of the ratio is 0).
    The closed upper bound is the one binary64 keeps: [1 - exp(-x)] rounds
    to 1.0 once [exp(-x)] is below 2^-54. *)
Theorem arrest_probability_range (k : R) (cops active : nat) :
  0 <= k ->
  0 <= @arrest_probability R_arith k cops active <= 1 /\
  ((cops <= active)%nat -> @arrest_probability R_arith k cops active = 0).
Proof.
  intros Hk. split; [|apply arrest_probability_zero]. rewrite arrest_probability_R.
  pose proof (exp_pos (- k * INR (arrest_ratio cops active))).
  pose proof (pos_INR (arrest_ratio cops active)).
  assert (exp (- k * INR (arrest_ratio cops active)) <= 1).
  { replace (- k * INR (arrest_ratio cops active))
      with (- (k * INR (arrest_ratio cops active))) by ring.
    apply exp_neg_le_1. nra. }
  lra.
Qed.

(** C31 For [k >= 0] the estimated arrest probability grows
    with the number of cops in view and shrinks with the number of active
    agents in view. *)
Theorem arrest_probability_monotone (k : R) (c c' a a' : nat) :
  0 <= k -> (c <= c')%nat -> (a' <= a)%nat ->
  @arrest_probability R_arith k c a <= @arrest_probability R_arith k c' a'.
Proof.
  intros Hk Hc Ha. apply arrest_probability_ratio_mono; [exact Hk|].
  apply arrest_ratio_mono; assumption.
Qed.

(** With a zero arrest probability the activation rule
    reduces to the grievance threshold: active iff grievance > 0.1. *)
Theorem activates_without_risk (g r : R) :
  @activates R_arith g r 0 = true <-> / 10 < g.
Proof.
  unfold activates; simpl. rewrite Rltb_true, Q2R_tenth.
  rewrite Rmult_0_r, Rminus_0_r. reflexivity.
Qed.

(** For a risk aversion [r >= 0], an agent that
    activates at arrest probability [p] also activates at any lower
    probability [p']. *)
Theorem activates_antitone (g r p p' : R) :
  0 <= r -> p' <= p ->
  @activates R_arith g r p = true -> @activates R_arith g r p' = true.
Proof.
  unfold activates; simpl. rewrite !Rltb_true. intros Hr Hp H. nra.
Qed.

(** With hardship and legitimacy in [0, 1] the
    grievance is in [0, 1]. *)
Theorem grievance_bounds (h l : R) :
  0 <= h <= 1 -> 0 <= l <= 1 ->
  0 <= @grievance R_arith h l <= 1.
Proof. unfold grievance; simpl. intros. nra. Qed.

(** C32 With a legitimacy of at least 0.9, a hardship at
    most 1, and non-negative risk aversion and probability, no agent ever
    activates: the grievance is at most 0.1. *)
Theorem no_activation_high_legitimacy (h l r p : R) :
  0 <= h <= 1 -> 9 / 10 <= l <= 1 -> 0 <= r -> 0 <= p ->
  @activates R_arith (@grievance R_arith h l) r p = false.
Proof.
  unfold activates, grievance; simpl. rewrite Rltb_false, Q2R_tenth. intros. nra.
Qed.

(** C33 The blend [average * p + hardship * (1 - p)] of
    [compute_adjusted_hardship] gives the weight [p] to the neighbours:
    with [p = 0] it is the agent's own hardship, with [p = 1] the
    neighbours' average, and for [p] in [0, 1] it does not decrease when
    either input grows.  The four facts also hold in binary64, whose
    products by non-negative floats and sums are monotone and exact on
    [0] and [1]. *)
Theorem adjusted_hardship_weights (avg avg' h h' p : R) :
  @adjusted_hardship_of R_arith avg h 0 = h /\ @adjusted_hardship_of R_arith avg h 1 = avg /\
  (0 <= p <= 1 -> avg <= avg' -> h <= h' ->
   @adjusted_hardship_of R_arith avg h p <= @adjusted_hardship_of R_arith avg' h' p).
Proof.
  unfold adjusted_hardship_of; simpl. split; [ring|]. split; [ring|]. intros Hp Ha Hh. nra.
Qed.

(** C34 The legitimacy decay of rep2 is guarded by
    [gov_legitimacy > 0] but subtracts the full step: a legitimacy in
    (0, 0.0045) becomes negative, although the spec says it is floored
    at 0. *)
Theorem legitimacy_decay_goes_negative (l : R) :
  0 < l < Q2R (45 # 10000) -> @legitimacy_decay R_arith l < 0.
Proof.
  unfold legitimacy_decay; simpl. intros [Hl Hs].
  destruct (Rltb_true 0 l) as [_ H]. rewrite H by (simpl; lra). lra.
Qed.

Lemma legitimacy_decay_negative_witness :
  0 < Q2R (2 # 1000) < Q2R (45 # 10000) /\
  @legitimacy_decay R_arith (Q2R (2 # 1000)) < 0.
Proof.
  assert (Hb : 0 < Q2R (2 # 1000) < Q2R (45 # 10000)).
  { unfold Q2R; simpl. lra. }
  split; [exact Hb | apply legitimacy_decay_goes_negative; exact Hb].
Defined.

(** What the decay does guarantee: starting from a
    non-negative legitimacy, any number of ticks keeps it above -0.0045. *)
Theorem legitimacy_decay_iter_lower_bound (n : nat) (l : R) :
  0 <= l -> - Q2R (45 # 10000) < Nat.iter n (@legitimacy_decay R_arith) l.
Proof.
  assert (Hs : 0 < Q2R (45 # 10000)) by (unfold Q2R; simpl; lra).
  intros Hl. induction n as [|n IH]; [simpl; lra|].
  rewrite Nat.iter_succ. unfold legitimacy_decay at 1.
  change (nltb (nofnat 0) ?x) with (Rltb 0 x). change (nsub ?x ?y) with (x - y).
  change (nlit ?q) with (Q2R q).
  destruct (Rltb _ _) eqn:E; [apply Rltb_true in E | apply Rltb_false in E]; lra.
Qed.

(** ** The rules at the parameters of extension1

    [k = 2.3], [gov_legitimacy = 0.82], [neighbor_influence_percentage = 0.5]
    and a risk aversion of 0.5: the hypotheses of the theorems above hold
    there. *)

Lemma arrest_probability_range_witness :
  0 <= 23 / 10 /\ 0 <= @arrest_probability R_arith (23 / 10) 1 2 <= 1 /\
  @arrest_probability R_arith (23 / 10) 1 2 = 0.
Proof.
  assert (Hk : 0 <= 23 / 10) by lra.
  destruct (arrest_probability_range (23 / 10) 1 2 Hk) as [Hr Hz].
  split; [exact Hk | split; [exact Hr | apply Hz; lia]].
Defined.

Lemma arrest_probability_monotone_witness :
  @arrest_probability R_arith (23 / 10) 1 3 <= @arrest_probability R_arith (23 / 10) 4 1.
Proof. apply arrest_probability_monotone; [lra | lia | lia]. Defined.

Lemma activates_antitone_witness :
  @activates R_arith (8 / 10) (1 / 2) (1 / 4) = true /\ @activates R_arith (8 / 10) (1 / 2) 0 = true.
Proof.
  assert (H : @activates R_arith (8 / 10) (1 / 2) (1 / 4) = true).
  { unfold activates; simpl. apply Rltb_true. rewrite Q2R_tenth. lra. }
  split; [exact H | apply (activates_antitone (8 / 10) (1 / 2) (1 / 4) 0); [lra | lra | exact H]].
Defined.

Lemma grievance_bounds_witness :
  0 <= @grievance R_arith (1 / 2) (82 / 100) <= 1.
Proof. apply grievance_bounds; lra. Defined.

Lemma no_activation_high_legitimacy_witness :
  @activates R_arith (@grievance R_arith 1 (9 / 10)) (1 / 2) 0 = false.
Proof. apply no_activation_high_legitimacy; lra. Defined.

Lemma adjusted_hardship_weights_witness :
  @adjusted_hardship_of R_arith (3 / 10) (1 / 2) 0 = 1 / 2 /\
  @adjusted_hardship_of R_arith (3 / 10) (1 / 2) 1 = 3 / 10 /\
  @adjusted_hardship_of R_arith (3 / 10) (1 / 2) (1 / 2) <=
  @adjusted_hardship_of R_arith (4 / 10) (1 / 2) (1 / 2).
Proof.
  destruct (adjusted_hardship_weights (3 / 10) (4 / 10) (1 / 2) (1 / 2) (1 / 2)) as (H0 & H1 & Hm).
  split; [exact H0 | split; [exact H1 | apply Hm; lra]].
Defined.

Lemma legitimacy_decay_iter_lower_bound_witness :
  - Q2R (45 # 10000) < Nat.iter 200 (@legitimacy_decay R_arith) (82 / 100).
Proof. apply legitimacy_decay_iter_lower_bound; lra. Defined.
