(* ===== verification/Floats64.v ===== *)
(** * Python floats as IEEE 754 binary64

    CPython's [float] is an IEEE 754 double with round-to-nearest-even,
    which is what Rocq's primitive [float] computes: [F_arith] interprets
    the float interface [Arith] of [Rules] with it, so that concrete runs
    reproduce the script's values bit for bit.  A decimal literal
    [a / 10^n] of the source is the correctly rounded quotient of two
    exactly representable integers (exact for [|a|, 10^n < 2^53], which
    covers every literal of the scripts); an [int] operand is converted
    exactly (below [2^53]).  [math.exp] is the libm function: only
    [exp(+-0) = 1] is fixed by IEEE 754, every other value is left to the
    parameter [fexp], so a theorem proved for every [fexp] holds whatever
    the platform's [exp] returns. *)

From S2P Require Import Prelude Rules.
From Stdlib Require Import QArith Floats Uint63.

(** [float(z)] for an integer below [2^53] in magnitude. *)
Definition float_of_Z (z : Z) : float :=
  if (z <? 0)%Z then (- of_uint63 (Uint63.of_Z (- z)))%float
  else of_uint63 (Uint63.of_Z z).

(** The float a decimal literal [p / d] denotes. *)
Definition float_of_Q (q : Q) : float :=
  (float_of_Z (Qnum q) / float_of_Z (Zpos (Qden q)))%float.

(** [math.exp]: exact at [+-0], the platform's function elsewhere. *)
Definition float_exp (fexp : float -> float) (x : float) : float :=
  if (x =? 0)%float then 1%float else fexp x.

(** [int(x)] of a float: the value [m * 2^e] of a finite float, the
    fraction bits shifted out toward zero; [int(nan)] raises [ValueError]
    and [int(inf)] raises [OverflowError]. *)
Definition float_trunc (f : float) : outcome Z :=
  match FloatOps.Prim2SF f with
  | SpecFloat.S754_zero _ => Ok 0%Z
  | SpecFloat.S754_infinity _ => Exc OverflowError
  | SpecFloat.S754_nan => Exc ValueError
  | SpecFloat.S754_finite s m e =>
      let a := if (0 <=? e)%Z then Z.shiftl (Zpos m) e else Z.shiftr (Zpos m) (- e) in
      Ok (if s then (- a)%Z else a)
  end.

Definition F_arith (fexp : float -> float) : Arith :=
  Build_Arith float float_of_Q (fun n => float_of_Z (Z.of_nat n))
    PrimFloat.add PrimFloat.sub PrimFloat.mul PrimFloat.div PrimFloat.opp
    (float_exp fexp) PrimFloat.ltb float_trunc.

(** An [exp] for runs that evaluate [math.exp] only at 0: its value
    elsewhere is never read. *)
Definition unused_exp : float -> float := fun _ => nan.

(** ** The legitimacy of rep2 in binary64 *)

(** With rep2's [GOV_LEGITIMACY = 0.9] and Python's float
    arithmetic, the guarded decay leaves [4.18e-15] after the script's
    200 ticks, not 0, and a negative legitimacy [-0.0045] from tick 201
    on: the guard [> 0] does not floor the value at 0. *)
Theorem rep2_legitimacy_binary64 (fexp : float -> float) :
  Nat.iter 200 (@legitimacy_decay (F_arith fexp)) (@nlit (F_arith fexp) (9 # 10))
    = 4.1824183005800819e-15%float /\
  Nat.iter 201 (@legitimacy_decay (F_arith fexp)) (@nlit (F_arith fexp) (9 # 10))
    = (-0.0044999999999958172)%float.
Proof. split; vm_compute; reflexivity. Qed.
