(* ===== verification/Engine.v ===== *)
(** * The grid-backed step engine of extension1.py, rep2.py and extension2.py

    The state of a [Model] object and the generator state form a [World];
    every method is a program of [ST World].  The Python objects are
    modelled with their identity: [turtles] is the heap of [Turtle]
    objects indexed by their creation order (the [agent_id] the
    constructor gives them whenever [num_agents >= 0]: agents get
    [0 .. n-1], cops [n .. n+m-1]); the list [entities] and the [grid]
    hold these references, as
    the Python list and the nested lists hold references to the same
    objects, so a mutation through one is seen through the other.  The
    [grid] is a finite map from cells, an absent cell standing for [None];
    the invariant keeps every index in bounds, where it coincides with
    [self.grid[x][y]].

    The three scripts share [move_agent], [estimate_arrest_probability]
    and the loop of [step]; they differ in the jail term of [enforce]
    (random in extension1, the constant 1000 in rep2 and extension2), in
    the hardship read by [determine_behavior] (adjusted in extension1),
    and in what [step] does around the loop.  The differences are the
    fields of a [Variant]. *)

From S2P Require Import Prelude Random Torus Rules.
Local Open Scope nat_scope.

Inductive EntityType := AGENT | COP.

#[export] Instance EntityType_eq_dec : EqDecision EntityType.
Proof. solve_decision. Defined.

(** The jail term given on arrest: [random.randint(0, self.max_jail_term)]
    (extension1) or a constant (rep2, extension2: 1000). *)
Inductive JailPolicy := RandomJailTerm | FixedJailTerm (n : nat).

(** The hardship read by [determine_behavior]: [agent.hardship] (rep2,
    extension2) or [agent.adjusted_hardship] (extension1). *)
Inductive HardshipSource := RawHardship | AdjustedHardship.

Record Variant := mkVariant { v_jail : JailPolicy; v_hardship : HardshipSource }.

Definition extension1_variant := mkVariant RandomJailTerm AdjustedHardship.
Definition rep2_variant := mkVariant (FixedJailTerm 1000) RawHardship.

Section Engine.
Context {A : Arith} {G : Type} `{RandomSource G}.

(** ** State *)

(** [class Turtle]; [None] attributes of a cop are [None]. *)
Record Turtle := mkTurtle {
  agent_id : Z;
  type : EntityType;
  vision : Z;
  risk_aversion : option num;
  hardship : option num;
  adjusted_hardship : option num;
  active : bool;
  jail_term : nat;
  position : cell
}.

(** [self.data]: the per-tick counts ([cop] only in extension2). *)
Record Data := mkData {
  data_quiet : list nat;
  data_jail : list nat;
  data_active : list nat;
  data_cop : list nat
}.

(** The attributes of [Model] that [step] reads or writes. *)
Record Model := mkModel {
  width : Z;
  height : Z;
  m_vision : Z;
  k : num;
  gov_legitimacy : num;
  max_jail_term : Z;
  neighbor_influence_percentage : num;
  neighborhoods : gmap cell (list cell);
  turtles : gmap nat Turtle;
  entities : list nat;
  grid : gmap cell nat;
  data : Data;
  tick : nat
}.

Record World := mkWorld { model : Model; rng : G }.

(** ** Field updates *)

Definition set_active (b : bool) (t : Turtle) : Turtle :=
  mkTurtle (agent_id t) (type t) (vision t) (risk_aversion t) (hardship t)
    (adjusted_hardship t) b (jail_term t) (position t).
Definition set_jail_term (n : nat) (t : Turtle) : Turtle :=
  mkTurtle (agent_id t) (type t) (vision t) (risk_aversion t) (hardship t)
    (adjusted_hardship t) (active t) n (position t).
Definition set_position (c : cell) (t : Turtle) : Turtle :=
  mkTurtle (agent_id t) (type t) (vision t) (risk_aversion t) (hardship t)
    (adjusted_hardship t) (active t) (jail_term t) c.
Definition set_adjusted_hardship (h : num) (t : Turtle) : Turtle :=
  mkTurtle (agent_id t) (type t) (vision t) (risk_aversion t) (hardship t)
    (Some h) (active t) (jail_term t) (position t).

Definition map_turtles (f : gmap nat Turtle -> gmap nat Turtle) (m : Model) : Model :=
  mkModel (width m) (height m) (m_vision m) (k m) (gov_legitimacy m) (max_jail_term m)
    (neighbor_influence_percentage m) (neighborhoods m) (f (turtles m)) (entities m)
    (grid m) (data m) (tick m).
Definition map_grid (f : gmap cell nat -> gmap cell nat) (m : Model) : Model :=
  mkModel (width m) (height m) (m_vision m) (k m) (gov_legitimacy m) (max_jail_term m)
    (neighbor_influence_percentage m) (neighborhoods m) (turtles m) (entities m)
    (f (grid m)) (data m) (tick m).
Definition set_entities (es : list nat) (m : Model) : Model :=
  mkModel (width m) (height m) (m_vision m) (k m) (gov_legitimacy m) (max_jail_term m)
    (neighbor_influence_percentage m) (neighborhoods m) (turtles m) es
    (grid m) (data m) (tick m).
Definition map_data (f : Data -> Data) (m : Model) : Model :=
  mkModel (width m) (height m) (m_vision m) (k m) (gov_legitimacy m) (max_jail_term m)
    (neighbor_influence_percentage m) (neighborhoods m) (turtles m) (entities m)
    (grid m) (f (data m)) (tick m).

Definition on_model (f : Model -> Model) : ST World unit :=
  st_modify (fun w => mkWorld (f (model w)) (rng w)).

(** Runs a draw of the generator inside the world. *)
Definition rand {X} (r : ST G X) : ST World X :=
  fun w => match r (rng w) with
           | Ok (x, g) => Ok (x, mkWorld (model w) g)
           | Exc e => Exc e
           end.

(** Following a reference. *)
Definition get_turtle (i : nat) : ST World Turtle :=
  let* w := st_get in st_lift DanglingRef (turtles (model w) !! i).

(** Mutating the object [i]: [f] is applied to its current state. *)
Definition update_turtle (i : nat) (f : Turtle -> Turtle) : ST World unit :=
  let* t := get_turtle i in on_model (map_turtles (insert i (f t))).

(** [self.neighborhoods[x][y]]. *)
Definition get_neighborhood (c : cell) : ST World (list cell) :=
  let* w := st_get in st_lift IndexError (neighborhoods (model w) !! c).

(** ** Cell tests on the grid *)

(** [target is None or (isinstance(target, Turtle) and target.jail_term > 0)]. *)
Definition free_for_move (tu : gmap nat Turtle) (o : option nat) : bool :=
  match o with
  | None => true
  | Some j => match tu !! j with Some tj => 0 <? jail_term tj | None => false end
  end.

Definition is_cop_at (tu : gmap nat Turtle) (o : option nat) : bool :=
  match o with
  | Some j => match tu !! j with Some tj => bool_decide (type tj = COP) | None => false end
  | None => false
  end.

Definition is_active_agent_at (tu : gmap nat Turtle) (o : option nat) : bool :=
  match o with
  | Some j => match tu !! j with
              | Some tj => bool_decide (type tj = AGENT) && active tj
              | None => false
              end
  | None => false
  end.

(** [cops_count] and [active_agents_count] of
    [estimate_arrest_probability]: the loop over the neighbourhood. *)
Definition cops_in_view (tu : gmap nat Turtle) (g : gmap cell nat) (nb : list cell) : nat :=
  count_if (fun c => is_cop_at tu (g !! c)) nb.
Definition actives_in_view (tu : gmap nat Turtle) (g : gmap cell nat) (nb : list cell) : nat :=
  count_if (fun c => is_active_agent_at tu (g !! c)) nb.

(** The active occupants of a list of cells, with their cells, in the
    order of the list: [active_agents] of [enforce]. *)
Definition active_occupants (tu : gmap nat Turtle) (g : gmap cell nat)
    (nb : list cell) : list (nat * cell) :=
  flat_map (fun c => match g !! c with
                     | Some j => match tu !! j with
                                 | Some tj => if active tj then [(j, c)] else []
                                 | None => []
                                 end
                     | None => []
                     end) nb.

(** ** The methods *)

(** [move_agent] (extension1.py 129-147). *)
Definition move_agent (i : nat) : ST World unit :=
  let* t := get_turtle i in
  if 0 <? jail_term t then ret tt else
  let* _ := on_model (map_grid (delete (position t))) in
  let* nb := get_neighborhood (position t) in
  let* w := st_get in
  let potential_positions :=
    List.filter (fun c => free_for_move (turtles (model w)) (grid (model w) !! c)) nb in
  match potential_positions with
  | [] => ret tt
  | _ =>
      let* new_position := rand (choice potential_positions) in
      let* _ := on_model (map_grid (insert new_position i)) in
      update_turtle i (set_position new_position)
  end.

(** [estimate_arrest_probability] (extension1.py 158-171). *)
Definition estimate_arrest_probability (c : cell) : ST World num :=
  let* nb := get_neighborhood c in
  let* w := st_get in
  let cops_count := cops_in_view (turtles (model w)) (grid (model w)) nb in
  let active_agents_count := actives_in_view (turtles (model w)) (grid (model w)) nb in
  ret (arrest_probability (k (model w)) cops_count active_agents_count).

Definition hardship_of (hs : HardshipSource) (t : Turtle) : option num :=
  match hs with
  | RawHardship => hardship t
  | AdjustedHardship => adjusted_hardship t
  end.

(** [determine_behavior] (extension1.py 149-156): [TypeError] when an
    operand is [None]. *)
Definition determine_behavior (hs : HardshipSource) (i : nat) : ST World unit :=
  let* t := get_turtle i in
  let* w := st_get in
  let* h := st_lift TypeError (hardship_of hs t) in
  let g := grievance h (gov_legitimacy (model w)) in
  let* p := estimate_arrest_probability (position t) in
  let* r := st_lift TypeError (risk_aversion t) in
  update_turtle i (set_active (activates g r p)).

(** The jail term drawn on arrest. *)
Definition draw_jail_term (jp : JailPolicy) : ST World nat :=
  match jp with
  | RandomJailTerm =>
      let* w := st_get in
      let* z := rand (randint 0%Z (max_jail_term (model w))) in ret (Z.to_nat z)
  | FixedJailTerm n => ret n
  end.

(** [enforce] (extension1.py 174-190). *)
Definition enforce (jp : JailPolicy) (i : nat) : ST World unit :=
  let* cop := get_turtle i in
  let* nb := get_neighborhood (position cop) in
  let* w := st_get in
  let active_agents := active_occupants (turtles (model w)) (grid (model w)) nb in
  match active_agents with
  | [] => ret tt
  | _ =>
      let* sel := rand (choice active_agents) in
      let '(j, c) := sel in
      let* _ := update_turtle j (set_active false) in
      let* jt := draw_jail_term jp in
      let* _ := update_turtle j (set_jail_term jt) in
      let* _ := on_model (map_grid (delete (position cop))) in
      let* _ := on_model (map_grid (insert c i)) in
      update_turtle i (set_position c)
  end.

(** One turn of the loop of [step] (extension1.py 105-114). *)
Definition act (v : Variant) (i : nat) : ST World unit :=
  let* t := get_turtle i in
  if 0 <? jail_term t then update_turtle i (set_jail_term (jail_term t - 1)) else
  let* _ := move_agent i in
  match type t with
  | AGENT => determine_behavior (v_hardship v) i
  | COP => enforce (v_jail v) i
  end.

(** The running sum of [compute_adjusted_hardship]: [total_hardship]
    and [count]; [TypeError] on a [None] hardship. *)
Fixpoint sum_hardship (total : num) (count : nat) (hs : list (option num))
    : option (num * nat) :=
  match hs with
  | [] => Some (total, count)
  | Some h :: hs' => sum_hardship (nadd total h) (S count) hs'
  | None :: _ => None
  end.

(** The hardships of the agents the grid shows in a neighbourhood. *)
Definition neighbor_hardships (tu : gmap nat Turtle) (g : gmap cell nat)
    (nb : list cell) : list (option num) :=
  flat_map (fun c => match g !! c with
                     | Some j => match tu !! j with
                                 | Some tj => if bool_decide (type tj = AGENT)
                                              then [hardship tj] else []
                                 | None => []
                                 end
                     | None => []
                     end) nb.

(** The body of [compute_adjusted_hardship] for one entity
    (extension1.py 64-80). *)
Definition adjust_hardship (i : nat) : ST World unit :=
  let* agent := get_turtle i in
  match type agent with
  | COP => ret tt
  | AGENT =>
      let* nb := get_neighborhood (position agent) in
      let* w := st_get in
      let hs := neighbor_hardships (turtles (model w)) (grid (model w)) nb in
      let* tc := st_lift TypeError (sum_hardship (nofnat 0) 0 hs) in
      let '(total_hardship, count) := tc in
      if 0 <? count then
        let average_hardship := ndiv total_hardship (nofnat count) in
        let* h := st_lift TypeError (hardship agent) in
        update_turtle i (set_adjusted_hardship
          (adjusted_hardship_of average_hardship h
             (neighbor_influence_percentage (model w))))
      else ret tt
  end.

(** [compute_adjusted_hardship] (extension1.py 63-80). *)
Definition compute_adjusted_hardship : ST World unit :=
  let* w := st_get in st_iter adjust_hardship (entities (model w)).

End Engine.

Arguments Turtle : clear implicits.
Arguments Model : clear implicits.
Arguments World : clear implicits.
