(* ===== verification/EngineInv.v ===== *)
(** * The invariant of the grid engine and its preservation

    [wf] is what every state reached from a well-constructed model
    satisfies: the dimensions are positive, the neighbourhood table is
    the one [compute_neighborhoods] builds, the entity list has no
    duplicate and only live ids, every turtle is well formed
    ([turtle_ok]: in bounds; a cop is never active and never jailed; a
    jailed agent is not active; an agent carries its three float
    attributes), and the grid is accurate ([grid_ok]: a cell that shows
    an entity is that entity's position).  The grid need not show every
    entity: that is the desynchronisation of the code (see
    [Scenarios]).

    For each method the file proves one specification lemma: from a
    well-formed state the method does not raise and its result is well
    formed, with what it does to the entity it runs for.  The lemmas
    assume the contract [RandomSourceOk] of the generator. *)

From S2P Require Import Prelude Random Torus Rules Engine.
Local Open Scope nat_scope.

Section Inv.
Context {A : Arith} {G : Type} `{RandomSource G}.

Abbreviation Turtle := (Turtle A).
Abbreviation Model := (Model A).
Abbreviation World := (World A G).

Definition turtle_ok (width height : Z) (t : Turtle) : Prop :=
  in_bounds width height (position t) /\
  (type t = COP -> active t = false /\ jail_term t = 0) /\
  (0 < jail_term t -> active t = false) /\
  (type t = AGENT ->
     is_Some (risk_aversion t) /\ is_Some (hardship t) /\ is_Some (adjusted_hardship t)).

Definition heap_ok (width height : Z) (tu : gmap nat Turtle) : Prop :=
  forall i t, tu !! i = Some t -> turtle_ok width height t.

Definition grid_ok (tu : gmap nat Turtle) (g : gmap cell nat) : Prop :=
  forall c j, g !! c = Some j -> exists tj, tu !! j = Some tj /\ position tj = c.

Record wf (m : Model) : Prop := {
  wf_dims : (0 < width m)%Z /\ (0 < height m)%Z /\ (0 <= m_vision m)%Z;
  wf_nbhd : neighborhoods m = compute_neighborhoods (width m) (height m) (m_vision m);
  wf_nodup : NoDup (entities m);
  wf_live : forall i, i ∈ entities m -> is_Some (turtles m !! i);
  wf_heap : heap_ok (width m) (height m) (turtles m);
  wf_grid : grid_ok (turtles m) (grid m)
}.

(** A decidable form of [wf], to check it on concrete states. *)
Definition wf_check (m : Model) : Prop :=
  ((0 < width m)%Z /\ (0 < height m)%Z /\ (0 <= m_vision m)%Z) /\
  neighborhoods m = compute_neighborhoods (width m) (height m) (m_vision m) /\
  NoDup (entities m) /\
  Forall (fun i => is_Some (turtles m !! i)) (entities m) /\
  map_Forall (fun _ t => turtle_ok (width m) (height m) t) (turtles m) /\
  map_Forall (fun c j => position <$> turtles m !! j = Some c) (grid m).

#[global] Instance wf_check_dec m : Decision (wf_check m).
Proof. unfold wf_check. apply _. Defined.

Lemma wf_check_wf m : wf_check m -> wf m.
Proof.
  intros (Hd & Hn & Hnd & Hl & Hh & Hg). constructor; auto.
  - intros i Hi. rewrite Forall_forall in Hl. apply Hl. exact Hi.
  - intros c j Hc. specialize (Hg c j Hc). simpl in Hg.
    destruct (turtles m !! j) as [tj|]; simplify_eq/=. eauto.
Qed.

(** ** Primitive steps *)

Lemma get_turtle_Ok i (w : World) t w' :
  get_turtle i w = Ok (t, w') -> w' = w /\ turtles (model w) !! i = Some t.
Proof. unfold get_turtle. intros Hr. st_inv. auto. Qed.

Lemma get_turtle_run i (w : World) t :
  turtles (model w) !! i = Some t -> get_turtle i w = Ok (t, w).
Proof. intros Ht. unfold get_turtle, st_bind, st_get, st_lift. by rewrite Ht. Qed.

Lemma update_turtle_run i f (w : World) t :
  turtles (model w) !! i = Some t ->
  update_turtle i f w = Ok (tt, mkWorld (map_turtles (insert i (f t)) (model w)) (rng w)).
Proof.
  intros Ht. unfold update_turtle. rewrite (st_bind_of_Ok _ _ _ _ _ (get_turtle_run _ _ _ Ht)).
  reflexivity.
Qed.

Lemma get_neighborhood_run c (w : World) nb :
  neighborhoods (model w) !! c = Some nb -> get_neighborhood c w = Ok (nb, w).
Proof. intros Hn. unfold get_neighborhood, st_bind, st_get, st_lift. by rewrite Hn. Qed.

Lemma rand_run {X} (r : ST G X) (w : World) x g :
  r (rng w) = Ok (x, g) -> rand r w = Ok (x, mkWorld (model w) g).
Proof. intros Hr. unfold rand. by rewrite Hr. Qed.

(** The neighbourhood of a cell of the grid is in the table. *)
Lemma wf_neighborhood m c :
  wf m -> in_bounds (width m) (height m) c ->
  neighborhoods m !! c = Some (neighborhood (width m) (height m) (m_vision m) c).
Proof.
  intros Hwf Hc. rewrite (wf_nbhd _ Hwf), compute_neighborhoods_lookup.
  by rewrite bool_decide_eq_true_2.
Qed.

(** ** Updates of the heap and the grid *)

Lemma heap_ok_insert W Ht tu i t :
  heap_ok W Ht tu -> turtle_ok W Ht t -> heap_ok W Ht (<[i := t]> tu).
Proof.
  intros Hh Hok j tj. rewrite lookup_insert.
  case_decide; [intros [= <-]; exact Hok | apply Hh].
Qed.

(** Updating a turtle without moving it keeps the grid accurate. *)
Lemma grid_ok_insert_same_pos tu g i t t' :
  grid_ok tu g -> tu !! i = Some t -> position t' = position t ->
  grid_ok (<[i := t']> tu) g.
Proof.
  intros Hg Ht Hp c j Hc. destruct (Hg c j Hc) as (tj & Htj & <-).
  destruct (decide (i = j)) as [->|Hne].
  - exists t'. rewrite lookup_insert_eq. split; [done|]. congruence.
  - exists tj. rewrite lookup_insert_ne by done. done.
Qed.

(** Moving [i] from its cell to [c]: clear the old cell, write [c]. *)
Lemma grid_ok_move tu g i t c :
  grid_ok tu g -> tu !! i = Some t ->
  grid_ok (<[i := set_position c t]> tu) (<[c := i]> (delete (position t) g)).
Proof.
  intros Hg Ht c0 j Hc0. rewrite lookup_insert in Hc0. case_decide as Hcc.
  - injection Hc0 as <-. subst c0. exists (set_position c t).
    by rewrite lookup_insert_eq.
  - rewrite lookup_delete in Hc0. case_decide as Hcp; [discriminate|].
    destruct (Hg c0 j Hc0) as (tj & Htj & Hpos).
    destruct (decide (i = j)) as [->|Hne]; [congruence|].
    exists tj. by rewrite lookup_insert_ne.
Qed.

Lemma grid_ok_delete tu g c : grid_ok tu g -> grid_ok tu (delete c g).
Proof.
  intros Hg c0 j. rewrite lookup_delete. case_decide; [discriminate | apply Hg].
Qed.

(** ** Running binds forward *)

Lemma bind_get_turtle {Y} i (k : Turtle -> ST World Y) (w : World) t :
  turtles (model w) !! i = Some t -> st_bind (get_turtle i) k w = k t w.
Proof. intros Ht. apply st_bind_of_Ok. by apply get_turtle_run. Qed.

Lemma bind_get_neighborhood {Y} c (k : list cell -> ST World Y) (w : World) nb :
  neighborhoods (model w) !! c = Some nb -> st_bind (get_neighborhood c) k w = k nb w.
Proof. intros Hn. apply st_bind_of_Ok. by apply get_neighborhood_run. Qed.

Lemma bind_rand {X Y} (r : ST G X) (k : X -> ST World Y) (w : World) x g :
  r (rng w) = Ok (x, g) -> st_bind (rand r) k w = k x (mkWorld (model w) g).
Proof. intros Hr. apply st_bind_of_Ok. by apply rand_run. Qed.

Lemma bind_update_turtle {Y} i f (k : unit -> ST World Y) (w : World) t :
  turtles (model w) !! i = Some t ->
  st_bind (update_turtle i f) k w =
  k tt (mkWorld (map_turtles (insert i (f t)) (model w)) (rng w)).
Proof. intros Ht. apply st_bind_of_Ok. by apply update_turtle_run. Qed.

Lemma bind_on_model {Y} f (k : unit -> ST World Y) (w : World) :
  st_bind (on_model f) k w = k tt (mkWorld (f (model w)) (rng w)).
Proof. reflexivity. Qed.

Lemma bind_get {Y} (k : World -> ST World Y) (w : World) : st_bind st_get k w = k w w.
Proof. reflexivity. Qed.

Lemma bind_lift {X Y} e (a : X) (k : X -> ST World Y) (w : World) :
  st_bind (st_lift e (Some a)) k w = k a w.
Proof. reflexivity. Qed.

Lemma bind_ret {X Y} (a : X) (k : X -> ST World Y) (w : World) :
  st_bind (st_ret a) k w = k a w.
Proof. reflexivity. Qed.

(** ** Well-formed turtles *)

Section TurtleOk.
Context (W Hg : Z) (t : Turtle) (Hok : turtle_ok W Hg t).

Lemma turtle_ok_position c : in_bounds W Hg c -> turtle_ok W Hg (set_position c t).
Proof. unfold turtle_ok in *; simpl. tauto. Qed.

Lemma turtle_ok_set_active b :
  type t = AGENT -> jail_term t = 0 -> turtle_ok W Hg (set_active b t).
Proof.
  unfold turtle_ok in *; simpl. intros Hty Hj.
  rewrite Hty, Hj. intuition (try discriminate; try lia).
Qed.

Lemma turtle_ok_arrest n :
  type t = AGENT -> turtle_ok W Hg (set_jail_term n (set_active false t)).
Proof. unfold turtle_ok in *; simpl. intros Hty. rewrite Hty. intuition discriminate. Qed.

Lemma turtle_ok_deactivate : turtle_ok W Hg (set_active false t).
Proof. unfold turtle_ok in *; simpl. intuition. Qed.

Lemma turtle_ok_release :
  0 < jail_term t -> turtle_ok W Hg (set_jail_term (jail_term t - 1) t).
Proof.
  unfold turtle_ok in *; simpl. intros Hj.
  destruct Hok as (Hb & Hc & Hja & Ha). split; [exact Hb|]. split; [|split].
  - intros Hty. destruct (Hc Hty). lia.
  - intros _. apply Hja. exact Hj.
  - exact Ha.
Qed.

Lemma turtle_ok_adjust h : turtle_ok W Hg (set_adjusted_hardship h t).
Proof. unfold turtle_ok in *; simpl. intuition eauto. Qed.
End TurtleOk.

Lemma wf_turtle m i t : wf m -> turtles m !! i = Some t -> turtle_ok (width m) (height m) t.
Proof. intros Hwf Ht. exact (wf_heap _ Hwf i t Ht). Qed.

(** An active turtle is an agent, and not jailed. *)
Lemma wf_active_agent m i t :
  wf m -> turtles m !! i = Some t -> active t = true -> type t = AGENT /\ jail_term t = 0.
Proof.
  intros Hwf Ht Ha. destruct (wf_turtle _ _ _ Hwf Ht) as (_ & Hc & Hj & _).
  destruct (type t); [split; [reflexivity|] | destruct (Hc eq_refl); congruence].
  destruct (jail_term t); [reflexivity|]. rewrite Hj in Ha by lia. discriminate.
Qed.

(** ** Well-formedness under updates *)

Lemma wf_update_turtle m i t t' :
  wf m -> turtles m !! i = Some t -> turtle_ok (width m) (height m) t' ->
  position t' = position t -> wf (map_turtles (insert i t') m).
Proof.
  intros [Hd Hn Hnd Hl Hh Hg] Ht Hok Hp. constructor; simpl; auto.
  - intros j Hj. rewrite lookup_insert. case_decide; [done | auto].
  - by apply heap_ok_insert.
  - by eapply grid_ok_insert_same_pos.
Qed.

Lemma wf_move m i t c :
  wf m -> turtles m !! i = Some t -> in_bounds (width m) (height m) c ->
  wf (map_turtles (insert i (set_position c t))
        (map_grid (insert c i) (map_grid (delete (position t)) m))).
Proof.
  intros [Hd Hn Hnd Hl Hh Hg] Ht Hc. constructor; simpl; auto.
  - intros j Hj. rewrite lookup_insert. case_decide; [done | auto].
  - apply heap_ok_insert; [done|]. apply turtle_ok_position; [|done]. eauto.
  - by apply grid_ok_move.
Qed.

(** ** [move_agent] *)

Context `{!RandomSourceOk G}.

(** A free entity always moves: its own cell, cleared first, is one of
    the candidates, so [random.choice] never sees an empty list; it
    lands on a cell of its old neighbourhood and the grid shows it
    there. *)
Lemma move_agent_run (w : World) i t :
  wf (model w) -> turtles (model w) !! i = Some t -> jail_term t = 0 ->
  exists c g',
    In c (neighborhood (width (model w)) (height (model w)) (m_vision (model w)) (position t)) /\
    free_for_move (turtles (model w)) (delete (position t) (grid (model w)) !! c) = true /\
    move_agent i w =
      Ok (tt, mkWorld (map_turtles (insert i (set_position c t))
                (map_grid (insert c i) (map_grid (delete (position t)) (model w)))) g').
Proof.
  intros Hwf Ht Hj. unfold move_agent.
  rewrite (bind_get_turtle _ _ _ _ Ht), Hj. simpl.
  rewrite bind_on_model.
  assert (Hpos : in_bounds (width (model w)) (height (model w)) (position t))
    by (eapply (wf_heap _ Hwf); eauto).
  erewrite bind_get_neighborhood; [|exact (wf_neighborhood _ _ Hwf Hpos)].
  rewrite bind_get. simpl.
  set (nb := neighborhood _ _ _ _).
  set (pot := List.filter _ nb).
  assert (Hin : In (position t) pot).
  { apply filter_In. split.
    - apply neighborhood_self; try apply Hwf; exact Hpos.
    - simpl. by rewrite lookup_delete_eq. }
  destruct pot as [|c0 rest] eqn:Hpot; [destruct Hin|].
  destruct (choice_Ok (c0 :: rest) (rng w) ltac:(discriminate)) as (c & g' & Hc).
  pose proof (choice_In _ _ _ _ Hc) as Hcin. rewrite <- Hpot in Hcin.
  apply filter_In in Hcin as [Hcnb Hfree].
  exists c, g'. split; [exact Hcnb|]. split; [exact Hfree|].
  erewrite bind_rand; [|exact Hc].
  rewrite bind_on_model. simpl.
  rewrite (update_turtle_run _ _ _ t); [reflexivity|exact Ht].
Qed.

(** ** [estimate_arrest_probability], [determine_behavior] *)

(** The neighbourhood list of a cell, as the table holds it. *)
Definition nbr (m : Model) (c : cell) : list cell :=
  neighborhood (width m) (height m) (m_vision m) c.

(** What [determine_behavior] decides for an agent with hardship [h]
    and risk aversion [r] standing on [c]. *)
Definition decision (m : Model) (h r : num) (c : cell) : bool :=
  activates (grievance h (gov_legitimacy m)) r
    (arrest_probability (k m) (cops_in_view (turtles m) (grid m) (nbr m c))
       (actives_in_view (turtles m) (grid m) (nbr m c))).

Lemma estimate_run (w : World) c :
  wf (model w) -> in_bounds (width (model w)) (height (model w)) c ->
  estimate_arrest_probability c w =
    Ok (arrest_probability (k (model w))
          (cops_in_view (turtles (model w)) (grid (model w)) (nbr (model w) c))
          (actives_in_view (turtles (model w)) (grid (model w)) (nbr (model w) c)), w).
Proof.
  intros Hwf Hc. unfold estimate_arrest_probability.
  erewrite bind_get_neighborhood; [reflexivity | exact (wf_neighborhood _ _ Hwf Hc)].
Qed.

Lemma determine_behavior_run (w : World) hs i t h r :
  wf (model w) -> turtles (model w) !! i = Some t ->
  hardship_of hs t = Some h -> risk_aversion t = Some r ->
  determine_behavior hs i w =
    Ok (tt, mkWorld (map_turtles (insert i (set_active (decision (model w) h r (position t)) t))
                       (model w)) (rng w)).
Proof.
  intros Hwf Ht Hh Hr. unfold determine_behavior.
  rewrite (bind_get_turtle _ _ _ _ Ht), bind_get, Hh, bind_lift.
  assert (Hpos : in_bounds (width (model w)) (height (model w)) (position t))
    by (eapply (wf_heap _ Hwf); eauto).
  rewrite (st_bind_of_Ok _ _ _ _ _ (estimate_run _ _ Hwf Hpos)), Hr, bind_lift.
  by rewrite (update_turtle_run _ _ _ t).
Qed.

(** ** [enforce] *)

Lemma active_occupants_In tu g nb j c :
  In (j, c) (active_occupants tu g nb) <->
  In c nb /\ g !! c = Some j /\ exists tj, tu !! j = Some tj /\ active tj = true.
Proof.
  unfold active_occupants. rewrite in_flat_map. split.
  - intros (c' & Hc' & Hin).
    destruct (g !! c') as [n|] eqn:E; [|destruct Hin].
    destruct (tu !! n) as [tn|] eqn:E2; [|destruct Hin].
    destruct (active tn) eqn:E3; [|destruct Hin].
    destruct Hin as [[= <- <-]|[]]. eauto.
  - intros (Hc & Hg & tj & Htj & Ha). exists c. split; [exact Hc|].
    rewrite Hg, Htj, Ha. left. reflexivity.
Qed.

(** The configurations under which the jail-term draw succeeds, and
    its largest value. *)
Definition jail_ok (m : Model) (jp : JailPolicy) : Prop :=
  match jp with
  | RandomJailTerm => (0 <= max_jail_term m)%Z
  | FixedJailTerm _ => True
  end.

Definition jail_max (m : Model) (jp : JailPolicy) : nat :=
  match jp with
  | RandomJailTerm => Z.to_nat (max_jail_term m)
  | FixedJailTerm n => n
  end.

Lemma draw_jail_term_run (w : World) jp :
  jail_ok (model w) jp ->
  exists n w', n <= jail_max (model w) jp /\ model w' = model w /\
    draw_jail_term jp w = Ok (n, w').
Proof.
  destruct jp as [|n]; simpl; intros Hj.
  - unfold draw_jail_term, randint, randrange. rewrite bind_get.
    rewrite (proj2 (Z.ltb_lt 0 (max_jail_term (model w) + 1 - 0))) by lia.
    pose proof (randbelow_lt (Z.to_nat (max_jail_term (model w) + 1 - 0)) (rng w)
                  ltac:(lia)) as Hb.
    unfold rand, st_bind, _randbelow, st_ret.
    destruct (randbelow _ (rng w)) as [r g] eqn:E. simpl in Hb.
    exists (Z.to_nat (0 + Z.of_nat r)), (mkWorld (model w) g).
    split; [lia | split; reflexivity].
  - exists n, w. repeat split. lia.
Qed.

(** The state after cop [i] arrests agent [j] standing on [c]. *)
Definition arrest (m : Model) (i : nat) (cop : Turtle) (j : nat) (tj : Turtle)
    (c : cell) (jt : nat) : Model :=
  map_turtles (insert i (set_position c cop))
    (map_grid (insert c i) (map_grid (delete (position cop))
      (map_turtles (insert j (set_jail_term jt (set_active false tj)))
        (map_turtles (insert j (set_active false tj)) m)))).

Lemma active_not_cop m i cop j tj :
  wf m -> turtles m !! i = Some cop -> type cop = COP ->
  turtles m !! j = Some tj -> active tj = true -> j <> i /\ type tj = AGENT.
Proof.
  intros Hwf Hi Hc Hj Ha. destruct (wf_active_agent _ _ _ Hwf Hj Ha) as [Hty _].
  split; [|exact Hty]. intros ->. congruence.
Qed.

Lemma enforce_run (w : World) jp i cop :
  wf (model w) -> turtles (model w) !! i = Some cop -> type cop = COP ->
  jail_ok (model w) jp ->
  (active_occupants (turtles (model w)) (grid (model w)) (nbr (model w) (position cop)) = []
   /\ enforce jp i w = Ok (tt, w)) \/
  (exists j c tj jt w',
     In (j, c) (active_occupants (turtles (model w)) (grid (model w))
                  (nbr (model w) (position cop))) /\
     turtles (model w) !! j = Some tj /\ active tj = true /\
     jt <= jail_max (model w) jp /\
     model w' = arrest (model w) i cop j tj c jt /\
     enforce jp i w = Ok (tt, w')).
Proof.
  intros Hwf Hi Hcop Hjp. unfold enforce.
  rewrite (bind_get_turtle _ _ _ _ Hi).
  assert (Hpos : in_bounds (width (model w)) (height (model w)) (position cop))
    by (eapply (wf_heap _ Hwf); eauto).
  erewrite bind_get_neighborhood; [|exact (wf_neighborhood _ _ Hwf Hpos)].
  rewrite bind_get. fold (nbr (model w) (position cop)).
  destruct (active_occupants _ _ _) as [|o rest] eqn:Hocc; [left; split; reflexivity|].
  right.
  destruct (choice_Ok (o :: rest) (rng w) ltac:(discriminate)) as ([j c] & g1 & Hc).
  pose proof (choice_In _ _ _ _ Hc) as Hin0.
  pose proof Hin0 as Hin. rewrite <- Hocc in Hin.
  apply active_occupants_In in Hin as (_ & _ & tj & Htj & Ha).
  destruct (active_not_cop _ _ _ _ _ Hwf Hi Hcop Htj Ha) as [Hne _].
  erewrite bind_rand; [|exact Hc]. cbv beta iota.
  rewrite (bind_update_turtle _ _ _ _ tj) by exact Htj. cbn [model rng].
  match goal with |- context [st_bind (draw_jail_term jp) _ ?w1] =>
    destruct (draw_jail_term_run w1 jp Hjp) as (jt & w2 & Hjt & Hw2 & Hd) end.
  rewrite (st_bind_of_Ok _ _ _ _ _ Hd).
  rewrite (bind_update_turtle _ _ _ _ (set_active false tj));
    [|rewrite Hw2; simpl; apply lookup_insert_eq].
  rewrite !bind_on_model.
  rewrite (update_turtle_run _ _ _ cop);
    [|rewrite Hw2; simpl; rewrite !lookup_insert_ne by congruence; exact Hi].
  exists j, c, tj, jt. eexists. split; [exact Hin0|].
  split; [exact Htj|]. split; [exact Ha|]. split; [exact Hjt|].
  split; [|reflexivity]. simpl. rewrite Hw2. reflexivity.
Qed.

(** ** What a turn leaves unchanged *)

(** Everything but the heap, the grid and the generator. *)
Definition frame (m m' : Model) : Prop :=
  width m' = width m /\ height m' = height m /\ m_vision m' = m_vision m /\
  neighborhoods m' = neighborhoods m /\ entities m' = entities m /\
  k m' = k m /\ gov_legitimacy m' = gov_legitimacy m /\
  max_jail_term m' = max_jail_term m /\
  neighbor_influence_percentage m' = neighbor_influence_percentage m /\
  data m' = data m /\ tick m' = tick m.

Lemma frame_refl m : frame m m.
Proof. repeat split. Qed.

Lemma frame_trans m1 m2 m3 : frame m1 m2 -> frame m2 m3 -> frame m1 m3.
Proof. unfold frame. intuition congruence. Qed.

Lemma frame_map_turtles f m : frame m (map_turtles f m).
Proof. repeat split. Qed.

Lemma frame_map_grid f m : frame m (map_grid f m).
Proof. repeat split. Qed.

(** The kind of every object of the heap. *)
Definition types_of (m : Model) : gmap nat EntityType := type <$> turtles m.

Lemma types_of_insert m i t t' :
  turtles m !! i = Some t -> type t' = type t ->
  types_of (map_turtles (insert i t') m) = types_of m.
Proof.
  intros Ht Hty. unfold types_of; simpl. rewrite fmap_insert, Hty.
  apply insert_id. by rewrite lookup_fmap, Ht.
Qed.

Lemma wf_arrest m i cop j tj c jt :
  wf m -> turtles m !! i = Some cop -> type cop = COP ->
  turtles m !! j = Some tj -> active tj = true ->
  in_bounds (width m) (height m) c -> wf (arrest m i cop j tj c jt).
Proof.
  intros Hwf Hi Hcop Hj Ha Hc.
  destruct (active_not_cop _ _ _ _ _ Hwf Hi Hcop Hj Ha) as [Hne Hty].
  pose proof (wf_turtle _ _ _ Hwf Hj) as Hok.
  assert (Hwf1 : wf (map_turtles (insert j (set_active false tj)) m))
    by (eapply wf_update_turtle; eauto using turtle_ok_deactivate).
  unfold arrest. apply wf_move; [| simpl; rewrite !lookup_insert_ne by congruence; exact Hi
                                | exact Hc].
  eapply wf_update_turtle; [exact Hwf1 | simpl; apply lookup_insert_eq | |reflexivity].
  apply turtle_ok_arrest; [|exact Hty]. exact Hok.
Qed.

Lemma frame_arrest m i cop j tj c jt : frame m (arrest m i cop j tj c jt).
Proof. repeat split. Qed.

Lemma types_of_arrest m i cop j tj c jt :
  wf m -> turtles m !! i = Some cop -> type cop = COP ->
  turtles m !! j = Some tj -> active tj = true ->
  types_of (arrest m i cop j tj c jt) = types_of m.
Proof.
  intros Hwf Hi Hcop Hj Ha.
  destruct (active_not_cop _ _ _ _ _ Hwf Hi Hcop Hj Ha) as [Hne _].
  unfold arrest. rewrite (types_of_insert _ i cop); [| simpl; rewrite !lookup_insert_ne by congruence; exact Hi | reflexivity].
  change (types_of (map_turtles (insert j (set_jail_term jt (set_active false tj)))
                      (map_turtles (insert j (set_active false tj)) m)) = types_of m).
  rewrite (types_of_insert _ j (set_active false tj)); [| simpl; apply lookup_insert_eq | reflexivity].
  by apply (types_of_insert _ j tj).
Qed.

Lemma types_of_move m i t c :
  turtles m !! i = Some t ->
  types_of (map_turtles (insert i (set_position c t))
              (map_grid (insert c i) (map_grid (delete (position t)) m))) = types_of m.
Proof.
  intros Ht. rewrite (types_of_insert (map_grid _ (map_grid _ m)) i t);
    [reflexivity | exact Ht | reflexivity].
Qed.

(** ** One turn *)

Definition turn_ok (m m' : Model) : Prop :=
  wf m' /\ frame m m' /\ types_of m' = types_of m.

Lemma turn_ok_trans m1 m2 m3 : turn_ok m1 m2 -> turn_ok m2 m3 -> turn_ok m1 m3.
Proof.
  intros (_ & F12 & T12) (W3 & F23 & T23). split; [exact W3|].
  split; [eapply frame_trans; eauto | congruence].
Qed.

(** The turn of [i] leaves every other inactive entity as it was. *)
Definition keeps_inactive (i : nat) (m m' : Model) : Prop :=
  forall j tj, j <> i -> turtles m !! j = Some tj -> active tj = false ->
    turtles m' !! j = Some tj.

Lemma keeps_inactive_trans i m1 m2 m3 :
  keeps_inactive i m1 m2 -> keeps_inactive i m2 m3 -> keeps_inactive i m1 m3.
Proof. intros H12 H23 j tj Hne Hj Ha. eauto. Qed.

Lemma keeps_inactive_insert i t' m : keeps_inactive i m (map_turtles (insert i t') m).
Proof. intros j tj Hne Hj _. simpl. by rewrite lookup_insert_ne by congruence. Qed.

Lemma keeps_inactive_arrest m i cop j tj c jt :
  turtles m !! j = Some tj -> active tj = true ->
  keeps_inactive i m (arrest m i cop j tj c jt).
Proof.
  intros Hj Ha j' tj' Hne Hj' Ha'. unfold arrest; simpl.
  assert (j' <> j) by (intros ->; congruence).
  by rewrite !lookup_insert_ne by congruence.
Qed.

Lemma act_run v (w : World) i t :
  wf (model w) -> turtles (model w) !! i = Some t -> jail_ok (model w) (v_jail v) ->
  exists w', act v i w = Ok (tt, w') /\ turn_ok (model w) (model w') /\
    keeps_inactive i (model w) (model w').
Proof.
  intros Hwf Ht Hjp. unfold act. rewrite (bind_get_turtle _ _ _ _ Ht).
  pose proof (wf_turtle _ _ _ Hwf Ht) as Hok.
  destruct (Nat.ltb_spec 0 (jail_term t)) as [Hj|Hj].
  - eexists. split; [apply update_turtle_run; exact Ht|].
    split; [|apply keeps_inactive_insert]. split; [|split].
    + eapply wf_update_turtle; eauto. by apply turtle_ok_release.
    + apply frame_map_turtles.
    + by apply (types_of_insert _ i t).
  - assert (Hj0 : jail_term t = 0) by lia.
    destruct (move_agent_run w i t Hwf Ht Hj0) as (c & g' & Hc & _ & Hmv).
    rewrite (st_bind_of_Ok _ _ _ _ _ Hmv).
    set (w1 := mkWorld _ g').
    assert (Hcb : in_bounds (width (model w)) (height (model w)) c)
      by (eapply neighborhood_in_bounds; try apply Hwf; exact Hc).
    assert (Hwf1 : wf (model w1)) by (apply wf_move; auto).
    assert (Ht1 : turtles (model w1) !! i = Some (set_position c t))
      by (simpl; apply lookup_insert_eq).
    assert (Hok1 : turn_ok (model w) (model w1)).
    { split; [exact Hwf1|]. split; [repeat split | by apply types_of_move]. }
    assert (Hk1 : keeps_inactive i (model w) (model w1))
      by (intros j tj Hne Hj' _; simpl; by rewrite lookup_insert_ne by congruence).
    destruct (type t) eqn:Hty.
    + destruct (proj2 (proj2 (proj2 Hok)) Hty) as ([r Hr] & [h Hh] & [ha Hha]).
      assert (Hhs : exists x, hardship_of (v_hardship v) (set_position c t) = Some x)
        by (destruct (v_hardship v); simpl; eauto).
      destruct Hhs as [x Hx].
      rewrite (determine_behavior_run _ _ _ _ x r Hwf1 Ht1 Hx Hr).
      eexists. split; [reflexivity|].
      split; [|eapply keeps_inactive_trans; [exact Hk1 | apply keeps_inactive_insert]].
      apply (turn_ok_trans _ _ _ Hok1).
      split; [|split].
      * eapply wf_update_turtle; [exact Hwf1 | exact Ht1 | | reflexivity].
        apply turtle_ok_set_active; [eapply wf_turtle; eauto | exact Hty | exact Hj0].
      * apply frame_map_turtles.
      * by apply (types_of_insert _ i (set_position c t)).
    + destruct (enforce_run w1 (v_jail v) i (set_position c t) Hwf1 Ht1 Hty Hjp)
        as [[_ Hen] | (j & c' & tj & jt & w2 & Hin & Htj & Ha & _ & Hw2 & Hen)].
      * rewrite Hen. eexists. split; [reflexivity | split; [exact Hok1 | exact Hk1]].
      * rewrite Hen. eexists. split; [reflexivity|].
        split; [|eapply keeps_inactive_trans; [exact Hk1 | rewrite Hw2;
                   by apply keeps_inactive_arrest]].
        apply (turn_ok_trans _ _ _ Hok1).
        rewrite Hw2. apply active_occupants_In in Hin as [Hin _].
        split; [|split].
        -- apply wf_arrest; auto. eapply neighborhood_in_bounds; try apply Hwf1. exact Hin.
        -- apply frame_arrest.
        -- apply types_of_arrest; auto.
Qed.
(** ** The contracts of [move_agent], [enforce] and the hardship scan

    What one call of [move_agent] and of [enforce] does to a well-formed
    state: the cell it chooses, the entities it updates and the grid
    entries it writes; and which hardships the average of
    [compute_adjusted_hardship] reads. *)

Lemma nbr_in_bounds m c c' :
  wf m -> In c' (nbr m c) -> in_bounds (width m) (height m) c'.
Proof. intros Hwf Hin. eapply neighborhood_in_bounds; try apply Hwf. exact Hin. Qed.

(** The entity the grid shows on a cell stands on that cell. *)
Lemma grid_position m c j tj :
  wf m -> grid m !! c = Some j -> turtles m !! j = Some tj -> position tj = c.
Proof.
  intros Hwf Hg Hj. destruct (wf_grid _ Hwf c j Hg) as (tj' & Hj' & Hp). congruence.
Qed.

(** C4 [move_agent] on a free entity of a well-formed state
    never raises: it clears the entity's cell, picks a cell [c] of its
    neighbourhood that is then empty or holds a jailed entity, puts the
    entity there and writes it into the grid; its old cell is left empty
    when it moved, and the state stays well formed. *)
Theorem move_agent_moves (w : World) i t :
  wf (model w) -> turtles (model w) !! i = Some t -> jail_term t = 0 ->
  exists c w', move_agent i w = Ok (tt, w') /\ wf (model w') /\
    In c (nbr (model w) (position t)) /\
    free_for_move (turtles (model w)) (delete (position t) (grid (model w)) !! c) = true /\
    turtles (model w') !! i = Some (set_position c t) /\
    grid (model w') !! c = Some i /\
    (c <> position t -> grid (model w') !! position t = None).
Proof.
  intros Hwf Ht Hj.
  destruct (move_agent_run w i t Hwf Ht Hj) as (c & g' & Hc & Hfree & Hrun).
  eexists c, _. split; [exact Hrun|]. cbn [model].
  split; [apply wf_move; [exact Hwf | exact Ht | exact (nbr_in_bounds _ _ _ Hwf Hc)]|].
  split; [exact Hc|]. split; [exact Hfree|]. simpl.
  rewrite !lookup_insert_eq. split; [reflexivity|]. split; [reflexivity|].
  intros Hne. rewrite lookup_insert_ne by congruence. apply lookup_delete_eq.
Qed.

(** C5 [enforce] by a cop of a well-formed state never
    raises and keeps the state well formed.  With no active agent in
    view nothing changes; otherwise the cop picks one, [j], shown by the
    grid on a cell [c] of its neighbourhood: [j] becomes inactive with a
    jail term within the policy's bound, the cop moves to [c] and the
    grid shows the cop on [c], where [j] still stands. *)
Theorem enforce_arrests (w : World) jp i cop :
  wf (model w) -> turtles (model w) !! i = Some cop -> type cop = COP ->
  jail_ok (model w) jp ->
  exists w', enforce jp i w = Ok (tt, w') /\ wf (model w') /\
    ((active_occupants (turtles (model w)) (grid (model w)) (nbr (model w) (position cop)) = []
      /\ w' = w) \/
     (exists j c tj jt,
        In c (nbr (model w) (position cop)) /\ grid (model w) !! c = Some j /\
        turtles (model w) !! j = Some tj /\ active tj = true /\ position tj = c /\
        jt <= jail_max (model w) jp /\
        turtles (model w') !! j = Some (set_jail_term jt (set_active false tj)) /\
        turtles (model w') !! i = Some (set_position c cop) /\
        grid (model w') !! c = Some i)).
Proof.
  intros Hwf Hi Hcop Hjp.
  destruct (enforce_run w jp i cop Hwf Hi Hcop Hjp)
    as [[Hnil Hrun] | (j & c & tj & jt & w' & Hin & Htj & Ha & Hjt & Hm & Hrun)].
  - exists w. split; [exact Hrun|]. split; [exact Hwf|]. left. split; [exact Hnil | reflexivity].
  - apply active_occupants_In in Hin as (Hc & Hg & _).
    destruct (active_not_cop _ _ _ _ _ Hwf Hi Hcop Htj Ha) as [Hne _].
    exists w'. split; [exact Hrun|]. rewrite Hm.
    split; [apply wf_arrest; auto; exact (nbr_in_bounds _ _ _ Hwf Hc)|].
    right. exists j, c, tj, jt. unfold arrest; simpl.
    rewrite (lookup_insert_ne _ i j) by congruence. rewrite !lookup_insert_eq.
    repeat split; auto. exact (grid_position _ _ _ _ Hwf Hg Htj).
Qed.

(** C7 The hardships [compute_adjusted_hardship] averages
    for an agent are read from the grid cells of its neighbourhood, and
    its own cell is one of them: when the grid shows the agent on its
    cell, its own hardship is among the averaged values. *)
Theorem neighbor_hardships_include_own (m : Model) i t :
  wf m -> turtles m !! i = Some t -> type t = AGENT -> grid m !! position t = Some i ->
  In (hardship t) (neighbor_hardships (turtles m) (grid m) (nbr m (position t))).
Proof.
  intros Hwf Ht Hty Hg. unfold neighbor_hardships. apply in_flat_map.
  exists (position t). split.
  - apply neighborhood_self; try apply Hwf. eapply (wf_heap _ Hwf); eauto.
  - rewrite Hg, Ht, bool_decide_eq_true_2 by exact Hty. left. reflexivity.
Qed.
(** With a negative bound, [random.randint(0, max_jail_term)] raises. *)
Lemma draw_jail_term_negative (w : World) :
  ~ jail_ok (model w) RandomJailTerm -> draw_jail_term RandomJailTerm w = Exc ValueError.
Proof.
  simpl. intros Hneg. unfold draw_jail_term. rewrite bind_get. apply st_bind_Exc.
  unfold rand, randint, randrange. destruct (Z.ltb_spec 0 (max_jail_term (model w) + 1 - 0)); [lia|].
  reflexivity.
Qed.

(** C2 [move_agent] clears [grid[position]] without checking whom the
    grid shows there.  When the grid shows another entity [k] on the cell
    of a free entity [i] (as it does once an agent arrested under a cop
    is released), the move of [i] erases [k] from the grid: afterwards
    no cell shows [k], although [k] still stands where it stood. *)
Theorem move_agent_erases_shown (w : World) i t k :
  wf (model w) -> turtles (model w) !! i = Some t -> jail_term t = 0 ->
  grid (model w) !! position t = Some k -> k <> i ->
  exists w', move_agent i w = Ok (tt, w') /\ (forall c, grid (model w') !! c <> Some k) /\
    turtles (model w') !! k = turtles (model w) !! k.
Proof.
  intros Hwf Ht Hj Hg Hne.
  destruct (move_agent_run w i t Hwf Ht Hj) as (c & g' & _ & _ & Hrun).
  eexists. split; [exact Hrun|]. simpl. split; [|by rewrite lookup_insert_ne by congruence].
  intros c'. destruct (decide (c' = c)) as [->|Hc]; [rewrite lookup_insert_eq; congruence|].
  rewrite lookup_insert_ne by congruence.
  destruct (decide (c' = position t)) as [->|Hp]; [by rewrite lookup_delete_eq|].
  rewrite lookup_delete_ne by congruence. intros Hk.
  destruct (wf_grid _ Hwf _ _ Hk) as (tk & Htk & Hpk).
  destruct (wf_grid _ Hwf _ _ Hg) as (tk' & Htk' & Hpk'). congruence.
Qed.

(** C8 The constructors do not check [max_jail_term].  When it is
    negative, every arrest raises: as soon as a cop of a well-formed
    state has an active agent in view, [enforce] with extension1's jail
    policy raises [ValueError] from [random.randint(0, max_jail_term)]. *)
Theorem enforce_negative_jail_term (w : World) i cop :
  wf (model w) -> turtles (model w) !! i = Some cop -> type cop = COP ->
  active_occupants (turtles (model w)) (grid (model w)) (nbr (model w) (position cop)) <> [] ->
  ~ jail_ok (model w) RandomJailTerm ->
  enforce RandomJailTerm i w = Exc ValueError.
Proof.
  intros Hwf Hi Hcop Hocc Hneg. unfold enforce.
  rewrite (bind_get_turtle _ _ _ _ Hi).
  assert (Hpos : in_bounds (width (model w)) (height (model w)) (position cop))
    by (eapply (wf_heap _ Hwf); eauto).
  erewrite bind_get_neighborhood; [|exact (wf_neighborhood _ _ Hwf Hpos)].
  rewrite bind_get. fold (nbr (model w) (position cop)).
  destruct (active_occupants _ _ _) as [|o rest] eqn:Hl; [congruence|].
  destruct (choice_Ok (o :: rest) (rng w) ltac:(discriminate)) as ([j c] & g1 & Hc).
  pose proof (choice_In _ _ _ _ Hc) as Hin. rewrite <- Hl in Hin.
  apply active_occupants_In in Hin as (_ & _ & tj & Htj & _).
  erewrite bind_rand; [|exact Hc]. cbv beta iota.
  rewrite (bind_update_turtle _ _ _ _ tj) by exact Htj.
  apply st_bind_Exc, draw_jail_term_negative. exact Hneg.
Qed.
End Inv.
