(* ===== verification/EngineStep.v ===== *)
(** * A whole tick of the grid engine

    The loop of turns, the shuffle, the count and the three [step]
    functions: from a well-formed state a tick never raises and ends in a
    well-formed state; its appended counts add up to the number of agents
    (the population is conserved); a jailed agent's term drops by one. *)

From S2P Require Import Prelude Random Torus Rules Engine EngineInv.
Local Open Scope nat_scope.

Section Step.
Context {A : Arith} {G : Type} `{RandomSource G} `{!RandomSourceOk G}.

Abbreviation Turtle := (Turtle A).
Abbreviation Model := (Model A).
Abbreviation World := (World A G).

(** ** The tick *)

(** The counting loop after the turns (extension1.py 116-124,
    extension2.py 92-102): [(quiet, jail, active, cop)]; extension1 and
    rep2 have no cop counter, their loop is the same without it. *)
Fixpoint count_states (tu : gmap nat Turtle) (es : list nat) : nat * nat * nat * nat :=
  match es with
  | [] => (0, 0, 0, 0)
  | i :: es' =>
      let '(q, j, a, c) := count_states tu es' in
      match tu !! i with
      | Some t =>
          if 0 <? jail_term t then (q, S j, a, c)
          else match type t with
               | AGENT => if active t then (q, j, S a, c) else (S q, j, a, c)
               | COP => (q, j, a, S c)
               end
      | None => (q, j, a, c)
      end
  end.

(** [self.data['quiet'].append(...)] and the two others. *)
Definition append_counts (q j a : nat) (d : Data) : Data :=
  mkData (data_quiet d ++ [q]) (data_jail d ++ [j]) (data_active d ++ [a]) (data_cop d).

Definition append_cop (c : nat) (d : Data) : Data :=
  mkData (data_quiet d) (data_jail d) (data_active d) (data_cop d ++ [c]).

(** The turns of a tick: [random.shuffle(self.entities)], then
    [for entity in self.entities: ...]. *)
Definition shuffle_and_act (v : Variant) : ST World (list nat) :=
  let* w := st_get in
  let* es := rand (shuffle (entities (model w))) in
  let* _ := on_model (set_entities es) in
  let* _ := st_iter (act v) es in
  ret es.

(** The part of [step] common to extension1 and rep2: the turns, then
    the count and the appends. *)
Definition step_core (v : Variant) : ST World unit :=
  let* es := shuffle_and_act v in
  let* w := st_get in
  let '(q, j, a, _) := count_states (turtles (model w)) es in
  on_model (map_data (append_counts q j a)).

(** [step] of extension1.py (lines 99-127). *)
Definition step_extension1 : ST World unit :=
  let* _ := compute_adjusted_hardship in step_core extension1_variant.

Definition set_legitimacy (l : num) (m : Model) : Model :=
  mkModel (width m) (height m) (m_vision m) (k m) l (max_jail_term m)
    (neighbor_influence_percentage m) (neighborhoods m) (turtles m) (entities m)
    (grid m) (data m) (tick m).
Definition incr_tick (m : Model) : Model :=
  mkModel (width m) (height m) (m_vision m) (k m) (gov_legitimacy m) (max_jail_term m)
    (neighbor_influence_percentage m) (neighborhoods m) (turtles m) (entities m)
    (grid m) (data m) (S (tick m)).

(** [step] of rep2.py (lines 103-137): the decay of the legitimacy and
    the tick counter come after the appends. *)
Definition step_rep2 : ST World unit :=
  let* _ := step_core rep2_variant in
  let* w := st_get in
  let* _ := on_model (set_legitimacy (legitimacy_decay (gov_legitimacy (model w)))) in
  on_model incr_tick.

Definition is_kind (ty : EntityType) (m : Model) (i : nat) : bool :=
  bool_decide (types_of m !! i = Some ty).

(** The number of agents among the entities. *)
Definition count_agents (m : Model) : nat := count_if (is_kind AGENT m) (entities m).

Definition count_cops (m : Model) : nat := count_if (is_kind COP m) (entities m).

(** The fields of a turtle that [compute_adjusted_hardship] keeps. *)
Definition same_status (t t' : Turtle) : Prop :=
  jail_term t' = jail_term t /\ active t' = active t /\ position t' = position t /\
  type t' = type t.

(** Every turtle keeps its status. *)
Definition status_kept (m m' : Model) : Prop :=
  forall j tj, turtles m !! j = Some tj ->
    exists tj', turtles m' !! j = Some tj' /\ same_status tj tj'.

(** ** The turns *)

Lemma jail_ok_frame m m' jp : frame m m' -> jail_ok m jp -> jail_ok m' jp.
Proof.
  intros (_ & _ & _ & _ & _ & _ & _ & Hmax & _) Hj. destruct jp; simpl in *; [|exact I].
  by rewrite Hmax.
Qed.

Lemma wf_turn_ok m : wf m -> turn_ok m m.
Proof. intros Hwf. split; [exact Hwf|]. split; [apply frame_refl | reflexivity]. Qed.

(** A loop over live ids whose body succeeds from every state reached,
    keeps [turn_ok] and relates its states by a preorder [R]. *)
Lemma iter_turn_ok_rel (R : Model -> Model -> Prop)
    (Rrefl : forall m, R m m) (Rtrans : forall a b c, R a b -> R b c -> R a c)
    (f : nat -> ST World unit) (w : World) (es : list nat) :
  wf (model w) ->
  (forall s i, turn_ok (model w) (model s) -> i ∈ entities (model s) ->
     exists s', f i s = Ok (tt, s') /\ turn_ok (model s) (model s') /\ R (model s) (model s')) ->
  (forall i, In i es -> i ∈ entities (model w)) ->
  exists w', st_iter f es w = Ok (tt, w') /\ turn_ok (model w) (model w') /\
    R (model w) (model w').
Proof.
  intros Hwf Hf Hes.
  apply (st_iter_progress _ (fun s => turn_ok (model w) (model s) /\ R (model w) (model s)));
    [|split; [by apply wf_turn_ok | apply Rrefl]].
  intros i s Hi [Hs HR].
  assert (Hlive : i ∈ entities (model s)).
  { destruct Hs as (_ & (_ & _ & _ & _ & -> & _) & _). auto. }
  destruct (Hf s i Hs Hlive) as (s' & Hs' & Hok & HR').
  exists s'. split; [exact Hs'|]. split; [eapply turn_ok_trans; eauto | eauto].
Qed.

Lemma iter_turn_ok (f : nat -> ST World unit) (w : World) (es : list nat) :
  wf (model w) ->
  (forall s i, turn_ok (model w) (model s) -> i ∈ entities (model s) ->
     exists s', f i s = Ok (tt, s') /\ turn_ok (model s) (model s')) ->
  (forall i, In i es -> i ∈ entities (model w)) ->
  exists w', st_iter f es w = Ok (tt, w') /\ turn_ok (model w) (model w').
Proof.
  intros Hwf Hf Hes.
  destruct (iter_turn_ok_rel (fun _ _ => True) (fun _ => I) (fun _ _ _ _ _ => I) f w es Hwf)
    as (w' & H1 & H2 & _); [|exact Hes|eauto].
  intros s i Hs Hi. destruct (Hf s i Hs Hi) as (s' & ? & ?). eauto.
Qed.

(** The loop [for entity in self.entities] of [step]. *)
Lemma iter_act_run v (w : World) (es : list nat) :
  wf (model w) -> jail_ok (model w) (v_jail v) ->
  (forall i, In i es -> i ∈ entities (model w)) ->
  exists w', st_iter (act v) es w = Ok (tt, w') /\ turn_ok (model w) (model w').
Proof.
  intros Hwf Hjp. apply iter_turn_ok; [exact Hwf|].
  intros s i (Hwfs & Hfr & _) Hlive.
  destruct (wf_live _ Hwfs i Hlive) as [t Ht].
  destruct (act_run v s i t Hwfs Ht) as (s' & Hs' & Hok & _); eauto using jail_ok_frame.
Qed.

Lemma wf_set_entities m es :
  wf m -> entities m ≡ₚ es -> wf (set_entities es m).
Proof.
  intros [Hd Hn Hnd Hl Hh Hg] Hp. constructor; simpl; auto.
  - by rewrite <- Hp.
  - intros i Hi. apply Hl. by rewrite Hp.
Qed.

(** The shuffle and the turns. *)
Lemma shuffle_and_act_run v (w : World) :
  wf (model w) -> jail_ok (model w) (v_jail v) ->
  exists es w', shuffle_and_act v w = Ok (es, w') /\
    entities (model w) ≡ₚ es /\ turn_ok (set_entities es (model w)) (model w').
Proof.
  intros Hwf Hjp. unfold shuffle_and_act. rewrite bind_get.
  destruct (shuffle_Ok (entities (model w)) (rng w)) as (es & g & Hsh).
  erewrite bind_rand; [|exact Hsh]. rewrite bind_on_model. simpl.
  pose proof (shuffle_Permutation _ _ _ _ Hsh) as Hp.
  set (w1 := mkWorld (set_entities es (model w)) g).
  assert (Hwf1 : wf (model w1)) by (apply wf_set_entities; auto).
  destruct (iter_act_run v w1 es Hwf1 Hjp) as (w2 & Hit & Hok).
  { intros i Hi. simpl. by apply list_elem_of_In. }
  rewrite (st_bind_of_Ok _ _ _ _ _ Hit).
  exists es, w2. split; [reflexivity|]. split; [exact Hp | exact Hok].
Qed.

(** ** Counting *)

Lemma count_if_Permutation {X} (p : X -> bool) l l' :
  l ≡ₚ l' -> count_if p l = count_if p l'.
Proof.
  induction 1 as [|x l l' _ IH|x y l|l l' l'' _ IH1 _ IH2];
    rewrite ?count_if_cons; try destruct (p x); try destruct (p y); lia.
Qed.

(** The second loop of [step]: with no cop in jail, the jailed, active
    and quiet counts split the agents, the last count is the cops. *)
Lemma count_states_spec (m : Model) es :
  heap_ok (width m) (height m) (turtles m) ->
  (forall i, In i es -> is_Some (turtles m !! i)) ->
  forall q j a c, count_states (turtles m) es = (q, j, a, c) ->
  q + j + a = count_if (is_kind AGENT m) es /\ c = count_if (is_kind COP m) es.
Proof.
  intros Hh. induction es as [|i es IH]; simpl; intros Hl q j a c Hc.
  - injection Hc as <- <- <- <-. split; reflexivity.
  - destruct (count_states _ es) as [[[q' j'] a'] c'] eqn:E.
    destruct (IH (fun x Hx => Hl x (or_intror Hx)) _ _ _ _ eq_refl) as [Hs Hcop].
    rewrite !count_if_cons. unfold is_kind at 1 3, types_of. rewrite lookup_fmap.
    destruct (Hl i (or_introl eq_refl)) as [t Ht]. rewrite Ht in Hc |- *. simpl.
    destruct (Hh i t Ht) as (_ & Hcopok & _).
    destruct (Nat.ltb_spec 0 (jail_term t)).
    + destruct (type t) eqn:Hty; [|destruct (Hcopok eq_refl); lia].
      injection Hc as <- <- <- <-. simpl. lia.
    + destruct (type t); [destruct (active t)|]; injection Hc as <- <- <- <-;
        simpl; lia.
Qed.

(** ** [compute_adjusted_hardship] *)

Lemma sum_hardship_Some total count hs :
  (forall o, In o hs -> is_Some o) -> exists r, sum_hardship total count hs = Some r.
Proof.
  revert total count. induction hs as [|o hs IH]; simpl; intros total count Hall; [eauto|].
  destruct (Hall o (or_introl eq_refl)) as [h ->]. apply IH. auto.
Qed.

Lemma neighbor_hardships_Some (m : Model) nb :
  heap_ok (width m) (height m) (turtles m) ->
  forall o, In o (neighbor_hardships (turtles m) (grid m) nb) -> is_Some o.
Proof.
  intros Hh o Hin. unfold neighbor_hardships in Hin. apply in_flat_map in Hin as (c & _ & Hin).
  destruct (grid m !! c) as [j|]; [|destruct Hin].
  destruct (turtles m !! j) as [tj|] eqn:Hj; [|destruct Hin].
  case_bool_decide as Hty; [|destruct Hin]. destruct Hin as [<-|[]].
  destruct (Hh j tj Hj) as (_ & _ & _ & Hag). exact (proj1 (proj2 (Hag Hty))).
Qed.

Lemma status_kept_refl m : status_kept m m.
Proof. intros j tj Hj. exists tj. repeat split; auto. Qed.

Lemma status_kept_trans a b c : status_kept a b -> status_kept b c -> status_kept a c.
Proof.
  intros Hab Hbc j tj Hj. destruct (Hab j tj Hj) as (tj1 & Hj1 & S1).
  destruct (Hbc j tj1 Hj1) as (tj2 & Hj2 & S2). exists tj2. split; [exact Hj2|].
  unfold same_status in *. intuition congruence.
Qed.

Lemma adjust_hardship_run (w : World) i t :
  wf (model w) -> turtles (model w) !! i = Some t ->
  exists w', adjust_hardship i w = Ok (tt, w') /\ turn_ok (model w) (model w') /\
    status_kept (model w) (model w').
Proof.
  intros Hwf Ht. unfold adjust_hardship. rewrite (bind_get_turtle _ _ _ _ Ht).
  destruct (type t) eqn:Hty;
    [|eexists; split; [reflexivity | split; [by apply wf_turn_ok | apply status_kept_refl]]].
  assert (Hpos : in_bounds (width (model w)) (height (model w)) (position t))
    by (eapply (wf_heap _ Hwf); eauto).
  erewrite bind_get_neighborhood; [|exact (wf_neighborhood _ _ Hwf Hpos)].
  rewrite bind_get.
  destruct (sum_hardship_Some (nofnat 0) 0
              (neighbor_hardships (turtles (model w)) (grid (model w))
                 (neighborhood (width (model w)) (height (model w)) (m_vision (model w))
                    (position t))))
    as [[total count] Hs]; [apply neighbor_hardships_Some, Hwf|].
  rewrite Hs, bind_lift.
  destruct (0 <? count);
    [|eexists; split; [reflexivity | split; [by apply wf_turn_ok | apply status_kept_refl]]].
  destruct (wf_turtle _ _ _ Hwf Ht) as (_ & _ & _ & Hag).
  destruct (Hag Hty) as (_ & [h Hh] & _).
  rewrite Hh, bind_lift, (update_turtle_run _ _ _ t) by exact Ht.
  eexists. split; [reflexivity|]. split; [split; [|split]|].
  - eapply wf_update_turtle; eauto. apply turtle_ok_adjust. eapply wf_turtle; eauto.
  - apply frame_map_turtles.
  - by apply (types_of_insert _ i t).
  - intros j tj Hj. simpl. destruct (decide (j = i)) as [->|Hne].
    + rewrite lookup_insert_eq. eexists. split; [reflexivity|].
      rewrite Ht in Hj. injection Hj as <-. repeat split.
    + rewrite lookup_insert_ne by congruence. exists tj. split; [exact Hj | repeat split].
Qed.

Lemma compute_adjusted_hardship_run (w : World) :
  wf (model w) ->
  exists w', compute_adjusted_hardship w = Ok (tt, w') /\ turn_ok (model w) (model w') /\
    status_kept (model w) (model w').
Proof.
  intros Hwf. unfold compute_adjusted_hardship. rewrite bind_get.
  apply iter_turn_ok_rel; [exact status_kept_refl | exact status_kept_trans | exact Hwf | |
                           intros i Hi; by apply list_elem_of_In].
  intros s i (Hwfs & _ & _) Hlive. destruct (wf_live _ Hwfs i Hlive) as [t Ht].
  eapply adjust_hardship_run; eauto.
Qed.

(** ** The tick *)

Lemma step_core_run v (w : World) :
  wf (model w) -> jail_ok (model w) (v_jail v) ->
  exists es w1 q j a c,
    entities (model w) ≡ₚ es /\ turn_ok (set_entities es (model w)) (model w1) /\
    count_states (turtles (model w1)) es = (q, j, a, c) /\
    step_core v w = Ok (tt, mkWorld (map_data (append_counts q j a) (model w1)) (rng w1)).
Proof.
  intros Hwf Hjp. unfold step_core.
  destruct (shuffle_and_act_run v w Hwf Hjp) as (es & w1 & Hsa & Hp & Hok).
  rewrite (st_bind_of_Ok _ _ _ _ _ Hsa), bind_get.
  destruct (count_states _ es) as [[[q j] a] c] eqn:Hc.
  exists es, w1, q, j, a, c. split; [exact Hp|]. split; [exact Hok|]. split; [exact Hc|reflexivity].
Qed.

Lemma wf_map_data f m : wf m -> wf (map_data f m).
Proof. intros [Hd Hn Hnd Hl Hh Hg]. constructor; auto. Qed.

(** The counts of a tick split the agents of the state it ends in. *)
Lemma tick_counts (m m1 : Model) es q j a c :
  wf m -> entities m ≡ₚ es -> turn_ok (set_entities es m) m1 ->
  count_states (turtles m1) es = (q, j, a, c) ->
  q + j + a = count_agents m /\ count_agents m1 = count_agents m.
Proof.
  intros Hwf Hp (Hwf1 & Hfr & Hty) Hc.
  destruct Hfr as (_ & _ & _ & _ & Hes & _).
  simpl in Hes, Hty.
  assert (HL : forall i, In i es -> is_Some (turtles m1 !! i)).
  { intros i Hi. apply (wf_live _ Hwf1). rewrite Hes. by apply list_elem_of_In. }
  destruct (count_states_spec m1 es (wf_heap _ Hwf1) HL _ _ _ _ Hc) as [Hs _].
  assert (Heq : count_if (is_kind AGENT m1) es = count_agents m).
  { unfold count_agents. rewrite (count_if_Permutation _ _ _ Hp).
    apply count_if_ext. intros i _. unfold is_kind. by rewrite Hty. }
  split; [lia|]. unfold count_agents at 1. rewrite Hes. exact Heq.
Qed.

(** ** Jail terms *)

(** The turn of a jailed entity only decrements its term. *)
Lemma act_jailed_run v (w : World) j tj :
  turtles (model w) !! j = Some tj -> 0 < jail_term tj ->
  act v j w = Ok (tt, mkWorld (map_turtles (insert j (set_jail_term (jail_term tj - 1) tj))
                                (model w)) (rng w)).
Proof.
  intros Hj Hpos. unfold act. rewrite (bind_get_turtle _ _ _ _ Hj).
  rewrite (proj2 (Nat.ltb_lt _ _) Hpos). by apply update_turtle_run.
Qed.

(** The turns of other entities leave an inactive entity as it is. *)
Lemma iter_act_keeps v (l : list nat) (w w' : World) j tj :
  wf (model w) -> jail_ok (model w) (v_jail v) ->
  (forall i, In i l -> i ∈ entities (model w) /\ i <> j) ->
  turtles (model w) !! j = Some tj -> active tj = false ->
  st_iter (act v) l w = Ok (tt, w') ->
  turn_ok (model w) (model w') /\ turtles (model w') !! j = Some tj.
Proof.
  intros Hwf Hjp Hl Hj Ha Hit.
  apply (st_iter_inv (act v)
           (fun s => turn_ok (model w) (model s) /\ turtles (model s) !! j = Some tj) l)
    with (s := w); [|split; [by apply wf_turn_ok | exact Hj] | exact Hit].
  intros i s s' Hi [Hok Hjs] Hs.
  destruct (Hl i Hi) as [Hent Hne].
  destruct Hok as (Hwfs & Hfr & Hty).
  assert (Hlive : i ∈ entities (model s)) by (destruct Hfr as (_ & _ & _ & _ & -> & _); done).
  destruct (wf_live _ Hwfs i Hlive) as [t Ht].
  destruct (act_run v s i t Hwfs Ht (jail_ok_frame _ _ _ Hfr Hjp)) as (s'' & Hs'' & Hok' & Hk).
  rewrite Hs in Hs''. injection Hs'' as <-.
  split; [eapply turn_ok_trans; [split; [exact Hwfs | split; assumption] | exact Hok']|].
  by apply Hk.
Qed.

(** ** Whole ticks *)

(** [wf] reads only these fields. *)
Lemma wf_same m m' :
  width m' = width m -> height m' = height m -> m_vision m' = m_vision m ->
  neighborhoods m' = neighborhoods m -> entities m' = entities m ->
  turtles m' = turtles m -> grid m' = grid m -> wf m -> wf m'.
Proof.
  intros Hw Hh Hv Hn He Ht Hg [Hd Hn' Hnd Hl Hhp Hgr].
  constructor; rewrite ?Hw, ?Hh, ?Hv, ?Hn, ?He, ?Ht, ?Hg; auto.
Qed.

Lemma count_agents_turn m m' : turn_ok m m' -> count_agents m' = count_agents m.
Proof.
  intros (_ & (_ & _ & _ & _ & He & _) & Hty). unfold count_agents.
  rewrite He. apply count_if_ext. intros i _. unfold is_kind. by rewrite Hty.
Qed.

Lemma count_cops_turn m m' : turn_ok m m' -> count_cops m' = count_cops m.
Proof.
  intros (_ & (_ & _ & _ & _ & He & _) & Hty). unfold count_cops.
  rewrite He. apply count_if_ext. intros i _. unfold is_kind. by rewrite Hty.
Qed.

(** The tick of extension1 and of rep2, up to the appends. *)
Lemma core_tick v (w : World) :
  wf (model w) -> jail_ok (model w) (v_jail v) ->
  exists w1 q j a,
    step_core v w = Ok (tt, mkWorld (map_data (append_counts q j a) (model w1)) (rng w1)) /\
    wf (model w1) /\ data (model w1) = data (model w) /\
    q + j + a = count_agents (model w) /\ count_agents (model w1) = count_agents (model w).
Proof.
  intros Hwf Hjp.
  destruct (step_core_run v w Hwf Hjp) as (es & w1 & q & j & a & c & Hp & Hok & Hc & Hrun).
  destruct (tick_counts _ _ _ _ _ _ _ Hwf Hp Hok Hc) as [Hs Hcount].
  exists w1, q, j, a. split; [exact Hrun|]. split; [apply Hok|].
  split; [by destruct Hok as (_ & (_ & _ & _ & _ & _ & _ & _ & _ & _ & -> & _) & _)|].
  split; [exact Hs | exact Hcount].
Qed.

Lemma turn_ok_data m m' : turn_ok m m' -> data m' = data m.
Proof. by intros (_ & (_ & _ & _ & _ & _ & _ & _ & _ & _ & -> & _) & _). Qed.

(** One tick of extension1 from a well-formed state with a non-negative
    [max_jail_term]: it returns, keeps [wf] and the bound, and appends one
    count triple that splits the agents, whose number it keeps. *)
Lemma extension1_tick (w : World) :
  wf (model w) -> (0 <= max_jail_term (model w))%Z ->
  exists w' q j a, step_extension1 w = Ok (tt, w') /\ wf (model w') /\
    max_jail_term (model w') = max_jail_term (model w) /\
    data (model w') = append_counts q j a (data (model w)) /\
    q + j + a = count_agents (model w) /\ count_agents (model w') = count_agents (model w).
Proof.
  intros Hwf Hmax. unfold step_extension1.
  destruct (compute_adjusted_hardship_run w Hwf) as (w1 & H1 & Hok1 & _).
  rewrite (st_bind_of_Ok _ _ _ _ _ H1).
  assert (Hj1 : jail_ok (model w1) RandomJailTerm)
    by exact (jail_ok_frame (model w) _ RandomJailTerm (proj1 (proj2 Hok1)) Hmax).
  destruct (step_core_run extension1_variant w1 (proj1 Hok1) Hj1)
    as (es & w2 & q & j & a & c & Hp & Hok & Hc & Hrun).
  destruct (tick_counts _ _ _ _ _ _ _ (proj1 Hok1) Hp Hok Hc) as [Hs Hcount].
  rewrite (count_agents_turn _ _ Hok1) in Hs, Hcount.
  pose proof (turn_ok_data _ _ Hok1) as Hd1.
  destruct Hok1 as (_ & (_ & _ & _ & _ & _ & _ & _ & Hm1 & _) & _).
  destruct Hok as (Hwf2 & (_ & _ & _ & _ & _ & _ & _ & Hm2 & _ & Hd2 & _) & _).
  exists (mkWorld (map_data (append_counts q j a) (model w2)) (rng w2)), q, j, a.
  simpl in *. split; [exact Hrun|]. split; [by apply wf_map_data|].
  split; [congruence|]. split; [congruence|]. split; [exact Hs | exact Hcount].
Qed.

(** C1 A tick of extension1 ([compute_adjusted_hardship],
    shuffle, turns, count) never raises on a well-formed state with a
    non-negative maximal jail term, and ends in a well-formed state:
    no entity leaves the grid bounds, no cop is ever active or jailed, a
    jailed agent is never active, the grid only shows entities on their
    own cells. *)
Theorem step_extension1_preserves_wf (w : World) :
  wf (model w) -> (0 <= max_jail_term (model w))%Z ->
  exists w', step_extension1 w = Ok (tt, w') /\ wf (model w').
Proof.
  intros Hwf Hmax. destruct (extension1_tick w Hwf Hmax) as (w' & _ & _ & _ & Hrun & Hwf' & _).
  eauto.
Qed.

(** C3 The counts a tick of extension1 appends to
    [data['quiet']], [data['jail']] and [data['active']] add up to the
    number of agents, which the tick does not change. *)
Theorem step_extension1_conserves_agents (w w' : World) :
  wf (model w) -> (0 <= max_jail_term (model w))%Z -> step_extension1 w = Ok (tt, w') ->
  exists q j a,
    data_quiet (data (model w')) = data_quiet (data (model w)) ++ [q] /\
    data_jail (data (model w')) = data_jail (data (model w)) ++ [j] /\
    data_active (data (model w')) = data_active (data (model w)) ++ [a] /\
    q + j + a = count_agents (model w) /\ count_agents (model w') = count_agents (model w).
Proof.
  intros Hwf Hmax Hstep.
  destruct (extension1_tick w Hwf Hmax) as (w1 & q & j & a & Hrun & _ & _ & Hd & Hs & Hc).
  rewrite Hrun in Hstep. injection Hstep as <-.
  exists q, j, a. rewrite Hd. repeat split; assumption.
Qed.

(** C9 A tick of rep2 (jail term 1000, legitimacy decay)
    never raises on a well-formed state and ends in a well-formed
    state. *)
Theorem step_rep2_preserves_wf (w : World) :
  wf (model w) -> exists w', step_rep2 w = Ok (tt, w') /\ wf (model w').
Proof.
  intros Hwf. unfold step_rep2.
  destruct (core_tick rep2_variant w Hwf I) as (w1 & q & j & a & Hrun & Hwf1 & _).
  rewrite (st_bind_of_Ok _ _ _ _ _ Hrun).
  eexists. split; [reflexivity|]. simpl.
  eapply wf_same; [..|exact Hwf1]; reflexivity.
Qed.

(** C10 The counts a tick of rep2 appends add up to the
    number of agents, which the tick does not change. *)
Theorem step_rep2_conserves_agents (w w' : World) :
  wf (model w) -> step_rep2 w = Ok (tt, w') ->
  exists q j a,
    data_quiet (data (model w')) = data_quiet (data (model w)) ++ [q] /\
    data_jail (data (model w')) = data_jail (data (model w)) ++ [j] /\
    data_active (data (model w')) = data_active (data (model w)) ++ [a] /\
    q + j + a = count_agents (model w) /\ count_agents (model w') = count_agents (model w).
Proof.
  intros Hwf Hstep. unfold step_rep2 in Hstep.
  destruct (core_tick rep2_variant w Hwf I) as (w1 & q & j & a & Hrun & _ & Hd & Hs & Hc).
  rewrite (st_bind_of_Ok _ _ _ _ _ Hrun) in Hstep.
  injection Hstep as <-. exists q, j, a. simpl. rewrite Hd. repeat split; assumption.
Qed.

(** The turns of a tick take one unit off a jailed entity's term and
    nothing else. *)
Lemma shuffle_and_act_jailed v (w w' : World) es j tj :
  wf (model w) -> jail_ok (model w) (v_jail v) -> j ∈ entities (model w) ->
  turtles (model w) !! j = Some tj -> 0 < jail_term tj ->
  shuffle_and_act v w = Ok (es, w') ->
  turtles (model w') !! j = Some (set_jail_term (jail_term tj - 1) tj).
Proof.
  intros Hwf Hjp Hj Htj Hpos Hsa. unfold shuffle_and_act in Hsa. rewrite bind_get in Hsa.
  destruct (shuffle_Ok (entities (model w)) (rng w)) as (es0 & g & Hsh).
  erewrite bind_rand in Hsa by exact Hsh. rewrite bind_on_model in Hsa.
  pose proof (shuffle_Permutation _ _ _ _ Hsh) as Hp.
  cbn [model rng] in Hsa.
  set (w1 := mkWorld (set_entities es0 (model w)) g) in Hsa.
  assert (Hwf1 : wf (model w1)) by (apply wf_set_entities; auto).
  apply st_bind_Ok in Hsa as ([] & w2 & Hit & Hret).
  unfold st_ret in Hret. injection Hret as <- <-.
  assert (Hj0 : j ∈ es0) by (rewrite <- Hp; exact Hj).
  apply list_elem_of_In, in_split in Hj0 as (l1 & l2 & Hsplit).
  pose proof (wf_nodup _ Hwf1) as Hnd. simpl in Hnd. rewrite Hsplit in Hnd.
  apply NoDup_app in Hnd as (_ & Hdis & Hnd2). apply NoDup_cons in Hnd2 as [Hj2 _].
  assert (Hit' : st_iter (act v) (l1 ++ j :: l2) w1 = Ok (tt, w2))
    by (rewrite <- Hsplit; exact Hit).
  rewrite st_iter_app in Hit'.
  apply st_bind_Ok in Hit' as ([] & w3 & Hit1 & Hit2). simpl in Hit2.
  apply st_bind_Ok in Hit2 as ([] & w4 & Hact & Hit3).
  assert (Hina : active tj = false)
    by (destruct (wf_turtle _ _ _ Hwf Htj) as (_ & _ & Ha & _); auto).
  assert (Hin1 : forall i, In i l1 -> i ∈ entities (model w1) /\ i <> j).
  { intros i Hi. cbn [model w1 entities set_entities]. rewrite Hsplit. split.
    - apply list_elem_of_In. apply in_or_app. by left.
    - intros ->. apply (Hdis j); [by apply list_elem_of_In | by left]. }
  destruct (iter_act_keeps v l1 w1 w3 j tj Hwf1 Hjp Hin1 Htj Hina Hit1) as [Hok3 Htj3].
  rewrite (act_jailed_run v w3 j tj Htj3 Hpos) in Hact. injection Hact as <-.
  destruct Hok3 as (Hwf3 & Hfr3 & _).
  set (w4 := mkWorld (map_turtles (insert j (set_jail_term (jail_term tj - 1) tj)) (model w3))
               (rng w3)) in Hit3.
  assert (Hwf4 : wf (model w4)).
  { eapply wf_update_turtle; eauto. apply turtle_ok_release; [|exact Hpos].
    eapply wf_turtle; eauto. }
  assert (Hin2 : forall i, In i l2 -> i ∈ entities (model w4) /\ i <> j).
  { intros i Hi. cbn [model w4 entities map_turtles].
    destruct Hfr3 as (_ & _ & _ & _ & -> & _). cbn [model w1 entities set_entities].
    rewrite Hsplit. split.
    - apply list_elem_of_In. apply in_or_app. right. by right.
    - intros ->. apply Hj2. by apply list_elem_of_In. }
  assert (Hjp4 : jail_ok (model w4) (v_jail v))
    by (eapply jail_ok_frame; [apply frame_map_turtles | eapply jail_ok_frame; eauto]).
  destruct (iter_act_keeps v l2 w4 w2 j (set_jail_term (jail_term tj - 1) tj) Hwf4 Hjp4 Hin2
              ltac:(apply lookup_insert_eq) Hina Hit3) as [_ Hfin].
  - exact Hfin.
Qed.

(** C6 In a tick of extension1, an agent in jail at
    the start of the tick ends it with its term lowered by exactly one,
    still inactive, and on the cell where it was: it neither moves nor
    acts, and no cop can arrest it again. *)
Theorem step_extension1_jail_term (w w' : World) j tj :
  wf (model w) -> (0 <= max_jail_term (model w))%Z -> j ∈ entities (model w) ->
  turtles (model w) !! j = Some tj -> 0 < jail_term tj ->
  step_extension1 w = Ok (tt, w') ->
  exists tj', turtles (model w') !! j = Some tj' /\ jail_term tj' = jail_term tj - 1 /\
    active tj' = false /\ position tj' = position tj.
Proof.
  intros Hwf Hmax Hj Htj Hpos Hstep. unfold step_extension1 in Hstep.
  destruct (compute_adjusted_hardship_run w Hwf) as (w1 & H1 & Hok1 & Hst).
  rewrite (st_bind_of_Ok _ _ _ _ _ H1) in Hstep.
  destruct (Hst j tj Htj) as (tj1 & Htj1 & Hj1 & Ha1 & Hp1 & _).
  destruct Hok1 as (Hwf1 & Hfr1 & _).
  unfold step_core in Hstep. st_inv.
  destruct (count_states _ _) as [[[q jj] a] c] in Hstep. st_inv.
  assert (Hjp1 : jail_ok (model w1) (v_jail extension1_variant))
    by exact (jail_ok_frame (model w) _ RandomJailTerm Hfr1 Hmax).
  assert (Hjw1 : j ∈ entities (model w1)) by (destruct Hfr1 as (_ & _ & _ & _ & -> & _); done).
  match goal with H : shuffle_and_act _ w1 = Ok (?es, ?w2) |- _ =>
    pose proof (shuffle_and_act_jailed _ w1 w2 es j tj1 Hwf1 Hjp1 Hjw1 Htj1
                  ltac:(lia) H) as Hfin end.
  unfold on_model, st_modify in Hstep. injection Hstep as <-.
  eexists. split; [exact Hfin|]. simpl.
  assert (Hina : active tj = false)
    by (destruct (wf_turtle _ _ _ Hwf Htj) as (_ & _ & Ha & _); auto).
  split; [lia|]. split; congruence.
Qed.
End Step.
