(* ===== verification/Extension2.v ===== *)
(** * extension2: one cop fewer per tick

    [step] of extension2.py counts the cops with the agents, then removes
    the first cop of [self.entities] (from the list and from the grid)
    before the appends.  This file shows that the tick keeps the state
    well formed, that the appended cop count is the number of cops before
    the removal, and that each tick removes exactly one cop while any is
    left; and, from the data the constructor seeds, the lengths of the
    four series after [n] ticks. *)

From S2P Require Import Prelude Random Torus Rules Engine EngineInv EngineStep.
Local Open Scope nat_scope.

(** ** [list.remove] *)

(** [list.remove(x)]: drops the first occurrence. *)
Fixpoint remove_first (x : nat) (l : list nat) : list nat :=
  match l with
  | [] => []
  | y :: l' => if Nat.eqb x y then l' else y :: remove_first x l'
  end.

Lemma remove_first_In x i l : In x (remove_first i l) -> In x l.
Proof.
  induction l as [|y l IH]; simpl; [done|].
  destruct (Nat.eqb i y); [auto|]. intros [->|Hx]; auto.
Qed.

Lemma remove_first_NoDup i l : NoDup l -> NoDup (remove_first i l).
Proof.
  induction l as [|y l IH]; simpl; [done|]. rewrite !NoDup_cons.
  intros [Hy Hnd]. destruct (Nat.eqb i y); [exact Hnd|]. rewrite NoDup_cons.
  split; [|auto]. rewrite list_elem_of_In in Hy |- *. intros Hin. apply Hy.
  eapply remove_first_In; eauto.
Qed.

Lemma count_if_remove_first (p : nat -> bool) i l :
  In i l -> count_if p (remove_first i l) + (if p i then 1 else 0) = count_if p l.
Proof.
  induction l as [|y l IH]; simpl; [done|]. intros Hin.
  destruct (Nat.eqb_spec i y) as [->|Hne]; rewrite count_if_cons; [lia|].
  destruct Hin as [->|Hin]; [congruence|]. rewrite count_if_cons, <- (IH Hin). lia.
Qed.

Section Ext2.
Context {A : Arith} {G : Type} `{RandomSource G} `{!RandomSourceOk G}.

Abbreviation Turtle := (Turtle A).
Abbreviation Model := (Model A).
Abbreviation World := (World A G).

(** The first cop of the entity list. *)
Fixpoint first_cop (tu : gmap nat Turtle) (es : list nat) : option nat :=
  match es with
  | [] => None
  | i :: es' =>
      match tu !! i with
      | Some t => if bool_decide (type t = COP) then Some i else first_cop tu es'
      | None => first_cop tu es'
      end
  end.

(** The removal loop of extension2.py (lines 103-112). *)
Definition remove_a_cop : ST World unit :=
  let* w := st_get in
  match first_cop (turtles (model w)) (entities (model w)) with
  | None => ret tt
  | Some i =>
      let* t := get_turtle i in
      let* _ := on_model (set_entities (remove_first i (entities (model w)))) in
      on_model (map_grid (delete (position t)))
  end.

(** [step] of extension2.py (lines 76-117). *)
Definition step_extension2 : ST World unit :=
  let* es := shuffle_and_act rep2_variant in
  let* w := st_get in
  let '(q, j, a, c) := count_states (turtles (model w)) es in
  let* _ := remove_a_cop in
  let* _ := on_model (map_data (append_counts q j a)) in
  on_model (map_data (append_cop c)).

(** The series [Model.__init__] of extension2.py seeds (line 43): every
    agent counted quiet, and an empty cop series. *)
Definition ext2_seed_data (n_agents : nat) : Data := mkData [n_agents] [0] [0] [].


Lemma first_cop_Some tu es i :
  first_cop tu es = Some i -> In i es /\ exists t, tu !! i = Some t /\ type t = COP.
Proof.
  induction es as [|j es IH]; simpl; [discriminate|].
  destruct (tu !! j) as [t|] eqn:Ht; [case_bool_decide|].
  - intros [= <-]. eauto.
  - intros Hf. destruct (IH Hf) as [Hin Ht']. auto.
  - intros Hf. destruct (IH Hf) as [Hin Ht']. auto.
Qed.

(** With no cop in the list, [is_kind COP] counts nothing. *)
Lemma first_cop_None (m : Model) es :
  first_cop (turtles m) es = None -> count_if (is_kind COP m) es = 0.
Proof.
  induction es as [|j es IH]; simpl; [done|]. rewrite count_if_cons.
  unfold is_kind at 1, types_of. rewrite lookup_fmap.
  destruct (turtles m !! j) as [t|]; simpl.
  - case_bool_decide as Hc; [discriminate|]. intros Hf. rewrite (IH Hf).
    rewrite bool_decide_eq_false_2; [done|]. congruence.
  - intros Hf. rewrite (IH Hf). repeat case_bool_decide; simplify_eq; done.
Qed.

(** The removal loop: the first cop leaves the list and its cell of the
    grid; the heap and the types are unchanged. *)
Lemma remove_a_cop_run (w : World) :
  wf (model w) ->
  exists w', remove_a_cop w = Ok (tt, w') /\ wf (model w') /\
    turtles (model w') = turtles (model w) /\ data (model w') = data (model w) /\
    count_agents (model w') = count_agents (model w) /\
    count_cops (model w') = count_cops (model w) - 1.
Proof.
  intros Hwf. unfold remove_a_cop. rewrite bind_get.
  destruct (first_cop _ _) as [i|] eqn:Hf.
  - destruct (first_cop_Some _ _ _ Hf) as (Hin & t & Ht & Hc).
    rewrite (bind_get_turtle _ _ _ _ Ht), bind_on_model.
    eexists. split; [reflexivity|]. simpl.
    assert (Hk : forall ty, is_kind ty (model w) i = bool_decide (Some COP = Some ty)).
    { intros ty. unfold is_kind, types_of. rewrite lookup_fmap, Ht. simpl. by rewrite Hc. }
    pose proof (count_if_remove_first (is_kind AGENT (model w)) i _ Hin) as Ha.
    pose proof (count_if_remove_first (is_kind COP (model w)) i _ Hin) as Hcop.
    rewrite Hk, bool_decide_eq_false_2 in Ha by congruence.
    rewrite Hk, bool_decide_eq_true_2 in Hcop by reflexivity.
    split; [|unfold count_agents, count_cops, is_kind, types_of in *; simpl; repeat split; lia].
    destruct Hwf as [Hd Hn Hnd Hl Hh Hg]. constructor; simpl; auto.
    + by apply remove_first_NoDup.
    + intros j Hj. apply Hl. rewrite list_elem_of_In in Hj |- *. eapply remove_first_In; eauto.
    + by apply grid_ok_delete.
  - eexists. split; [reflexivity|]. split; [exact Hwf|].
    unfold count_cops. rewrite (first_cop_None _ _ Hf). repeat split.
Qed.

(** The cop count of a tick is the number of cops it started with. *)
Lemma tick_cops (m m1 : Model) es q j a c :
  wf m -> entities m ≡ₚ es -> turn_ok (set_entities es m) m1 ->
  count_states (turtles m1) es = (q, j, a, c) ->
  c = count_cops m /\ count_cops m1 = count_cops m.
Proof.
  intros Hwf Hp (Hwf1 & Hfr & Hty) Hc.
  destruct Hfr as (_ & _ & _ & _ & Hes & _). simpl in Hes, Hty.
  assert (HL : forall i, In i es -> is_Some (turtles m1 !! i)).
  { intros i Hi. apply (wf_live _ Hwf1). rewrite Hes. by apply list_elem_of_In. }
  destruct (count_states_spec m1 es (wf_heap _ Hwf1) HL _ _ _ _ Hc) as [_ Hcop].
  assert (Heq : count_if (is_kind COP m1) es = count_cops m).
  { unfold count_cops. rewrite (count_if_Permutation _ _ _ Hp).
    apply count_if_ext. intros i _. unfold is_kind. by rewrite Hty. }
  split; [lia|]. unfold count_cops at 1. rewrite Hes. exact Heq.
Qed.

(** A tick of extension2 from a well-formed state: it succeeds, appends
    the agent counts and the cop count of the start of the tick, and
    removes one cop while any is left. *)
Lemma step_extension2_run (w : World) :
  wf (model w) ->
  exists w' q j a c, step_extension2 w = Ok (tt, w') /\ wf (model w') /\
    data (model w') = append_cop c (append_counts q j a (data (model w))) /\
    q + j + a = count_agents (model w) /\ c = count_cops (model w) /\
    count_agents (model w') = count_agents (model w) /\
    count_cops (model w') = count_cops (model w) - 1.
Proof.
  intros Hwf. unfold step_extension2.
  destruct (shuffle_and_act_run rep2_variant w Hwf I) as (es & w1 & Hsa & Hp & Hok).
  rewrite (st_bind_of_Ok _ _ _ _ _ Hsa), bind_get.
  destruct (count_states _ es) as [[[q j] a] c] eqn:Hc.
  destruct (tick_counts _ _ _ _ _ _ _ Hwf Hp Hok Hc) as [Hs Ha1].
  destruct (tick_cops _ _ _ _ _ _ _ Hwf Hp Hok Hc) as [Hcop Hc1].
  destruct (remove_a_cop_run w1 (proj1 Hok)) as (w2 & Hr & Hwf2 & _ & Hd2 & Ha2 & Hc2).
  rewrite (st_bind_of_Ok _ _ _ _ _ Hr), !bind_on_model.
  eexists _, q, j, a, c. split; [reflexivity|]. simpl.
  split; [by apply wf_map_data, wf_map_data|].
  split; [by rewrite Hd2, (turn_ok_data _ _ Hok)|].
  split; [exact Hs|]. split; [exact Hcop|].
  unfold count_agents, count_cops, is_kind, types_of in *; simpl. split; lia.
Qed.

(** One tick lengthens each of the four series by one. *)
Lemma append_lengths q j a c (d : Data) :
  let d' := append_cop c (append_counts q j a d) in
  length (data_quiet d') = S (length (data_quiet d)) /\
  length (data_jail d') = S (length (data_jail d)) /\
  length (data_active d') = S (length (data_active d)) /\
  length (data_cop d') = S (length (data_cop d)).
Proof. simpl. rewrite !length_app. simpl. lia. Qed.

Lemma cop_series_step c n :
  c :: map (fun k => c - 1 - k) (seq 0 n) = map (fun k => c - k) (seq 0 (S n)).
Proof.
  simpl. rewrite Nat.sub_0_r, <- seq_shift, map_map. f_equal.
  apply map_ext. intros k. lia.
Qed.

(** C11 A run of [n] ticks of extension2 from a well-formed
    state never raises and ends in a well-formed state with the same
    agents and [n] cops fewer (none when fewer than [n] were there).
    The cop series receives the cop counts [c], [c - 1], ...,
    [c - (n - 1)] of the starts of the ticks, and each series of agent
    counts [n] more entries. *)
Theorem run_extension2 n (w : World) :
  wf (model w) ->
  exists w', run_ticks step_extension2 n w = Ok (tt, w') /\ wf (model w') /\
    count_agents (model w') = count_agents (model w) /\
    count_cops (model w') = count_cops (model w) - n /\
    data_cop (data (model w')) =
      data_cop (data (model w)) ++ map (fun k => count_cops (model w) - k) (seq 0 n) /\
    length (data_quiet (data (model w'))) = length (data_quiet (data (model w))) + n /\
    length (data_jail (data (model w'))) = length (data_jail (data (model w))) + n /\
    length (data_active (data (model w'))) = length (data_active (data (model w))) + n.
Proof.
  revert w. induction n as [|n IH]; intros w Hwf; simpl.
  - exists w. split; [reflexivity|]. split; [exact Hwf|].
    rewrite app_nil_r. repeat split; lia.
  - destruct (step_extension2_run w Hwf)
      as (w1 & q & j & a & c & Hr & Hwf1 & Hd & _ & Hc0 & Ha & Hc).
    destruct (IH w1 Hwf1) as (w2 & Hr2 & Hwf2 & Ha2 & Hc2 & Hco & Hq & Hj & Hac).
    rewrite (st_bind_of_Ok _ _ _ _ _ Hr). exists w2. split; [exact Hr2|].
    split; [exact Hwf2|]. rewrite Hd in Hq, Hj, Hac, Hco.
    destruct (append_lengths q j a c (data (model w))) as (L1 & L2 & L3 & _).
    split; [lia|]. split; [lia|]. split.
    + rewrite Hco, Hc, <- Hc0. simpl. rewrite <- app_assoc. simpl.
      by rewrite cop_series_step.
    + repeat split; lia.
Qed.
End Ext2.
