(* ===== verification/Construction.v ===== *)
(** * Construction of the grid engine's model

    [Model.__init__] of extension1.py, rep2.py and extension2.py: the
    density check ([ValueError] when the two densities add up to more
    than 100), the fields, [compute_neighborhoods], and [create_entities]
    with [num_agents = int((agent_density / 100) * total_cells)] agents
    and as many cops for [cop_density]; each entity gets its cell from
    [place_entity_randomly], whose [while self.grid[x][y] is not None]
    loop redraws a random cell until it finds a free one.  That loop is
    bounded by the section variable [place_fuel]: [LoopBound] is a loop
    the Python program would still be running after that many redraws.
    The grid is a map from cells, read through [py_grid_index], which is
    Python's list indexing with its [IndexError] out of range.

    The new Python objects enter the heap [turtles] under their creation
    order when they are placed, which is when they first become
    reachable (from [self.grid]); the [agent_id] attribute is the
    Python int [num_agents + i] of the source.  The drivers of the
    scripts (the [Model(...)] call with the constants of the script
    followed by [for _ in range(n): model.step()]) are composed from the
    constructor and [run_ticks]. *)

From Stdlib Require Import QArith Floats.
From S2P Require Import Prelude Random Torus Rules Floats64 Engine EngineInv EngineStep Extension2.
Local Open Scope nat_scope.

Section Construction.
Context {A : Arith} {G : Type} `{RandomSource G} `{Genrand G}.
Context (place_fuel : nat).

Abbreviation Turtle := (Turtle A).
Abbreviation Model := (Model A).
Abbreviation World := (World A G).

(** [random.random()] as a float: the 53-bit integer times [2^-53]. *)
Definition random_float : ST World num :=
  let* k := rand random_bits in ret (nlit (k # 9007199254740992)).

(** [x, y = random.randint(0, self.width - 1), random.randint(0, self.height - 1)]. *)
Definition draw_cell : ST World cell :=
  let* w := st_get in
  let* x := rand (randint 0 (width (model w) - 1)) in
  let* y := rand (randint 0 (height (model w) - 1)) in
  ret (x, y).

(** [self.grid[x][y]] on the nested lists of a [width] x [height] grid:
    Python's indexing accepts [-width <= x < width] (a negative index
    counts from the end) and raises [IndexError] otherwise; the cell read
    is the representative of [(x, y)] in the grid. *)
Definition py_grid_index (width height : Z) (c : cell) : outcome cell :=
  let '(x, y) := c in
  if ((- width <=? x) && (x <? width) && (- height <=? y) && (y <? height))%Z
  then Ok (x mod width, y mod height)%Z else Exc IndexError.

(** [while self.grid[x][y] is not None: x, y = ...], at most [fuel]
    redraws. *)
Fixpoint place_loop (fuel : nat) (c : cell) : ST World cell :=
  let* w := st_get in
  let* ci := of_outcome (py_grid_index (width (model w)) (height (model w)) c) in
  match grid (model w) !! ci with
  | None => ret c
  | Some _ =>
      match fuel with
      | 0 => st_raise LoopBound
      | S f => let* c' := draw_cell in place_loop f c'
      end
  end.

(** [place_entity_randomly(entity)]: the object [t], referenced by [i],
    is written to the grid cell [self.grid[x][y]] names for the cell found
    and gets [(x, y)] as its position.  [randint(0, width - 1)] draws in
    bounds, so the indexing is the identity there (lemma
    [py_grid_index_in]). *)
Definition place_entity_randomly (i : nat) (t : Turtle) : ST World unit :=
  let* c0 := draw_cell in
  let* c := place_loop place_fuel c0 in
  let* w := st_get in
  let* ci := of_outcome (py_grid_index (width (model w)) (height (model w)) c) in
  let* _ := on_model (map_grid (<[ci := i]>)) in
  on_model (map_turtles (<[i := set_position c t]>)).

(** [(None, None)], the position of a turtle before it is placed; it is
    overwritten by [place_entity_randomly] before the object is read. *)
Definition unplaced : cell := (0, 0)%Z.

(** The cells of a [width] x [height] grid, column by column. *)
Definition grid_cells (width height : Z) : list cell :=
  flat_map (fun x => map (fun y => (x, y)) (py_range 0 height)) (py_range 0 width).

(** One iteration of the agent loop of [create_entities]:
    [Turtle(i, EntityType.AGENT, self.vision, random.random(), random.random())]
    (risk aversion drawn first), placed, then appended. *)
Definition create_agent (i : nat) : ST World unit :=
  let* w := st_get in
  let* r := random_float in
  let* h := random_float in
  let* _ := place_entity_randomly i
              (mkTurtle (Z.of_nat i) AGENT (m_vision (model w)) (Some r) (Some h) (Some h)
                 false 0 unplaced) in
  on_model (fun m => set_entities (entities m ++ [i]) m).

(** One iteration of the cop loop: [Turtle(num_agents + i, EntityType.COP,
    self.vision)], the [o]-th object created. *)
Definition create_cop (num_agents : Z) (o i : nat) : ST World unit :=
  let* w := st_get in
  let* _ := place_entity_randomly o
              (mkTurtle (num_agents + Z.of_nat i) COP (m_vision (model w)) None None None
                 false 0 unplaced) in
  on_model (fun m => set_entities (entities m ++ [o]) m).

(** [create_entities(num_agents, num_cops)]: [range] of a negative int
    is empty. *)
Definition create_entities (num_agents num_cops : Z) : ST World unit :=
  let* _ := st_iter create_agent (seq 0 (Z.to_nat num_agents)) in
  st_iter (fun i => create_cop num_agents (Z.to_nat num_agents + i) i)
    (seq 0 (Z.to_nat num_cops)).

(** [int((density / 100) * self.total_cells)] with [total_cells = 40 * 40]. *)
Definition density_count (density : num) : outcome Z :=
  ntrunc (nmul (ndiv density (nlit 100)) (nofnat (Z.to_nat (40 * 40)))).


(** The fields [Model.__init__] sets before [create_entities]: a 40x40
    grid of [None], no entity, the neighbourhood table. *)
Definition fresh_model (vision : Z) (k gov_legitimacy : num) (max_jail_term : Z)
    (nip : num) : Model :=
  mkModel 40 40 vision k gov_legitimacy max_jail_term nip
    (compute_neighborhoods 40 40 vision) ∅ [] ∅ (mkData [] [] [] []) 0.

(** The density check and [create_entities], shared by the three
    constructors. *)
Definition populate (agent_density cop_density : num) : ST World unit :=
  if nltb (nlit 100) (nadd agent_density cop_density) then st_raise ValueError
  else
    let* na := of_outcome (density_count agent_density) in
    let* nc := of_outcome (density_count cop_density) in
    create_entities na nc.

(** [Model(agent_density, cop_density, vision, k, gov_legitimacy,
    max_jail_term, neighbor_influence_percentage)] of extension1.py. *)
Definition init_extension1 (agent_density cop_density : num) (vision : Z)
    (k gov_legitimacy : num) (max_jail_term : Z) (nip : num) (g : G) : outcome World :=
  match populate agent_density cop_density
          (mkWorld (fresh_model vision k gov_legitimacy max_jail_term nip) g) with
  | Ok (_, w) => Ok w
  | Exc e => Exc e
  end.

(** [Model(...)] of rep2.py: [self.tick = 0]; rep2 has no neighbour
    influence, whose field is set to 0 and never read by [rep2_variant]. *)
Definition init_rep2 (agent_density cop_density : num) (vision : Z)
    (k gov_legitimacy : num) (max_jail_term : Z) (g : G) : outcome World :=
  match populate agent_density cop_density
          (mkWorld (fresh_model vision k gov_legitimacy max_jail_term (nofnat 0)) g) with
  | Ok (_, w) => Ok w
  | Exc e => Exc e
  end.

(** [Model(...)] of extension2.py: after [create_entities] the series are
    seeded with [int((agent_density / 100) * self.total_cells)] quiet
    agents (a negative int is kept as 0 by the [nat] series). *)
Definition init_extension2 (agent_density cop_density : num) (vision : Z)
    (k gov_legitimacy : num) (max_jail_term : Z) (g : G) : outcome World :=
  match (let* _ := populate agent_density cop_density in
         let* na := of_outcome (density_count agent_density) in
         on_model (map_data (fun _ => ext2_seed_data (Z.to_nat na))))
          (mkWorld (fresh_model vision k gov_legitimacy max_jail_term (nofnat 0)) g) with
  | Ok (_, w) => Ok w
  | Exc e => Exc e
  end.

(** [run_experiment(nip)] of extension1.py up to the CSV export: the
    model of the script's constants, then 200 ticks. *)
Definition run_experiment (nip : num) (g : G) : outcome World :=
  match init_extension1 (nlit 70) (nlit 4) 7 (nlit (23 # 10)) (nlit (82 # 100)) 30 nip g with
  | Ok w => match run_ticks step_extension1 200 w with
            | Ok (_, w') => Ok w'
            | Exc e => Exc e
            end
  | Exc e => Exc e
  end.

(** The module-level run of rep2.py (lines 231-241). *)
Definition rep2_main (g : G) : outcome World :=
  match init_rep2 (nlit 70) (nlit (74 # 10)) 7 (nlit (23 # 10)) (nlit (9 # 10)) 30 g with
  | Ok w => match run_ticks step_rep2 200 w with
            | Ok (_, w') => Ok w'
            | Exc e => Exc e
            end
  | Exc e => Exc e
  end.

(** The module-level run of extension2.py (lines 185-193). *)
Definition extension2_main (g : G) : outcome World :=
  match init_extension2 (nlit 50) (nlit 15) 7 (nlit (23 # 10)) (nlit (20 # 100)) 30 g with
  | Ok w => match run_ticks step_extension2 500 w with
            | Ok (_, w') => Ok w'
            | Exc e => Exc e
            end
  | Exc e => Exc e
  end.
(** ** The placement loop *)

Lemma rand_Ok_inv {X} (r : ST G X) (w : World) x w' :
  rand r w = Ok (x, w') -> exists g, r (rng w) = Ok (x, g) /\ w' = mkWorld (model w) g.
Proof.
  unfold rand. destruct (r (rng w)) as [[y g]|e]; intros Hr; [|discriminate].
  injection Hr as <- <-. eauto.
Qed.

Section Draws.
Context `{!RandomSourceOk G}.

(** A draw stays in the grid and leaves the model alone. *)
Lemma draw_cell_Ok (w w' : World) c :
  draw_cell w = Ok (c, w') ->
  model w' = model w /\ in_bounds (width (model w)) (height (model w)) c.
Proof.
  unfold draw_cell. intros Hd. st_inv.
  repeat match goal with
  | Hr : rand _ _ = Ok _ |- _ =>
      apply rand_Ok_inv in Hr as (? & Hr & ->); apply randint_range in Hr
  end.
  simpl. split; [reflexivity|]. unfold in_bounds; simpl; lia.
Qed.

(** On a grid of positive sides a draw never raises. *)
Lemma draw_cell_run (w : World) :
  (0 < width (model w))%Z -> (0 < height (model w))%Z ->
  exists c w', draw_cell w = Ok (c, w').
Proof.
  intros Hw Hh. unfold draw_cell. rewrite bind_get.
  destruct (randint_Ok 0 (width (model w) - 1) (rng w)) as (x & g1 & Hx & _); [lia|].
  rewrite (bind_rand _ _ _ _ _ Hx).
  destruct (randint_Ok 0 (height (model w) - 1) g1) as (y & g2 & Hy & _); [lia|].
  rewrite (bind_rand _ _ (mkWorld (model w) g1) _ _ Hy). eauto.
Qed.

(** A cell of the grid is read and written where Python indexes it. *)
Lemma py_grid_index_in width height c : in_bounds width height c -> py_grid_index width height c = Ok c.
Proof.
  destruct c as [x y]. intros [Hx Hy]. simpl in *.
  destruct (Z.leb_spec (- width) x), (Z.ltb_spec x width), (Z.leb_spec (- height) y),
    (Z.ltb_spec y height); simpl; try lia.
  rewrite !Z.mod_small by lia. reflexivity.
Qed.

Lemma bind_of_outcome_Ok {S X Y} (o : outcome X) x (k : X -> ST S Y) s :
  o = Ok x -> st_bind (of_outcome o) k s = k x s.
Proof. intros ->. reflexivity. Qed.

Lemma place_loop_unfold fuel c (w : World) :
  in_bounds (width (model w)) (height (model w)) c ->
  place_loop fuel c w =
    match grid (model w) !! c with
    | None => ret c
    | Some _ => match fuel with
                | 0 => st_raise LoopBound
                | S f => let* c' := draw_cell in place_loop f c'
                end
    end w.
Proof. intros Hc. destruct fuel; simpl; by rewrite bind_get, (bind_of_outcome_Ok _ _ _ _ (py_grid_index_in _ _ _ Hc)). Qed.

(** What the loop returns from a cell of the grid is a free cell of the
    grid. *)
Lemma place_loop_Ok fuel c (w w' : World) c' :
  in_bounds (width (model w)) (height (model w)) c ->
  place_loop fuel c w = Ok (c', w') ->
  model w' = model w /\ grid (model w) !! c' = None /\
  in_bounds (width (model w)) (height (model w)) c'.
Proof.
  revert c w. induction fuel as [|f IH]; intros c w Hc Hrun; rewrite (place_loop_unfold _ _ _ Hc) in Hrun;
    destruct (grid (model w) !! c) eqn:Hg; st_inv; auto.
  match goal with Hd : draw_cell _ = Ok _ |- _ => apply draw_cell_Ok in Hd as [Hm Hin] end.
  apply IH in Hrun as (Hm' & Hfree & Hb); [|by rewrite Hm].
  rewrite Hm in Hm', Hfree, Hb. auto.
Qed.

(** From a cell of the grid the only exception of the loop is the bound. *)
Lemma place_loop_Exc fuel c (w : World) e :
  (0 < width (model w))%Z -> (0 < height (model w))%Z ->
  in_bounds (width (model w)) (height (model w)) c ->
  place_loop fuel c w = Exc e -> e = LoopBound.
Proof.
  revert c w. induction fuel as [|f IH]; intros c w Hw Hh Hc Hrun;
    rewrite (place_loop_unfold _ _ _ Hc) in Hrun; destruct (grid (model w) !! c); try discriminate;
    [by injection Hrun|].
  destruct (draw_cell_run w Hw Hh) as (c' & w' & Hd). unfold st_bind in Hrun. rewrite Hd in Hrun.
  apply draw_cell_Ok in Hd as [Hm Hin].
  apply (IH c' w'); [rewrite Hm; lia | rewrite Hm; lia | by rewrite Hm | exact Hrun].
Qed.

(** Fuel only bounds the loop: once it exits within [n] redraws, any
    larger bound gives the same cell and the same state. *)
Lemma place_loop_fuel n m c (w : World) r :
  n <= m -> place_loop n c w = Ok r -> place_loop m c w = Ok r.
Proof.
  revert m c w. induction n as [|n IH]; intros [|m] c w Hle Hrun; try lia;
    simpl in *; unfold st_bind, st_get, of_outcome in *;
    destruct (py_grid_index _ _ c) as [ci|e]; try discriminate;
    destruct (grid (model w) !! ci); auto; try discriminate.
  destruct (draw_cell w) as [[c' w']|e]; [|discriminate].
  apply IH; [lia | exact Hrun].
Qed.

(** On a grid with no free cell the loop never exits: it raises the
    bound whatever the bound. *)
Lemma place_loop_full fuel c (w : World) :
  (0 < width (model w))%Z -> (0 < height (model w))%Z ->
  (forall c', in_bounds (width (model w)) (height (model w)) c' -> is_Some (grid (model w) !! c')) ->
  in_bounds (width (model w)) (height (model w)) c ->
  place_loop fuel c w = Exc LoopBound.
Proof.
  revert c w. induction fuel as [|f IH]; intros c w Hw Hh Hfull Hc;
    rewrite (place_loop_unfold _ _ _ Hc); destruct (Hfull c Hc) as [j ->]; [reflexivity|].
  destruct (draw_cell_run w Hw Hh) as (c' & w' & Hd). rewrite (st_bind_of_Ok _ _ _ _ _ Hd).
  apply draw_cell_Ok in Hd as [Hm Hin]. rewrite <- Hm in *. apply IH; auto.
Qed.
End Draws.
(** ** The state during construction *)

(** A float drawn by [random.random()]: [k * 2^-53] with [k < 2^53]. *)
Definition unit_draw (o : option num) : Prop :=
  exists q, o = Some (nlit q) /\ (0 <= q < 1)%Q.

(** The fields [create_entities] does not touch. *)
Definition same_fields (m m' : Model) : Prop :=
  width m' = width m /\ height m' = height m /\ m_vision m' = m_vision m /\
  k m' = k m /\ gov_legitimacy m' = gov_legitimacy m /\ max_jail_term m' = max_jail_term m /\
  neighbor_influence_percentage m' = neighbor_influence_percentage m /\
  neighborhoods m' = neighborhoods m /\ data m' = data m /\ tick m' = tick m.

(** A freshly created object: the first [na] are agents with their two
    draws, the others cops; none is active or jailed. *)
Definition fresh_turtle (na i : nat) (t : Turtle) : Prop :=
  type t = (if i <? na then AGENT else COP) /\ active t = false /\ jail_term t = 0 /\
  (type t = AGENT ->
     unit_draw (risk_aversion t) /\ unit_draw (hardship t) /\ adjusted_hardship t = hardship t).

(** The model after [n] objects were created from [m0]: the objects
    [0 .. n-1], all listed, each on its own cell of the grid, which shows
    exactly them. *)
Record built (m0 : Model) (na n : nat) (m : Model) : Prop := {
  built_fields : same_fields m0 m;
  built_entities : entities m = seq 0 n;
  built_dom : forall i, is_Some (turtles m !! i) <-> i < n;
  built_heap : heap_ok (width m) (height m) (turtles m);
  built_grid : grid_ok (turtles m) (grid m);
  built_placed : forall i t, turtles m !! i = Some t -> grid m !! position t = Some i;
  built_size : size (grid m) = n;
  built_fresh : forall i t, turtles m !! i = Some t -> fresh_turtle na i t
}.

Lemma built_start m0 na :
  turtles m0 = ∅ -> entities m0 = [] -> grid m0 = ∅ -> built m0 na 0 m0.
Proof.
  intros Ht He Hg. constructor.
  - repeat split.
  - exact He.
  - intros i. rewrite Ht, lookup_empty. split; [by intros []|lia].
  - intros i t. by rewrite Ht, lookup_empty.
  - intros c j. by rewrite Hg, lookup_empty.
  - intros i t. by rewrite Ht, lookup_empty.
  - by rewrite Hg, map_size_empty.
  - intros i t. by rewrite Ht, lookup_empty.
Qed.

(** Placing the [n]-th object on a free cell of the grid. *)
Lemma built_insert m0 na n m c t :
  built m0 na n m -> grid m !! c = None -> in_bounds (width m) (height m) c ->
  fresh_turtle na n t -> position t = c ->
  built m0 na (S n)
    (set_entities (entities m ++ [n]) (map_turtles (<[n := t]>) (map_grid (<[c := n]>) m))).
Proof.
  intros [Hf He Hd Hh Hg Hp Hs Hfr] Hc Hin Ht Hpos.
  assert (Hn : turtles m !! n = None)
    by (apply eq_None_not_Some; rewrite Hd; lia).
  constructor; simpl.
  - exact Hf.
  - rewrite He. change (seq 0 n ++ [n] = seq 0 (S n)). by rewrite seq_S.
  - intros i. destruct (decide (i = n)) as [->|Hne].
    + rewrite lookup_insert_eq. split; [lia | eauto].
    + rewrite lookup_insert_ne by done. rewrite Hd. lia.
  - intros i ti. destruct (decide (i = n)) as [->|Hne].
    + rewrite lookup_insert_eq. intros [= <-].
      destruct Ht as (Hty & Ha & Hj & Hag).
      split; [by rewrite Hpos|]. split; [auto|]. split; [rewrite Hj; lia|].
      intros HA. destruct (Hag HA) as ([q1 [-> _]] & [q2 [Hq2 _]] & Hadj).
      rewrite Hadj, Hq2. eauto.
    + rewrite lookup_insert_ne by done. apply Hh.
  - intros c' j. destruct (decide (c' = c)) as [->|Hne].
    + rewrite lookup_insert_eq. intros [= <-]. rewrite lookup_insert_eq. eauto.
    + rewrite lookup_insert_ne by done. intros Hj.
      destruct (Hg c' j Hj) as (tj & Htj & <-).
      assert (j <> n) by (intros ->; congruence).
      rewrite lookup_insert_ne by done. eauto.
  - intros i ti. destruct (decide (i = n)) as [->|Hne].
    + rewrite lookup_insert_eq. intros [= <-]. rewrite Hpos. apply lookup_insert_eq.
    + rewrite lookup_insert_ne by done. intros Hti. pose proof (Hp i ti Hti) as Hpi.
      rewrite lookup_insert_ne; [exact Hpi|]. intros ->. congruence.
  - rewrite map_size_insert_None by exact Hc. lia.
  - intros i ti. destruct (decide (i = n)) as [->|Hne].
    + rewrite lookup_insert_eq. by intros [= <-].
    + rewrite lookup_insert_ne by done. apply Hfr.
Qed.
Lemma grid_cells_spec width height c :
  in_bounds width height c -> In c (grid_cells width height).
Proof.
  destruct c as [x y]. intros [Hx Hy]. apply in_flat_map. exists x.
  split; [apply In_py_range; simpl in *; lia|]. apply in_map. apply In_py_range. simpl in *; lia.
Qed.

Lemma grid_cells_40 : size (list_to_set (grid_cells 40 40) : gset cell) = 1600.
Proof. vm_compute. reflexivity. Qed.

(** The grid of a built 40x40 model holds at most its 1600 cells, so
    at most 1600 objects can be built. *)
Lemma built_size_bound m0 na n m :
  built m0 na n m -> width m = 40%Z -> height m = 40%Z -> n <= 1600.
Proof.
  intros [_ _ _ Hh Hg _ Hs _] Hw Hh'. rewrite <- Hs, <- size_dom, <- grid_cells_40.
  apply subseteq_size. intros c Hc. apply elem_of_dom in Hc as [j Hj].
  destruct (Hg c j Hj) as (tj & Htj & <-). apply elem_of_list_to_set, list_elem_of_In.
  apply grid_cells_spec. pose proof (Hh j tj Htj) as [Hb _]. by rewrite Hw, Hh' in Hb.
Qed.

(** A built model of a well-formed start is well formed. *)
Lemma built_wf m0 na n m :
  built m0 na n m ->
  neighborhoods m0 = compute_neighborhoods (width m0) (height m0) (m_vision m0) ->
  (0 < width m0)%Z -> (0 < height m0)%Z -> (0 <= m_vision m0)%Z -> wf m.
Proof.
  intros [(Hw & Hh & Hv & _ & _ & _ & _ & Hn & _) He Hd Hheap Hg _ _ _] Hn0 H1 H2 H3.
  constructor.
  - rewrite Hw, Hh, Hv. auto.
  - by rewrite Hn, Hw, Hh, Hv.
  - rewrite He. apply NoDup_seq.
  - intros i Hi. rewrite He, list_elem_of_In, in_seq in Hi. apply Hd. lia.
  - exact Hheap.
  - exact Hg.
Qed.

(** The first [na] objects are the agents, the next [nc] the cops. *)
Lemma built_counts m0 na nc m :
  built m0 na (na + nc) m -> count_agents m = na /\ count_cops m = nc.
Proof.
  intros Hb. destruct Hb as [_ He Hd _ _ _ _ Hfr]. unfold count_agents, count_cops. rewrite He.
  assert (Hk : forall i, i < na + nc -> is_kind AGENT m i = (i <? na)).
  { intros i Hi. destruct (proj2 (Hd i) Hi) as [t Ht]. destruct (Hfr i t Ht) as (Hty & _).
    unfold is_kind, types_of. rewrite lookup_fmap, Ht. simpl. rewrite Hty.
    destruct (i <? na); reflexivity. }
  destruct (count_if_seq_split _ na nc Hk) as [Ha Hc]. split; [exact Ha|].
  etransitivity; [|exact Hc]. apply count_if_ext. intros i Hi%in_seq.
  destruct (proj2 (Hd i) ltac:(lia)) as [t Ht]. destruct (Hfr i t Ht) as (Hty & _).
  unfold is_kind, types_of. rewrite !lookup_fmap, Ht. simpl. rewrite Hty.
  destruct (i <? na); reflexivity.
Qed.

(** ** Running the constructor *)

Section Runs.
Context `{!RandomSourceOk G} `{!GenrandOk G}.

Lemma random_float_Ok (w w' : World) x :
  random_float w = Ok (x, w') -> model w' = model w /\ unit_draw (Some x).
Proof.
  unfold random_float. intros Hr. st_inv.
  match goal with Hb : rand _ _ = Ok _ |- _ =>
    apply rand_Ok_inv in Hb as (g & Hb & ->); apply random_bits_range in Hb end.
  split; [reflexivity|]. eexists. split; [reflexivity|].
  unfold Qle, Qlt; simpl; lia.
Qed.

Lemma random_float_never_raises (w : World) e : random_float w <> Exc e.
Proof.
  unfold random_float, st_bind, rand, random_bits.
  destruct (genrand_uint32 (rng w)) as [a g1], (genrand_uint32 g1) as [b g2]. discriminate.
Qed.

(** [place_entity_randomly] writes the object to a free cell of the
    grid and gives it that position. *)
Lemma place_entity_Ok i t (w w' : World) :
  place_entity_randomly i t w = Ok (tt, w') ->
  exists c, grid (model w) !! c = None /\ in_bounds (width (model w)) (height (model w)) c /\
    model w' = map_turtles (<[i := set_position c t]>) (map_grid (<[c := i]>) (model w)).
Proof.
  unfold place_entity_randomly, on_model. intros Hr. st_inv.
  match goal with Hd : draw_cell _ = Ok _ |- _ => apply draw_cell_Ok in Hd as [Hm Hin] end.
  match goal with Hp : place_loop _ _ _ = Ok _ |- _ =>
    apply place_loop_Ok in Hp as (Hm' & Hfree & Hb); [|by rewrite Hm] end.
  rewrite Hm in Hm', Hfree, Hb.
  match goal with E : py_grid_index _ _ _ = Ok _ |- _ =>
    rewrite Hm', (py_grid_index_in _ _ _ Hb) in E; injection E as <- end.
  eexists. split; [exact Hfree|]. split; [auto|].
  simpl. by rewrite Hm'.
Qed.

Lemma place_entity_Exc i t (w : World) e :
  (0 < width (model w))%Z -> (0 < height (model w))%Z ->
  place_entity_randomly i t w = Exc e -> e = LoopBound.
Proof.
  intros Hw Hh. unfold place_entity_randomly. intros Hr.
  destruct (draw_cell_run w Hw Hh) as (c0 & w1 & Hd). rewrite (st_bind_of_Ok _ _ _ _ _ Hd) in Hr.
  apply draw_cell_Ok in Hd as [Hm Hin].
  apply st_bind_Exc_inv in Hr as [Hp | (c & w2 & Hp & Hr)];
    [eapply place_loop_Exc; [rewrite Hm; exact Hw | rewrite Hm; exact Hh | by rewrite Hm | exact Hp]|].
  apply place_loop_Ok in Hp as (Hm' & _ & Hb); [|by rewrite Hm].
  rewrite Hm in Hm', Hb.
  assert (Hb2 : in_bounds (width (model w2)) (height (model w2)) c) by (rewrite Hm'; exact Hb).
  rewrite bind_get, (bind_of_outcome_Ok _ _ _ _ (py_grid_index_in _ _ _ Hb2)) in Hr.
  discriminate.
Qed.

Section Objects.
Context (m0 : Model) (na : nat).
Hypothesis (Hw0 : (0 < width m0)%Z) (Hh0 : (0 < height m0)%Z).

(** Creating the [n]-th object on a built state: an agent when
    [n < na], a cop otherwise. *)
Lemma create_agent_Ok n (w w' : World) :
  built m0 na n (model w) -> n < na -> create_agent n w = Ok (tt, w') ->
  built m0 na (S n) (model w').
Proof.
  intros Hb Hn Hr. unfold create_agent, on_model in Hr. st_inv.
  repeat match goal with Hf : random_float _ = Ok _ |- _ =>
    apply random_float_Ok in Hf as [? ?] end.
  match goal with Hp : place_entity_randomly _ _ _ = Ok _ |- _ =>
    apply place_entity_Ok in Hp as (c & Hc & Hin & Hm) end.
  simpl. repeat match goal with Heq : model ?x = model ?y |- _ => rewrite Heq in * end.
  rewrite Hm. apply (built_insert m0 na n (model w) c); try assumption; [|reflexivity].
  repeat split; simpl; auto. by rewrite (proj2 (Nat.ltb_lt _ _) Hn).
Qed.

Lemma create_cop_Ok nums n i (w w' : World) :
  built m0 na n (model w) -> na <= n -> create_cop nums n i w = Ok (tt, w') ->
  built m0 na (S n) (model w').
Proof.
  intros Hb Hn Hr. unfold create_cop, on_model in Hr. st_inv.
  match goal with Hp : place_entity_randomly _ _ _ = Ok _ |- _ =>
    apply place_entity_Ok in Hp as (c & Hc & Hin & Hm) end.
  simpl.
  rewrite Hm. apply (built_insert m0 na n (model w) c); try assumption; [|reflexivity].
  repeat split; simpl; try discriminate. by rewrite (proj2 (Nat.ltb_ge _ _) Hn).
Qed.

Lemma built_dims n m : built m0 na n m -> (0 < width m)%Z /\ (0 < height m)%Z.
Proof. intros [(-> & -> & _) _ _ _ _ _ _ _]. auto. Qed.

Lemma create_agent_Exc n (w : World) e :
  built m0 na n (model w) -> create_agent n w = Exc e -> e = LoopBound.
Proof.
  intros Hb Hr. destruct (built_dims _ _ Hb) as [Hw Hh].
  unfold create_agent in Hr. rewrite bind_get in Hr.
  apply st_bind_Exc_inv in Hr as [Hx | (r & w1 & Hr1 & Hr)];
    [by apply random_float_never_raises in Hx|].
  apply st_bind_Exc_inv in Hr as [Hx | (h & w2 & Hr2 & Hr)];
    [by apply random_float_never_raises in Hx|].
  apply random_float_Ok in Hr1 as [Hm1 _], Hr2 as [Hm2 _].
  apply st_bind_Exc_inv in Hr as [Hx | (u & w3 & _ & Hr)]; [|discriminate].
  eapply place_entity_Exc; [rewrite Hm2, Hm1; exact Hw | rewrite Hm2, Hm1; exact Hh | exact Hx].
Qed.

Lemma create_cop_Exc nums n i (w : World) e :
  built m0 na n (model w) -> create_cop nums n i w = Exc e -> e = LoopBound.
Proof.
  intros Hb Hr. destruct (built_dims _ _ Hb) as [Hw Hh].
  unfold create_cop in Hr. rewrite bind_get in Hr.
  apply st_bind_Exc_inv in Hr as [Hx | (u & w3 & _ & Hr)]; [|discriminate].
  eapply place_entity_Exc; [exact Hw | exact Hh | exact Hx].
Qed.
End Objects.

Section Populate.
Context (m0 : Model).
Hypothesis (Hw0 : (0 < width m0)%Z) (Hh0 : (0 < height m0)%Z).

Lemma create_entities_Ok na nc (w w' : World) :
  built m0 (Z.to_nat na) 0 (model w) -> create_entities na nc w = Ok (tt, w') ->
  built m0 (Z.to_nat na) (Z.to_nat na + Z.to_nat nc) (model w').
Proof.
  intros Hb Hr. unfold create_entities in Hr. st_inv.
  assert (Hb1 : built m0 (Z.to_nat na) (0 + Z.to_nat na) (model x0)).
  { refine (st_iter_seq_inv create_agent (fun i s => built m0 (Z.to_nat na) i (model s))
              0 (Z.to_nat na) _ w x0 Hb ltac:(eassumption)).
    intros i s s' Hi Hs. apply create_agent_Ok; auto. lia. }
  rewrite <- (Nat.add_0_r (Z.to_nat na)) in Hb1 at 2.
  refine (st_iter_seq_inv (fun i => create_cop na (Z.to_nat na + i) i)
            (fun i s => built m0 (Z.to_nat na) (Z.to_nat na + i) (model s))
            0 (Z.to_nat nc) _ x0 w' Hb1 Hr).
  intros i s s' Hi Hs Hc. rewrite Nat.add_succ_r.
  eapply create_cop_Ok; eauto. lia.
Qed.

Lemma create_entities_Exc na nc (w : World) e :
  built m0 (Z.to_nat na) 0 (model w) -> create_entities na nc w = Exc e -> e = LoopBound.
Proof.
  intros Hb Hr. unfold create_entities in Hr.
  apply st_bind_Exc_inv in Hr as [Hx | ([] & w1 & H1 & Hr)].
  - refine (st_iter_seq_Exc create_agent (fun i s => built m0 (Z.to_nat na) i (model s))
              (fun e => e = LoopBound) 0 (Z.to_nat na) _ _ w e Hb Hx).
    + intros i s s' Hi Hs. apply create_agent_Ok; auto. lia.
    + intros i s e' _ Hs. eapply create_agent_Exc; eauto.
  - assert (Hb1 : built m0 (Z.to_nat na) (0 + Z.to_nat na) (model w1)).
    { refine (st_iter_seq_inv create_agent (fun i s => built m0 (Z.to_nat na) i (model s))
                0 (Z.to_nat na) _ w w1 Hb H1).
      intros i s s' Hi Hs. apply create_agent_Ok; auto. lia. }
    rewrite <- (Nat.add_0_r (Z.to_nat na)) in Hb1 at 2.
    refine (st_iter_seq_Exc (fun i => create_cop na (Z.to_nat na + i) i)
              (fun i s => built m0 (Z.to_nat na) (Z.to_nat na + i) (model s))
              (fun e => e = LoopBound) 0 (Z.to_nat nc) _ _ w1 e Hb1 Hr).
    + intros i s s' Hi Hs Hc. rewrite Nat.add_succ_r. eapply create_cop_Ok; eauto. lia.
    + intros i s e' _ Hs. eapply create_cop_Exc; eauto.
Qed.
End Populate.

Lemma of_outcome_Ok {S X} (o : outcome X) (s s' : S) x :
  of_outcome o s = Ok (x, s') -> o = Ok x /\ s' = s.
Proof. destruct o; simpl; intros Ho; [injection Ho as <- <-|]; by try discriminate. Qed.

(** The density check, the two counts and [create_entities] from an
    empty model. *)
Lemma populate_Ok ad cd (w w' : World) :
  turtles (model w) = ∅ -> entities (model w) = [] -> grid (model w) = ∅ ->
  (0 < width (model w))%Z -> (0 < height (model w))%Z ->
  populate ad cd w = Ok (tt, w') ->
  exists na nc, nltb (nlit 100) (nadd ad cd) = false /\
    density_count ad = Ok na /\ density_count cd = Ok nc /\
    built (model w) (Z.to_nat na) (Z.to_nat na + Z.to_nat nc) (model w').
Proof.
  intros Ht He Hg Hw Hh. unfold populate.
  destruct (nltb _ _) eqn:Hd; [discriminate|]. intros Hr.
  apply st_bind_Ok in Hr as (na & w1 & Hna & Hr). apply of_outcome_Ok in Hna as [Hna ->].
  apply st_bind_Ok in Hr as (nc & w2 & Hnc & Hr). apply of_outcome_Ok in Hnc as [Hnc ->].
  exists na, nc. split; [reflexivity|]. split; [exact Hna|]. split; [exact Hnc|].
  eapply (create_entities_Ok (model w)); [apply built_start; assumption | exact Hr].
Qed.

(** The exceptions of construction: the density check, [int()] of a
    non-finite float, or a placement loop that does not exit. *)
Lemma populate_Exc ad cd (w : World) e :
  turtles (model w) = ∅ -> entities (model w) = [] -> grid (model w) = ∅ ->
  (0 < width (model w))%Z -> (0 < height (model w))%Z ->
  populate ad cd w = Exc e ->
  (nltb (nlit 100) (nadd ad cd) = true /\ e = ValueError) \/
  (nltb (nlit 100) (nadd ad cd) = false /\
   (density_count ad = Exc e \/ (exists na, density_count ad = Ok na /\ density_count cd = Exc e) \/
    e = LoopBound)).
Proof.
  intros Ht He Hg Hw Hh. unfold populate.
  destruct (nltb _ _) eqn:Hd; intros Hr; [left; split; [reflexivity | by injection Hr]|].
  right. split; [reflexivity|]. unfold st_bind, of_outcome in Hr.
  destruct (density_count ad) as [na|ea]; [|left; congruence].
  destruct (density_count cd) as [nc|ec]; [|right; left; exists na; split; [reflexivity | congruence]].
  right; right. eapply (create_entities_Exc (model w)); [exact Hw | exact Hh | apply built_start; assumption |
    exact Hr].
Qed.

Lemma fresh_world_empty vision k gl mjt nip (g : G) :
  let w := mkWorld (fresh_model vision k gl mjt nip) g in
  turtles (model w) = ∅ /\ entities (model w) = [] /\ grid (model w) = ∅ /\
  (0 < width (model w))%Z /\ (0 < height (model w))%Z.
Proof. simpl. repeat split; lia. Qed.

(** What a successful [Model(...)] of extension1 built. *)
Lemma init_extension1_run ad cd vision k gl mjt nip g w :
  init_extension1 ad cd vision k gl mjt nip g = Ok w ->
  exists na nc, density_count ad = Ok na /\ density_count cd = Ok nc /\
    built (fresh_model vision k gl mjt nip) (Z.to_nat na) (Z.to_nat na + Z.to_nat nc) (model w).
Proof.
  intros Hi. unfold init_extension1 in Hi.
  destruct (populate ad cd _) as [[[] w']|e] eqn:Hp; [|discriminate]. injection Hi as <-.
  destruct (fresh_world_empty vision k gl mjt nip g) as (Ht & He & Hg & Hw & Hh).
  apply populate_Ok in Hp as (na & nc & _ & Ha & Hc & Hb); try assumption. eauto.
Qed.

(** C13 A model that extension1's [Model(...)] returns, for a
    vision of at least 0, is well formed; its entities are the objects
    [0 .. na+nc-1] for the two counts [int(density / 100 * 1600)] (a
    negative count giving none), the first [na] being agents and the
    others cops; every object is shown by the grid at its position, none
    is active or jailed, every agent's risk aversion and hardship are
    [random()] draws in [[0, 1)] with the adjusted hardship equal to the
    hardship, and the other fields are the arguments. *)
Theorem init_extension1_builds ad cd vision k gl mjt nip g w :
  (0 <= vision)%Z -> init_extension1 ad cd vision k gl mjt nip g = Ok w ->
  exists na nc, density_count ad = Ok na /\ density_count cd = Ok nc /\
    wf (model w) /\ entities (model w) = seq 0 (Z.to_nat na + Z.to_nat nc) /\
    count_agents (model w) = Z.to_nat na /\ count_cops (model w) = Z.to_nat nc /\
    (forall i t, turtles (model w) !! i = Some t ->
       grid (model w) !! position t = Some i /\ fresh_turtle (Z.to_nat na) i t) /\
    same_fields (fresh_model vision k gl mjt nip) (model w).
Proof.
  intros Hv Hi. destruct (init_extension1_run _ _ _ _ _ _ _ _ _ Hi) as (na & nc & Ha & Hc & Hb).
  exists na, nc. split; [exact Ha|]. split; [exact Hc|].
  destruct (built_counts _ _ _ _ Hb) as [Hca Hcc].
  split; [eapply built_wf; [exact Hb | reflexivity | simpl; lia.. ]|].
  split; [apply (built_entities _ _ _ _ Hb)|]. split; [exact Hca|]. split; [exact Hcc|].
  split; [intros i t Ht'; split; [eapply built_placed | eapply built_fresh]; eauto|].
  apply (built_fields _ _ _ _ Hb).
Qed.

(** The density check comes first. *)
Lemma init_extension1_density ad cd vision k gl mjt nip g :
  nltb (nlit 100) (nadd ad cd) = true ->
  init_extension1 ad cd vision k gl mjt nip g = Exc ValueError.
Proof. intros Hd. unfold init_extension1, populate. by rewrite Hd. Qed.

(** C14 The exceptions of extension1's [Model(...)]: when the two
    densities add up to more than 100 it raises the [ValueError] of the
    density check; otherwise it raises only an exception of [int()] on
    one of the two counts (a non-finite float) or [LoopBound], a
    placement loop that never finds a free cell.  The draws
    [randint(0, width - 1)] index the grid within its bounds, so the
    [IndexError] of [self.grid[x][y]] never occurs. *)
Theorem init_extension1_errors ad cd vision k gl mjt nip g :
  (nltb (nlit 100) (nadd ad cd) = true -> init_extension1 ad cd vision k gl mjt nip g = Exc ValueError) /\
  (forall e, init_extension1 ad cd vision k gl mjt nip g = Exc e ->
   (nltb (nlit 100) (nadd ad cd) = true /\ e = ValueError) \/
   (nltb (nlit 100) (nadd ad cd) = false /\
    (density_count ad = Exc e \/ (exists na, density_count ad = Ok na /\ density_count cd = Exc e) \/
     e = LoopBound))).
Proof.
  split; [apply init_extension1_density|].
  unfold init_extension1. intros e Hi.
  destruct (populate ad cd _) as [[[] w']|e'] eqn:Hp; [discriminate|]. injection Hi as <-.
  destruct (fresh_world_empty vision k gl mjt nip g) as (Ht & He & Hg & Hw & Hh).
  eapply populate_Exc; eassumption.
Qed.

(** C15 The density check bounds the sum of the two
    densities but not their signs: when it passes and the two counts ask
    for more objects than the 1600 cells, extension1's [Model(...)]
    raises [LoopBound] for every bound on the placement loop, i.e. the
    Python constructor never returns (the spec asks for a
    CapacityExhausted failure). *)
Theorem init_extension1_overfull ad cd vision k gl mjt nip g na nc :
  nltb (nlit 100) (nadd ad cd) = false -> density_count ad = Ok na ->
  density_count cd = Ok nc -> 1600 < Z.to_nat na + Z.to_nat nc ->
  init_extension1 ad cd vision k gl mjt nip g = Exc LoopBound.
Proof.
  intros Hd Ha Hc Hn. unfold init_extension1.
  destruct (fresh_world_empty vision k gl mjt nip g) as (Ht & He & Hg & Hw & Hh).
  destruct (populate ad cd _) as [[[] w']|e] eqn:Hp.
  - apply populate_Ok in Hp as (na' & nc' & _ & Ha' & Hc' & Hb); try assumption.
    rewrite Ha in Ha'. rewrite Hc in Hc'. injection Ha' as <-. injection Hc' as <-.
    pose proof (built_fields _ _ _ _ Hb) as (Hw' & Hh' & _).
    apply built_size_bound in Hb; [lia | exact Hw' | exact Hh'].
  - apply populate_Exc in Hp; try assumption.
    destruct Hp as [[Hd' _]|(_ & [Ha'|[(na' & _ & Hc')|He']])]; congruence.
Qed.

(** ** The driver loop *)

(** The three series have one entry per tick and every tick's entries
    add up to [c]. *)
Definition counts_sum (d : Data) (c : nat) : Prop :=
  length (data_jail d) = length (data_quiet d) /\ length (data_active d) = length (data_quiet d) /\
  forall t, t < length (data_quiet d) ->
    nth t (data_quiet d) 0 + nth t (data_jail d) 0 + nth t (data_active d) 0 = c.

Lemma counts_sum_append d c q j a :
  counts_sum d c -> q + j + a = c -> counts_sum (append_counts q j a d) c.
Proof.
  intros (Hj & Ha & Hs) Hq. unfold counts_sum, append_counts. simpl. rewrite !length_app. simpl.
  split; [lia|]. split; [lia|]. intros t Ht.
  destruct (decide (t < length (data_quiet d))) as [Hlt|Hge].
  - rewrite !app_nth1 by lia. auto.
  - assert (t = length (data_quiet d)) as -> by lia.
    rewrite nth_middle, <- Hj, nth_middle, Hj, <- Ha, nth_middle. exact Hq.
Qed.

(** [for _ in range(n): model.step()] of extension1 from a well-formed
    state: it returns, and each tick appends counts that split the agents. *)
Lemma run_ticks_extension1 n (w : World) :
  wf (model w) -> (0 <= max_jail_term (model w))%Z ->
  exists w', run_ticks step_extension1 n w = Ok (tt, w') /\
    count_agents (model w') = count_agents (model w) /\
    length (data_quiet (data (model w'))) = length (data_quiet (data (model w))) + n /\
    (counts_sum (data (model w)) (count_agents (model w)) ->
     counts_sum (data (model w')) (count_agents (model w))).
Proof.
  revert w. induction n as [|n IH]; intros w Hwf Hmax; simpl.
  - exists w. split; [reflexivity|]. split; [reflexivity|]. split; [lia | auto].
  - destruct (extension1_tick w Hwf Hmax) as (w1 & q & j & a & Hrun & Hwf1 & Hm1 & Hd1 & Hs & Hc).
    rewrite (st_bind_of_Ok _ _ _ _ _ Hrun).
    destruct (IH w1 Hwf1 ltac:(lia)) as (w2 & Hrun2 & Hc2 & Hl2 & Hcs2).
    rewrite Hc in Hcs2, Hc2. exists w2. split; [exact Hrun2|]. split; [exact Hc2|].
    split; [rewrite Hl2, Hd1; simpl; rewrite length_app; simpl; lia|].
    intros Hcs. apply Hcs2. rewrite Hd1. apply counts_sum_append; [exact Hcs | exact Hs].
Qed.

(** An extension1 model that was built runs [n] ticks, and each tick's
    counts add up to the number of agents it was built with. *)
Lemma init_then_ticks ad cd vision k gl mjt nip g w n :
  (0 <= vision)%Z -> (0 <= mjt)%Z -> init_extension1 ad cd vision k gl mjt nip g = Ok w ->
  exists na w', density_count ad = Ok na /\ run_ticks step_extension1 n w = Ok (tt, w') /\
    length (data_quiet (data (model w'))) = n /\ counts_sum (data (model w')) (Z.to_nat na).
Proof.
  intros Hv Hm Hi. destruct (init_extension1_run _ _ _ _ _ _ _ _ _ Hi) as (na & nc & Ha & _ & Hb).
  destruct (built_counts _ _ _ _ Hb) as [Hca _].
  pose proof (built_fields _ _ _ _ Hb) as (_ & _ & _ & _ & _ & Hmj & _ & _ & Hd & _).
  assert (Hwf : wf (model w)) by (eapply built_wf; [exact Hb | reflexivity | simpl; lia..]).
  destruct (run_ticks_extension1 n w Hwf ltac:(rewrite Hmj; exact Hm))
    as (w' & Hrun & _ & Hl & Hcs).
  exists na, w'. split; [exact Ha|]. split; [exact Hrun|].
  rewrite Hd in Hl, Hcs. simpl in Hl. split; [exact Hl|]. rewrite <- Hca. apply Hcs.
  repeat split; simpl; lia.
Qed.
End Runs.
End Construction.

(** ** The experiment of extension1 in binary64 *)

Section Drivers.
Context {G : Type} `{RandomSource G} `{!RandomSourceOk G} `{Genrand G} `{!GenrandOk G}.
Context (fexp : float -> float) (place_fuel : nat).

(** With densities 70 and 4, the constructor of extension1 raises only
    when its placement loop runs out of fuel. *)
Lemma init_70_4_errors vision k gl mjt nip g e :
  @init_extension1 (F_arith fexp) G _ _ place_fuel (nlit 70) (nlit 4) vision k gl mjt nip g =
    Exc e -> e = LoopBound.
Proof.
  unfold init_extension1. intros Hi.
  destruct (populate _ _ _ _) as [[[] w']|e'] eqn:Hp; [discriminate|]. injection Hi as <-.
  destruct (fresh_world_empty vision k gl mjt nip g) as (Ht & He & Hg & Hw & Hh).
  apply populate_Exc in Hp; try assumption.
  destruct Hp as [[Hd _]|(_ & [Ha|[(na & _ & Hc)| ->]])];
    [vm_compute in Hd | vm_compute in Ha | vm_compute in Hc | ]; congruence.
Qed.

(** C16 The end-to-end scenario of the spec on
    [run_experiment] of extension1.py with Python's floats: agent density
    70, cop density 4, vision 7, 200 ticks.  Whatever the generator,
    either the constructor's placement loop never exits, or the run
    returns with 200 entries in each series and every tick's quiet, jail
    and active counts add up to [int(0.70 * 1600) = 1120]. *)
Theorem run_experiment_counts nip g :
  @run_experiment (F_arith fexp) G _ _ place_fuel nip g = Exc LoopBound \/
  exists w, @run_experiment (F_arith fexp) G _ _ place_fuel nip g = Ok w /\
    length (data_quiet (data (model w))) = 200 /\ counts_sum (data (model w)) 1120.
Proof.
  unfold run_experiment.
  destruct (init_extension1 place_fuel _ _ _ _ _ _ nip g) as [w|e] eqn:Hi.
  - right. pose proof (fun Hv Hm => init_then_ticks place_fuel _ _ _ _ _ _ _ _ _ 200 Hv Hm Hi)
      as Hticks.
    destruct (Hticks ltac:(lia) ltac:(lia)) as (na & w' & Ha & Hrun & Hl & Hcs).
    vm_compute in Ha. injection Ha as <-. rewrite Hrun. eauto.
  - left. f_equal. eapply init_70_4_errors. exact Hi.
Qed.
End Drivers.

(** ** Concrete constructions *)

Abbreviation F := (F_arith unused_exp).

(** Four agents ([int(0.25 / 100 * 1600)]) and two cops
    ([int(0.125 / 100 * 1600)]) with vision 1: each agent draws its two
    floats, then every entity draws a distinct cell of row 0. *)
Definition small_tape : Tape :=
  [1; 2; 3; 4; 0; 0;  1; 2; 3; 4; 1; 0;  1; 2; 3; 4; 2; 0;  1; 2; 3; 4; 3; 0;  4; 0;  5; 0].

Definition small_init : outcome (World F Tape) :=
  @init_extension1 F Tape _ _ 10 (@nlit F (1 # 4)) (@nlit F (1 # 8)) 1 (@nlit F (23 # 10))
    (@nlit F (82 # 100)) 30 (@nlit F 0) small_tape.

(** The model built from [small_tape]. *)
Definition small_world : World F Tape :=
  match small_init with
  | Ok w => w
  | Exc _ => mkWorld (fresh_model 1 (@nlit F (23 # 10)) (@nlit F (82 # 100)) 30 (@nlit F 0)) []
  end.

Lemma small_init_Ok : small_init = Ok small_world.
Proof. apply is_ok_Ok. vm_compute. reflexivity. Qed.

Lemma init_extension1_builds_witness :
  (0 <= 1)%Z /\
  @init_extension1 F Tape _ _ 10 (@nlit F (1 # 4)) (@nlit F (1 # 8)) 1 (@nlit F (23 # 10))
    (@nlit F (82 # 100)) 30 (@nlit F 0) small_tape = Ok small_world /\
  exists na nc, density_count (@nlit F (1 # 4)) = Ok na /\ density_count (@nlit F (1 # 8)) = Ok nc /\
    wf (model small_world) /\ entities (model small_world) = seq 0 (Z.to_nat na + Z.to_nat nc) /\
    count_agents (model small_world) = Z.to_nat na /\ count_cops (model small_world) = Z.to_nat nc /\
    (forall i t, turtles (model small_world) !! i = Some t ->
       grid (model small_world) !! position t = Some i /\ fresh_turtle (Z.to_nat na) i t) /\
    same_fields (fresh_model 1 (@nlit F (23 # 10)) (@nlit F (82 # 100)) 30 (@nlit F 0))
      (model small_world).
Proof.
  split; [lia|]. split; [exact small_init_Ok|].
  apply (init_extension1_builds 10 (@nlit F (1 # 4)) (@nlit F (1 # 8)) 1 (@nlit F (23 # 10))
           (@nlit F (82 # 100)) 30 (@nlit F 0) small_tape); [lia | exact small_init_Ok].
Defined.

Lemma init_extension1_errors_witness :
  @init_extension1 F Tape _ _ 10 (@nlit F 70) (@nlit F 40) 1 (@nlit F (23 # 10))
    (@nlit F (82 # 100)) 30 (@nlit F 0) [] = Exc ValueError.
Proof.
  apply (proj1 (init_extension1_errors 10 (@nlit F 70) (@nlit F 40) 1 (@nlit F (23 # 10))
                  (@nlit F (82 # 100)) 30 (@nlit F 0) [])).
  vm_compute. reflexivity.
Defined.

(** An agent density of -50 and a cop density of 150 pass the check and
    ask for 2400 cops. *)
Lemma init_extension1_overfull_witness :
  @nltb F (@nlit F 100) (@nadd F (@nlit F (-50)) (@nlit F 150)) = false /\
  density_count (@nlit F (-50)) = Ok (-800)%Z /\ density_count (@nlit F 150) = Ok 2400%Z /\
  1600 < Z.to_nat (-800) + Z.to_nat 2400 /\
  @init_extension1 F Tape _ _ 10 (@nlit F (-50)) (@nlit F 150) 1 (@nlit F (23 # 10))
    (@nlit F (82 # 100)) 30 (@nlit F 0) [] = Exc LoopBound.
Proof.
  assert (Hn : 1600 < Z.to_nat (-800) + Z.to_nat 2400) by (rewrite Z2Nat.inj_neg; simpl; lia).
  split; [vm_compute; reflexivity|]. split; [vm_compute; reflexivity|].
  split; [vm_compute; reflexivity|]. split; [exact Hn|].
  apply (init_extension1_overfull 10 (@nlit F (-50)) (@nlit F 150) 1 (@nlit F (23 # 10))
           (@nlit F (82 # 100)) 30 (@nlit F 0) [] (-800) 2400);
    [vm_compute; reflexivity.. | exact Hn].
Defined.

Lemma run_experiment_counts_witness :
  @run_experiment F Tape _ _ 10 (@nlit F (1 # 2)) [] = Exc LoopBound \/
  exists w, @run_experiment F Tape _ _ 10 (@nlit F (1 # 2)) [] = Ok w /\
    length (data_quiet (data (model w))) = 200 /\ counts_sum (data (model w)) 1120.
Proof. exact (run_experiment_counts unused_exp 10 (@nlit F (1 # 2)) []). Defined.
