(* ===== verification/Peaks.v ===== *)
(** * The peak analysis of model_v4_lc_extension2.py

    [src/src/model_v4_lc_extension2.py] is a copy of extension1.py (the
    [Model] class differs from it in comments and indentation only, so
    its engine is the one of [Engine], [EngineStep] and [Construction])
    whose driver runs 500 ticks and returns [model.data['active']], then
    summarises the series with [analyze_peaks]: the mean of the values at
    the peaks [scipy.signal.find_peaks(active_data, height=0)] reports, or
    0 when there is none.

    [find_peaks] is library code the script calls; its peaks are those of
    the scan [_local_maxima_1d] of [scipy/signal/_peak_finding_utils.pyx],
    translated here with its two [while] loops bounded by fuel
    ([LoopBound] past it), followed by the [height >= 0] selection.  The
    theorems: the scan never runs out of a fuel of at least [len(x)]
    (its loops terminate), and it computes exactly the reference
    [peaks_ref]: for every strict rise into a plateau followed by a
    strict fall, the midpoint of the plateau.  So [analyze_peaks] never
    raises and averages the series at those peaks, and the sweep in
    binary64 returns one average per influence value unless the
    placement loop of the constructor never exits. *)

From Stdlib Require Import QArith PrimFloat.
From S2P Require Import Prelude Random Torus Rules Floats64 Engine EngineInv EngineStep Extension2 Construction.
Local Open Scope nat_scope.

(** ** The scan of [_local_maxima_1d] *)

Section Scan.
Variable x : list Z.

(** [x[i]], read in range only. *)
Definition at_ (i : nat) : Z := nth i x 0%Z.

(** [i_max = x.shape[0] - 1]: for an empty [x] it is [-1], and the
    condition [i < i_max] with [i >= 1] is false, as with [0] here. *)
Definition i_max : nat := length x - 1.

(** [while i_ahead < i_max and x[i_ahead] == x[i]: i_ahead += 1]. *)
Fixpoint look_ahead (fuel : nat) (i i_ahead : nat) : outcome nat :=
  if (i_ahead <? i_max) && (at_ i_ahead =? at_ i)%Z then
    match fuel with
    | 0 => Exc LoopBound
    | S f => look_ahead f i (S i_ahead)
    end
  else Ok i_ahead.

(** [while i < i_max: ...]: a rise [x[i - 1] < x[i]] is followed to the
    next unequal sample [x[i_ahead]]; a fall there records the midpoint
    [(i + (i_ahead - 1)) // 2] of the plateau and jumps to [i_ahead];
    then [i += 1]. *)
Fixpoint maxima_loop (fuel : nat) (i : nat) : outcome (list nat) :=
  if i <? i_max then
    match fuel with
    | 0 => Exc LoopBound
    | S f =>
        if (at_ (i - 1) <? at_ i)%Z then
          match look_ahead (length x) i (S i) with
          | Exc e => Exc e
          | Ok ia =>
              if (at_ ia <? at_ i)%Z then
                match maxima_loop f (S ia) with
                | Ok ms => Ok ((i + (ia - 1)) / 2 :: ms)
                | Exc e => Exc e
                end
              else maxima_loop f (S i)
          end
        else maxima_loop f (S i)
    end
  else Ok [].

(** [_local_maxima_1d(x)], its midpoints. *)
Definition local_maxima_1d : outcome (list nat) := maxima_loop (length x) 1.

(** [find_peaks(x, height=0)]: the midpoints whose value is at least 0. *)
Definition find_peaks : outcome (list nat) :=
  match local_maxima_1d with
  | Ok ps => Ok (List.filter (fun p => (0 <=? at_ p)%Z) ps)
  | Exc e => Exc e
  end.

(** ** The reference *)

(** The number of leading elements satisfying [p]. *)
Fixpoint prefix_len {B} (p : B -> bool) (l : list B) : nat :=
  match l with
  | [] => 0
  | b :: l' => if p b then S (prefix_len p l') else 0
  end.

(** The last index of the plateau starting at [l], among the samples
    before the last one. *)
Definition run_end (l : nat) : nat :=
  l + prefix_len (fun v => (v =? at_ l)%Z) (drop (S l) (firstn i_max x)).

(** A strict rise into [l], and a strict fall after its plateau. *)
Definition peak_start (l : nat) : bool :=
  (at_ (l - 1) <? at_ l)%Z && (at_ (S (run_end l)) <? at_ l)%Z.

(** The peaks whose plateau starts at [i] or later. *)
Definition peaks_from (i : nat) : list nat :=
  map (fun l => (l + run_end l) / 2) (List.filter peak_start (seq i (i_max - i))).

(** Every plateau of [x] between a strict rise and a strict fall, by its
    midpoint. *)
Definition peaks_ref : list nat := peaks_from 1.
End Scan.

(** ** The scan computes the reference *)

Lemma prefix_len_le {B} (p : B -> bool) l : prefix_len p l <= length l.
Proof. induction l as [|b l IH]; simpl; [lia|]. destruct (p b); simpl; lia. Qed.

Lemma prefix_len_true {B} (p : B -> bool) l m d :
  m < prefix_len p l -> p (nth m l d) = true.
Proof.
  revert m. induction l as [|b l IH]; intros m Hm; simpl in *; [lia|].
  destruct (p b) eqn:Hb; simpl in Hm; [|lia]. destruct m; [exact Hb | apply IH; lia].
Qed.

Section ScanProofs.
Variable x : list Z.

Local Abbreviation y := (firstn (i_max x) x).

Lemma length_y : length y = i_max x.
Proof. rewrite length_take. unfold i_max. lia. Qed.

Lemma nth_y j : j < i_max x -> nth j y 0%Z = at_ x j.
Proof.
  intros Hj. unfold at_. rewrite !nth_lookup, lookup_take_lt by exact Hj. reflexivity.
Qed.

Lemma drop_y_cons j : j < i_max x -> drop j y = at_ x j :: drop (S j) y.
Proof.
  intros Hj. apply drop_S. rewrite lookup_take_lt by exact Hj.
  destruct (lookup_lt_is_Some_2 x j) as [v Hv]; [unfold i_max in Hj; lia|].
  rewrite Hv. unfold at_. by rewrite (nth_lookup_Some _ _ _ _ Hv).
Qed.

(** The look-ahead loop stops after the plateau of [x[i]] among the
    samples before the last. *)
Lemma look_ahead_run fuel i j :
  j <= i_max x -> i_max x - j <= fuel ->
  look_ahead x fuel i j = Ok (j + prefix_len (fun v => (v =? at_ x i)%Z) (drop j y)).
Proof.
  revert j. induction fuel as [|f IH]; intros j Hj Hf; simpl;
    destruct (Nat.ltb_spec j (i_max x)) as [Hlt|Hge]; simpl.
  - lia.
  - rewrite drop_ge by (rewrite length_y; lia). simpl. f_equal. lia.
  - rewrite (drop_y_cons j Hlt). simpl.
    destruct (at_ x j =? at_ x i)%Z; [|f_equal; lia].
    rewrite IH by lia. f_equal. lia.
  - rewrite drop_ge by (rewrite length_y; lia). simpl. f_equal. lia.
Qed.

(** The look-ahead from a rise at [i] ends just after its plateau. *)
Lemma look_ahead_run_end i :
  i < i_max x -> look_ahead x (length x) i (S i) = Ok (S (run_end x i)).
Proof. intros Hi. rewrite look_ahead_run by (unfold i_max in *; lia). reflexivity. Qed.

(** The plateau of [x[i]] stays before the last sample and is flat. *)
Lemma run_end_bound i : i < i_max x -> i <= run_end x i < i_max x.
Proof.
  intros Hi. unfold run_end. pose proof (prefix_len_le (fun v => (v =? at_ x i)%Z) (drop (S i) y)).
  rewrite length_drop, length_y in H. lia.
Qed.

Lemma run_end_flat i k : i < i_max x -> i <= k <= run_end x i -> at_ x k = at_ x i.
Proof.
  intros Hi Hk. destruct (decide (k = i)) as [->|Hne]; [reflexivity|].
  pose proof (run_end_bound i Hi) as Hb.
  pose proof (prefix_len_true (fun v => (v =? at_ x i)%Z) (drop (S i) y) (k - S i) 0%Z)
    as Ht.
  unfold run_end in Hk, Hb. rewrite <- nth_y by lia. apply Z.eqb_eq.
  rewrite <- Ht by lia. simpl. rewrite !nth_lookup, lookup_drop.
  replace (S i + (k - S i)) with k by lia. reflexivity.
Qed.

(** After a peak at [i], no plateau starts inside it or at the fall. *)
Lemma no_peak_after i l :
  i < i_max x -> peak_start x i = true -> i < l <= S (run_end x i) -> peak_start x l = false.
Proof.
  intros Hi Hp Hl. unfold peak_start in *. apply andb_true_iff in Hp as [_ Hfall].
  apply Z.ltb_lt in Hfall. pose proof (run_end_bound i Hi) as Hb.
  destruct (decide (l = S (run_end x i))) as [->|Hne].
  - rewrite Nat.sub_1_r, Nat.pred_succ, (run_end_flat i (run_end x i)) by lia.
    rewrite (proj2 (Z.ltb_ge _ _)) by lia. reflexivity.
  - rewrite (run_end_flat i (l - 1)), (run_end_flat i l) by lia.
    rewrite Z.ltb_irrefl. reflexivity.
Qed.

Lemma peaks_from_cons i :
  i < i_max x ->
  peaks_from x i = (if peak_start x i then [(i + run_end x i) / 2] else []) ++ peaks_from x (S i).
Proof.
  intros Hi. unfold peaks_from. replace (i_max x - i) with (S (i_max x - S i)) by lia.
  simpl. destruct (peak_start x i); reflexivity.
Qed.

Lemma peaks_from_end i : i_max x <= i -> peaks_from x i = [].
Proof. intros Hi. unfold peaks_from. by replace (i_max x - i) with 0 by lia. Qed.

(** Samples with no plateau start can be skipped. *)
Lemma peaks_from_skip a b :
  a <= b -> (forall l, a <= l < b -> peak_start x l = false) -> peaks_from x a = peaks_from x b.
Proof.
  intros Hab Hno. remember (b - a) as d eqn:Hd. revert a Hab Hno Hd.
  induction d as [|d IH]; intros a Hab Hno Hd.
  - by replace b with a by lia.
  - destruct (decide (i_max x <= a)) as [Hend|Hlt].
    + rewrite !peaks_from_end by lia. reflexivity.
    + rewrite peaks_from_cons, (Hno a) by lia. simpl.
      apply IH; [lia | intros l Hl; apply Hno; lia | lia].
Qed.
(** The scan from [i] with enough fuel yields the reference peaks from [i]. *)
Lemma maxima_loop_run fuel i :
  1 <= i -> i_max x - i <= fuel -> maxima_loop x fuel i = Ok (peaks_from x i).
Proof.
  revert i. induction fuel as [|f IH]; intros i Hi Hf; simpl;
    destruct (Nat.ltb_spec i (i_max x)) as [Hlt|Hge];
    try (rewrite peaks_from_end by lia; reflexivity); [lia|].
  rewrite peaks_from_cons by exact Hlt. unfold peak_start at 1.
  destruct (Z.ltb_spec (at_ x (i - 1)) (at_ x i)) as [Hrise|Hflat]; simpl;
    [|apply IH; lia].
  rewrite look_ahead_run_end by exact Hlt. pose proof (run_end_bound i Hlt) as Hb.
  destruct (Z.ltb (at_ x (S (run_end x i))) (at_ x i)) eqn:Hfall; [|apply IH; lia].
  rewrite IH by lia. cbn [andb app].
  replace (S (run_end x i) - 1) with (run_end x i) by lia. do 2 f_equal. symmetry.
  apply peaks_from_skip; [lia|].
  intros l Hl. apply (no_peak_after i); [exact Hlt | | lia].
  unfold peak_start. by rewrite (proj2 (Z.ltb_lt _ _) Hrise), Hfall.
Qed.
End ScanProofs.

(** ** The analysis *)

Section Analysis.
Context {A : Arith}.

(** [analyze_peaks(active_data)] (lines 214-218): the NumPy mean of the
    peak values, [sum / len] in float, or the int 0. *)
Definition analyze_peaks (active_data : list nat) : outcome num :=
  let x := map Z.of_nat active_data in
  match find_peaks x with
  | Exc e => Exc e
  | Ok peaks =>
      let peak_values := map (fun p => nth p active_data 0) peaks in
      Ok (if 0 <? length peak_values
          then ndiv (nofnat (list_sum peak_values)) (nofnat (length peak_values))
          else nofnat 0)
  end.
(** The reference value of [analyze_peaks]: the mean of the series at
    the peaks of [peaks_ref], or 0 when there is none. *)
Definition peak_mean (d : list nat) : num :=
  let vs := map (fun p => nth p d 0) (peaks_ref (map Z.of_nat d)) in
  if 0 <? length vs then ndiv (nofnat (list_sum vs)) (nofnat (length vs)) else nofnat 0.
End Analysis.

(** ** The driver *)

Section Driver.
Context {A : Arith} {G : Type} `{RandomSource G} `{Genrand G}.
Context (place_fuel : nat).

(** [run_experiment(nip)] (lines 197-211): [Model(...)] with the
    script's constants, 500 ticks, [model.data['active']]; the generator
    is the module's, shared by the runs. *)
Definition v4lc_run_experiment (nip : num) (g : G) : outcome (list nat * G) :=
  match init_extension1 place_fuel (nlit 70) (nlit 4) 7 (nlit (23 # 10)) (nlit (82 # 100)) 30 nip g with
  | Ok w =>
      match run_ticks step_extension1 500 w with
      | Ok (_, w') => Ok (data_active (data (model w')), rng w')
      | Exc e => Exc e
      end
  | Exc e => Exc e
  end.

(** [neighbor_influence_percentages] (line 222). *)
Definition neighbor_influence_percentages : list num :=
  map nlit [0; 1 # 10; 2 # 10; 3 # 10; 4 # 10; 5 # 10; 6 # 10; 7 # 10; 8 # 10; 9 # 10; 1]%Q.

(** The loop of lines 225-230: [average_peak_values], one entry per
    influence, in order (the [print] is output only). *)
Fixpoint peak_sweep (nips : list num) (g : G) : outcome (list num * G) :=
  match nips with
  | [] => Ok ([], g)
  | nip :: nips' =>
      match v4lc_run_experiment nip g with
      | Exc e => Exc e
      | Ok (active_data, g1) =>
          match analyze_peaks active_data with
          | Exc e => Exc e
          | Ok average_peak =>
              match peak_sweep nips' g1 with
              | Ok (avgs, g2) => Ok (average_peak :: avgs, g2)
              | Exc e => Exc e
              end
          end
      end
  end.
End Driver.

(** ** The scan and the sweep terminate *)

(** [find_peaks] returns the reference peaks of non-negative height. *)
Lemma find_peaks_run x : find_peaks x = Ok (List.filter (fun p => (0 <=? at_ x p)%Z) (peaks_ref x)).
Proof. unfold find_peaks, local_maxima_1d. rewrite maxima_loop_run by (unfold i_max; lia). reflexivity. Qed.

(** [analyze_peaks] never raises. *)
Lemma analyze_peaks_Ok {A : Arith} d : exists v, analyze_peaks d = Ok v.
Proof. unfold analyze_peaks. rewrite find_peaks_run. eauto. Qed.

(** The [height=0] selection keeps every peak of a series of counts. *)
Lemma filter_height_counts (d : list nat) ps :
  List.filter (fun p => (0 <=? at_ (map Z.of_nat d) p)%Z) ps = ps.
Proof.
  induction ps as [|p ps IH]; simpl; [reflexivity|].
  unfold at_. change 0%Z with (Z.of_nat 0). rewrite map_nth.
  rewrite (proj2 (Z.leb_le _ _)) by lia.
  f_equal. exact IH.
Qed.

Lemma analyze_peaks_mean {A : Arith} (d : list nat) : analyze_peaks d = Ok (peak_mean d).
Proof. unfold analyze_peaks, peak_mean. rewrite find_peaks_run, filter_height_counts. reflexivity. Qed.

Section Sweep.
Context {G : Type} `{RandomSource G} `{!RandomSourceOk G} `{Genrand G} `{!GenrandOk G}.
Context (fexp : float -> float) (place_fuel : nat).

(** One run of the script in binary64 raises only when the placement loop
    of the constructor runs out of fuel; otherwise it returns the 500
    counts of the [active] series. *)
Lemma v4lc_run_cases nip g :
  (@init_extension1 (F_arith fexp) G _ _ place_fuel (nlit 70) (nlit 4) 7 (nlit (23 # 10))
     (nlit (82 # 100)) 30 nip g = Exc LoopBound /\
   @v4lc_run_experiment (F_arith fexp) G _ _ place_fuel nip g = Exc LoopBound) \/
  exists d g', @v4lc_run_experiment (F_arith fexp) G _ _ place_fuel nip g = Ok (d, g') /\
    length d = 500.
Proof.
  unfold v4lc_run_experiment.
  destruct (init_extension1 place_fuel _ _ _ _ _ _ nip g) as [w|e] eqn:Hi.
  - right. pose proof (fun Hv Hm => init_then_ticks place_fuel _ _ _ _ _ _ _ _ _ 500 Hv Hm Hi)
      as Hticks.
    destruct (Hticks ltac:(lia) ltac:(lia)) as (na & w' & _ & Hrun & Hl & (_ & Ha & _)).
    rewrite Hrun. do 2 eexists. split; [reflexivity|]. congruence.
  - left. pose proof (init_70_4_errors fexp place_fuel _ _ _ _ _ _ _ Hi) as ->. auto.
Qed.

(** C17 The module-level loop of model_v4_lc_extension2.py in
    binary64, for any list of influence percentages and any generator:
    either it raises [LoopBound] because the constructor's placement loop
    did not exit for one of the percentages, or it returns, for each
    percentage in order, the mean of the [active] series of a complete
    500-tick run at the reference peaks of that series ([peak_mean]):
    the peak scan itself never fails. *)
Theorem peak_sweep_total nips g :
  ((exists nip g0, In nip nips /\
      @init_extension1 (F_arith fexp) G _ _ place_fuel (nlit 70) (nlit 4) 7 (nlit (23 # 10))
        (nlit (82 # 100)) 30 nip g0 = Exc LoopBound) /\
   @peak_sweep (F_arith fexp) G _ _ place_fuel nips g = Exc LoopBound) \/
  exists avgs g', @peak_sweep (F_arith fexp) G _ _ place_fuel nips g = Ok (avgs, g') /\
    Forall2 (fun nip v => exists g0 d g1,
               @v4lc_run_experiment (F_arith fexp) G _ _ place_fuel nip g0 = Ok (d, g1) /\
               length d = 500 /\ v = peak_mean d) nips avgs.
Proof.
  revert g. induction nips as [|nip nips IH]; intros g; cbn [peak_sweep].
  { right. exists [], g. split; [reflexivity | constructor]. }
  destruct (v4lc_run_cases nip g) as [[Hi Hr]|(d & g1 & Hr & Hl)].
  { left. rewrite Hr. split; [exists nip, g; split; [left; reflexivity | exact Hi] | reflexivity]. }
  rewrite Hr, analyze_peaks_mean.
  destruct (IH g1) as [[(nip' & g0 & Hin & Hi) Hs]|(avgs & g2 & Hs & HF)]; rewrite Hs.
  - left. split; [exists nip', g0; split; [right; exact Hin | exact Hi] | reflexivity].
  - right. exists (peak_mean d :: avgs), g2. split; [reflexivity|].
    constructor; [exists g, d, g1; auto | exact HF].
Qed.
End Sweep.


(** C18 [analyze_peaks] computes the mean of the series
    at the reference peaks: the midpoints of the plateaus entered by a
    strict rise and left by a strict fall, all of them since the counts
    are non-negative; it returns 0 when there is none, and never
    raises. *)
Theorem analyze_peaks_ref {A : Arith} (d : list nat) :
  analyze_peaks d =
    let vs := map (fun p => nth p d 0) (peaks_ref (map Z.of_nat d)) in
    Ok (if 0 <? length vs then ndiv (nofnat (list_sum vs)) (nofnat (length vs)) else nofnat 0).
Proof. unfold analyze_peaks. rewrite find_peaks_run, filter_height_counts. reflexivity. Qed.

(** ** Witnesses *)

Lemma peak_sweep_total_witness :
  ((exists nip g0, In nip neighbor_influence_percentages /\
      @init_extension1 F Tape _ _ 10 (nlit 70) (nlit 4) 7 (nlit (23 # 10))
        (nlit (82 # 100)) 30 nip g0 = Exc LoopBound) /\
   @peak_sweep F Tape _ _ 10 neighbor_influence_percentages [] = Exc LoopBound) \/
  exists avgs g', @peak_sweep F Tape _ _ 10 neighbor_influence_percentages [] = Ok (avgs, g') /\
    Forall2 (fun nip v => exists g0 d g1,
               @v4lc_run_experiment F Tape _ _ 10 nip g0 = Ok (d, g1) /\
               length d = 500 /\ v = peak_mean d) neighbor_influence_percentages avgs.
Proof. exact (peak_sweep_total unused_exp 10 neighbor_influence_percentages []). Defined.
