(* ===== verification/V45.v ===== *)
(** * model_v4.5: the variant without an occupancy grid

    [src/src/model_v4.5_lwz.py] keeps no grid: every query scans
    [self.entities], whose order is fixed (agents first, no shuffle).
    Neighbours are the cells of the Chebyshev box of [is_neighbor]; a move
    draws random offsets until the target cell holds no cop and no free
    agent ([while True] with [break]); the counts are taken during the
    turns, each entity at its own turn; [enforce] scans the first
    [num_agents] entities.  The entity list is a list of records updated
    by index (the loop [for entity in self.entities] never changes the
    list itself, only the objects it holds, and no object is held twice).
    The rejection loop runs at most [move_fuel] iterations, a section
    variable; [LoopBound] marks a loop still running after that many. *)

From Stdlib Require Import QArith Floats.
From S2P Require Import Prelude Random Torus Rules Floats64 Engine EngineStep.
Local Open Scope nat_scope.

Module V45.
Section V45.
Context {A : Arith} {G : Type} `{RandomSource G}.

(** [Turtle] of model_v4.5: no adjusted hardship. *)
Record Turtle := mkTurtle {
  agent_id : nat;
  type : EntityType;
  vision : Z;
  risk_aversion : option num;
  hardship : option num;
  active : bool;
  jail_term : nat;
  position : cell
}.

(** The state [Model.__init__] sets up: no grid, no neighbourhood table. *)
Record Model := mkModel {
  width : Z;
  height : Z;
  m_vision : Z;
  k : num;
  gov_legitimacy : num;
  max_jail_term : Z;
  num_agents : nat;
  entities : list Turtle;
  data : Data
}.

Record World := mkWorld { model : Model; rng : G }.

Definition set_active (b : bool) (t : Turtle) : Turtle :=
  mkTurtle (agent_id t) (type t) (vision t) (risk_aversion t) (hardship t) b
    (jail_term t) (position t).
Definition set_jail_term (n : nat) (t : Turtle) : Turtle :=
  mkTurtle (agent_id t) (type t) (vision t) (risk_aversion t) (hardship t) (active t)
    n (position t).
Definition set_position (c : cell) (t : Turtle) : Turtle :=
  mkTurtle (agent_id t) (type t) (vision t) (risk_aversion t) (hardship t) (active t)
    (jail_term t) c.

Definition map_entities (f : list Turtle -> list Turtle) (m : Model) : Model :=
  mkModel (width m) (height m) (m_vision m) (k m) (gov_legitimacy m) (max_jail_term m)
    (num_agents m) (f (entities m)) (data m).
Definition map_data (f : Data -> Data) (m : Model) : Model :=
  mkModel (width m) (height m) (m_vision m) (k m) (gov_legitimacy m) (max_jail_term m)
    (num_agents m) (entities m) (f (data m)).

Definition on_model (f : Model -> Model) : ST World unit :=
  st_modify (fun w => mkWorld (f (model w)) (rng w)).

Definition rand {X} (r : ST G X) : ST World X :=
  fun w => match r (rng w) with
           | Ok (x, g) => Ok (x, mkWorld (model w) g)
           | Exc e => Exc e
           end.

(** [self.entities[i]]. *)
Definition get_entity (i : nat) : ST World Turtle :=
  let* w := st_get in st_lift IndexError (entities (model w) !! i).

(** An assignment to a field of the object [self.entities[i]]. *)
Definition update_entity (i : nat) (f : Turtle -> Turtle) : ST World unit :=
  let* t := get_entity i in on_model (map_entities (<[i := f t]>)).

(** [is_position_valid(new_x, new_y)], the nested function of
    [move_agent]: a cop or an agent with [jail_term == 0] on the cell makes
    it invalid. *)
Fixpoint is_position_valid (es : list Turtle) (new_x new_y : Z) : bool :=
  match es with
  | [] => true
  | e :: es' =>
      let '(x, y) := position e in
      if (new_x =? x)%Z && (new_y =? y)%Z then
        match type e with
        | COP => false
        | AGENT => if jail_term e =? 0 then false else is_position_valid es' new_x new_y
        end
      else is_position_valid es' new_x new_y
  end.

Context (move_fuel : nat).

(** The [while True] loop of [move_agent], for at most [fuel] rounds. *)
Fixpoint move_loop (fuel : nat) (x y : Z) : ST World cell :=
  match fuel with
  | 0 => st_raise LoopBound
  | S fuel' =>
      let* w := st_get in
      let v := m_vision (model w) in
      let* dx := rand (randint (- v) v) in
      let* dy := rand (randint (- v) v) in
      let new_x := ((x + dx) mod width (model w))%Z in
      let new_y := ((y + dy) mod height (model w))%Z in
      if is_position_valid (entities (model w)) new_x new_y then ret (new_x, new_y)
      else move_loop fuel' x y
  end.

(** [move_agent] (lines 85-107). *)
Definition move_agent (i : nat) : ST World unit :=
  let* agent := get_entity i in
  if 0 <? jail_term agent then ret tt else
  let '(x, y) := position agent in
  let* c := move_loop move_fuel x y in
  update_entity i (set_position c).

(** The scan of [estimate_arrest_probability] (lines 131-137). *)
Definition in_view (m : Model) (x y : Z) (e : Turtle) : bool :=
  is_neighbor (width m) (height m) (m_vision m) x y (fst (position e)) (snd (position e)).

Definition cops_count (m : Model) (x y : Z) : nat :=
  count_if (fun e => in_view m x y e && bool_decide (type e = COP)) (entities m).

Definition active_agents_count (m : Model) (x y : Z) : nat :=
  count_if (fun e => in_view m x y e && bool_decide (type e = AGENT) && active e)
    (entities m).

(** [estimate_arrest_probability] (lines 127-139). *)
Definition estimate_arrest_probability (c : cell) : ST World num :=
  let* w := st_get in
  let '(x, y) := c in
  ret (arrest_probability (k (model w)) (cops_count (model w) x y)
         (active_agents_count (model w) x y)).

(** [determine_behavior] (lines 111-117): [TypeError] on a [None]
    operand. *)
Definition determine_behavior (i : nat) : ST World unit :=
  let* agent := get_entity i in
  let* w := st_get in
  let* h := st_lift TypeError (hardship agent) in
  let g := grievance h (gov_legitimacy (model w)) in
  let* p := estimate_arrest_probability (position agent) in
  let* r := st_lift TypeError (risk_aversion agent) in
  update_entity i (set_active (activates g r p)).

(** The agents [enforce] may arrest: the indices of
    [self.entities[:self.num_agents]] in view that are active agents. *)
Definition active_agents (m : Model) (x y : Z) : list nat :=
  List.filter (fun j => match entities m !! j with
                        | Some e => in_view m x y e && bool_decide (type e = AGENT) && active e
                        | None => false
                        end)
    (seq 0 (Nat.min (num_agents m) (length (entities m)))).

(** [enforce] (lines 143-157): the arrested agent keeps its cell and the
    cop moves onto it. *)
Definition enforce (i : nat) : ST World unit :=
  let* cop := get_entity i in
  let* w := st_get in
  let '(x, y) := position cop in
  match active_agents (model w) x y with
  | [] => ret tt
  | candidates =>
      let* j := rand (choice candidates) in
      let* _ := update_entity j (set_active false) in
      let* jt := rand (randint 0 (max_jail_term (model w))) in
      let* _ := update_entity j (set_jail_term (Z.to_nat jt)) in
      let* selected := get_entity j in
      update_entity i (set_position (position selected))
  end.

(** One iteration of the loop of [step] (lines 65-79), with the counters
    [(quiet_count, jail_count, active_count)]. *)
Definition turn (i : nat) (counts : nat * nat * nat) : ST World (nat * nat * nat) :=
  let '(q, j, a) := counts in
  let* entity := get_entity i in
  if 0 <? jail_term entity then
    let* _ := update_entity i (set_jail_term (jail_term entity - 1)) in ret (q, S j, a)
  else
    let* _ := move_agent i in
    match type entity with
    | AGENT =>
        let* _ := determine_behavior i in
        let* e := get_entity i in
        ret (if active e then (q, j, S a) else (S q, j, a))
    | COP => let* _ := enforce i in ret (q, j, a)
    end.

(** [step] (lines 62-83). *)
Definition step : ST World unit :=
  let* w := st_get in
  let* counts := st_fold turn (seq 0 (length (entities (model w)))) (0, 0, 0) in
  let '(q, j, a) := counts in
  on_model (map_data (append_counts q j a)).

(** ** Running the primitives *)

Lemma get_entity_run (w : World) i t :
  entities (model w) !! i = Some t -> get_entity i w = Ok (t, w).
Proof. intros Ht. unfold get_entity, st_bind, st_get, st_lift. by rewrite Ht. Qed.

Lemma update_entity_run (w : World) i f t :
  entities (model w) !! i = Some t ->
  update_entity i f w = Ok (tt, mkWorld (map_entities (<[i := f t]>) (model w)) (rng w)).
Proof.
  intros Ht. unfold update_entity. rewrite (st_bind_of_Ok _ _ _ _ _ (get_entity_run _ _ _ Ht)).
  reflexivity.
Qed.

Lemma get_entity_Ok (w : World) i t w' :
  get_entity i w = Ok (t, w') -> w' = w /\ entities (model w) !! i = Some t.
Proof.
  unfold get_entity, st_bind, st_get, st_lift.
  destruct (entities (model w) !! i); intros Hg; [injection Hg as <- <-; auto | discriminate].
Qed.

Lemma rand_Ok {X} (r : ST G X) (w : World) x w' :
  rand r w = Ok (x, w') -> exists g, r (rng w) = Ok (x, g) /\ w' = mkWorld (model w) g.
Proof.
  unfold rand. destruct (r (rng w)) as [[y g]|e]; intros Hr; [|discriminate].
  injection Hr as <- <-. eauto.
Qed.

Lemma update_entity_Ok (w : World) w' i f u :
  update_entity i f w = Ok (u, w') ->
  exists t, entities (model w) !! i = Some t /\
    w' = mkWorld (map_entities (<[i := f t]>) (model w)) (rng w).
Proof.
  unfold update_entity. intros Hu. st_inv.
  match goal with H : get_entity _ _ = Ok _ |- _ => apply get_entity_Ok in H as [-> Ht] end.
  unfold on_model, st_modify in Hu. injection Hu; intros; subst; eauto.
Qed.

(** ** What the turns keep: the types, and no cop in jail *)

Definition shape (tys : list EntityType) (d : Data) (m : Model) : Prop :=
  type <$> entities m = tys /\ Forall (fun e => type e = COP -> jail_term e = 0) (entities m) /\
  data m = d.

Lemma shape_update tys d m i t f :
  shape tys d m -> entities m !! i = Some t -> type (f t) = type t ->
  (type t = COP -> jail_term (f t) = 0) ->
  shape tys d (map_entities (<[i := f t]>) m).
Proof.
  intros (Hty & Hcop & Hd) Ht Hf Hj. split; [|split]; simpl.
  - rewrite list_fmap_insert, Hf, <- Hty. apply list_insert_id.
    by rewrite list_lookup_fmap, Ht.
  - apply Forall_insert; [exact Hcop | rewrite Hf; exact Hj].
  - exact Hd.
Qed.

(** A cop of a state of this shape is not jailed. *)
Lemma shape_cop tys d m i t :
  shape tys d m -> entities m !! i = Some t -> type t = COP -> jail_term t = 0.
Proof.
  intros (_ & Hcop & _) Ht. rewrite Forall_lookup in Hcop. exact (Hcop i t Ht).
Qed.

Lemma shape_type tys d m i t :
  shape tys d m -> entities m !! i = Some t -> tys !! i = Some (type t).
Proof. intros (<- & _) Ht. by rewrite list_lookup_fmap, Ht. Qed.

(** An update that keeps the type, and the jail term of a cop. *)
Definition tame (f : Turtle -> Turtle) : Prop :=
  forall t, type (f t) = type t /\ jail_term (f t) = jail_term t.

Lemma tame_set_active b : tame (set_active b).
Proof. intros t. split; reflexivity. Qed.

Lemma tame_set_position c : tame (set_position c).
Proof. intros t. split; reflexivity. Qed.

Lemma update_tame tys d (w : World) w' i f u :
  tame f -> shape tys d (model w) -> update_entity i f w = Ok (u, w') -> shape tys d (model w').
Proof.
  intros Hf Hs Hu. apply update_entity_Ok in Hu as (t & Ht & ->). simpl.
  destruct (Hf t) as [Hty Hj]. apply (shape_update _ _ _ _ _ _ Hs Ht Hty).
  rewrite Hj. intros Hc. exact (shape_cop _ _ _ _ _ Hs Ht Hc).
Qed.

Lemma move_loop_model fuel x y (w : World) c w' :
  move_loop fuel x y w = Ok (c, w') -> model w' = model w.
Proof.
  revert w. induction fuel as [|fuel IH]; simpl; intros w Hm; [discriminate|].
  st_inv. repeat match goal with H : rand _ _ = Ok _ |- _ =>
    apply rand_Ok in H as (? & _ & ->) end.
  simpl in *. destruct (is_position_valid _ _ _); [by st_inv | exact (IH _ Hm)].
Qed.

Lemma move_agent_shape tys d (w : World) w' i :
  shape tys d (model w) -> move_agent i w = Ok (tt, w') -> shape tys d (model w').
Proof.
  intros Hs Hm. unfold move_agent in Hm. st_inv.
  match goal with H : get_entity _ _ = Ok _ |- _ => apply get_entity_Ok in H as [-> _] end.
  destruct (0 <? jail_term _); cbv iota in Hm; [by st_inv|].
  destruct (position _) as [px py]. st_inv.
  match goal with H : move_loop _ _ _ _ = Ok _ |- _ => apply move_loop_model in H end.
  eapply update_tame; [apply tame_set_position | | eassumption]. congruence.
Qed.

Lemma determine_behavior_shape tys d (w : World) w' i :
  shape tys d (model w) -> determine_behavior i w = Ok (tt, w') -> shape tys d (model w').
Proof.
  intros Hs Hd. unfold determine_behavior, estimate_arrest_probability in Hd. st_inv.
  match goal with H : get_entity _ _ = Ok _ |- _ => apply get_entity_Ok in H as [-> _] end.
  destruct (position _) as [px py]. st_inv.
  eapply update_tame; [apply tame_set_active | exact Hs | eassumption].
Qed.

Lemma active_agents_In m x y j :
  In j (active_agents m x y) ->
  exists e, entities m !! j = Some e /\ type e = AGENT /\ active e = true.
Proof.
  unfold active_agents. rewrite filter_In. intros [_ Hj].
  destruct (entities m !! j) as [e|]; [|discriminate].
  apply andb_prop in Hj as [Hj Ha]. apply andb_prop in Hj as [_ Hty].
  apply bool_decide_eq_true_1 in Hty. eauto.
Qed.

Lemma enforce_shape tys d (w : World) w' i :
  shape tys d (model w) -> enforce i w = Ok (tt, w') -> shape tys d (model w').
Proof.
  intros Hs Hrun. unfold enforce in Hrun. st_inv.
  match goal with H : get_entity _ _ = Ok _ |- _ => apply get_entity_Ok in H as [-> _] end.
  destruct (position _) as [px py].
  destruct (active_agents _ px py) as [|c cs] eqn:Hc; [by st_inv|]. st_inv.
  repeat match goal with H : rand _ _ = Ok _ |- _ => apply rand_Ok in H as (? & ? & ->) end.
  match goal with H : choice _ _ = Ok _ |- _ => apply choice_In in H; rewrite <- Hc in H;
    apply active_agents_In in H as (e & Hj & Hty & _) end.
  match goal with H : update_entity _ (set_active _) _ = Ok _ |- _ =>
    apply update_entity_Ok in H as (e' & Hj' & ->) end.
  simpl in Hj'. rewrite Hj in Hj'. injection Hj' as <-.
  match goal with H : update_entity _ (set_jail_term _) _ = Ok _ |- _ =>
    apply update_entity_Ok in H as (e2 & Hj2 & ->) end.
  simpl in Hj2. rewrite list_lookup_insert_eq in Hj2
    by (eapply lookup_lt_Some; exact Hj).
  injection Hj2 as <-.
  match goal with H : get_entity _ _ = Ok _ |- _ => apply get_entity_Ok in H as [-> _] end.
  eapply update_tame; [apply tame_set_position | | exact Hrun]. simpl.
  apply shape_update; [| simpl; rewrite list_lookup_insert_eq by (eapply lookup_lt_Some; exact Hj);
                         reflexivity | reflexivity | simpl; congruence].
  apply shape_update with (t := e); [exact Hs | exact Hj | reflexivity |].
  intros Hc'. congruence.
Qed.

(** One turn counts entity [i] once if it is an agent, never if it is a
    cop. *)
Lemma turn_counts tys d (w w' : World) i q j a q' j' a' :
  shape tys d (model w) -> turn i (q, j, a) w = Ok ((q', j', a'), w') ->
  shape tys d (model w') /\
  q' + j' + a' = q + j + a + (if bool_decide (tys !! i = Some AGENT) then 1 else 0).
Proof.
  intros Hs Hrun. unfold turn in Hrun. st_inv.
  match goal with H : get_entity _ _ = Ok _ |- _ => apply get_entity_Ok in H as [-> Ht] end.
  rewrite (shape_type _ _ _ _ _ Hs Ht).
  destruct (Nat.ltb_spec 0 (jail_term x)) as [Hj|Hj]; cbv iota in Hrun.
  - assert (Hty : type x = AGENT).
    { destruct (type x) eqn:E; [reflexivity|]. rewrite (shape_cop _ _ _ _ _ Hs Ht E) in Hj. lia. }
    st_inv. subst.
    match goal with H : update_entity _ _ _ = Ok _ |- _ =>
      apply update_entity_Ok in H as (t & Ht' & ->) end.
    rewrite Ht in Ht'. injection Ht' as <-. simpl.
    split; [apply shape_update; auto; congruence|].
    rewrite Hty, bool_decide_eq_true_2 by reflexivity. lia.
  - st_inv.
    assert (Hs1 : shape tys d (model x1)) by (eapply move_agent_shape; eauto).
    destruct (type x) eqn:Hty; st_inv; subst.
    + match goal with H : get_entity _ _ = Ok _ |- _ => apply get_entity_Ok in H as [-> _] end.
      unfold st_ret in Hrun. rewrite bool_decide_eq_true_2 by reflexivity.
      destruct (active _); injection Hrun as <- <- <- <-;
        (split; [eapply determine_behavior_shape; eauto | lia]).
    + split; [eapply enforce_shape; eauto|].
      rewrite bool_decide_eq_false_2 by congruence. lia.
Qed.

Lemma fold_counts tys d l (w w' : World) q j a q' j' a' :
  shape tys d (model w) -> st_fold turn l (q, j, a) w = Ok ((q', j', a'), w') ->
  shape tys d (model w') /\
  q' + j' + a' = q + j + a + count_if (fun i => bool_decide (tys !! i = Some AGENT)) l.
Proof.
  revert w q j a. induction l as [|i l IH]; simpl; intros w q j a Hs Hrun.
  - unfold st_ret in Hrun. injection Hrun as <- <- <- <-. split; [exact Hs | unfold count_if; simpl; lia].
  - apply st_bind_Ok in Hrun as ([[q1 j1] a1] & w1 & H1 & H2).
    destruct (turn_counts _ _ _ _ _ _ _ _ _ _ _ Hs H1) as [Hs1 Hc1].
    destruct (IH _ _ _ _ Hs1 H2) as [Hs2 Hc2].
    split; [exact Hs2|]. rewrite count_if_cons. lia.
Qed.

(** C24 A tick of model_v4.5 that returns, from a state
    where no cop is jailed, appends counts that add up to the number of
    agents: each agent is counted once, at its own turn, and cops are
    never counted.  The types of the entities do not change and no cop
    is jailed afterwards. *)
Theorem step_counts_agents (w w' : World) :
  Forall (fun e => type e = COP -> jail_term e = 0) (entities (model w)) ->
  step w = Ok (tt, w') ->
  exists q j a,
    data (model w') = append_counts q j a (data (model w)) /\
    q + j + a = count_if (fun e => bool_decide (type e = AGENT)) (entities (model w)) /\
    type <$> entities (model w') = type <$> entities (model w) /\
    Forall (fun e => type e = COP -> jail_term e = 0) (entities (model w')).
Proof.
  intros Hcop Hrun. unfold step in Hrun.
  apply st_bind_Ok in Hrun as (w0 & w1 & Hg & Hrun). unfold st_get in Hg.
  injection Hg as <- <-.
  apply st_bind_Ok in Hrun as ([[q j] a] & w2 & Hf & Hrun).
  destruct (fold_counts (type <$> entities (model w)) (data (model w)) _ _ _ _ _ _ _ _ _
              (conj eq_refl (conj Hcop eq_refl)) Hf) as ((Hty & Hcop' & Hd) & Hc).
  unfold on_model, st_modify in Hrun. injection Hrun as <-. simpl.
  exists q, j, a. rewrite Hd. split; [reflexivity|]. split; [|split; assumption].
  rewrite Hc, <- (count_if_seq_lookup (fun e => bool_decide (type e = AGENT))). simpl.
  apply count_if_ext.
  intros i _. rewrite list_lookup_fmap.
  destruct (entities (model w) !! i); simpl; repeat case_bool_decide; congruence.
Qed.

(** ** The rejection loop *)

(** A cop, or an agent out of jail, on the target cell makes it invalid. *)
Lemma is_position_valid_blocked es e x y :
  In e es -> position e = (x, y) -> type e = COP \/ jail_term e = 0 ->
  is_position_valid es x y = false.
Proof.
  intros Hin Hpos Hblk. induction es as [|e' es IH]; [destruct Hin|]. simpl.
  destruct (position e') as [x' y'] eqn:Hp'.
  destruct Hin as [->|Hin].
  - rewrite Hpos in Hp'. injection Hp' as <- <-. rewrite !Z.eqb_refl. simpl.
    destruct (type e) eqn:Hty; [|reflexivity].
    destruct Hblk as [Hc | Hj]; [congruence | rewrite Hj; reflexivity].
  - destruct ((x =? x')%Z && (y =? y')%Z); [|exact (IH Hin)].
    destruct (type e'); [|reflexivity]. destruct (jail_term e' =? 0); [reflexivity | exact (IH Hin)].
Qed.

(** On a valid cell, every entity is a jailed agent. *)
Lemma is_position_valid_spec es x y e :
  is_position_valid es x y = true -> In e es -> position e = (x, y) ->
  type e = AGENT /\ 0 < jail_term e.
Proof.
  intros Hv Hin Hpos.
  destruct (type e) eqn:Hty;
    [destruct (Nat.eq_dec (jail_term e) 0) as [Hj|Hj]; [|split; [reflexivity | lia]]|];
    rewrite (is_position_valid_blocked es e x y Hin Hpos) in Hv by auto; discriminate.
Qed.

Lemma move_loop_valid fuel x y (w : World) c w' :
  move_loop fuel x y w = Ok (c, w') ->
  is_position_valid (entities (model w)) (fst c) (snd c) = true.
Proof.
  revert w. induction fuel as [|fuel IH]; simpl; intros w Hm; [discriminate|].
  st_inv. repeat match goal with Hr : rand _ _ = Ok _ |- _ =>
    apply rand_Ok in Hr as (? & _ & ->) end.
  simpl in *. destruct (is_position_valid _ _ _) eqn:Hv.
  - st_inv. exact Hv.
  - exact (IH _ Hm).
Qed.


(** C26 A free entity's [move_agent] that returns has
    moved the entity to a cell holding no cop and no free agent, and that
    cell is never its own: its own cell is always invalid, because the
    entity itself stands there.  The spec's rule "if none, stays in place"
    has no counterpart here. *)
Theorem move_agent_never_stays (w w' : World) i t :
  entities (model w) !! i = Some t -> jail_term t = 0 -> move_agent i w = Ok (tt, w') ->
  exists c, entities (model w') = <[i := set_position c t]> (entities (model w)) /\
    c <> position t /\
    (forall e, In e (entities (model w)) -> position e = c -> type e = AGENT /\ 0 < jail_term e).
Proof.
  intros Ht Hj Hrun. unfold move_agent in Hrun.
  rewrite (st_bind_of_Ok _ _ _ _ _ (get_entity_run _ _ _ Ht)) in Hrun.
  destruct (Nat.ltb_spec 0 (jail_term t)); [lia|]. cbv iota in Hrun.
  destruct (position t) as [x y] eqn:Hp.
  apply st_bind_Ok in Hrun as ([cx cy] & w1 & Hl & Hu).
  pose proof (move_loop_model _ _ _ _ _ _ Hl) as Hm.
  pose proof (move_loop_valid _ _ _ _ _ _ Hl) as Hv. simpl in Hv.
  apply update_entity_Ok in Hu as (t' & Ht' & ->). rewrite Hm, Ht in Ht'. injection Ht' as <-.
  assert (Hin : In t (entities (model w)))
    by (apply list_elem_of_In; eapply list_elem_of_lookup_2; eauto).
  exists (cx, cy). split; [simpl; rewrite Hm; reflexivity|]. split.
  - intros [= -> ->]. rewrite (is_position_valid_blocked _ t x y Hin Hp) in Hv by auto.
    discriminate.
  - intros e He Hpe. exact (is_position_valid_spec _ cx cy e Hv He Hpe).
Qed.

Context `{!RandomSourceOk G}.

(** When every cell of the box is invalid the loop never exits. *)
Lemma move_loop_blocked fuel x y (w : World) :
  (0 <= m_vision (model w))%Z ->
  (forall dx dy, (- m_vision (model w) <= dx <= m_vision (model w))%Z ->
     (- m_vision (model w) <= dy <= m_vision (model w))%Z ->
     is_position_valid (entities (model w)) ((x + dx) mod width (model w))
       ((y + dy) mod height (model w)) = false) ->
  move_loop fuel x y w = Exc LoopBound.
Proof.
  revert w. induction fuel as [|fuel IH]; intros w Hv Hblk; [reflexivity|]. simpl.
  unfold st_bind at 1, st_get.
  destruct (randint_Ok (- m_vision (model w)) (m_vision (model w)) (rng w) ltac:(lia))
    as (dx & g1 & Hdx & Rdx).
  unfold st_bind at 1, rand. rewrite Hdx.
  destruct (randint_Ok (- m_vision (model w)) (m_vision (model w)) g1 ltac:(lia))
    as (dy & g2 & Hdy & Rdy).
  unfold st_bind at 1. simpl. rewrite Hdy. simpl.
  rewrite (Hblk dx dy Rdx Rdy). apply IH; simpl; assumption.
Qed.

(** C25 With vision 0 the move of a free entity never ends:
    the only offset is [(0, 0)], the target is the entity's own cell, and
    the entity itself makes it invalid, so [while True] loops forever
    (for every bound on its rounds the model is still looping). *)
Theorem move_agent_diverges_at_vision_0 (w : World) i t :
  m_vision (model w) = 0%Z -> entities (model w) !! i = Some t -> jail_term t = 0 ->
  in_bounds (width (model w)) (height (model w)) (position t) ->
  move_agent i w = Exc LoopBound.
Proof.
  intros Hv Ht Hj Hb. unfold move_agent.
  rewrite (st_bind_of_Ok _ _ _ _ _ (get_entity_run _ _ _ Ht)).
  destruct (Nat.ltb_spec 0 (jail_term t)); [lia|]. cbv iota.
  destruct (position t) as [x y] eqn:Hp.
  apply st_bind_Exc, move_loop_blocked; [lia|].
  intros dx dy Hdx Hdy. rewrite Hv in Hdx, Hdy.
  replace dx with 0%Z by lia. replace dy with 0%Z by lia. rewrite !Z.add_0_r.
  destruct Hb as [Hbx Hby]. simpl in Hbx, Hby.
  rewrite !Z.mod_small by lia.
  apply (is_position_valid_blocked _ t); [|exact Hp | right; exact Hj].
  apply list_elem_of_In. eapply list_elem_of_lookup_2. exact Ht.
Qed.
End V45.

(** ** Concrete runs *)

(** An active agent on (2,2) and a cop on (2,3) of a 5x5 grid, vision 1,
    extension1's parameters, floats as binary64.  The draws move the
    agent to (2,1) and the cop to (2,2), then the cop arrests the agent
    (the only candidate) with jail term 5. *)
Definition tick_scene (fexp : float -> float) : @World (F_arith fexp) Tape :=
  mkWorld
    (mkModel 5 5 1 (@nlit (F_arith fexp) (23 # 10)) (@nlit (F_arith fexp) (82 # 100)) 30 1
       [mkTurtle 0 AGENT 1 (Some (@nlit (F_arith fexp) (1 # 2)))
          (Some (@nlit (F_arith fexp) (9 # 10))) true 0 (2, 2)%Z;
        mkTurtle 1 COP 1 None None false 0 (2, 3)%Z]
       (mkData [] [] [] []))
    [1; 0; 1; 0; 0; 5].

(** A concrete tick: the counts of model_v4.5 are taken during the turns:
    in this tick the agent is counted active at its own turn and then
    arrested by the cop, so the tick appends quiet 0, jail 0, active 1
    while the agent ends the tick in jail.  The spec requires counting
    after all turns. *)
Theorem step_counts_before_arrest (fexp : float -> float) :
  exists w', step 100 (tick_scene fexp) = Ok (tt, w') /\
    data (model w') = mkData [0] [0] [1] [] /\
    (fun e => (active e, jail_term e, position e)) <$> entities (model w') =
      [(false, 5, (2, 1)%Z); (false, 0, (2, 1)%Z)].
Proof.
  exists (after (step 100 (tick_scene fexp)) (tick_scene fexp)).
  split; [apply ok_after; vm_compute; reflexivity | split; vm_compute; reflexivity].
Qed.
Lemma step_counts_agents_witness :
  let w := tick_scene unused_exp in
  let w' := after (step 100 w) w in
  exists q j a,
    data (model w') = append_counts q j a (data (model w)) /\
    q + j + a = count_if (fun e => bool_decide (type e = AGENT)) (entities (model w)) /\
    type <$> entities (model w') = type <$> entities (model w) /\
    Forall (fun e => type e = COP -> jail_term e = 0) (entities (model w')).
Proof.
  intros w w'. apply (step_counts_agents 100).
  - apply (bool_decide_eq_true_1 _). vm_compute. reflexivity.
  - apply ok_after. vm_compute. reflexivity.
Defined.

Lemma move_agent_never_stays_witness :
  let w := tick_scene unused_exp in
  let t := mkTurtle 0 AGENT 1 (Some (@nlit (F_arith unused_exp) (1 # 2)))
             (Some (@nlit (F_arith unused_exp) (9 # 10))) true 0 (2, 2)%Z in
  let w' := after (move_agent 100 0 w) w in
  exists c, entities (model w') = <[0 := set_position c t]> (entities (model w)) /\
    c <> position t /\
    (forall e, In e (entities (model w)) -> position e = c -> type e = AGENT /\ 0 < jail_term e).
Proof.
  intros w t w'. apply (move_agent_never_stays 100 w w' 0 t);
    [reflexivity | reflexivity | apply ok_after; vm_compute; reflexivity].
Defined.

(** The scene with vision 0. *)
Definition still_scene : @World (F_arith unused_exp) Tape :=
  mkWorld
    (mkModel 5 5 0 (@nlit (F_arith unused_exp) (23 # 10)) (@nlit (F_arith unused_exp) (82 # 100))
       30 1 [mkTurtle 0 AGENT 0 (Some (@nlit (F_arith unused_exp) (1 # 2)))
               (Some (@nlit (F_arith unused_exp) (9 # 10))) false 0 (2, 2)%Z]
       (mkData [] [] [] []))
    [].

Lemma move_agent_diverges_at_vision_0_witness :
  move_agent 1000 0 still_scene = Exc LoopBound.
Proof.
  apply (move_agent_diverges_at_vision_0 1000 still_scene 0
           (mkTurtle 0 AGENT 0 (Some (@nlit (F_arith unused_exp) (1 # 2)))
              (Some (@nlit (F_arith unused_exp) (9 # 10))) false 0 (2, 2)%Z));
    [reflexivity | reflexivity | reflexivity |].
  apply (bool_decide_eq_true_1 _). vm_compute. reflexivity.
Defined.
End V45.
