(* ===== verification/V55.v ===== *)
(** * model_v5.5: the variant with a grid of flags

    [src/src/model_v5.5_lwz copy.py] keeps, for each cell, two flags
    [{'cops': ..., 'active_agents': ...}] instead of occupants.  A move
    targets the cells of the neighbourhood with neither flag set and
    carries the mover's flag along; [determine_behavior] sets the flag of
    an agent that turns active but never clears it; [estimate] counts
    flagged cells; [enforce] arrests any agent among the first
    [num_agents] entities that stands on a flagged cell of the cop's
    neighbourhood.  The grievance is computed once, on the agent's first
    free turn, and cached.  The entities are updated by index, the flags
    are a finite map from cells ([IndexError] outside the grid), the
    neighbourhood table is the one of [Torus]. *)

From Stdlib Require Import QArith Floats.
From S2P Require Import Prelude Random Torus Rules Floats64 Engine EngineStep.
Local Open Scope nat_scope.

Module V55.
Section V55.
Context {A : Arith} {G : Type} `{RandomSource G}.

(** [Turtle] of model_v5.5: a cached grievance, no adjusted hardship. *)
Record Turtle := mkTurtle {
  agent_id : nat;
  type : EntityType;
  vision : Z;
  risk_aversion : option num;
  hardship : option num;
  grievance : option num;
  active : bool;
  jail_term : nat;
  position : cell
}.

(** [{'cops': ..., 'active_agents': ...}]. *)
Record Flags := mkFlags { cops : bool; active_agents : bool }.

Record Model := mkModel {
  width : Z;
  height : Z;
  m_vision : Z;
  grid : gmap cell Flags;
  k : num;
  gov_legitimacy : num;
  max_jail_term : Z;
  num_agents : nat;
  neighborhoods : gmap cell (list cell);
  entities : list Turtle;
  data : Data
}.

Record World := mkWorld { model : Model; rng : G }.

Definition set_active (b : bool) (t : Turtle) : Turtle :=
  mkTurtle (agent_id t) (type t) (vision t) (risk_aversion t) (hardship t) (grievance t) b
    (jail_term t) (position t).
Definition set_jail_term (n : nat) (t : Turtle) : Turtle :=
  mkTurtle (agent_id t) (type t) (vision t) (risk_aversion t) (hardship t) (grievance t)
    (active t) n (position t).
Definition set_position (c : cell) (t : Turtle) : Turtle :=
  mkTurtle (agent_id t) (type t) (vision t) (risk_aversion t) (hardship t) (grievance t)
    (active t) (jail_term t) c.
Definition set_grievance (g : num) (t : Turtle) : Turtle :=
  mkTurtle (agent_id t) (type t) (vision t) (risk_aversion t) (hardship t) (Some g)
    (active t) (jail_term t) (position t).

Definition set_cops (b : bool) (f : Flags) : Flags := mkFlags b (active_agents f).
Definition set_active_flag (b : bool) (f : Flags) : Flags := mkFlags (cops f) b.

Definition map_entities (f : list Turtle -> list Turtle) (m : Model) : Model :=
  mkModel (width m) (height m) (m_vision m) (grid m) (k m) (gov_legitimacy m)
    (max_jail_term m) (num_agents m) (neighborhoods m) (f (entities m)) (data m).
Definition map_flags (f : gmap cell Flags -> gmap cell Flags) (m : Model) : Model :=
  mkModel (width m) (height m) (m_vision m) (f (grid m)) (k m) (gov_legitimacy m)
    (max_jail_term m) (num_agents m) (neighborhoods m) (entities m) (data m).
Definition map_data (f : Data -> Data) (m : Model) : Model :=
  mkModel (width m) (height m) (m_vision m) (grid m) (k m) (gov_legitimacy m)
    (max_jail_term m) (num_agents m) (neighborhoods m) (entities m) (f (data m)).

Definition on_model (f : Model -> Model) : ST World unit :=
  st_modify (fun w => mkWorld (f (model w)) (rng w)).

Definition rand {X} (r : ST G X) : ST World X :=
  fun w => match r (rng w) with
           | Ok (x, g) => Ok (x, mkWorld (model w) g)
           | Exc e => Exc e
           end.

Definition get_entity (i : nat) : ST World Turtle :=
  let* w := st_get in st_lift IndexError (entities (model w) !! i).

Definition update_entity (i : nat) (f : Turtle -> Turtle) : ST World unit :=
  let* t := get_entity i in on_model (map_entities (<[i := f t]>)).

(** [self.neighborhoods[x][y]]. *)
Definition get_neighborhood (c : cell) : ST World (list cell) :=
  let* w := st_get in st_lift IndexError (neighborhoods (model w) !! c).

(** [self.grid[x][y]]. *)
Definition get_flags (c : cell) : ST World Flags :=
  let* w := st_get in st_lift IndexError (grid (model w) !! c).

(** [self.grid[x][y][key] = b]. *)
Definition update_flags (c : cell) (f : Flags -> Flags) : ST World unit :=
  let* fl := get_flags c in on_model (map_flags (<[c := f fl]>)).

(** [(not grid[nx][ny]['cops']) and (not grid[nx][ny]['active_agents'])]:
    cells outside the flag map are never listed by the table. *)
Definition free_cell (g : gmap cell Flags) (c : cell) : bool :=
  match g !! c with
  | Some f => negb (cops f) && negb (active_agents f)
  | None => false
  end.

(** [move_agent] (lines 113-131). *)
Definition move_agent (i : nat) : ST World unit :=
  let* agent := get_entity i in
  if 0 <? jail_term agent then ret tt else
  let* nb := get_neighborhood (position agent) in
  let* w := st_get in
  let valid_positions := List.filter (free_cell (grid (model w))) nb in
  match valid_positions with
  | [] => ret tt
  | _ =>
      let* c := rand (choice valid_positions) in
      let* _ := update_entity i (set_position c) in
      match type agent with
      | AGENT =>
          if active agent then
            let* _ := update_flags (position agent) (set_active_flag false) in
            update_flags c (set_active_flag true)
          else ret tt
      | COP =>
          let* _ := update_flags (position agent) (set_cops false) in
          update_flags c (set_cops true)
      end
  end.

(** The counts of [estimate_arrest_probability] (lines 147-151): flagged
    cells, one per listing. *)
Definition flag_count (g : gmap cell Flags) (p : Flags -> bool) (nb : list cell) : nat :=
  count_if (fun c => match g !! c with Some f => p f | None => false end) nb.

(** [estimate_arrest_probability] (lines 142-153). *)
Definition estimate_arrest_probability (c : cell) : ST World num :=
  let* nb := get_neighborhood c in
  let* w := st_get in
  ret (arrest_probability (k (model w)) (flag_count (grid (model w)) cops nb)
         (flag_count (grid (model w)) active_agents nb)).

(** [determine_behavior] (lines 133-140): the flag is set on activation
    and left as it is otherwise. *)
Definition determine_behavior (i : nat) : ST World unit :=
  let* agent := get_entity i in
  let* p := estimate_arrest_probability (position agent) in
  let* g := st_lift TypeError (grievance agent) in
  let* r := st_lift TypeError (risk_aversion agent) in
  if activates g r p then
    let* _ := update_entity i (set_active true) in
    update_flags (position agent) (set_active_flag true)
  else update_entity i (set_active false).

(** The candidates of [enforce] (lines 158-163): for each cell of the
    neighbourhood whose active flag is set, every entity among the first
    [num_agents] standing on it, whatever its state. *)
Definition flagged_agents (m : Model) (nb : list cell) : list nat :=
  flat_map (fun c =>
    match grid m !! c with
    | Some f =>
        if active_agents f then
          List.filter (fun j => match entities m !! j with
                                | Some a => bool_decide (position a = c)
                                | None => false
                                end)
            (seq 0 (Nat.min (num_agents m) (length (entities m))))
        else []
    | None => []
    end) nb.

(** [enforce] (lines 155-178). *)
Definition enforce (i : nat) : ST World unit :=
  let* cop := get_entity i in
  let* nb := get_neighborhood (position cop) in
  let* w := st_get in
  match flagged_agents (model w) nb with
  | [] => ret tt
  | candidates =>
      let* j := rand (choice candidates) in
      let* selected := get_entity j in
      let* _ := update_entity i (set_position (position selected)) in
      let* _ := update_entity j (set_active false) in
      let* jt := rand (randint 0 (max_jail_term (model w))) in
      let* _ := update_entity j (set_jail_term (Z.to_nat jt)) in
      let* _ := update_flags (position cop) (set_cops false) in
      let* _ := update_flags (position selected) (set_cops true) in
      update_flags (position selected) (set_active_flag false)
  end.

(** One iteration of the first loop of [step] (lines 87-98). *)
Definition turn (i : nat) : ST World unit :=
  let* entity := get_entity i in
  match type entity with
  | AGENT =>
      if 0 <? jail_term entity then update_entity i (set_jail_term (jail_term entity - 1))
      else
        let* w := st_get in
        let* _ := match grievance entity with
                  | Some _ => ret tt
                  | None =>
                      let* h := st_lift TypeError (hardship entity) in
                      update_entity i
                        (set_grievance (Rules.grievance h (gov_legitimacy (model w))))
                  end in
        let* _ := move_agent i in
        determine_behavior i
  | COP =>
      let* _ := move_agent i in
      enforce i
  end.

(** The counting loop (lines 100-108): [(quiet, jail, active)]. *)
Fixpoint tally_states (es : list Turtle) : nat * nat * nat :=
  match es with
  | [] => (0, 0, 0)
  | e :: es' =>
      let '(q, j, a) := tally_states es' in
      if 0 <? jail_term e then (q, S j, a)
      else match type e with
           | AGENT => if active e then (q, j, S a) else (S q, j, a)
           | COP => (q, j, a)
           end
  end.

(** [step] (lines 85-111). *)
Definition step : ST World unit :=
  let* w := st_get in
  let* _ := st_iter turn (seq 0 (length (entities (model w)))) in
  let* w' := st_get in
  let '(q, j, a) := tally_states (entities (model w')) in
  on_model (map_data (append_counts q j a)).

(** ** Running the primitives *)

Lemma get_entity_Ok55 (w : World) i t w' :
  get_entity i w = Ok (t, w') -> w' = w /\ entities (model w) !! i = Some t.
Proof.
  unfold get_entity, st_bind, st_get, st_lift.
  destruct (entities (model w) !! i); intros Hg; [injection Hg as <- <-; auto | discriminate].
Qed.

Lemma update_entity_Ok55 (w : World) w' i f u :
  update_entity i f w = Ok (u, w') ->
  exists t, entities (model w) !! i = Some t /\
    w' = mkWorld (map_entities (<[i := f t]>) (model w)) (rng w).
Proof.
  unfold update_entity. intros Hu. st_inv.
  match goal with Hg : get_entity _ _ = Ok _ |- _ => apply get_entity_Ok55 in Hg as [-> Ht] end.
  unfold on_model, st_modify in Hu. injection Hu; intros; subst; eauto.
Qed.

Lemma update_flags_Ok (w : World) w' c f u :
  update_flags c f w = Ok (u, w') ->
  exists fl, grid (model w) !! c = Some fl /\
    w' = mkWorld (map_flags (<[c := f fl]>) (model w)) (rng w).
Proof.
  unfold update_flags, get_flags. intros Hu. st_inv.
  unfold on_model, st_modify in Hu. injection Hu; intros; subst; eauto.
Qed.

Lemma get_neighborhood_Ok (w : World) c nb w' :
  get_neighborhood c w = Ok (nb, w') -> w' = w /\ neighborhoods (model w) !! c = Some nb.
Proof. unfold get_neighborhood. intros Hg. st_inv. auto. Qed.

Lemma rand_Ok55 {X} (r : ST G X) (w : World) x w' :
  rand r w = Ok (x, w') -> exists g, r (rng w) = Ok (x, g) /\ w' = mkWorld (model w) g.
Proof.
  unfold rand. destruct (r (rng w)) as [[y g]|e]; intros Hr; [|discriminate].
  injection Hr as <- <-. eauto.
Qed.

(** Replaces each primitive run among the hypotheses by what it does. *)
Ltac v55_run :=
  repeat match goal with
  | Hg : get_entity _ _ = Ok _ |- _ => apply get_entity_Ok55 in Hg as [-> ?]
  | Hg : get_neighborhood _ _ = Ok _ |- _ => apply get_neighborhood_Ok in Hg as [-> ?]
  | Hg : update_entity _ _ _ = Ok _ |- _ => apply update_entity_Ok55 in Hg as (? & ? & ->)
  | Hg : update_flags _ _ _ = Ok _ |- _ => apply update_flags_Ok in Hg as (? & ? & ->)
  | Hg : rand _ _ = Ok _ |- _ => apply rand_Ok55 in Hg as (? & ? & ->)
  end;
  cbn [model rng width height m_vision grid k gov_legitimacy max_jail_term num_agents
       neighborhoods entities data map_entities map_flags map_data] in *.

(** The candidates of [enforce] are agents among the first [num_agents]
    entities standing on a flagged cell of the neighbourhood. *)
Lemma flagged_agents_spec (m : Model) nb j :
  In j (flagged_agents m nb) ->
  exists a f, j < num_agents m /\ entities m !! j = Some a /\ In (position a) nb /\
    grid m !! position a = Some f /\ active_agents f = true.
Proof.
  unfold flagged_agents. intros (c & Hc & Hj)%in_flat_map.
  destruct (grid m !! c) as [f|] eqn:Hf; [|destruct Hj].
  destruct (active_agents f) eqn:Ha; [|destruct Hj].
  apply filter_In in Hj as [Hj Hp]. apply in_seq in Hj.
  destruct (entities m !! j) as [a|]; [|discriminate].
  apply bool_decide_eq_true_1 in Hp. subst c. exists a, f. repeat split; auto; lia.
Qed.

(** C28 The candidates of [enforce] are exactly the entities among
    the first [num_agents] that stand on a cell of the neighbourhood
    whose [active_agents] flag is up, whatever their own state: a quiet
    or jailed agent on a flagged cell is a candidate, so a cop can arrest
    a quiet agent or re-arrest one already in jail, with a fresh term. *)
Theorem flagged_agents_iff (m : Model) nb j :
  In j (flagged_agents m nb) <->
  j < num_agents m /\
  exists a f, entities m !! j = Some a /\ In (position a) nb /\
    grid m !! position a = Some f /\ active_agents f = true.
Proof.
  split.
  - intros (a & f & Hj & Ha & Hin & Hf & Hfa)%flagged_agents_spec. eauto 7.
  - intros (Hj & a & f & Ha & Hin & Hf & Hfa). unfold flagged_agents. apply in_flat_map.
    exists (position a). split; [exact Hin|]. rewrite Hf, Hfa. apply filter_In. split.
    + apply in_seq. pose proof (lookup_lt_Some _ _ _ Ha). lia.
    + rewrite Ha. by apply bool_decide_eq_true_2.
Qed.

(** C29 [determine_behavior] changes the agent's [active]
    field and nothing else of the entities; when the agent turns quiet
    the flags are untouched, and when it turns active the flag of its
    cell is set: it never clears a flag, so a cell keeps its active flag
    after its agent turns quiet. *)
Theorem determine_behavior_never_clears (w w' : World) i :
  determine_behavior i w = Ok (tt, w') ->
  exists t b, entities (model w) !! i = Some t /\
    entities (model w') = <[i := set_active b t]> (entities (model w)) /\
    (b = false -> grid (model w') = grid (model w)) /\
    (b = true -> exists f, grid (model w) !! position t = Some f /\
       grid (model w') = <[position t := set_active_flag true f]> (grid (model w))).
Proof.
  unfold determine_behavior, estimate_arrest_probability. intros Hrun. st_inv.
  match goal with Hg : get_entity _ _ = Ok _ |- _ => apply get_entity_Ok55 in Hg as [-> Ht] end.
  match goal with Hg : get_neighborhood _ _ = Ok _ |- _ =>
    apply get_neighborhood_Ok in Hg as [-> _] end.
  exists x. destruct (activates _ _ _).
  - st_inv. apply update_entity_Ok55 in H0 as (t & Ht' & ->).
    apply update_flags_Ok in Hrun as (f & Hf & ->). simpl in *.
    rewrite Ht in Ht'. injection Ht' as <-.
    exists true. split; [exact Ht|]. split; [reflexivity|]. split; [discriminate|].
    intros _. exists f. split; [exact Hf | reflexivity].
  - apply update_entity_Ok55 in Hrun as (t & Ht' & ->). simpl in *.
    rewrite Ht in Ht'. injection Ht' as <-.
    exists false. split; [exact Ht|]. split; [reflexivity|]. split; [reflexivity | discriminate].
Qed.
Context `{!RandomSourceOk G}.

(** C27 [enforce] by a cop (an entity after the first
    [num_agents]) either changes nothing or takes an agent [j] among the
    first [num_agents] entities standing on a flagged cell of the cop's
    neighbourhood, whether or not that agent is active or already in
    jail: the cop moves onto the agent's cell, the agent becomes quiet
    with a fresh jail term in [0, max_jail_term], and that cell ends with
    the cop flag set and the active flag cleared. *)
Theorem enforce_takes_flagged (w w' : World) i :
  num_agents (model w) <= i ->
  enforce i w = Ok (tt, w') ->
  model w' = model w \/
  exists cop nb j a f jt, entities (model w) !! i = Some cop /\
    neighborhoods (model w) !! position cop = Some nb /\
    j < num_agents (model w) /\ entities (model w) !! j = Some a /\
    In (position a) nb /\ grid (model w) !! position a = Some f /\ active_agents f = true /\
    (Z.of_nat jt <= max_jail_term (model w))%Z /\
    entities (model w') = <[j := set_jail_term jt (set_active false a)]>
                            (<[i := set_position (position a) cop]> (entities (model w))) /\
    grid (model w') !! position a = Some (mkFlags true false).
Proof.
  intros Hi Hrun. unfold enforce in Hrun. st_inv. v55_run.
  destruct (flagged_agents (model w) _) as [|j0 js] eqn:Hc; [st_inv; auto|].
  right. st_inv. v55_run.
  match goal with Hch : choice _ _ = Ok _ |- _ => apply choice_In in Hch end.
  rewrite <- Hc in *. match goal with Hin : In ?j (flagged_agents _ _) |- _ =>
    destruct (flagged_agents_spec _ _ _ Hin) as (a & f & Hj & Ha & Hin' & Hf & Haf);
    assert (j <> i) by lia end.
  match goal with Hr : randint _ _ _ = Ok _ |- _ => apply randint_range in Hr end.
  simplify_eq. rewrite !list_lookup_insert_ne in * by congruence. simplify_eq.
  match goal with H : <[?j:=_]> _ !! ?j = Some _ |- _ =>
    rewrite list_lookup_insert_eq in H
      by (rewrite length_insert; eapply lookup_lt_Some; eauto) end.
  match goal with H : <[?c:=_]> _ !! ?c = Some _ |- _ => rewrite lookup_insert_eq in H end.
  simplify_eq. do 6 eexists. repeat split; eauto.
  2: rewrite list_insert_insert_eq; reflexivity.
  - rewrite Z2Nat.id by lia. lia.
  - rewrite lookup_insert_eq. reflexivity.
Qed.
End V55.

(** ** Concrete runs *)

(** The flags of a [width] x [height] grid, all clear. *)
Definition clear_grid (width height : Z) : gmap cell Flags :=
  list_to_map (flat_map (fun x => map (fun y => ((x, y), mkFlags false false))
                                  (py_range 0 height)) (py_range 0 width)).

(** An active agent on (2,2), a jailed agent on (2,1) with 3 ticks left,
    a cop on (2,3); 5x5 grid, vision 1, floats as binary64.  The draws
    move the active agent onto the jailed agent's cell (2,1) and the cop
    to (2,2); the cop's candidates are both agents of (2,1) and it takes
    the jailed one, with jail term 7. *)
Definition flag_scene : @World (F_arith unused_exp) Tape :=
  mkWorld
    (mkModel 5 5 1
       (<[(2, 3)%Z := mkFlags true false]> (<[(2, 2)%Z := mkFlags false true]> (clear_grid 5 5)))
       (@nlit (F_arith unused_exp) (23 # 10)) (@nlit (F_arith unused_exp) (82 # 100)) 30 2
       (compute_neighborhoods 5 5 1)
       [mkTurtle 0 AGENT 1 (Some (@nlit (F_arith unused_exp) (1 # 2)))
          (Some (@nlit (F_arith unused_exp) (9 # 10))) None true 0 (2, 2)%Z;
        mkTurtle 1 AGENT 1 (Some (@nlit (F_arith unused_exp) (1 # 2)))
          (Some (@nlit (F_arith unused_exp) (9 # 10))) None false 3 (2, 1)%Z;
        mkTurtle 2 COP 1 None None None false 0 (2, 3)%Z]
       (mkData [] [] [] []))
    [1; 1; 1; 7].

(** A concrete tick of model_v5.5 on the flag scene: the cop arrests whoever
    stands on a flagged cell.  In this tick it re-arrests an agent already in jail,
    whose remaining term 2 becomes 7, and then clears the cell's active
    flag although the active agent it did not take is still there. *)
Theorem step_rearrests_jailed_agent :
  exists w', step flag_scene = Ok (tt, w') /\
    (fun e => (active e, jail_term e, position e)) <$> entities (model w') =
      [(true, 0, (2, 1)%Z); (false, 7, (2, 1)%Z); (false, 0, (2, 1)%Z)] /\
    grid (model w') !! (2, 1)%Z = Some (mkFlags true false) /\
    data (model w') = mkData [0] [1] [1] [].
Proof.
  exists (after (step flag_scene) flag_scene).
  split; [apply ok_after; vm_compute; reflexivity | split; [|split]; vm_compute; reflexivity].
Qed.

(** The world after agent 0's turn in [flag_scene]: its grievance is
    cached. *)
Definition flag_scene_turned : @World (F_arith unused_exp) Tape :=
  after (turn 0 flag_scene) flag_scene.

Lemma determine_behavior_never_clears_witness :
  exists w', determine_behavior 0 flag_scene_turned = Ok (tt, w') /\
  exists t b, entities (model flag_scene_turned) !! 0 = Some t /\
    entities (model w') = <[0 := set_active b t]> (entities (model flag_scene_turned)) /\
    (b = false -> grid (model w') = grid (model flag_scene_turned)) /\
    (b = true -> exists f, grid (model flag_scene_turned) !! position t = Some f /\
       grid (model w') = <[position t := set_active_flag true f]> (grid (model flag_scene_turned))).
Proof.
  exists (after (determine_behavior 0 flag_scene_turned) flag_scene_turned).
  assert (Hr : determine_behavior 0 flag_scene_turned =
               Ok (tt, after (determine_behavior 0 flag_scene_turned) flag_scene_turned))
    by (apply ok_after; vm_compute; reflexivity).
  split; [exact Hr|]. apply (determine_behavior_never_clears _ _ 0). exact Hr.
Defined.

Lemma enforce_takes_flagged_witness :
  exists w', num_agents (model flag_scene) <= 2 /\ enforce 2 flag_scene = Ok (tt, w') /\
  (model w' = model flag_scene \/
  exists cop nb j a f jt, entities (model flag_scene) !! 2 = Some cop /\
    neighborhoods (model flag_scene) !! position cop = Some nb /\
    j < num_agents (model flag_scene) /\ entities (model flag_scene) !! j = Some a /\
    In (position a) nb /\ grid (model flag_scene) !! position a = Some f /\
    active_agents f = true /\ (Z.of_nat jt <= max_jail_term (model flag_scene))%Z /\
    entities (model w') = <[j := set_jail_term jt (set_active false a)]>
                            (<[2 := set_position (position a) cop]> (entities (model flag_scene))) /\
    grid (model w') !! position a = Some (mkFlags true false)).
Proof.
  exists (after (enforce 2 flag_scene) flag_scene).
  assert (Hr : enforce 2 flag_scene = Ok (tt, after (enforce 2 flag_scene) flag_scene))
    by (apply ok_after; vm_compute; reflexivity).
  split; [vm_compute; lia|]. split; [exact Hr|].
  apply (enforce_takes_flagged _ _ 2); [vm_compute; lia | exact Hr].
Defined.
End V55.
