(* ===== verification/Placement.v ===== *)
(** * Construction of model_v4.5 and model_v5.5

    [Model.__init__] of [src/src/model_v4.5_lwz.py] (lines 28-42, 44-58)
    and of [src/src/model_v5.5_lwz copy.py] (lines 29-46, 61-81).  Both
    make the density check of the grid engine ([ValueError] above 100),
    compute [num_agents = int((agent_density / 100) * total_cells)] and
    [num_cops] as [Construction.density_count] does, and [create_entities]
    appends the agents [0 .. num_agents - 1], each with two
    [random.random()] draws (risk aversion, then hardship), then the
    cops.  Unlike the grid engine, they place the entities afterwards, in
    [place_entities_randomly], by sampling without replacement: the list
    [positions] of the 1600 cells, [random.sample(positions, 1)[0]] for
    each entity in turn, then [positions.remove(entity.position)].
    model_v5.5 also raises the [cops] flag of each cop's cell (its agents
    are created quiet, so the [active_agents] branch is never taken).

    [place_all] is that loop, shared by the two variants, with the
    marking of the cell as a parameter.  Theorems: the placement gives
    distinct cells of the grid to all the entities when there are at most
    1600 of them, and raises [ValueError] (from [random.sample]) on the
    first entity beyond; the positions list enumerates the cells in the
    order [x * height + y].

    Numbers.  [num_agents] is a [nat] of the models: a negative
    [int(...)] is stored as 0.  Python keeps the negative int, which is
    only read by [entities[:num_agents]] in [enforce]; with a negative
    count there is no agent, no cell ever gets the [active_agents] flag
    (model_v5.5) and no entity is active (model_v4.5), so [enforce] finds
    no candidate either way.  [agent_id] is never read by either
    variant (only by [__repr__]); a cop's id is [num_agents + i] as
    a [nat]. *)

From Stdlib Require Import QArith Floats.
From S2P Require Import Prelude Random Torus Rules Floats64 Engine EngineStep Construction V45 V55.
Local Open Scope nat_scope.

(** ** The positions list *)

(** [list.remove(x)]: deletes the first occurrence of [x], and raises
    [ValueError] when there is none. *)
Fixpoint py_remove {X} `{EqDecision X} (x : X) (l : list X) : outcome (list X) :=
  match l with
  | [] => Exc ValueError
  | y :: l' =>
      if decide (y = x) then Ok l'
      else match py_remove x l' with
           | Ok r => Ok (y :: r)
           | Exc e => Exc e
           end
  end.

Section Placement.
Context {A : Arith} {G : Type} `{RandomSource G} `{Genrand G}.

(** [random.random()], in the generator's own monad. *)
Definition random_float_g : ST G num :=
  let* k := random_bits in ret (nlit (k # 9007199254740992)).

(** [sample[0]]: the one element of the sample. *)
Definition first_of (s : list cell) : outcome cell :=
  match s with
  | p :: _ => Ok p
  | [] => Exc IndexError
  end.

(** [for entity in self.entities:
        entity.position = random.sample(positions, 1)[0]; <mark>;
        positions.remove(entity.position)]
    with the entity updated by [setpos] and the marking [mark] (the flag
    writes of model_v5.5, nothing in model_v4.5) on a state [S]. *)
Fixpoint place_all {T S} (setpos : cell -> T -> T) (mark : T -> S -> outcome S)
    (es : list T) (positions : list cell) (s : S) : ST G (list T * S) :=
  match es with
  | [] => ret ([], s)
  | e :: es' =>
      let* sm := sample1 positions in
      let* p := of_outcome (first_of sm) in
      let e' := setpos p e in
      let* s1 := of_outcome (mark e' s) in
      let* positions' := of_outcome (py_remove p positions) in
      let* r := place_all setpos mark es' positions' s1 in
      ret (e' :: r.1, r.2)
  end.

(** The agent loop of [create_entities]:
    [Turtle(i, EntityType.AGENT, self.vision, random.random(), random.random())]. *)
Fixpoint create_agents {T} (mk_agent : nat -> num -> num -> T) (ids : list nat) : ST G (list T) :=
  match ids with
  | [] => ret []
  | i :: ids' =>
      let* r := random_float_g in
      let* h := random_float_g in
      let* rest := create_agents mk_agent ids' in
      ret (mk_agent i r h :: rest)
  end.

(** [create_entities(num_agents, num_cops)] up to the placement: the
    agents, then [Turtle(num_agents + i, EntityType.COP, self.vision)]. *)
Definition create_list {T} (mk_agent : nat -> num -> num -> T) (mk_cop : nat -> T)
    (num_agents num_cops : Z) : ST G (list T) :=
  let* agents := create_agents mk_agent (seq 0 (Z.to_nat num_agents)) in
  ret (agents ++ map (fun i => mk_cop (Z.to_nat num_agents + i)) (seq 0 (Z.to_nat num_cops))).

(** The density check and the two counts of both constructors. *)
Definition counts (agent_density cop_density : num) : outcome (Z * Z) :=
  if nltb (nlit 100) (nadd agent_density cop_density) then Exc ValueError
  else match density_count agent_density with
       | Exc e => Exc e
       | Ok na => match density_count cop_density with
                  | Exc e => Exc e
                  | Ok nc => Ok (na, nc)
                  end
       end.

(** ** model_v4.5 *)

Definition v45_agent (vision : Z) (i : nat) (r h : num) : V45.Turtle :=
  V45.mkTurtle i AGENT vision (Some r) (Some h) false 0 unplaced.

Definition v45_cop (vision : Z) (i : nat) : V45.Turtle :=
  V45.mkTurtle i COP vision None None false 0 unplaced.

(** [place_entities_randomly()] of model_v4.5: the loop with no marking. *)
Definition place_entities_randomly45 (es : list V45.Turtle) : ST G (list V45.Turtle * unit) :=
  place_all V45.set_position (fun _ u => Ok u) es (grid_cells 40 40) tt.

(** [create_entities(num_agents, num_cops)] of model_v4.5: the entities,
    then [self.place_entities_randomly()]. *)
Definition create_entities45 (vision num_agents num_cops : Z) : ST G (list V45.Turtle) :=
  let* es := create_list (v45_agent vision) (v45_cop vision) num_agents num_cops in
  let* r := place_entities_randomly45 es in
  ret r.1.

(** [Model(agent_density, cop_density, vision, k, gov_legitimacy,
    max_jail_term)] of model_v4.5: the series start empty, after
    [create_entities]. *)
Definition init_v45 (agent_density cop_density : num) (vision : Z) (k gov_legitimacy : num)
    (max_jail_term : Z) (g : G) : outcome (V45.World (A := A) (G := G)) :=
  match counts agent_density cop_density with
  | Exc e => Exc e
  | Ok (na, nc) =>
      match create_entities45 vision na nc g with
      | Exc e => Exc e
      | Ok (es, g') =>
          Ok (V45.mkWorld (V45.mkModel 40 40 vision k gov_legitimacy max_jail_term
                             (Z.to_nat na) es (mkData [] [] [] [])) g')
      end
  end.

(** ** model_v5.5 *)

Definition v55_agent (vision : Z) (i : nat) (r h : num) : V55.Turtle :=
  V55.mkTurtle i AGENT vision (Some r) (Some h) None false 0 unplaced.

Definition v55_cop (vision : Z) (i : nat) : V55.Turtle :=
  V55.mkTurtle i COP vision None None None false 0 unplaced.

(** [self.grid]: both flags down on every cell. *)
Definition fresh_flags : gmap cell V55.Flags :=
  list_to_map ((fun c => (c, V55.mkFlags false false)) <$> grid_cells 40 40).

(** [if entity.type == EntityType.COP: self.grid[x][y]['cops'] = True
     elif entity.type == EntityType.AGENT and entity.active:
       self.grid[x][y]['active_agents'] = True]. *)
Definition mark_flags (e : V55.Turtle) (fl : gmap cell V55.Flags) : outcome (gmap cell V55.Flags) :=
  let c := V55.position e in
  match V55.type e with
  | COP =>
      match fl !! c with
      | Some f => Ok (<[c := V55.set_cops true f]> fl)
      | None => Exc IndexError
      end
  | AGENT =>
      if V55.active e then
        match fl !! c with
        | Some f => Ok (<[c := V55.set_active_flag true f]> fl)
        | None => Exc IndexError
        end
      else Ok fl
  end.

(** [place_entities_randomly()] of model_v5.5: the loop marking the
    cells of the cops on the flag grid [fl]. *)
Definition place_entities_randomly55 (es : list V55.Turtle) (fl : gmap cell V55.Flags)
    : ST G (list V55.Turtle * gmap cell V55.Flags) :=
  place_all V55.set_position mark_flags es (grid_cells 40 40) fl.

(** [create_entities(num_agents, num_cops)] of model_v5.5. *)
Definition create_entities55 (vision num_agents num_cops : Z) (fl : gmap cell V55.Flags)
    : ST G (list V55.Turtle * gmap cell V55.Flags) :=
  let* es := create_list (v55_agent vision) (v55_cop vision) num_agents num_cops in
  place_entities_randomly55 es fl.

(** [Model(...)] of model_v5.5: the series are seeded with
    [num_agents] quiet agents before [create_entities]. *)
Definition init_v55 (agent_density cop_density : num) (vision : Z) (k gov_legitimacy : num)
    (max_jail_term : Z) (g : G) : outcome (V55.World (A := A) (G := G)) :=
  match counts agent_density cop_density with
  | Exc e => Exc e
  | Ok (na, nc) =>
      match create_entities55 vision na nc fresh_flags g with
      | Exc e => Exc e
      | Ok ((es, fl), g') =>
          Ok (V55.mkWorld (V55.mkModel 40 40 vision fl k gov_legitimacy max_jail_term
                             (Z.to_nat na) (compute_neighborhoods 40 40 vision) es
                             (mkData [Z.to_nat na] [0] [0] [])) g')
      end
  end.
End Placement.

(** ** The module-level run of model_v4.5 *)

Section Mains.
Context {A : Arith} {G : Type} `{RandomSource G} `{Genrand G} (move_fuel : nat).

(** The script part of model_v4.5 (lines 160-168): [Model(70, 3, 7, 2.3,
    0.3, 30)], then 200 ticks. *)
Definition v45_main (g : G) : outcome (V45.World (A := A) (G := G)) :=
  match init_v45 (nlit 70) (nlit 3) 7 (nlit (23 # 10)) (nlit (3 # 10)) 30 g with
  | Ok w =>
      match run_ticks (V45.step move_fuel) 200 w with
      | Ok (_, w') => Ok w'
      | Exc e => Exc e
      end
  | Exc e => Exc e
  end.

End Mains.

(** ** Sampling without replacement *)

Lemma py_remove_In {X} `{EqDecision X} (x : X) l :
  In x l -> exists l', py_remove x l = Ok l' /\ l ≡ₚ x :: l'.
Proof.
  induction l as [|y l IH]; simpl; [done|]. intros Hin.
  destruct (decide (y = x)) as [->|Hne]; [eauto|].
  destruct Hin as [->|Hin]; [congruence|].
  destruct (IH Hin) as (l' & -> & Hp). exists (y :: l'). split; [reflexivity|].
  rewrite Hp. apply perm_swap.
Qed.

Section PlaceProofs.
Context {G : Type} `{RandomSource G} `{!RandomSourceOk G}.
Context {T S : Type} (setpos : cell -> T -> T) (mark : T -> S -> outcome S).

(** The marking succeeds on the cells of [pos0], for entities of [Q],
    and keeps [P] of the entities placed so far and the state. *)
Context (pos0 : list cell) (Q : T -> Prop) (P : list T -> S -> Prop).
Hypothesis Hmark : forall done e p s, In p pos0 -> Q e -> P done s ->
  exists s', mark (setpos p e) s = Ok s' /\ P (done ++ [setpos p e]) s'.

(** One round: a sampled cell, marked and removed from the list. *)
Lemma place_round e es positions s done g :
  positions <> [] -> (forall p, In p positions -> In p pos0) -> Q e -> P done s ->
  exists x pos' s1 g1,
    place_all setpos mark (e :: es) positions s g =
      (let* r := place_all setpos mark es pos' s1 in ret (setpos x e :: r.1, r.2)) g1 /\
    In x positions /\ positions ≡ₚ x :: pos' /\ P (done ++ [setpos x e]) s1.
Proof.
  intros Hne Hsub He HP.
  destruct (sample1_Ok positions g Hne) as (x & g1 & Hs & Hx).
  destruct (Hmark done e x s (Hsub x Hx) He HP) as (s1 & Hm & HP1).
  destruct (py_remove_In x positions Hx) as (pos' & Hr & Hperm).
  exists x, pos', s1, g1. split; [|auto].
  cbn [place_all]. rewrite (st_bind_of_Ok _ _ _ _ _ Hs).
  unfold of_outcome, st_bind at 1. cbn [first_of]. unfold st_bind at 1. rewrite Hm.
  unfold st_bind at 1. rewrite Hr. reflexivity.
Qed.

(** With at least as many distinct cells as entities, every entity gets
    its own cell of the list. *)
Lemma place_all_Ok es : forall positions s done g,
  NoDup positions -> (forall p, In p positions -> In p pos0) ->
  length es <= length positions -> Forall Q es -> P done s ->
  exists ps s' g', place_all setpos mark es positions s g = Ok ((zip_with setpos ps es, s'), g') /\
    NoDup ps /\ (forall p, In p ps -> In p positions) /\ length ps = length es /\
    P (done ++ zip_with setpos ps es) s'.
Proof.
  induction es as [|e es IH]; intros positions s done g Hnd Hsub Hlen HQ HP.
  - exists [], s, g. rewrite app_nil_r. repeat split; auto using NoDup_nil_2. intros ? [].
  - apply Forall_cons in HQ as [He HQ].
    destruct (place_round e es positions s done g) as (x & pos' & s1 & g1 & -> & Hx & Hperm & HP1);
      [by destruct positions; simpl in Hlen; [lia|] | exact Hsub | exact He | exact HP|].
    pose proof (Permutation_length Hperm) as Hl. simpl in Hl, Hlen.
    assert (Hnd' : NoDup (x :: pos')) by (rewrite <- Hperm; exact Hnd).
    apply NoDup_cons in Hnd' as [Hxn Hnd'].
    assert (Hsub' : forall p, In p pos' -> In p positions)
      by (intros p Hp; apply (Permutation_in _ (Permutation_sym Hperm)); right; exact Hp).
    destruct (IH pos' s1 (done ++ [setpos x e]) g1 Hnd') as (ps & s' & g' & Hrun & Hnps & Hps & Hlp & HP');
      [eauto | lia | exact HQ | exact HP1|].
    exists (x :: ps), s', g'. rewrite (st_bind_of_Ok _ _ _ _ _ Hrun). split; [reflexivity|].
    split; [|split; [|split]].
    + constructor; [|exact Hnps]. intros Hin%list_elem_of_In. apply Hxn, list_elem_of_In. auto.
    + intros p [<-|Hp]; auto.
    + simpl. lia.
    + rewrite <- app_assoc in HP'. exact HP'.
Qed.

(** With more entities than cells, [random.sample] of the emptied list
    raises [ValueError]. *)
Lemma place_all_Exc es : forall positions s done g,
  (forall p, In p positions -> In p pos0) -> length positions < length es ->
  Forall Q es -> P done s ->
  place_all setpos mark es positions s g = Exc ValueError.
Proof.
  induction es as [|e es IH]; intros positions s done g Hsub Hlen HQ HP; simpl in Hlen; [lia|].
  apply Forall_cons in HQ as [He HQ].
  destruct positions as [|x0 rest]; [reflexivity|].
  destruct (place_round e es (x0 :: rest) s done g) as (x & pos' & s1 & g1 & -> & Hx & Hperm & HP1);
    [discriminate | exact Hsub | exact He | exact HP|].
  pose proof (Permutation_length Hperm) as Hl. simpl in Hl, Hlen.
  apply st_bind_Exc. apply (IH _ _ (done ++ [setpos x e])); [| lia | exact HQ | exact HP1].
  intros p Hp. apply Hsub. apply (Permutation_in _ (Permutation_sym Hperm)). right. exact Hp.
Qed.
End PlaceProofs.

(** ** The positions list enumerates the grid *)

Lemma flat_map_map_seq {X Y} (f : Y -> list cell) (g : X -> Y) l :
  flat_map f (map g l) = flat_map (fun x => f (g x)) l.
Proof. induction l as [|x l IH]; simpl; [reflexivity | by rewrite IH]. Qed.

(** [[(x, y) for x in range(W) for y in range(H)]] over naturals. *)
Lemma grid_cells_nat (W H : nat) :
  grid_cells (Z.of_nat W) (Z.of_nat H) =
    flat_map (fun x => map (fun y => (Z.of_nat x, Z.of_nat y)) (seq 0 H)) (seq 0 W).
Proof.
  unfold grid_cells, py_range. rewrite !Z.sub_0_r, !Nat2Z.id, flat_map_map_seq.
  apply flat_map_ext. intros x. rewrite map_map. reflexivity.
Qed.

Section Blocks.
Context (f : nat -> nat -> cell) (H : nat).

Lemma length_blocks W : length (flat_map (fun x => map (f x) (seq 0 H)) (seq 0 W)) = W * H.
Proof.
  induction W as [|W IH]; [reflexivity|].
  rewrite seq_S, flat_map_app, length_app, IH. simpl. rewrite app_nil_r, length_map, length_seq. lia.
Qed.

(** The [i]-th element of [H]-long blocks is the [i mod H]-th of block [i / H]. *)
Lemma lookup_blocks W i :
  flat_map (fun x => map (f x) (seq 0 H)) (seq 0 W) !! i =
    if i <? W * H then Some (f (i / H) (i mod H)) else None.
Proof.
  induction W as [|W IH]; [reflexivity|].
  rewrite seq_S, flat_map_app. simpl flat_map. rewrite app_nil_r.
  destruct (Nat.ltb_spec i (W * H)) as [Hlt|Hge].
  - rewrite lookup_app_l by (rewrite length_blocks; lia). rewrite IH.
    rewrite (proj2 (Nat.ltb_lt _ _)) by lia. reflexivity.
  - rewrite lookup_app_r by (rewrite length_blocks; lia). rewrite length_blocks.
    rewrite list_lookup_fmap.
    destruct (Nat.ltb_spec i (S W * H)) as [Hlt'|Hge'].
    + assert (Hd : i / H = W) by (symmetry; apply (Nat.div_unique _ _ _ (i - W * H)); lia).
      assert (Hm : i mod H = i - W * H) by (symmetry; apply (Nat.mod_unique _ _ W); lia).
      rewrite lookup_seq_lt by lia. simpl. by rewrite Hd, Hm.
    + rewrite lookup_seq_ge by lia. reflexivity.
Qed.
End Blocks.

Lemma grid_cells_lookup (W H : nat) i :
  grid_cells (Z.of_nat W) (Z.of_nat H) !! i =
    if i <? W * H then Some (Z.of_nat (i / H), Z.of_nat (i mod H)) else None.
Proof. rewrite grid_cells_nat. apply (lookup_blocks (fun x y => (Z.of_nat x, Z.of_nat y))). Qed.

(** C22 The list [positions] of
    [place_entities_randomly] enumerates the cells of a [W] x [H] grid by
    the index [x * H + y]: the element at index [i] is [(x, y)] exactly
    when the cell is on the grid and [i] encodes it, so decoding an index
    and encoding the cell found give back the index, and every cell of
    the grid is found at its encoding. *)
Theorem grid_cells_roundtrip (W H : nat) i x y :
  grid_cells (Z.of_nat W) (Z.of_nat H) !! i = Some (x, y) <->
  (0 <= x < Z.of_nat W /\ 0 <= y < Z.of_nat H /\ Z.of_nat i = x * Z.of_nat H + y)%Z.
Proof.
  rewrite grid_cells_lookup. destruct (Nat.ltb_spec i (W * H)) as [Hlt|Hge]; split.
  - intros [= <- <-]. assert (HH : H <> 0) by (intros ->; lia).
    pose proof (Nat.div_mod i H HH). pose proof (Nat.mod_upper_bound i H HH).
    assert (i / H < W) by (apply Nat.Div0.div_lt_upper_bound; lia). nia.
  - intros (Hx & Hy & Hi).
    assert (Hd : i / H = Z.to_nat x) by (symmetry; apply (Nat.div_unique _ _ _ (Z.to_nat y)); nia).
    assert (Hm : i mod H = Z.to_nat y) by (symmetry; apply (Nat.mod_unique _ _ (Z.to_nat x)); nia).
    rewrite Hd, Hm, !Z2Nat.id by lia. reflexivity.
  - discriminate.
  - intros (Hx & Hy & Hi). nia.
Qed.

(** The positions are distinct. *)
Lemma grid_cells_NoDup (W H : nat) : NoDup (grid_cells (Z.of_nat W) (Z.of_nat H)).
Proof.
  apply NoDup_alt. intros i j [x y] Hi Hj.
  apply grid_cells_roundtrip in Hi as (_ & _ & Hi), Hj as (_ & _ & Hj). lia.
Qed.

(** ** The entities built *)

Section Build.
Context {A : Arith} {G : Type} `{Genrand G}.

Lemma random_float_g_Ok g : exists x g', random_float_g g = Ok (x, g').
Proof.
  unfold random_float_g, random_bits, st_bind, st_ret.
  destruct (genrand_uint32 g) as [a g1]. destruct (genrand_uint32 g1) as [b g2]. eauto.
Qed.

Lemma create_agents_Ok {T} (mk : nat -> num -> num -> T) ids g :
  exists l g', create_agents mk ids g = Ok (l, g') /\
    Forall2 (fun i t => exists r h, t = mk i r h) ids l.
Proof.
  revert g. induction ids as [|i ids IH]; intros g; [exists [], g; auto|].
  destruct (random_float_g_Ok g) as (r & g1 & Hr).
  destruct (random_float_g_Ok g1) as (h & g2 & Hh).
  destruct (IH g2) as (l & g3 & Hl & HF).
  exists (mk i r h :: l), g3. cbn [create_agents].
  rewrite (st_bind_of_Ok _ _ _ _ _ Hr), (st_bind_of_Ok _ _ _ _ _ Hh), (st_bind_of_Ok _ _ _ _ _ Hl).
  split; [reflexivity|]. constructor; eauto.
Qed.

Lemma create_list_Ok {T} (mk_agent : nat -> num -> num -> T) mk_cop na nc g :
  exists agents g',
    create_list mk_agent mk_cop na nc g =
      Ok (agents ++ map (fun i => mk_cop (Z.to_nat na + i)) (seq 0 (Z.to_nat nc)), g') /\
    Forall2 (fun i t => exists r h, t = mk_agent i r h) (seq 0 (Z.to_nat na)) agents.
Proof.
  destruct (create_agents_Ok mk_agent (seq 0 (Z.to_nat na)) g) as (l & g' & Hl & HF).
  exists l, g'. unfold create_list. rewrite (st_bind_of_Ok _ _ _ _ _ Hl). auto.
Qed.
End Build.

Section Created.
Context {A : Arith}.

(** What the created entities look like, read through a field [f]. *)
Lemma fmap_created {T X} (f : T -> X) (mk_agent : nat -> num -> num -> T) (mk_cop : nat -> T)
    (a c : X) (na nc : nat) agents :
  (forall i r h, f (mk_agent i r h) = a) -> (forall i, f (mk_cop i) = c) ->
  Forall2 (fun i t => exists r h, t = mk_agent i r h) (seq 0 na) agents ->
  f <$> (agents ++ map (fun i => mk_cop (na + i)) (seq 0 nc)) = replicate na a ++ replicate nc c.
Proof.
  intros Ha Hc HF. rewrite fmap_app. f_equal.
  - rewrite <- (length_seq na 0). clear Hc. induction HF as [|i t l1 l2 (r & h & ->) _ IH];
      [reflexivity | rewrite fmap_cons; cbn [length replicate]; by rewrite Ha, IH].
  - assert (Hm : forall l, f <$> map (fun i => mk_cop (na + i)) l = replicate (length l) c).
    { induction l as [|i l IH]; [reflexivity|]. cbn [map length replicate].
      rewrite fmap_cons. by rewrite Hc, IH. }
    by rewrite Hm, length_seq.
Qed.

Lemma Forall_created {T} (R : T -> Prop) (mk_agent : nat -> num -> num -> T) (mk_cop : nat -> T)
    (na nc : nat) agents :
  (forall i r h, R (mk_agent i r h)) -> (forall i, R (mk_cop i)) ->
  Forall2 (fun i t => exists r h, t = mk_agent i r h) (seq 0 na) agents ->
  Forall R (agents ++ map (fun i => mk_cop (na + i)) (seq 0 nc)).
Proof.
  intros Ha Hc HF. apply Forall_app. split.
  - induction HF as [|i t l1 l2 (r & h & ->) _ IH]; constructor; auto.
  - apply Forall_forall. intros t (i & -> & _)%list_elem_of_fmap. apply Hc.
Qed.

Lemma length_created {T} (mk_agent : nat -> num -> num -> T) (mk_cop : nat -> T) (na nc : nat) agents :
  Forall2 (fun i t => exists r h, t = mk_agent i r h) (seq 0 na) agents ->
  length (agents ++ map (fun i => mk_cop (na + i)) (seq 0 nc)) = na + nc.
Proof.
  intros HF. apply Forall2_length in HF. rewrite length_app, length_map, length_seq.
  rewrite length_seq in HF. lia.
Qed.
End Created.

Section Zip.
Context {T : Type} (setpos : cell -> T -> T).

Lemma fmap_zip_setpos {X} (f : T -> X) ps es :
  (forall p e, f (setpos p e) = f e) -> length ps = length es -> f <$> zip_with setpos ps es = f <$> es.
Proof.
  intros Hf. revert es. induction ps as [|p ps IH]; intros [|e es] Hl; simpl in *; try lia;
    [reflexivity|]. rewrite Hf, IH by lia. reflexivity.
Qed.

Lemma positions_zip_setpos (pos : T -> cell) ps es :
  (forall p e, pos (setpos p e) = p) -> length ps = length es -> pos <$> zip_with setpos ps es = ps.
Proof.
  intros Hp. revert es. induction ps as [|p ps IH]; intros [|e es] Hl; simpl in *; try lia;
    [reflexivity|]. rewrite Hp, IH by lia. reflexivity.
Qed.

Lemma Forall_zip_setpos (R : T -> Prop) (R' : T -> Prop) (C : cell -> Prop) ps es :
  (forall p e, R e -> C p -> R' (setpos p e)) -> Forall R es -> Forall C ps ->
  Forall R' (zip_with setpos ps es).
Proof.
  intros HR HF. revert ps. induction HF as [|e es He _ IH]; intros [|p ps] HC; simpl; try constructor.
  - apply Forall_cons in HC as [Hp _]. auto.
  - apply Forall_cons in HC as [_ HC]. auto.
Qed.
End Zip.

(** A cell of the positions list is a cell of the 40 x 40 grid. *)
Lemma grid_cells_40_in_bounds c : In c (grid_cells 40 40) -> in_bounds 40 40 c.
Proof.
  intros Hin. apply list_elem_of_In, list_elem_of_lookup in Hin as (i & Hi). destruct c as [x y].
  apply (grid_cells_roundtrip 40 40) in Hi as (Hx & Hy & _). split; simpl; lia.
Qed.

Lemma length_grid_cells (W H : nat) : length (grid_cells (Z.of_nat W) (Z.of_nat H)) = W * H.
Proof. rewrite grid_cells_nat. apply length_blocks. Qed.

(** ** The constructor of model_v4.5 *)

Section InitV45.
Context {A : Arith} {G : Type} `{RandomSource G} `{!RandomSourceOk G} `{Genrand G}.

(** C21 [Model(...)] of model_v4.5, when its density check and
    the two [int()] counts pass and the [na + nc] entities fit in the
    1600 cells, returns a model whose entities are the [na] agents then
    the [nc] cops, typed as the methods read them: every agent carries a
    float risk aversion and hardship (never [None], so
    [determine_behavior] computes without a [TypeError]), every entity
    starts quiet and out of jail (the hypothesis of the tick theorem of
    model_v4.5), and the entities stand on distinct cells of the grid. *)
Theorem init_v45_typed agent_density cop_density vision k gov_legitimacy max_jail_term g na nc :
  counts agent_density cop_density = Ok (na, nc) -> Z.to_nat na + Z.to_nat nc <= 1600 ->
  exists w, init_v45 agent_density cop_density vision k gov_legitimacy max_jail_term g = Ok w /\
    V45.num_agents (V45.model w) = Z.to_nat na /\
    V45.type <$> V45.entities (V45.model w) =
      replicate (Z.to_nat na) AGENT ++ replicate (Z.to_nat nc) COP /\
    Forall (fun e =>
      (V45.type e = AGENT -> is_Some (V45.risk_aversion e) /\ is_Some (V45.hardship e)) /\
      V45.active e = false /\ V45.jail_term e = 0 /\ in_bounds 40 40 (V45.position e))
      (V45.entities (V45.model w)) /\
    NoDup (V45.position <$> V45.entities (V45.model w)).
Proof.
  intros Hc Hle. unfold init_v45, create_entities45, place_entities_randomly45. rewrite Hc.
  destruct (create_list_Ok (v45_agent vision) (v45_cop vision) na nc g) as (agents & g1 & Hcl & HF).
  rewrite (st_bind_of_Ok _ _ _ _ _ Hcl).
  pose proof (length_created (v45_agent vision) (v45_cop vision) _ (Z.to_nat nc) _ HF) as Hlen.
  destruct (place_all_Ok V45.set_position (fun _ u => Ok u) (grid_cells 40 40) (fun _ => True)
              (fun _ _ => True) ltac:(eauto)
              (agents ++ map (fun i => v45_cop vision (Z.to_nat na + i)) (seq 0 (Z.to_nat nc)))
              (grid_cells 40 40) tt [] g1
              (grid_cells_NoDup 40 40) ltac:(auto))
    as (ps & u & g' & Hrun & Hnd & Hin & Hl & _);
    [rewrite Hlen; change (grid_cells 40 40) with (grid_cells (Z.of_nat 40) (Z.of_nat 40));
     rewrite (length_grid_cells 40 40); lia | by apply Forall_true | exact I |].
  rewrite (st_bind_of_Ok _ _ _ _ _ Hrun). eexists. split; [reflexivity|].
  cbn [V45.model V45.num_agents V45.entities fst].
  split; [reflexivity|]. split; [|split].
  - rewrite fmap_zip_setpos by (reflexivity || lia).
    by apply (fmap_created V45.type (v45_agent vision) (v45_cop vision)).
  - apply (Forall_zip_setpos _ (fun e => (V45.type e = AGENT -> is_Some (V45.risk_aversion e) /\
             is_Some (V45.hardship e)) /\ V45.active e = false /\ V45.jail_term e = 0) _
             (fun p => In p (grid_cells 40 40))).
    + intros p e (Ht & Ha & Hj) Hp.
      split; [exact Ht | split; [exact Ha | split; [exact Hj | by apply grid_cells_40_in_bounds]]].
    + apply (Forall_created _ (v45_agent vision) (v45_cop vision) _ _ _); [| |exact HF].
      * intros i r h. split; [intros _; split; eexists; reflexivity | split; reflexivity].
      * intros i. split; [discriminate | split; reflexivity].
    + apply Forall_forall. intros p Hp%list_elem_of_In. auto.
  - rewrite positions_zip_setpos by (reflexivity || lia). exact Hnd.
Qed.
End InitV45.

(** ** The constructor of model_v5.5 *)

Section InitV55.
Context {A : Arith}.

(** The flags after placing [done]: both flags of every grid cell
    present, no [active_agents] flag, and the [cops] flag exactly on the
    cells of the cops placed. *)
Definition flags_ok (done : list V55.Turtle) (fl : gmap cell V55.Flags) : Prop :=
  forall c, In c (grid_cells 40 40) ->
    exists f, fl !! c = Some f /\ V55.active_agents f = false /\
      (V55.cops f = true <-> exists e, In e done /\ V55.type e = COP /\ V55.position e = c).

Lemma fresh_flags_lookup c :
  In c (grid_cells 40 40) -> fresh_flags !! c = Some (V55.mkFlags false false).
Proof.
  intros Hc. apply elem_of_list_to_map_1'.
  - intros y (c' & [= _ <-] & _)%list_elem_of_fmap. reflexivity.
  - apply list_elem_of_fmap. exists c. split; [reflexivity | by apply list_elem_of_In].
Qed.

Lemma flags_ok_fresh : flags_ok [] fresh_flags.
Proof.
  intros c Hc. exists (V55.mkFlags false false). split; [by apply fresh_flags_lookup|].
  split; [reflexivity|]. split; [discriminate | intros (e & [] & _)].
Qed.

(** Placing a quiet entity on a grid cell keeps [flags_ok]. *)
Lemma mark_flags_ok done e p fl :
  In p (grid_cells 40 40) -> V55.active e = false -> flags_ok done fl ->
  exists fl', mark_flags (V55.set_position p e) fl = Ok fl' /\
    flags_ok (done ++ [V55.set_position p e]) fl'.
Proof.
  intros Hp Ha Hok. destruct (Hok p Hp) as (f & Hf & Hfa & _).
  unfold mark_flags. cbn [V55.set_position V55.position V55.type V55.active].
  destruct (V55.type e) eqn:Hty.
  - rewrite Ha. eexists. split; [reflexivity|].
    intros c Hc. destruct (Hok c Hc) as (f' & Hf' & Hfa' & Hfc'). exists f'.
    split; [exact Hf'|]. split; [exact Hfa'|]. rewrite Hfc'.
    split; intros (e' & Hin & Ht & Hpos); exists e'; (split; [|split; assumption]).
    + apply in_or_app. left. exact Hin.
    + apply in_app_or in Hin as [Hin|[<-|[]]]; [exact Hin|]. simpl in Ht. congruence.
  - rewrite Hf. eexists. split; [reflexivity|].
    intros c Hc. destruct (decide (c = p)) as [->|Hne].
    + rewrite lookup_insert_eq. eexists. split; [reflexivity|]. split; [exact Hfa|].
      split; [intros _ | reflexivity]. exists (V55.set_position p e).
      split; [apply in_or_app; right; left; reflexivity | split; [exact Hty | reflexivity]].
    + rewrite lookup_insert_ne by congruence. destruct (Hok c Hc) as (f' & Hf' & Hfa' & Hfc').
      exists f'. split; [exact Hf'|]. split; [exact Hfa'|]. rewrite Hfc'.
      split; intros (e' & Hin & Ht & Hpos); exists e'; (split; [|split; assumption]).
      * apply in_or_app. left. exact Hin.
      * apply in_app_or in Hin as [Hin|[<-|[]]]; [exact Hin|]. simpl in Hpos. congruence.
Qed.
End InitV55.

Section RunV55.
Context {A : Arith} {G : Type} `{RandomSource G} `{!RandomSourceOk G} `{Genrand G}.

Abbreviation created55 vision na nc agents :=
  (agents ++ map (fun i => v55_cop vision (Z.to_nat na + i)) (seq 0 (Z.to_nat nc))).

Lemma created55_quiet vision (na nc : Z) agents :
  Forall2 (fun i t => exists r h, t = v55_agent vision i r h) (seq 0 (Z.to_nat na)) agents ->
  Forall (fun e => V55.active e = false) (created55 vision na nc agents).
Proof.
  intros HF. apply (Forall_created _ (v55_agent vision) (v55_cop vision) _ _ _); [| |exact HF];
    reflexivity.
Qed.

(** The run of [init_v55] when the entities fit in the grid. *)
Lemma init_v55_run agent_density cop_density vision k gov_legitimacy max_jail_term g na nc :
  counts agent_density cop_density = Ok (na, nc) -> Z.to_nat na + Z.to_nat nc <= 1600 ->
  exists agents ps fl g',
    init_v55 agent_density cop_density vision k gov_legitimacy max_jail_term g =
      Ok (V55.mkWorld (V55.mkModel 40 40 vision fl k gov_legitimacy max_jail_term (Z.to_nat na)
            (compute_neighborhoods 40 40 vision)
            (zip_with V55.set_position ps (created55 vision na nc agents))
            (mkData [Z.to_nat na] [0] [0] [])) g') /\
    Forall2 (fun i t => exists r h, t = v55_agent vision i r h) (seq 0 (Z.to_nat na)) agents /\
    NoDup ps /\ (forall p, In p ps -> In p (grid_cells 40 40)) /\
    length ps = Z.to_nat na + Z.to_nat nc /\
    flags_ok (zip_with V55.set_position ps (created55 vision na nc agents)) fl.
Proof.
  intros Hc Hle. unfold init_v55, create_entities55, place_entities_randomly55. rewrite Hc.
  destruct (create_list_Ok (v55_agent vision) (v55_cop vision) na nc g) as (agents & g1 & Hcl & HF).
  rewrite (st_bind_of_Ok _ _ _ _ _ Hcl).
  pose proof (length_created (v55_agent vision) (v55_cop vision) _ (Z.to_nat nc) _ HF) as Hlen.
  destruct (place_all_Ok V55.set_position mark_flags (grid_cells 40 40)
              (fun e => V55.active e = false) flags_ok
              ltac:(intros; by apply mark_flags_ok)
              (created55 vision na nc agents) (grid_cells 40 40) fresh_flags [] g1
              (grid_cells_NoDup 40 40) ltac:(auto))
    as (ps & fl & g' & Hrun & Hnd & Hin & Hl & Hok);
    [rewrite Hlen; change (grid_cells 40 40) with (grid_cells (Z.of_nat 40) (Z.of_nat 40));
     rewrite (length_grid_cells 40 40); lia
    | exact (created55_quiet vision na nc agents HF) | exact flags_ok_fresh |].
  rewrite Hrun. exists agents, ps, fl, g'. split; [reflexivity|]. split; [exact HF|].
  split; [exact Hnd|]. split; [exact Hin|]. split; [lia | exact Hok].
Qed.

(** More entities than cells: [random.sample] of the emptied list. *)
Lemma init_v55_overfull_run agent_density cop_density vision k gov_legitimacy max_jail_term g na nc :
  counts agent_density cop_density = Ok (na, nc) -> 1600 < Z.to_nat na + Z.to_nat nc ->
  init_v55 agent_density cop_density vision k gov_legitimacy max_jail_term g = Exc ValueError.
Proof.
  intros Hc Hgt. unfold init_v55, create_entities55, place_entities_randomly55. rewrite Hc.
  destruct (create_list_Ok (v55_agent vision) (v55_cop vision) na nc g) as (agents & g1 & Hcl & HF).
  rewrite (st_bind_of_Ok _ _ _ _ _ Hcl).
  pose proof (length_created (v55_agent vision) (v55_cop vision) _ (Z.to_nat nc) _ HF) as Hlen.
  rewrite (place_all_Exc V55.set_position mark_flags (grid_cells 40 40)
             (fun e => V55.active e = false) flags_ok
             ltac:(intros; by apply mark_flags_ok)
             (created55 vision na nc agents) (grid_cells 40 40) fresh_flags []);
    [reflexivity | auto | | exact (created55_quiet vision na nc agents HF) | exact flags_ok_fresh].
  rewrite Hlen. change (grid_cells 40 40) with (grid_cells (Z.of_nat 40) (Z.of_nat 40)).
  rewrite (length_grid_cells 40 40). lia.
Qed.
End RunV55.

Section ClaimsV55.
Context {A : Arith} {G : Type} `{RandomSource G} `{!RandomSourceOk G} `{Genrand G}.

(** C19 [Model(...)] of model_v5.5, when its density check
    and the two [int()] counts pass and the [na + nc] entities fit in the
    1600 cells, returns a model with [num_agents = na], the [na] agents
    first and the [nc] cops after them (so [entities[:num_agents]], read
    by [enforce], is exactly the agents), every entity quiet and out of
    jail on its own cell of the grid, and the flag grid in step with the
    entities: no [active_agents] flag, and the [cops] flag of a cell up
    exactly when a cop stands on it. *)
Theorem init_v55_builds agent_density cop_density vision k gov_legitimacy max_jail_term g na nc :
  counts agent_density cop_density = Ok (na, nc) -> Z.to_nat na + Z.to_nat nc <= 1600 ->
  exists w, init_v55 agent_density cop_density vision k gov_legitimacy max_jail_term g = Ok w /\
    let m := V55.model w in
    V55.num_agents m = Z.to_nat na /\
    V55.type <$> V55.entities m = replicate (Z.to_nat na) AGENT ++ replicate (Z.to_nat nc) COP /\
    Forall (fun e => V55.active e = false /\ V55.jail_term e = 0 /\ in_bounds 40 40 (V55.position e))
      (V55.entities m) /\
    NoDup (V55.position <$> V55.entities m) /\
    (forall c, in_bounds 40 40 c ->
       exists f, V55.grid m !! c = Some f /\ V55.active_agents f = false /\
         (V55.cops f = true <-> exists e, In e (V55.entities m) /\ V55.type e = COP /\ V55.position e = c)).
Proof.
  intros Hc Hle.
  destruct (init_v55_run agent_density cop_density vision k gov_legitimacy max_jail_term g na nc Hc Hle)
    as (agents & ps & fl & g' & -> & HF & Hnd & Hin & Hl & Hok).
  pose proof (length_created (v55_agent vision) (v55_cop vision) _ (Z.to_nat nc) _ HF) as Hlen.
  eexists. split; [reflexivity|]. cbn [V55.model V55.num_agents V55.entities V55.grid].
  split; [reflexivity|]. split; [|split; [|split]].
  - rewrite fmap_zip_setpos by (reflexivity || lia).
    by apply (fmap_created V55.type (v55_agent vision) (v55_cop vision)).
  - apply (Forall_zip_setpos _ (fun e => V55.active e = false /\ V55.jail_term e = 0) _
             (fun p => In p (grid_cells 40 40))).
    + intros p e [Ha Hj] Hp. split; [exact Ha | split; [exact Hj | by apply grid_cells_40_in_bounds]].
    + apply (Forall_created _ (v55_agent vision) (v55_cop vision) _ _ _); [| |exact HF];
        split; reflexivity.
    + apply Forall_forall. intros p Hp%list_elem_of_In. auto.
  - rewrite positions_zip_setpos by (reflexivity || lia). exact Hnd.
  - intros c Hc'. apply Hok. by apply grid_cells_spec.
Qed.

(** C20 The exceptions of [Model(...)] of model_v5.5: it
    raises exactly the exception of its density check or of an [int()]
    count, or, when the counts ask for more than the 1600 cells (as
    densities -50 and 150 do, which pass the check), the [ValueError] of
    [random.sample] on the emptied positions list.  The constructor of
    extension1 loops forever on such counts instead. *)
Theorem init_v55_errors agent_density cop_density vision k gov_legitimacy max_jail_term g e :
  init_v55 agent_density cop_density vision k gov_legitimacy max_jail_term g = Exc e <->
  counts agent_density cop_density = Exc e \/
  exists na nc, counts agent_density cop_density = Ok (na, nc) /\
    1600 < Z.to_nat na + Z.to_nat nc /\ e = ValueError.
Proof.
  destruct (counts agent_density cop_density) as [[na nc]|e'] eqn:Hc.
  - destruct (le_lt_dec (Z.to_nat na + Z.to_nat nc) 1600) as [Hle|Hgt].
    + destruct (init_v55_run agent_density cop_density vision k gov_legitimacy max_jail_term g na nc Hc Hle)
        as (agents & ps & fl & g' & -> & _).
      split; [discriminate|]. intros [He|(na' & nc' & Heq & Hgt & _)]; [discriminate|].
      injection Heq as <- <-. lia.
    + rewrite (init_v55_overfull_run _ _ _ _ _ _ _ na nc Hc Hgt).
      split.
      * intros He. injection He as <-. right. eauto.
      * intros [He|(? & ? & _ & _ & ->)]; [discriminate | reflexivity].
  - unfold init_v55, create_entities55, place_entities_randomly55. rewrite Hc. split; [intros He; injection He as ->; left; reflexivity|].
    intros [He|Hx]; [injection He as ->; reflexivity | destruct Hx as (? & ? & He & _); discriminate].
Qed.
End ClaimsV55.

(** ** Witnesses *)

Lemma grid_cells_roundtrip_witness :
  grid_cells (Z.of_nat 40) (Z.of_nat 40) !! 41 = Some (1%Z, 1%Z).
Proof. apply (proj2 (grid_cells_roundtrip 40 40 41 1 1)). lia. Defined.

Lemma init_v45_typed_witness :
  counts (A := F_arith unused_exp) (nlit (1 # 4)) (nlit (1 # 8)) = Ok (4%Z, 2%Z) /\
  Z.to_nat 4 + Z.to_nat 2 <= 1600 /\
  exists w, @init_v45 (F_arith unused_exp) Tape _ _ (nlit (1 # 4)) (nlit (1 # 8)) 1
              (nlit (23 # 10)) (nlit (82 # 100)) 30 [] = Ok w /\
    V45.num_agents (V45.model w) = Z.to_nat 4 /\
    V45.type <$> V45.entities (V45.model w) = replicate (Z.to_nat 4) AGENT ++ replicate (Z.to_nat 2) COP /\
    Forall (fun e =>
      (V45.type e = AGENT -> is_Some (V45.risk_aversion e) /\ is_Some (V45.hardship e)) /\
      V45.active e = false /\ V45.jail_term e = 0 /\ in_bounds 40 40 (V45.position e))
      (V45.entities (V45.model w)) /\
    NoDup (V45.position <$> V45.entities (V45.model w)).
Proof.
  assert (Hc : counts (A := F_arith unused_exp) (nlit (1 # 4)) (nlit (1 # 8)) = Ok (4%Z, 2%Z))
    by (vm_compute; reflexivity).
  split; [exact Hc|]. split; [simpl; lia|].
  apply (init_v45_typed _ _ 1 (nlit (23 # 10)) (nlit (82 # 100)) 30 [] 4 2 Hc). simpl. lia.
Defined.

Lemma init_v55_builds_witness :
  counts (A := F_arith unused_exp) (nlit (1 # 4)) (nlit (1 # 8)) = Ok (4%Z, 2%Z) /\
  Z.to_nat 4 + Z.to_nat 2 <= 1600 /\
  exists w, @init_v55 (F_arith unused_exp) Tape _ _ (nlit (1 # 4)) (nlit (1 # 8)) 1
              (nlit (23 # 10)) (nlit (3 # 10)) 30 [] = Ok w /\
    let m := V55.model w in
    V55.num_agents m = Z.to_nat 4 /\
    V55.type <$> V55.entities m = replicate (Z.to_nat 4) AGENT ++ replicate (Z.to_nat 2) COP /\
    Forall (fun e => V55.active e = false /\ V55.jail_term e = 0 /\ in_bounds 40 40 (V55.position e))
      (V55.entities m) /\
    NoDup (V55.position <$> V55.entities m) /\
    (forall c, in_bounds 40 40 c ->
       exists f, V55.grid m !! c = Some f /\ V55.active_agents f = false /\
         (V55.cops f = true <-> exists e, In e (V55.entities m) /\ V55.type e = COP /\ V55.position e = c)).
Proof.
  assert (Hc : counts (A := F_arith unused_exp) (nlit (1 # 4)) (nlit (1 # 8)) = Ok (4%Z, 2%Z))
    by (vm_compute; reflexivity).
  split; [exact Hc|]. split; [simpl; lia|].
  apply (init_v55_builds _ _ 1 (nlit (23 # 10)) (nlit (3 # 10)) 30 [] 4 2 Hc). simpl. lia.
Defined.

Lemma init_v55_errors_witness :
  @init_v55 (F_arith unused_exp) Tape _ _ (nlit (-50)) (nlit 150) 1 (nlit (23 # 10))
    (nlit (3 # 10)) 30 [] = Exc ValueError.
Proof.
  apply (proj2 (init_v55_errors _ _ _ _ _ _ _ _)). right. exists (-800)%Z, 2400%Z.
  split; [vm_compute; reflexivity|]. split; [simpl; lia | reflexivity].
Defined.
