(* ===== verification/V55Run.v ===== *)
(** * model_v5.5 runs to the end

    The tick of model_v5.5 ([V55.step]) raises in five places: an
    [IndexError] when a cell is missing from the neighbourhood table or
    from the flag grid, a [TypeError] when an agent's grievance or risk
    aversion is [None], and the [ValueError] of
    [random.randint(0, max_jail_term)] for a negative bound.  [ok55] is
    the state that rules the five out: the table of the grid's cells,
    a flag record for every cell, every entity on the grid, every agent
    with a risk aversion and a hardship, and a non-negative
    [max_jail_term]; it also records that the first [num_agents]
    entities are agents and that no cop is in jail, so that [enforce]
    only jails agents.  Every turn keeps it ([keeps55]: the entities'
    types and the series are unchanged), so a tick never raises from it,
    keeps it, and appends counts that add up to the number of agents;
    [init_v55] builds such a state, so the script's [Model(...)]
    followed by [for _ in range(200): model.step()] ([v55_main]) always
    completes. *)

From Stdlib Require Import QArith Floats.
From S2P Require Import Prelude Random Torus Rules Floats64 Engine EngineStep Construction V55 Placement.
Local Open Scope nat_scope.
Import V55.

Section Script.
Context {A : Arith} {G : Type} `{RandomSource G} `{Genrand G}.

(** The script part of model_v5.5 (lines 182-190): [Model(70, 3, 7, 2.3,
    0.3, 30)], then 200 ticks. *)
Definition v55_main (g : G) : outcome (V55.World (A := A) (G := G)) :=
  match init_v55 (nlit 70) (nlit 3) 7 (nlit (23 # 10)) (nlit (3 # 10)) 30 g with
  | Ok w =>
      match run_ticks V55.step 200 w with
      | Ok (_, w') => Ok w'
      | Exc e => Exc e
      end
  | Exc e => Exc e
  end.
End Script.

Section Run55.
Context {A : Arith} {G : Type} `{RandomSource G} `{!RandomSourceOk G}.

Abbreviation Turtle := (V55.Turtle (A := A)).
Abbreviation Model := (V55.Model (A := A)).
Abbreviation World := (V55.World (A := A) (G := G)).

(** An entity on the grid; an agent with its two attributes; a cop
    never in jail. *)
Definition entity_ok (W H : Z) (e : Turtle) : Prop :=
  in_bounds W H (position e) /\
  (type e = AGENT -> is_Some (risk_aversion e) /\ is_Some (hardship e)) /\
  (type e = COP -> jail_term e = 0).

Record ok55 (m : Model) : Prop := {
  ok_dims : (0 < width m)%Z /\ (0 < height m)%Z;
  ok_nbhd : neighborhoods m = compute_neighborhoods (width m) (height m) (m_vision m);
  ok_grid : forall c, in_bounds (width m) (height m) c -> is_Some (grid m !! c);
  ok_entities : Forall (entity_ok (width m) (height m)) (entities m);
  ok_agents : forall j e, j < num_agents m -> entities m !! j = Some e -> type e = AGENT;
  ok_jail : (0 <= max_jail_term m)%Z
}.

(** A step between states of [ok55] that keeps the entities' types, the
    series and the constants. *)
Definition keeps55 (m m' : Model) : Prop :=
  ok55 m' /\ type <$> entities m' = type <$> entities m /\ data m' = data m /\
  width m' = width m /\ height m' = height m /\ num_agents m' = num_agents m.

(** The number of agents among the entities. *)
Definition agents55 (es : list Turtle) : nat :=
  count_if (fun ty => bool_decide (ty = AGENT)) (type <$> es).

(** The three series have one entry per tick, and every triple adds up
    to [n]. *)
Definition series_ok (n : nat) (d : Data) : Prop :=
  length (data_jail d) = length (data_quiet d) /\ length (data_active d) = length (data_quiet d) /\
  forall i q j a, data_quiet d !! i = Some q -> data_jail d !! i = Some j ->
    data_active d !! i = Some a -> q + j + a = n.

Lemma keeps55_refl m : ok55 m -> keeps55 m m.
Proof. intros Hm. split; [exact Hm|]. repeat split. Qed.

Lemma keeps55_trans a b c : keeps55 a b -> keeps55 b c -> keeps55 a c.
Proof.
  intros (_ & T1 & D1 & W1 & H1 & N1) (O2 & T2 & D2 & W2 & H2 & N2). split; [exact O2|].
  repeat split; congruence.
Qed.

Lemma keeps55_length m0 m : keeps55 m0 m -> length (entities m) = length (entities m0).
Proof. intros (_ & T & _). rewrite <- (length_fmap type (entities m)), T. apply length_fmap. Qed.

(** ** The primitives *)

Lemma entity_lookup_ok m i t :
  ok55 m -> entities m !! i = Some t -> entity_ok (width m) (height m) t.
Proof. intros Hm Ht. eapply Forall_lookup_1; [apply Hm | exact Ht]. Qed.

Lemma get_entity_run55 (w : World) i t :
  entities (model w) !! i = Some t -> get_entity i w = Ok (t, w).
Proof. intros Ht. unfold get_entity, st_bind, st_get, st_lift. by rewrite Ht. Qed.

Lemma update_entity_run55 (w : World) i f t :
  entities (model w) !! i = Some t ->
  update_entity i f w = Ok (tt, mkWorld (map_entities (<[i := f t]>) (model w)) (rng w)).
Proof.
  intros Ht. unfold update_entity. rewrite (st_bind_of_Ok _ _ _ _ _ (get_entity_run55 _ _ _ Ht)).
  reflexivity.
Qed.

Lemma get_neighborhood_run55 (w : World) c :
  ok55 (model w) -> in_bounds (width (model w)) (height (model w)) c ->
  get_neighborhood c w =
    Ok (neighborhood (width (model w)) (height (model w)) (m_vision (model w)) c, w).
Proof.
  intros Hm Hc. unfold get_neighborhood, st_bind, st_get, st_lift.
  rewrite (ok_nbhd _ Hm), compute_neighborhoods_lookup, bool_decide_eq_true_2 by exact Hc.
  reflexivity.
Qed.

Lemma update_flags_run55 (w : World) c f :
  ok55 (model w) -> in_bounds (width (model w)) (height (model w)) c ->
  exists fl, update_flags c f w = Ok (tt, mkWorld (map_flags (<[c := f fl]>) (model w)) (rng w)).
Proof.
  intros Hm Hc. destruct (ok_grid _ Hm c Hc) as [fl Hfl]. exists fl.
  unfold update_flags, get_flags, st_bind, st_get, st_lift. by rewrite Hfl.
Qed.

Lemma rand_run55 {X} (r : ST G X) (w : World) x g :
  r (rng w) = Ok (x, g) -> rand r w = Ok (x, mkWorld (model w) g).
Proof. intros Hr. unfold rand. by rewrite Hr. Qed.

Lemma st_lift_run55 {X} e (o : option X) (x : X) (w : World) :
  o = Some x -> st_lift e o w = Ok (x, w).
Proof. intros ->. reflexivity. Qed.

Lemma st_bind_get55 {B} (k : World -> ST World B) (w : World) : st_bind st_get k w = k w w.
Proof. reflexivity. Qed.

(** An update of an entity that keeps its type, on the grid and typed. *)
Lemma keeps55_update m i t t' :
  ok55 m -> entities m !! i = Some t -> entity_ok (width m) (height m) t' -> type t' = type t ->
  keeps55 m (map_entities (<[i := t']>) m).
Proof.
  intros Hm Ht Hok Hty. destruct Hm as [Hd Hn Hg He Ha Hj].
  assert (HT : type <$> <[i := t']> (entities m) = type <$> entities m).
  { rewrite list_fmap_insert, Hty. apply list_insert_id. by rewrite list_lookup_fmap, Ht. }
  split; [|repeat split; exact HT].
  constructor; simpl; auto; [apply Forall_insert; auto|].
  intros j e Hj' [(-> & <- & _)|(_ & He')]%list_lookup_insert_Some.
  - rewrite Hty. exact (Ha _ _ Hj' Ht).
  - exact (Ha _ _ Hj' He').
Qed.
Lemma keeps55_flags m c fl : ok55 m -> keeps55 m (map_flags (<[c := fl]>) m).
Proof.
  intros [Hd Hn Hg He Ha Hj]. split; [constructor; simpl; auto|repeat split].
  intros c' Hc'. destruct (decide (c' = c)) as [->|Hne]; [by rewrite lookup_insert_eq|].
  rewrite lookup_insert_ne by congruence. auto.
Qed.

Lemma keeps55_entity m0 m i t :
  keeps55 m0 m -> entities m !! i = Some t -> entity_ok (width m0) (height m0) t.
Proof.
  intros (Hm & _ & _ & Hw & Hh & _) Ht. rewrite <- Hw, <- Hh. exact (entity_lookup_ok _ _ _ Hm Ht).
Qed.

(** The two writes of a turn, from a state reached from [m0]: they
    succeed on the grid's cells and keep [keeps55 m0]. *)
Lemma update_flags_keeps m0 (w : World) c f :
  keeps55 m0 (model w) -> in_bounds (width m0) (height m0) c ->
  exists w', update_flags c f w = Ok (tt, w') /\ keeps55 m0 (model w') /\
    entities (model w') = entities (model w) /\ rng w' = rng w.
Proof.
  intros K Hc. pose proof K as (Hm & _ & _ & Hw & Hh & _).
  destruct (update_flags_run55 w c f Hm) as (fl & Hu); [by rewrite Hw, Hh|].
  eexists. split; [exact Hu|]. split; [|auto].
  apply (keeps55_trans _ _ _ K), keeps55_flags, Hm.
Qed.

Lemma update_entity_keeps m0 (w : World) i f t :
  keeps55 m0 (model w) -> entities (model w) !! i = Some t ->
  entity_ok (width m0) (height m0) (f t) -> type (f t) = type t ->
  exists w', update_entity i f w = Ok (tt, w') /\ keeps55 m0 (model w') /\
    entities (model w') = <[i := f t]> (entities (model w)) /\ rng w' = rng w.
Proof.
  intros K Ht Hok Hty. pose proof K as (Hm & _ & _ & Hw & Hh & _).
  eexists. split; [exact (update_entity_run55 w i f t Ht)|]. split; [|auto].
  apply (keeps55_trans _ _ _ K). apply (keeps55_update _ _ t); [exact Hm | exact Ht | | exact Hty].
  by rewrite Hw, Hh.
Qed.

(** An update of a field that [entity_ok] does not read, at an index of
    the list. *)
Lemma update_entity_keeps_all m0 (w : World) i f :
  keeps55 m0 (model w) -> i < length (entities (model w)) ->
  (forall t, entity_ok (width m0) (height m0) t -> entity_ok (width m0) (height m0) (f t)) ->
  (forall t, type (f t) = type t) ->
  exists w', update_entity i f w = Ok (tt, w') /\ keeps55 m0 (model w') /\ rng w' = rng w.
Proof.
  intros K Hi Hf Hty. destruct (lookup_lt_is_Some_2 _ _ Hi) as [t Ht].
  destruct (update_entity_keeps m0 w i f t K Ht (Hf t (keeps55_entity _ _ _ _ K Ht)) (Hty t))
    as (w' & Hu & K' & _ & Hr). eauto.
Qed.

(** ** The methods *)

(** [move_agent] keeps the state and the entity's attributes but its
    position. *)
Lemma move_agent_run55 m0 (w : World) i t :
  keeps55 m0 (model w) -> entities (model w) !! i = Some t ->
  exists w' t', move_agent i w = Ok (tt, w') /\ keeps55 m0 (model w') /\
    entities (model w') !! i = Some t' /\ type t' = type t /\ grievance t' = grievance t /\
    risk_aversion t' = risk_aversion t.
Proof.
  intros K Ht. pose proof (keeps55_entity _ _ _ _ K Ht) as [Hpos Hag].
  pose proof K as (Hm & _ & _ & Hw & Hh & _).
  unfold move_agent. rewrite (st_bind_of_Ok _ _ _ _ _ (get_entity_run55 _ _ _ Ht)).
  destruct (0 <? jail_term t); [exists w, t; split; [reflexivity | auto 7]|].
  rewrite (st_bind_of_Ok _ _ _ _ _ (get_neighborhood_run55 _ _ Hm ltac:(by rewrite Hw, Hh))).
  rewrite st_bind_get55.
  destruct (List.filter _ _) as [|c0 rest] eqn:Hf; [exists w, t; split; [reflexivity | auto 7]|].
  destruct (choice_Ok (c0 :: rest) (rng w) ltac:(discriminate)) as (c & g1 & Hc).
  pose proof (choice_In _ _ _ _ Hc) as Hcin. rewrite <- Hf in Hcin.
  apply filter_In in Hcin as [Hcnb _].
  assert (Hcb : in_bounds (width m0) (height m0) c).
  { rewrite <- Hw, <- Hh. eapply neighborhood_in_bounds; [apply Hm.. | exact Hcnb]. }
  rewrite (st_bind_of_Ok _ _ _ _ _ (rand_run55 _ _ _ _ Hc)).
  destruct (update_entity_keeps m0 (mkWorld (model w) g1) i (set_position c) t K Ht)
    as (w2 & Hu & K2 & He2 & _); [split; [exact Hcb | exact Hag] | reflexivity |].
  rewrite (st_bind_of_Ok _ _ _ _ _ Hu).
  assert (Ht2 : entities (model w2) !! i = Some (set_position c t)).
  { rewrite He2. apply list_lookup_insert_eq. eapply lookup_lt_Some. exact Ht. }
  destruct (type t) eqn:Hty; [destruct (active t)|].
  - destruct (update_flags_keeps m0 w2 (position t) (set_active_flag false) K2 Hpos)
      as (w3 & Hu3 & K3 & He3 & _).
    rewrite (st_bind_of_Ok _ _ _ _ _ Hu3).
    destruct (update_flags_keeps m0 w3 c (set_active_flag true) K3 Hcb) as (w4 & Hu4 & K4 & He4 & _).
    exists w4, (set_position c t). rewrite Hu4, He4, He3. eauto 10.
  - exists w2, (set_position c t). eauto 10.
  - destruct (update_flags_keeps m0 w2 (position t) (set_cops false) K2 Hpos)
      as (w3 & Hu3 & K3 & He3 & _).
    rewrite (st_bind_of_Ok _ _ _ _ _ Hu3).
    destruct (update_flags_keeps m0 w3 c (set_cops true) K3 Hcb) as (w4 & Hu4 & K4 & He4 & _).
    exists w4, (set_position c t). rewrite Hu4, He4, He3. eauto 10.
Qed.

Lemma estimate_run55 m0 (w : World) c :
  keeps55 m0 (model w) -> in_bounds (width m0) (height m0) c ->
  exists p, estimate_arrest_probability c w = Ok (p, w).
Proof.
  intros (Hm & _ & _ & Hw & Hh & _) Hc. unfold estimate_arrest_probability.
  rewrite (st_bind_of_Ok _ _ _ _ _ (get_neighborhood_run55 _ _ Hm ltac:(by rewrite Hw, Hh))).
  eexists. reflexivity.
Qed.

(** [determine_behavior] of an agent with its grievance and risk
    aversion set. *)
Lemma determine_run55 m0 (w : World) i t :
  keeps55 m0 (model w) -> entities (model w) !! i = Some t ->
  is_Some (grievance t) -> is_Some (risk_aversion t) ->
  exists w', determine_behavior i w = Ok (tt, w') /\ keeps55 m0 (model w').
Proof.
  intros K Ht [g Hg] [r Hr]. pose proof (keeps55_entity _ _ _ _ K Ht) as Hok.
  unfold determine_behavior. rewrite (st_bind_of_Ok _ _ _ _ _ (get_entity_run55 _ _ _ Ht)).
  destruct (estimate_run55 m0 w (position t) K (proj1 Hok)) as (p & Hp).
  rewrite (st_bind_of_Ok _ _ _ _ _ Hp), (st_bind_of_Ok _ _ _ _ _ (st_lift_run55 _ _ _ w Hg)),
    (st_bind_of_Ok _ _ _ _ _ (st_lift_run55 _ _ _ w Hr)).
  destruct (activates g r p).
  - destruct (update_entity_keeps m0 w i (set_active true) t K Ht Hok eq_refl) as (w1 & Hu & K1 & _).
    rewrite (st_bind_of_Ok _ _ _ _ _ Hu).
    destruct (update_flags_keeps m0 w1 (position t) (set_active_flag true) K1 (proj1 Hok))
      as (w2 & Hu2 & K2 & _). eauto.
  - destruct (update_entity_keeps m0 w i (set_active false) t K Ht Hok eq_refl) as (w1 & Hu & K1 & _).
    eauto.
Qed.
(** [enforce] of any entity: its candidates are agents of the list, the
    jail term is drawn from [[0, max_jail_term]], and all the cells
    written are cells of the grid. *)
Lemma enforce_run55 m0 (w : World) i t :
  keeps55 m0 (model w) -> entities (model w) !! i = Some t ->
  exists w', enforce i w = Ok (tt, w') /\ keeps55 m0 (model w').
Proof.
  intros K Ht. pose proof (keeps55_entity _ _ _ _ K Ht) as [Hpos Hok].
  pose proof K as (Hm & _ & _ & Hw & Hh & Hn).
  unfold enforce. rewrite (st_bind_of_Ok _ _ _ _ _ (get_entity_run55 _ _ _ Ht)).
  rewrite (st_bind_of_Ok _ _ _ _ _ (get_neighborhood_run55 _ _ Hm ltac:(by rewrite Hw, Hh))).
  rewrite st_bind_get55.
  destruct (flagged_agents _ _) as [|j0 rest] eqn:Hf; [exists w; split; [reflexivity | exact K]|].
  destruct (choice_Ok (j0 :: rest) (rng w) ltac:(discriminate)) as (j & g1 & Hc).
  pose proof (choice_In _ _ _ _ Hc) as Hjin. rewrite <- Hf in Hjin.
  apply flagged_agents_spec in Hjin as (a & fa & Hjn & Ha & _).
  pose proof (keeps55_entity _ _ _ _ K Ha) as [Hapos _].
  rewrite (st_bind_of_Ok _ _ _ _ _ (rand_run55 _ _ _ _ Hc)).
  rewrite (st_bind_of_Ok _ _ _ _ _ (get_entity_run55 (mkWorld (model w) g1) _ _ Ha)).
  destruct (update_entity_keeps m0 (mkWorld (model w) g1) i (set_position (position a)) t K Ht)
    as (w2 & Hu2 & K2 & _); [split; [exact Hapos | exact Hok] | reflexivity |].
  rewrite (st_bind_of_Ok _ _ _ _ _ Hu2).
  assert (Hj : j < length (entities (model w2))).
  { rewrite (keeps55_length _ _ K2), <- (keeps55_length _ _ K). eapply lookup_lt_Some, Ha. }
  destruct (update_entity_keeps_all m0 w2 j (set_active false) K2 Hj (fun t Ht => Ht) (fun t => eq_refl))
    as (w3 & Hu3 & K3 & _).
  rewrite (st_bind_of_Ok _ _ _ _ _ Hu3).
  destruct (randint_Ok 0 (max_jail_term (model w)) (rng w3) (ok_jail _ Hm)) as (z & g4 & Hz & _).
  rewrite (st_bind_of_Ok _ _ _ _ _ (rand_run55 _ _ _ _ Hz)).
  assert (Hj3 : j < length (entities (model w3)))
    by (rewrite (keeps55_length _ _ K3), <- (keeps55_length _ _ K2); exact Hj).
  destruct (lookup_lt_is_Some_2 _ _ Hj3) as [x Hx].
  pose proof (keeps55_entity _ _ _ _ K3 Hx) as (Hxb & Hxa & _).
  assert (Hxt : type x = AGENT).
  { pose proof K3 as (Hm3 & _ & _ & _ & _ & Hn3). apply (ok_agents _ Hm3 j); [lia | exact Hx]. }
  destruct (update_entity_keeps m0 (mkWorld (model w3) g4) j (set_jail_term (Z.to_nat z)) x K3 Hx)
    as (w5 & Hu5 & K5 & _); [split; [exact Hxb | split; [exact Hxa | simpl; congruence]] | reflexivity |].
  rewrite (st_bind_of_Ok _ _ _ _ _ Hu5).
  destruct (update_flags_keeps m0 w5 (position t) (set_cops false) K5 Hpos) as (w6 & Hu6 & K6 & _).
  rewrite (st_bind_of_Ok _ _ _ _ _ Hu6).
  destruct (update_flags_keeps m0 w6 (position a) (set_cops true) K6 Hapos) as (w7 & Hu7 & K7 & _).
  rewrite (st_bind_of_Ok _ _ _ _ _ Hu7).
  destruct (update_flags_keeps m0 w7 (position a) (set_active_flag false) K7 Hapos)
    as (w8 & Hu8 & K8 & _). eauto.
Qed.
(** One turn of [step], for every index of the list: a jailed agent
    serves, a free agent gets its grievance (once), moves and decides; a
    cop moves and enforces. *)
Lemma turn_run55 m0 (w : World) i :
  keeps55 m0 (model w) -> i < length (entities (model w)) ->
  exists w', turn i w = Ok (tt, w') /\ keeps55 m0 (model w').
Proof.
  intros K Hi. destruct (lookup_lt_is_Some_2 _ _ Hi) as [t Ht].
  pose proof (keeps55_entity _ _ _ _ K Ht) as Hok.
  unfold turn. rewrite (st_bind_of_Ok _ _ _ _ _ (get_entity_run55 _ _ _ Ht)).
  destruct (type t) eqn:Hty.
  - destruct (proj1 (proj2 Hok) Hty) as [Hr [h Hh]].
    destruct (0 <? jail_term t).
    { destruct (update_entity_keeps m0 w i (set_jail_term (jail_term t - 1)) t K Ht)
        as (w' & Hu & K' & _); [split; [apply Hok | split; [apply Hok | simpl; congruence]] | reflexivity |].
      eauto. }
    rewrite st_bind_get55.
    assert (Hg : exists w1 t1, (match grievance t with
                  | Some _ => ret tt
                  | None => let* h := st_lift TypeError (hardship t) in
                            update_entity i (set_grievance (Rules.grievance h (gov_legitimacy (model w))))
                  end) w = Ok (tt, w1) /\ keeps55 m0 (model w1) /\
                  entities (model w1) !! i = Some t1 /\ type t1 = AGENT /\
                  is_Some (grievance t1) /\ risk_aversion t1 = risk_aversion t).
    { destruct (grievance t) eqn:Hgr.
      - exists w, t. split; [reflexivity|]. eauto 7.
      - rewrite (st_bind_of_Ok _ _ _ _ _ (st_lift_run55 _ _ _ w Hh)).
        destruct (update_entity_keeps m0 w i (set_grievance (Rules.grievance h (gov_legitimacy (model w)))) t
                    K Ht Hok eq_refl) as (w1 & Hu & K1 & He1 & _).
        exists w1, (set_grievance (Rules.grievance h (gov_legitimacy (model w))) t).
        split; [exact Hu|]. split; [exact K1|]. split; [|simpl; eauto].
        rewrite He1. apply list_lookup_insert_eq. eapply lookup_lt_Some, Ht. }
    destruct Hg as (w1 & t1 & Hg & K1 & Ht1 & Hty1 & Hgr1 & Hr1).
    rewrite (st_bind_of_Ok _ _ _ _ _ Hg).
    destruct (move_agent_run55 m0 w1 i t1 K1 Ht1) as (w2 & t2 & Hmv & K2 & Ht2 & _ & Hgr2 & Hr2).
    rewrite (st_bind_of_Ok _ _ _ _ _ Hmv).
    apply (determine_run55 m0 w2 i t2 K2 Ht2); [by rewrite Hgr2 | by rewrite Hr2, Hr1].
  - destruct (move_agent_run55 m0 w i t K Ht) as (w1 & t1 & Hmv & K1 & Ht1 & _).
    rewrite (st_bind_of_Ok _ _ _ _ _ Hmv). exact (enforce_run55 m0 w1 i t1 K1 Ht1).
Qed.

(** ** The counts *)

Lemma agents55_types es es' : type <$> es' = type <$> es -> agents55 es' = agents55 es.
Proof. unfold agents55. by intros ->. Qed.

(** With no cop in jail, the counting loop counts every agent once:
    jailed, active or quiet. *)
Lemma tally_states_agents es :
  Forall (fun e => type e = COP -> jail_term e = 0) es ->
  let '(q, j, a) := tally_states es in q + j + a = agents55 es.
Proof.
  unfold agents55. induction 1 as [|e es He _ IH]; [reflexivity|].
  rewrite fmap_cons, count_if_cons. cbn [tally_states].
  destruct (tally_states es) as [[q j] a]. destruct (type e) eqn:Hty.
  - rewrite bool_decide_eq_true_2 by reflexivity.
    destruct (0 <? jail_term e), (active e); simpl; lia.
  - rewrite bool_decide_eq_false_2 by discriminate. rewrite (He eq_refl). simpl. lia.
Qed.

Lemma series_ok_append n q j a d :
  series_ok n d -> q + j + a = n -> series_ok n (append_counts q j a d).
Proof.
  intros (Hj & Ha & Hs) Hn. unfold series_ok, append_counts. cbn [data_quiet data_jail data_active].
  rewrite !length_app, Hj, Ha. split; [reflexivity | split; [reflexivity|]].
  intros i q' j' a' Hq Hj' Ha'.
  destruct (decide (i < length (data_quiet d))) as [Hi|Hi].
  - rewrite lookup_app_l in Hq, Hj', Ha' by lia. eauto.
  - rewrite lookup_app_r in Hq, Hj', Ha' by lia. rewrite Hj in Hj'. rewrite Ha in Ha'.
    destruct (i - length (data_quiet d)); [|discriminate].
    simpl in Hq, Hj', Ha'. congruence.
Qed.

Lemma ok55_map_data m f : ok55 m -> ok55 (map_data f m).
Proof. intros [Hd Hn Hg He Ha Hj]. by constructor. Qed.

(** A tick from a state of [ok55] returns, keeps it and the entities'
    types, and appends to the series one triple that counts every agent
    once. *)
Lemma step_run55 (w : World) :
  ok55 (model w) ->
  exists w' q j a, step w = Ok (tt, w') /\ ok55 (model w') /\
    type <$> entities (model w') = type <$> entities (model w) /\
    data (model w') = append_counts q j a (data (model w)) /\ q + j + a = agents55 (entities (model w)).
Proof.
  intros Hm. unfold step. rewrite st_bind_get55.
  destruct (st_iter_progress turn (fun s => keeps55 (model w) (model s))
              (seq 0 (length (entities (model w))))
              ltac:(intros x s Hx%in_seq Ks; apply turn_run55; [exact Ks|];
                    rewrite (keeps55_length _ _ Ks); lia)
              w (keeps55_refl _ Hm)) as (w1 & Hit & K1).
  rewrite (st_bind_of_Ok _ _ _ _ _ Hit), st_bind_get55.
  destruct K1 as (Hm1 & HT1 & Hd1 & _).
  pose proof (tally_states_agents (entities (model w1))
                (Forall_impl _ _ _ (ok_entities _ Hm1) (fun e He => proj2 (proj2 He)))) as Hc.
  destruct (tally_states (entities (model w1))) as [[q j] a].
  eexists _, q, j, a. split; [reflexivity|]. split; [by apply ok55_map_data|].
  split; [exact HT1|]. split; [simpl; by rewrite Hd1|]. rewrite Hc. by apply agents55_types.
Qed.

(** [for _ in range(n): model.step()] from a state of [ok55] returns,
    with [n] more triples in the series, each counting every agent. *)
Lemma run_ticks55 n : forall (w : World),
  ok55 (model w) -> series_ok (agents55 (entities (model w))) (data (model w)) ->
  exists w', run_ticks step n w = Ok (tt, w') /\ ok55 (model w') /\
    type <$> entities (model w') = type <$> entities (model w) /\
    series_ok (agents55 (entities (model w))) (data (model w')) /\
    length (data_quiet (data (model w'))) = n + length (data_quiet (data (model w))).
Proof.
  induction n as [|n IH]; intros w Hm Hs; [exists w; split; [reflexivity | auto]|].
  destruct (step_run55 w Hm) as (w1 & q & j & a & Hst & Hm1 & HT1 & Hd1 & Hc).
  simpl. rewrite (st_bind_of_Ok _ _ _ _ _ Hst).
  rewrite <- (agents55_types _ _ HT1) in Hs, Hc |- *.
  destruct (IH w1 Hm1 ltac:(rewrite Hd1; by apply series_ok_append)) as (w2 & Hr & Hm2 & HT2 & Hs2 & Hl2).
  exists w2. split; [exact Hr|]. split; [exact Hm2|]. split; [congruence|]. split; [exact Hs2|].
  rewrite Hl2, Hd1. simpl. rewrite length_app. simpl. lia.
Qed.
End Run55.

(** ** The constructor and the script *)

Lemma agents55_replicate (na nc : nat) :
  count_if (fun ty => bool_decide (ty = AGENT)) (replicate na AGENT ++ replicate nc COP) = na.
Proof.
  induction na as [|na IH]; cbn [replicate app].
  - induction nc as [|nc IH]; [reflexivity|]. cbn [replicate].
    rewrite count_if_cons, bool_decide_eq_false_2 by discriminate. exact IH.
  - rewrite count_if_cons, bool_decide_eq_true_2 by reflexivity. lia.
Qed.

Section Main55.
Context {A : Arith} {G : Type} `{RandomSource G} `{!RandomSourceOk G} `{Genrand G}.

(** [Model(...)] builds a state of [ok55] whenever it returns on
    entities that fit the grid and a non-negative [max_jail_term]: the
    agents first, then the cops, and the series seeded with [num_agents]
    quiet agents. *)
Lemma init_v55_ok55 agent_density cop_density vision k gov_legitimacy max_jail_term g na nc :
  counts agent_density cop_density = Ok (na, nc) -> Z.to_nat na + Z.to_nat nc <= 1600 ->
  (0 <= max_jail_term)%Z ->
  exists w, init_v55 agent_density cop_density vision k gov_legitimacy max_jail_term g = Ok w /\
    ok55 (V55.model w) /\ V55.data (V55.model w) = mkData [Z.to_nat na] [0] [0] [] /\
    type <$> V55.entities (V55.model w) = replicate (Z.to_nat na) AGENT ++ replicate (Z.to_nat nc) COP.
Proof.
  intros Hc Hle Hj.
  destruct (init_v55_run agent_density cop_density vision k gov_legitimacy max_jail_term g na nc Hc Hle)
    as (agents & ps & fl & g' & -> & HF & _ & Hin & Hl & Hok).
  pose proof (length_created (v55_agent vision) (v55_cop vision) _ (Z.to_nat nc) _ HF) as Hlen.
  assert (HT : type <$> zip_with set_position ps (agents ++ map (fun i => v55_cop vision (Z.to_nat na + i)) (seq 0 (Z.to_nat nc))) =
                 replicate (Z.to_nat na) AGENT ++ replicate (Z.to_nat nc) COP).
  { rewrite fmap_zip_setpos by (reflexivity || lia).
    by apply (fmap_created type (v55_agent vision) (v55_cop vision)). }
  eexists. split; [reflexivity|]. split; [|split; [reflexivity | exact HT]].
  constructor; cbn [V55.model width height m_vision neighborhoods grid entities num_agents
                    V55.max_jail_term].
  - split; lia.
  - reflexivity.
  - intros c Hc'. destruct (Hok c (grid_cells_spec _ _ _ Hc')) as (f & Hf & _). by exists f.
  - apply (Forall_zip_setpos _
             (fun e => (type e = AGENT -> is_Some (risk_aversion e) /\ is_Some (hardship e)) /\
                       (type e = COP -> jail_term e = 0))
             _ (fun p => In p (grid_cells 40 40))).
    + intros p e He Hp. split; [by apply grid_cells_40_in_bounds | exact He].
    + apply (Forall_created _ (v55_agent vision) (v55_cop vision) _ _ _); [| |exact HF].
      * intros i r h. split; [split; eexists; reflexivity | discriminate].
      * intros i. split; [discriminate | reflexivity].
    + apply Forall_forall. intros p Hp%list_elem_of_In. auto.
  - intros j e Hjn He. assert (Hte : (type <$> zip_with set_position ps (agents ++ map (fun i => v55_cop vision (Z.to_nat na + i)) (seq 0 (Z.to_nat nc)))) !! j
                                    = Some (type e)) by (rewrite list_lookup_fmap, He; reflexivity).
    rewrite HT, lookup_app_l, lookup_replicate_2 in Hte by (rewrite ?length_replicate; lia).
    congruence.
  - exact Hj.
Qed.
End Main55.

Section Script55.
Context {G : Type} `{RandomSource G} `{!RandomSourceOk G} `{Genrand G} (fexp : float -> float).

Lemma counts_script : counts (A := F_arith fexp) (nlit 70) (nlit 3) = Ok (1120%Z, 48%Z).
Proof. vm_compute. reflexivity. Qed.

(** C23 The script of model_v5.5, [Model(70, 3, 7, 2.3, 0.3, 30)]
    followed by [for _ in range(200): model.step()], returns for every
    random source and every [math.exp]: the constructor places the 1120
    agents and 48 cops, and none of the 200 ticks raises (no missing cell
    of the neighbourhood table or of the flag grid, no [None] grievance or
    risk aversion, no negative bound for [randint]).  The three series it
    plots hold the initial count and one count per tick, 201 entries,
    and at every index the quiet, jailed and active counts add up to the
    1120 agents: no cop is ever jailed and no agent is counted twice. *)
Theorem v55_main_runs (g : G) :
  exists w, v55_main (A := F_arith fexp) g = Ok w /\
    length (V55.entities (V55.model w)) = 1168 /\
    let d := V55.data (V55.model w) in
    length (data_quiet d) = 201 /\ length (data_jail d) = 201 /\ length (data_active d) = 201 /\
    forall i q j a, data_quiet d !! i = Some q -> data_jail d !! i = Some j ->
      data_active d !! i = Some a -> q + j + a = 1120.
Proof.
  destruct (init_v55_ok55 (A := F_arith fexp) (nlit 70) (nlit 3) 7 (nlit (23 # 10)) (nlit (3 # 10)) 30 g
              1120 48 counts_script ltac:(simpl; lia) ltac:(lia)) as (w0 & Hi & Hm & Hd & HT).
  assert (Hn : agents55 (V55.entities (V55.model w0)) = 1120)
    by (unfold agents55; rewrite HT; apply agents55_replicate).
  destruct (run_ticks55 (A := F_arith fexp) 200 w0 Hm) as (w & Hr & _ & HT' & Hs & Hl);
    [rewrite Hd, Hn; split; [reflexivity | split; [reflexivity|]];
     intros [|i] q j a Hq Hj Ha; simpl in *; [injection Hq; injection Hj; injection Ha; lia | discriminate]|].
  exists w. unfold v55_main. rewrite Hi, Hr. split; [reflexivity|].
  rewrite Hn in Hs. destruct Hs as (Hj & Ha & Hs).
  rewrite <- (length_fmap type), HT', HT, length_app, !length_replicate.
  rewrite Hd in Hl. simpl in Hl. split; [reflexivity|]. cbv zeta.
  split; [lia | split; [lia | split; [lia | exact Hs]]].
Qed.
End Script55.

Lemma v55_main_runs_witness :
  exists w, v55_main (A := F_arith unused_exp) (G := Tape) [] = Ok w /\
    length (V55.entities (V55.model w)) = 1168 /\
    let d := V55.data (V55.model w) in
    length (data_quiet d) = 201 /\ length (data_jail d) = 201 /\ length (data_active d) = 201 /\
    forall i q j a, data_quiet d !! i = Some q -> data_jail d !! i = Some j ->
      data_active d !! i = Some a -> q + j + a = 1120.
Proof. exact (v55_main_runs unused_exp []). Defined.
