(* ===== verification/Scenarios.v ===== *)
(** * Concrete runs of the grid engine

    Small states of the model of extension1 on a 5x5 torus with vision 1,
    floats read as reals ([R_arith]) and the replayable generator [Tape]:
    the witnesses that the hypotheses of the engine's theorems hold, and
    the run that exhibits the desynchronisation of [grid] and positions. *)

From S2P Require Import Prelude Random Torus Rules Engine EngineInv EngineStep Extension2.
From Stdlib Require Import QArith.
Local Open Scope nat_scope.

Abbreviation RTurtle := (Turtle R_arith).
Abbreviation RModel := (Model R_arith).
Abbreviation RWorld := (World R_arith Tape).

(** An agent with hardship and risk aversion 1/2. *)
Definition agent_at (i : nat) (c : cell) (act : bool) (jt : nat) : RTurtle :=
  mkTurtle (Z.of_nat i) AGENT 1 (Some (nlit (1 # 2))) (Some (nlit (1 # 2))) (Some (nlit (1 # 2)))
    act jt c.

Definition cop_at (i : nat) (c : cell) : RTurtle :=
  mkTurtle (Z.of_nat i) COP 1 None None None false 0 c.

(** [Model(...)] of extension1 on a 5x5 grid with the given
    [max_jail_term], with the given entities already placed. *)
Definition model_with (max_jail : Z) (tu : list (nat * RTurtle)) : RModel :=
  mkModel 5 5 1 (nlit (23 # 10)) (nlit (82 # 100)) max_jail (nlit (1 # 2))
    (compute_neighborhoods 5 5 1)
    (list_to_map tu) (map fst tu)
    (list_to_map (map (fun '(i, t) => (position t, i)) tu))
    (mkData [] [] [] []) 0.

(** The parameters of the scripts: [max_jail_term = 30]. *)
Definition model_of := model_with 30.

(** An active agent at the centre, a cop next to it. *)
Definition scene_tu : list (nat * RTurtle) :=
  [(0, agent_at 0 (2, 2)%Z true 0); (1, cop_at 1 (2, 3)%Z)].

Definition scene (draws : list nat) : RWorld := mkWorld (model_of scene_tu) draws.

(** The placement of the constructor: every entity is on the grid at its
    own position. *)
Definition all_mapped (m : RModel) : Prop :=
  Forall (fun i => match turtles m !! i with
                   | Some t => grid m !! position t = Some i
                   | None => False
                   end) (entities m).

(** A model built from a list of placed entities is well formed when the
    identifiers are distinct and every entity is well formed. *)
Lemma model_with_wf mjt (tu : list (nat * RTurtle)) :
  NoDup (map fst tu) ->
  Forall (fun p => turtle_ok 5 5 (snd p)) tu ->
  wf (model_with mjt tu).
Proof.
  intros Hnd Hok. rewrite Forall_forall in Hok. constructor; cbn.
  - lia.
  - reflexivity.
  - exact Hnd.
  - intros i Hi. apply list_elem_of_fmap in Hi as ([i' t] & -> & Hin).
    exists t. apply elem_of_list_to_map_1; auto.
  - intros i t Ht. apply elem_of_list_to_map_2 in Ht. exact (Hok _ Ht).
  - intros c j Hc. apply elem_of_list_to_map_2, list_elem_of_fmap in Hc
      as ([i t] & Heq & Hin). simplify_eq.
    exists t. split; [apply elem_of_list_to_map_1; auto | reflexivity].
Qed.

Lemma scene_wf draws : wf (model (scene draws)).
Proof.
  apply model_with_wf.
  - apply (bool_decide_eq_true_1 _). vm_compute. reflexivity.
  - apply (bool_decide_eq_true_1 _). vm_compute. reflexivity.
Qed.

(** ** The grid loses track of entities

    The draws: the shuffle of [[0; 1]] puts the cop first; the cop stays on
    its cell (second of its four free cells), arrests the agent (the only
    candidate) and draws jail term 1; the agent then serves its term in the
    same tick.  The last draw is the agent's move in the next tick: it stays
    on its cell (third of five). *)
Definition desync_draws : Tape := [0; 1; 0; 1; 2].

(** The state an observer of [turtles] and [grid] sees: the position and
    jail term of each entity, and the grid as a list. *)
Definition placement (m : RModel) : list (option (cell * nat)) * list (cell * nat) :=
  (map (fun i => (fun t => (position t, jail_term t)) <$> turtles m !! i) [0; 1],
   map_to_list (grid m)).

Lemma scene_all_mapped draws : all_mapped (model (scene draws)).
Proof. repeat constructor. Qed.

(** A concrete run: from a well-formed state in which every entity is
    on the grid, one tick of extension1 ends with the cop and the released
    agent both free on cell (2,2), while the grid maps (2,2) to the cop
    only: the agent is unmapped, so the next occupant test of its cell
    ignores it. *)
Theorem step_extension1_unmaps_released_agent :
  wf (model (scene desync_draws)) /\ all_mapped (model (scene desync_draws)) /\
  exists w, step_extension1 (scene desync_draws) = Ok (tt, w) /\
    placement (model w) = ([Some ((2, 2)%Z, 0); Some ((2, 2)%Z, 0)], [((2, 2)%Z, 1)]).
Proof.
  split; [apply scene_wf|split; [apply scene_all_mapped|]].
  eexists. split; [vm_compute; reflexivity|vm_compute; reflexivity].
Qed.

(** Continuing that run, the released agent's move
    ([move_agent] clears [grid[position]] before choosing) deletes the
    cop's entry: both entities are free on (2,2) and the grid lists only
    the agent; the cop is on no cell of the grid. *)
Theorem move_agent_erases_cop :
  exists w, (let* _ := step_extension1 in move_agent 0) (scene desync_draws) = Ok (tt, w) /\
    placement (model w) = ([Some ((2, 2)%Z, 0); Some ((2, 2)%Z, 0)], [((2, 2)%Z, 0)]).
Proof. eexists. split; [vm_compute; reflexivity|vm_compute; reflexivity]. Qed.

(** ** The engine's theorems on concrete states *)


(** A second fixture: an agent serving a jail term of 3 next to a cop. *)
Definition jail_scene : RWorld :=
  mkWorld (model_of [(0, agent_at 0 (2, 2)%Z false 3); (1, cop_at 1 (2, 3)%Z)]) [0; 2].

Lemma jail_scene_wf : wf (model jail_scene).
Proof.
  apply model_with_wf.
  - apply (bool_decide_eq_true_1 _). vm_compute. reflexivity.
  - apply (bool_decide_eq_true_1 _). vm_compute. reflexivity.
Qed.

Lemma scene_max_jail_term draws : (0 <= max_jail_term (model (scene draws)))%Z.
Proof. apply Z.leb_le. vm_compute. reflexivity. Qed.

Lemma jail_scene_max_jail_term : (0 <= max_jail_term (model jail_scene))%Z.
Proof. apply Z.leb_le. vm_compute. reflexivity. Qed.

Lemma step_extension1_preserves_wf_witness :
  exists w', step_extension1 (scene desync_draws) = Ok (tt, w') /\ wf (model w').
Proof. apply step_extension1_preserves_wf; [apply scene_wf | apply scene_max_jail_term]. Defined.

Lemma step_extension1_conserves_agents_witness :
  let w := scene desync_draws in
  let w' := after (step_extension1 w) w in
  exists q j a,
    data_quiet (data (model w')) = data_quiet (data (model w)) ++ [q] /\
    data_jail (data (model w')) = data_jail (data (model w)) ++ [j] /\
    data_active (data (model w')) = data_active (data (model w)) ++ [a] /\
    q + j + a = count_agents (model w) /\ count_agents (model w') = count_agents (model w).
Proof.
  intros w w'. apply step_extension1_conserves_agents;
    [apply scene_wf | apply scene_max_jail_term | vm_compute; reflexivity].
Defined.

Lemma step_rep2_preserves_wf_witness :
  exists w', step_rep2 (scene desync_draws) = Ok (tt, w') /\ wf (model w').
Proof. apply step_rep2_preserves_wf, scene_wf. Defined.

Lemma step_rep2_conserves_agents_witness :
  let w := jail_scene in
  let w' := after (step_rep2 w) w in
  exists q j a,
    data_quiet (data (model w')) = data_quiet (data (model w)) ++ [q] /\
    data_jail (data (model w')) = data_jail (data (model w)) ++ [j] /\
    data_active (data (model w')) = data_active (data (model w)) ++ [a] /\
    q + j + a = count_agents (model w) /\ count_agents (model w') = count_agents (model w).
Proof.
  intros w w'. apply step_rep2_conserves_agents; [apply jail_scene_wf | vm_compute; reflexivity].
Defined.

Lemma step_extension1_jail_term_witness :
  let w' := after (step_extension1 jail_scene) jail_scene in
  exists tj', turtles (model w') !! 0 = Some tj' /\ jail_term tj' = 3 - 1 /\
    active tj' = false /\ position tj' = (2, 2)%Z.
Proof.
  intros w'.
  apply (step_extension1_jail_term jail_scene w' 0 (agent_at 0 (2, 2)%Z false 3));
    [apply jail_scene_wf | apply jail_scene_max_jail_term
    | apply (bool_decide_eq_true_1 _); vm_compute; reflexivity | reflexivity | apply Nat.ltb_lt; reflexivity
    | vm_compute; reflexivity].
Defined.

Lemma move_agent_moves_witness :
  exists c w', move_agent 0 (scene desync_draws) = Ok (tt, w') /\ wf (model w') /\
    In c (nbr (model (scene desync_draws)) (2, 2)%Z) /\
    free_for_move (turtles (model (scene desync_draws)))
      (delete (2, 2)%Z (grid (model (scene desync_draws))) !! c) = true /\
    turtles (model w') !! 0 = Some (set_position c (agent_at 0 (2, 2)%Z true 0)) /\
    grid (model w') !! c = Some 0 /\
    (c <> (2, 2)%Z -> grid (model w') !! (2, 2)%Z = None).
Proof.
  apply (move_agent_moves (scene desync_draws) 0 (agent_at 0 (2, 2)%Z true 0));
    [apply scene_wf | reflexivity | reflexivity].
Defined.

Lemma enforce_arrests_witness :
  exists w', enforce RandomJailTerm 1 (scene desync_draws) = Ok (tt, w') /\ wf (model w') /\
    ((active_occupants (turtles (model (scene desync_draws))) (grid (model (scene desync_draws)))
        (nbr (model (scene desync_draws)) (2, 3)%Z) = [] /\ w' = scene desync_draws) \/
     (exists j c tj jt,
        In c (nbr (model (scene desync_draws)) (2, 3)%Z) /\
        grid (model (scene desync_draws)) !! c = Some j /\
        turtles (model (scene desync_draws)) !! j = Some tj /\ active tj = true /\
        position tj = c /\ jt <= jail_max (model (scene desync_draws)) RandomJailTerm /\
        turtles (model w') !! j = Some (set_jail_term jt (set_active false tj)) /\
        turtles (model w') !! 1 = Some (set_position c (cop_at 1 (2, 3)%Z)) /\
        grid (model w') !! c = Some 1)).
Proof.
  apply (enforce_arrests (scene desync_draws) RandomJailTerm 1 (cop_at 1 (2, 3)%Z));
    [apply scene_wf | reflexivity | reflexivity | apply scene_max_jail_term].
Defined.

(** The scene with the series extension2's constructor seeds (one agent). *)
Definition ext2_scene : RWorld :=
  mkWorld (map_data (fun _ => ext2_seed_data 1) (model_of scene_tu)) desync_draws.

Lemma run_extension2_witness :
  let w := ext2_scene in
  exists w', run_ticks step_extension2 3 w = Ok (tt, w') /\ wf (model w') /\
    count_agents (model w') = count_agents (model w) /\
    count_cops (model w') = count_cops (model w) - 3 /\
    data_cop (data (model w')) =
      data_cop (data (model w)) ++ map (fun k => count_cops (model w) - k) (seq 0 3) /\
    length (data_quiet (data (model w'))) = length (data_quiet (data (model w))) + 3 /\
    length (data_jail (data (model w'))) = length (data_jail (data (model w))) + 3 /\
    length (data_active (data (model w'))) = length (data_active (data (model w))) + 3.
Proof. intros w. apply run_extension2. apply wf_map_data, (scene_wf desync_draws). Defined.

(** ** A negative [max_jail_term] fails mid-run

    The constructor accepts any [max_jail_term]; with [-1] the first
    arrest calls [random.randint(0, -1)], i.e. [randrange(0, 0)], which
    raises [ValueError]: the draws put the cop first, keep it on its cell
    and let it arrest the agent. *)
Definition negative_jail_scene : RWorld :=
  mkWorld (model_with (-1) scene_tu) [0; 1; 0].

(** On this well-formed state with [max_jail_term = -1], a whole tick
    of extension1 raises [ValueError] at its first arrest. *)
Theorem step_extension1_negative_max_jail_term :
  wf (model negative_jail_scene) /\ (max_jail_term (model negative_jail_scene) < 0)%Z /\
  step_extension1 negative_jail_scene = Exc ValueError.
Proof.
  split; [|split; [apply Z.ltb_lt; vm_compute; reflexivity | vm_compute; reflexivity]].
  apply model_with_wf.
  - apply (bool_decide_eq_true_1 _). vm_compute. reflexivity.
  - apply (bool_decide_eq_true_1 _). vm_compute. reflexivity.
Qed.

Lemma neighbor_hardships_include_own_witness :
  In (hardship (agent_at 0 (2, 2)%Z true 0))
    (neighbor_hardships (turtles (model (scene desync_draws))) (grid (model (scene desync_draws)))
       (nbr (model (scene desync_draws)) (2, 2)%Z)).
Proof.
  apply (neighbor_hardships_include_own (model (scene desync_draws)) 0);
    [apply scene_wf | reflexivity | reflexivity | reflexivity].
Defined.

(** The state the run above leaves behind, written out: the cop, listed
    first, is the one the grid shows on (2,2), and the released agent
    stands on the same cell. *)
Definition released_world : RWorld :=
  mkWorld (model_of [(1, cop_at 1 (2, 2)%Z); (0, agent_at 0 (2, 2)%Z false 0)]) [0].

Lemma released_world_wf : wf (model released_world).
Proof.
  apply model_with_wf.
  - apply (bool_decide_eq_true_1 _). vm_compute. reflexivity.
  - apply (bool_decide_eq_true_1 _). vm_compute. reflexivity.
Qed.

Lemma move_agent_erases_shown_witness :
  exists w', move_agent 0 released_world = Ok (tt, w') /\
    grid (model w') !! (2, 2)%Z <> Some 1 /\ turtles (model w') !! 1 = Some (cop_at 1 (2, 2)%Z).
Proof.
  destruct (move_agent_erases_shown released_world 0 (agent_at 0 (2, 2)%Z false 0) 1)
    as (w' & Hrun & Hgrid & Hcop);
    [apply released_world_wf | reflexivity | reflexivity | reflexivity | lia |].
  exists w'. split; [exact Hrun | split; [apply Hgrid | rewrite Hcop; reflexivity]].
Defined.

Lemma negative_jail_scene_wf : wf (model negative_jail_scene).
Proof.
  apply model_with_wf.
  - apply (bool_decide_eq_true_1 _). vm_compute. reflexivity.
  - apply (bool_decide_eq_true_1 _). vm_compute. reflexivity.
Qed.

Lemma enforce_negative_jail_term_witness :
  enforce RandomJailTerm 1 negative_jail_scene = Exc ValueError.
Proof.
  apply (enforce_negative_jail_term negative_jail_scene 1 (cop_at 1 (2, 3)%Z));
    [apply negative_jail_scene_wf | reflexivity | reflexivity | vm_compute; discriminate |].
  simpl. lia.
Defined.

