(* ===== verification/Refinement.v ===== *)
(** * The per-agent status machine and the refinement of a tick

    The spec describes each agent by its status (quiet, active, or jailed
    for [n] ticks) and a tick as the turns of the entities, one after the
    other in a shuffled order (spec, "Step protocol", 1-5).  [turn_step mj
    i ty] is the turn of entity [i] of kind [ty] on the map of statuses:
    - a jailed entity serves one tick and does nothing else: [Jailed n]
      becomes [Jailed (n - 1)], or [Quiet] when [n = 1] ([served]);
    - a free agent decides: it becomes quiet or active, nothing else
      changes;
    - a cop (always [Quiet]) either arrests nobody, or arrests one active
      entity, which becomes [Jailed n] with [0 < n <= mj], or [Quiet] for
      a drawn term of 0 ([randint(0, max_jail_term)] of extension1.py
      line 186).
    [tick_steps] strings the turns of a list of entities together.

    [status_of] reads the status off a [Turtle] record of [Engine], and
    [statuses] the whole heap.  The theorem of this file is that a tick of
    extension1 from a well-formed state returns, draws an order [es] that
    is a permutation of the entity list, and changes the statuses exactly
    as the turns of [es] in the machine do: no quiet agent is jailed, a
    jail term decreases by exactly one per tick and is never exceeded,
    and a jailed agent neither decides nor is arrested again. *)

From S2P Require Import Prelude Random Torus Rules Engine EngineInv EngineStep Scenarios.
Local Open Scope nat_scope.

(** ** The abstract machine *)

Inductive status := Quiet | Active | Jailed (n : nat).

#[export] Instance status_eq_dec : EqDecision status.
Proof. solve_decision. Defined.

(** The status after serving one tick of a term [n]. *)
Definition served (n : nat) : status :=
  match n with
  | S (S m) => Jailed (S m)
  | _ => Quiet
  end.

Definition is_free (s : status) : bool :=
  match s with Jailed _ => false | _ => true end.

(** The status an arrest leaves: a term of [1 .. mj], or 0, which leaves
    the agent quiet. *)
Inductive arrest_result (mj : nat) : status -> Prop :=
| ar_quiet : arrest_result mj Quiet
| ar_jail n : 0 < n <= mj -> arrest_result mj (Jailed n).

(** The turn of entity [i] of kind [ty]. *)
Inductive turn_step (mj i : nat) (ty : EntityType) : gmap nat status -> gmap nat status -> Prop :=
| ts_serve S n :
    ty = AGENT -> S !! i = Some (Jailed n) ->
    turn_step mj i ty S (<[i := served n]> S)
| ts_decide S s s' :
    ty = AGENT -> S !! i = Some s -> is_free s = true -> is_free s' = true ->
    turn_step mj i ty S (<[i := s']> S)
| ts_patrol S :
    ty = COP -> S !! i = Some Quiet -> turn_step mj i ty S S
| ts_arrest S j s' :
    ty = COP -> S !! i = Some Quiet -> S !! j = Some Active -> arrest_result mj s' ->
    turn_step mj i ty S (<[j := s']> S).

(** The turns of the entities of [es], in order, with their kinds [K]. *)
Inductive tick_steps (mj : nat) (K : gmap nat EntityType) :
    list nat -> gmap nat status -> gmap nat status -> Prop :=
| tk_nil S : tick_steps mj K [] S S
| tk_cons i ty es S S1 S2 :
    K !! i = Some ty -> turn_step mj i ty S S1 -> tick_steps mj K es S1 S2 ->
    tick_steps mj K (i :: es) S S2.

(** ** The status of an engine record *)

Section Refine.
Context {A : Arith} {G : Type} `{RandomSource G} `{!RandomSourceOk G}.

Abbreviation Turtle := (Turtle A).
Abbreviation Model := (Model A).
Abbreviation World := (World A G).

(** A positive [jail_term] is jail; otherwise the [active] flag. *)
Definition status_of (t : Turtle) : status :=
  if 0 <? jail_term t then Jailed (jail_term t) else if active t then Active else Quiet.

Definition statuses (m : Model) : gmap nat status := status_of <$> turtles m.

Lemma statuses_insert m i t : statuses (map_turtles (insert i t) m) = <[i := status_of t]> (statuses m).
Proof. unfold statuses. simpl. apply fmap_insert. Qed.

Lemma statuses_lookup m i t : turtles m !! i = Some t -> statuses m !! i = Some (status_of t).
Proof. intros Ht. unfold statuses. by rewrite lookup_fmap, Ht. Qed.

(** Rewriting a record with its own status changes no status. *)
Lemma statuses_insert_same m i t t' :
  turtles m !! i = Some t -> status_of t' = status_of t ->
  statuses (map_turtles (insert i t') m) = statuses m.
Proof.
  intros Ht Hs. rewrite statuses_insert, Hs. apply insert_id. by apply statuses_lookup.
Qed.

(** A pass that keeps every status and every kind keeps the map. *)
Lemma statuses_kept m m' : status_kept m m' -> types_of m' = types_of m -> statuses m' = statuses m.
Proof.
  intros Hk Hty. apply map_eq. intros j. unfold statuses. rewrite !lookup_fmap.
  destruct (turtles m !! j) as [tj|] eqn:Hj.
  - destruct (Hk j tj Hj) as (tj' & -> & Hjt & Ha & _). simpl. unfold status_of. by rewrite Hjt, Ha.
  - assert (Hn : types_of m' !! j = None) by (rewrite Hty; unfold types_of; by rewrite lookup_fmap, Hj).
    unfold types_of in Hn. rewrite lookup_fmap in Hn. by destruct (turtles m' !! j).
Qed.

Lemma status_free t : jail_term t = 0 -> is_free (status_of t) = true.
Proof. intros Hj. unfold status_of. rewrite Hj. simpl. by destruct (active t). Qed.

(** The turn of a jailed entity serves one tick. *)
Lemma status_serve t :
  0 < jail_term t -> active t = false ->
  status_of t = Jailed (jail_term t) /\
  status_of (set_jail_term (jail_term t - 1) t) = served (jail_term t).
Proof.
  intros Hj Ha. unfold status_of. simpl. destruct (jail_term t) as [|[|n]]; simpl; [lia| |].
  - by rewrite Ha.
  - replace (n - 0) with n by lia. split; reflexivity.
Qed.

(** The arrest of an active agent with a term of at most [mj]. *)
Lemma status_arrest mj tj jt :
  jt <= mj -> arrest_result mj (status_of (set_jail_term jt (set_active false tj))).
Proof.
  intros Hjt. unfold status_of. simpl. destruct jt; simpl; constructor. lia.
Qed.

(** The statuses after an arrest: only the arrested entity's changes. *)
Lemma statuses_arrest m i cop j tj c jt :
  turtles m !! i = Some cop -> j <> i ->
  statuses (arrest m i cop j tj c jt) =
    <[j := status_of (set_jail_term jt (set_active false tj))]> (statuses m).
Proof.
  intros Hi Hne. unfold arrest, statuses. simpl. rewrite !fmap_insert, insert_insert_eq.
  apply insert_id. rewrite lookup_insert_ne by congruence. by rewrite lookup_fmap, Hi.
Qed.

(** ** A turn is a step of the machine *)

Lemma act_turn_step v (w : World) i t mj :
  wf (model w) -> turtles (model w) !! i = Some t -> jail_ok (model w) (v_jail v) ->
  jail_max (model w) (v_jail v) <= mj ->
  exists w', act v i w = Ok (tt, w') /\ turn_step mj i (type t) (statuses (model w)) (statuses (model w')).
Proof.
  intros Hwf Ht Hjp Hmj. unfold act. rewrite (bind_get_turtle _ _ _ _ Ht).
  pose proof (wf_turtle _ _ _ Hwf Ht) as Hok.
  destruct (Nat.ltb_spec 0 (jail_term t)) as [Hj|Hj].
  - eexists. split; [apply update_turtle_run; exact Ht|]. cbn [model].
    destruct (status_serve t Hj (proj1 (proj2 (proj2 Hok)) Hj)) as [Hs Hs'].
    rewrite statuses_insert, Hs'. apply ts_serve; [|by rewrite (statuses_lookup _ _ _ Ht), Hs].
    destruct (type t) eqn:Hty; [reflexivity|]. destruct (proj1 (proj2 Hok) Hty). lia.
  - assert (Hj0 : jail_term t = 0) by lia.
    destruct (move_agent_run w i t Hwf Ht Hj0) as (c & g' & Hc & _ & Hmv).
    rewrite (st_bind_of_Ok _ _ _ _ _ Hmv).
    set (w1 := mkWorld _ g').
    assert (Hcb : in_bounds (width (model w)) (height (model w)) c)
      by (eapply neighborhood_in_bounds; try apply Hwf; exact Hc).
    assert (Hwf1 : wf (model w1)) by (apply wf_move; auto).
    assert (Ht1 : turtles (model w1) !! i = Some (set_position c t))
      by (simpl; apply lookup_insert_eq).
    assert (Hs1 : statuses (model w1) = statuses (model w)).
    { unfold w1; cbn [model]. rewrite (statuses_insert_same _ _ t); [reflexivity | exact Ht | reflexivity]. }
    destruct (type t) eqn:Hty.
    + destruct (proj2 (proj2 (proj2 Hok)) Hty) as ([r Hr] & [h Hh] & [ha Hha]).
      assert (Hhs : exists x, hardship_of (v_hardship v) (set_position c t) = Some x)
        by (destruct (v_hardship v); simpl; eauto).
      destruct Hhs as [x Hx].
      rewrite (determine_behavior_run _ _ _ _ x r Hwf1 Ht1 Hx Hr).
      eexists. split; [reflexivity|]. cbn [model]. rewrite statuses_insert, Hs1.
      apply (ts_decide _ _ _ _ (status_of t)); [reflexivity | by apply statuses_lookup | by apply status_free |].
      by apply status_free.
    + destruct (proj1 (proj2 Hok) Hty) as [Ha Hjt].
      assert (Hq : statuses (model w) !! i = Some Quiet)
        by (rewrite (statuses_lookup _ _ _ Ht); unfold status_of; by rewrite Hjt, Ha).
      destruct (enforce_run w1 (v_jail v) i (set_position c t) Hwf1 Ht1 Hty Hjp)
        as [[_ Hen] | (j & c' & tj & jt & w2 & _ & Htj & Hact & Hjt' & Hw2 & Hen)];
        rewrite Hen; eexists; (split; [reflexivity|]).
      * rewrite Hs1. by apply ts_patrol.
      * destruct (active_not_cop _ _ _ _ _ Hwf1 Ht1 Hty Htj Hact) as [Hne _].
        rewrite Hw2, (statuses_arrest _ _ _ _ _ _ _ Ht1 Hne), Hs1.
        apply ts_arrest; [reflexivity | exact Hq | |].
        -- rewrite <- Hs1, (statuses_lookup _ _ _ Htj). unfold status_of.
           by rewrite (proj2 (wf_active_agent _ _ _ Hwf1 Htj Hact)), Hact.
        -- apply status_arrest.
           change (jail_max (model w1) (v_jail v)) with (jail_max (model w) (v_jail v)) in Hjt'. lia.
Qed.

Lemma jail_max_frame m m' jp : frame m m' -> jail_max m' jp = jail_max m jp.
Proof. intros (_ & _ & _ & _ & _ & _ & _ & Hmax & _). destruct jp; simpl; [by rewrite Hmax | reflexivity]. Qed.

(** ** A tick is a sequence of turns of the machine *)

(** The loop of turns, each from the state the previous one left. *)
Lemma iter_act_steps v mj es : forall (w : World),
  wf (model w) -> jail_ok (model w) (v_jail v) -> jail_max (model w) (v_jail v) <= mj ->
  (forall i, In i es -> i ∈ entities (model w)) ->
  exists w', st_iter (act v) es w = Ok (tt, w') /\ turn_ok (model w) (model w') /\
    tick_steps mj (types_of (model w)) es (statuses (model w)) (statuses (model w')).
Proof.
  induction es as [|i es IH]; intros w Hwf Hjp Hmj Hes.
  - exists w. split; [reflexivity|]. split; [by apply wf_turn_ok | constructor].
  - destruct (wf_live _ Hwf i (Hes i (or_introl eq_refl))) as [t Ht].
    destruct (act_run v w i t Hwf Ht Hjp) as (w1 & Hrun & Hok1 & _).
    destruct (act_turn_step v w i t mj Hwf Ht Hjp Hmj) as (w1' & Hrun' & Hstep).
    rewrite Hrun in Hrun'. injection Hrun' as <-.
    destruct Hok1 as (Hwf1 & Hfr & Hty).
    destruct (IH w1 Hwf1) as (w2 & Hit & Hok2 & Hsteps).
    + by apply (jail_ok_frame _ _ _ Hfr).
    + by rewrite (jail_max_frame _ _ _ Hfr).
    + intros j Hj. destruct Hfr as (_ & _ & _ & _ & -> & _). auto with datatypes.
    + exists w2. simpl. rewrite (st_bind_of_Ok _ _ _ _ _ Hrun). split; [exact Hit|].
      split; [exact (turn_ok_trans _ _ _ (conj Hwf1 (conj Hfr Hty)) Hok2)|].
      rewrite Hty in Hsteps. apply (tk_cons _ _ i (type t) _ _ (statuses (model w1))); [|exact Hstep|exact Hsteps].
      unfold types_of. by rewrite lookup_fmap, Ht.
Qed.

Lemma shuffle_and_act_steps v (w : World) mj :
  wf (model w) -> jail_ok (model w) (v_jail v) -> jail_max (model w) (v_jail v) <= mj ->
  exists es w', shuffle_and_act v w = Ok (es, w') /\ es ≡ₚ entities (model w) /\
    tick_steps mj (types_of (model w)) es (statuses (model w)) (statuses (model w')).
Proof.
  intros Hwf Hjp Hmj. unfold shuffle_and_act. rewrite bind_get.
  destruct (shuffle_Ok (entities (model w)) (rng w)) as (es & g & Hsh).
  erewrite bind_rand; [|exact Hsh]. rewrite bind_on_model. simpl.
  set (w1 := mkWorld (set_entities es (model w)) g).
  pose proof (shuffle_Permutation _ _ _ _ Hsh) as Hperm.
  assert (Hwf1 : wf (model w1)) by (apply wf_set_entities; [exact Hwf | exact Hperm]).
  destruct (iter_act_steps v mj es w1 Hwf1 Hjp Hmj) as (w2 & Hit & _ & Hsteps).
  { intros i Hi. simpl. by apply list_elem_of_In. }
  rewrite (st_bind_of_Ok _ _ _ _ _ Hit). exists es, w2. split; [reflexivity|].
  split; [by symmetry|]. exact Hsteps.
Qed.

(** C12 A tick of extension1 refines the status machine of the spec:
    from a well-formed state with a non-negative [max_jail_term] it
    returns, its turns take the entities in an order [es] that is a
    permutation of the entity list, and the statuses change exactly as
    the machine's turns of [es] change them, with jail terms bounded by
    [max_jail_term].  So in one tick a jailed agent serves exactly one
    tick and does nothing else, only an active agent is arrested, a
    term never exceeds the bound, and nothing else changes a status. *)
Theorem step_extension1_refines (w : World) :
  wf (model w) -> (0 <= max_jail_term (model w))%Z ->
  exists w' es, step_extension1 w = Ok (tt, w') /\ es ≡ₚ entities (model w) /\
    tick_steps (Z.to_nat (max_jail_term (model w))) (types_of (model w)) es
      (statuses (model w)) (statuses (model w')).
Proof.
  intros Hwf Hmax. unfold step_extension1.
  destruct (compute_adjusted_hardship_run w Hwf) as (w1 & H1 & (Hwf1 & Hfr & Hty) & Hk1).
  rewrite (st_bind_of_Ok _ _ _ _ _ H1).
  destruct (shuffle_and_act_steps extension1_variant w1 (Z.to_nat (max_jail_term (model w)))
              Hwf1 (jail_ok_frame _ _ RandomJailTerm Hfr Hmax)) as (es & w2 & Hsa & Hperm & Hsteps).
  { change (v_jail extension1_variant) with RandomJailTerm.
    by rewrite (jail_max_frame _ _ RandomJailTerm Hfr). }
  unfold step_core. rewrite (st_bind_of_Ok _ _ _ _ _ Hsa), bind_get.
  destruct (count_states _ es) as [[[q j] a] c]. eexists _, es. split; [reflexivity|].
  destruct Hfr as (_ & _ & _ & _ & He & _).
  rewrite He in Hperm. split; [exact Hperm|].
  rewrite (statuses_kept _ _ Hk1 Hty), Hty in Hsteps. exact Hsteps.
Qed.
End Refine.

Lemma step_extension1_refines_witness :
  exists w' es, step_extension1 (scene desync_draws) = Ok (tt, w') /\
    es ≡ₚ entities (model (scene desync_draws)) /\
    tick_steps (Z.to_nat (max_jail_term (model (scene desync_draws))))
      (types_of (model (scene desync_draws))) es
      (statuses (model (scene desync_draws))) (statuses (model w')).
Proof. apply step_extension1_refines; [apply scene_wf | apply scene_max_jail_term]. Defined.
